(** * happy-cli: agent backends (droid, opencode) and their session drivers

    A shallow embedding of the TypeScript sources

      - [droid/droidClient.ts], [droid/types.ts], [droid/droidBackend.ts],
        [droid/runDroid.ts]
      - [opencode/types.ts], [opencode/opencodeBackend.ts],
        [opencode/opencodeClient.ts], [opencode/runOpencode.ts]

    JavaScript strings are modelled as [string] (code units restricted to
    eight bits), [undefined] and [null] as [None], thrown exceptions as an
    explicit result constructor, and every asynchronous function as the
    sequence of its synchronous pieces, driven by the events of the Node
    event loop (stdout data, process close, spawn error, timers, HTTP
    responses). *)

From Stdlib Require Import String Ascii List Bool Arith Lia ZArith.
From Stdlib Require Import DecimalString.
Import ListNotations.

Set Implicit Arguments.

Local Open Scope string_scope.
Local Open Scope list_scope.

(* ================================================================= *)
(** ** JavaScript values and strings *)

Module Js.

(** Values that travel through the backends without being inspected
    beyond [typeof v === 'string']. *)
#[warnings="-register-all"]
Inductive JsValue :=
| JsUndefined
| JsNull
| JsBool (b : bool)
| JsNum (z : Z)
| JsStr (s : string)
| JsArr (items : list JsValue)
| JsObj (fields : list (string * JsValue)).

(** A thrown value: an [Error] with its message, or anything else. *)
Inductive JsExn :=
| JsError (message : string)
| JsThrown (v : JsValue).

(** [error instanceof Error ? error.message : 'Unknown error'] *)
Definition error_detail (e : JsExn) : string :=
  match e with
  | JsError m => m
  | JsThrown _ => "Unknown error"
  end.

(** Truthiness of an optional string: the empty string and [undefined]
    are both falsy. *)
Definition truthy (o : option string) : bool :=
  match o with
  | Some s => negb (String.eqb s "")
  | None => false
  end.

(** [o || d] with a string default. *)
Definition or_else (o : option string) (d : string) : string :=
  match o with
  | Some s => if String.eqb s "" then d else s
  | None => d
  end.

(** [a || b] where both sides may be undefined. *)
Definition or_opt (a b : option string) : option string :=
  if truthy a then a else b.

(** White space in the sense of [String.prototype.trim], among the code
    units below 256: TAB, LF, VT, FF, CR, SPACE and NBSP. *)
Definition is_space (c : ascii) : bool :=
  existsb (Nat.eqb (nat_of_ascii c)) [9; 10; 11; 12; 13; 32; 160].

(** [s.trim()] *)
Fixpoint trim_start (s : string) : string :=
  match s with
  | EmptyString => EmptyString
  | String c r => if is_space c then trim_start r else s
  end.

Fixpoint trim_end (s : string) : string :=
  match s with
  | EmptyString => EmptyString
  | String c r =>
      match trim_end r with
      | EmptyString => if is_space c then EmptyString else String c EmptyString
      | r' => String c r'
      end
  end.

Definition trim (s : string) : string := trim_end (trim_start s).

(** Truthiness of a string: every string but the empty one. *)
Definition nonempty (s : string) : bool := negb (String.eqb s "").

(** Decimal rendering of an exit code inside a template string;
    [null] is the code of a child that was ended by a signal. *)
Definition show_code (code : option Z) : string :=
  match code with
  | Some z => NilZero.string_of_int (Z.to_int z)
  | None => "null"
  end.

(** [s.split(sep)] for a one-character separator.  The result is never
    empty: a string without separator splits into itself. *)
Fixpoint split (sep : ascii) (s : string) : list string :=
  match s with
  | EmptyString => [EmptyString]
  | String c r =>
      if Ascii.eqb c sep then EmptyString :: split sep r
      else match split sep r with
           | [] => [String c EmptyString]
           | x :: xs => String c x :: xs
           end
  end.

(** [parts.join(sep)] *)
Fixpoint join (sep : string) (parts : list string) : string :=
  match parts with
  | [] => EmptyString
  | [x] => x
  | x :: rest => x ++ sep ++ join sep rest
  end.

(** Number of occurrences of a character. *)
Fixpoint count (c : ascii) (s : string) : nat :=
  match s with
  | EmptyString => 0
  | String d r => (if Ascii.eqb d c then 1 else 0) + count c r
  end.

Definition LF : ascii := ascii_of_nat 10.
Definition slash : ascii := "/"%char.

(** [lines.pop()] returns the last element and shortens the array. *)
Definition pop (xs : list string) : option string * list string :=
  match xs with
  | [] => (None, [])
  | _ => (Some (last xs EmptyString), removelast xs)
  end.

End Js.

(* ================================================================= *)
(** ** Control flow: state, exceptions, [try]/[catch], [for ... of] *)

Module Exn.

Inductive Res (A : Type) :=
| Val (a : A)
| Throw (e : Js.JsExn).

Arguments Val {A} a.
Arguments Throw {A} e.

Definition M (S A : Type) : Type := S -> Res A * S.

Definition ret {S A} (a : A) : M S A := fun s => (Val a, s).

Definition throw {S A} (e : Js.JsExn) : M S A := fun s => (Throw e, s).

Definition bind {S A B} (m : M S A) (k : A -> M S B) : M S B :=
  fun s =>
    match m s with
    | (Val a, s') => k a s'
    | (Throw e, s') => (Throw e, s')
    end.

Definition get {S} : M S S := fun s => (Val s, s).

Definition modify {S} (f : S -> S) : M S unit := fun s => (Val tt, f s).

(** [try { m } catch (e) { h e }] *)
Definition try_catch {S A} (m : M S A) (h : Js.JsExn -> M S A) : M S A :=
  fun s =>
    match m s with
    | (Val a, s') => (Val a, s')
    | (Throw e, s') => h e s'
    end.

(** [try { m } finally { f }] *)
Definition try_finally {S A} (m : M S A) (f : M S unit) : M S A :=
  fun s =>
    match m s with
    | (r, s') =>
        match f s' with
        | (Val _, s'') => (r, s'')
        | (Throw e, s'') => (Throw e, s'')
        end
    end.

(** [for (const x of xs) { body x }]: a throwing body ends the loop. *)
Fixpoint for_of {S X} (xs : list X) (body : X -> M S unit) : M S unit :=
  match xs with
  | [] => ret tt
  | x :: rest => bind (body x) (fun _ => for_of rest body)
  end.

(** Run a computation on a component of the state. *)
Definition zoom {S T A} (proj : S -> T) (upd : T -> S -> S) (m : M T A)
  : M S A :=
  fun s => match m (proj s) with (r, t) => (r, upd t s) end.

Definition exec {S A} (m : M S A) (s : S) : S := snd (m s).

Definition outcome {S A} (m : M S A) (s : S) : Res A := fst (m s).

End Exn.

Declare Scope js_scope.
Delimit Scope js_scope with js.
Notation "x <- m ;; k" := (Exn.bind m (fun x => k))
  (at level 61, m at next level, right associativity) : js_scope.
Notation "m ;; k" := (Exn.bind m (fun _ => k))
  (at level 61, right associativity) : js_scope.

(* ================================================================= *)
(** ** agent/AgentBackend: the canonical message vocabulary

    The interface file is not part of the sources at hand; the message
    shapes below are the object literals that the two backends pass to
    [emit] and that the two drivers match on. *)

Module Agent.

Inductive PermissionMode := PmDefault | PmReadOnly | PmSafeYolo | PmYolo.

Inductive AgentStatus := StStarting | StRunning | StIdle | StStopped | StError.

Inductive AgentMessage :=
| ModelOutput (textDelta fullText : option string)
| Status (status : AgentStatus) (detail : option string)
| ToolCall (toolName : string) (args : Js.JsValue) (callId : string)
| ToolResult (toolName : string) (result : Js.JsValue) (callId : string)
| FsEdit (description : string) (path diff : option string)
| TerminalOutput (data : string)
| PermissionRequest (id reason : string) (payload : Js.JsValue)
| TokenCount (numTurns durationMs : Z)
| Event (name : string) (payload : Js.JsValue).

(** A status that closes a turn. *)
Definition terminal_status (s : AgentStatus) : bool :=
  match s with
  | StIdle | StStopped | StError => true
  | StStarting | StRunning => false
  end.

Definition is_terminal (m : AgentMessage) : bool :=
  match m with
  | Status s _ => terminal_status s
  | _ => false
  end.

(** The terminal statuses of a message trace, in order. *)
Fixpoint terminals (ms : list AgentMessage) : list AgentStatus :=
  match ms with
  | [] => []
  | Status s _ :: rest =>
      if terminal_status s then s :: terminals rest else terminals rest
  | _ :: rest => terminals rest
  end.

(** One line written through [logger.debug]. *)
Inductive LogLine :=
| LogText (text : string)
| LogExn (text : string) (e : Js.JsExn).

Section Handlers.

(** The state that the registered handlers own.  A handler runs on that
    state only: it does not call back into the backend that invokes it. *)
Variable U : Type.

(** A registered callback; [hid] stands for the identity of the function
    object, which [offMessage] compares with [indexOf]. *)
Record AgentMessageHandler := mkHandler {
  hid : nat;
  run : AgentMessage -> Exn.M U unit
}.

(** What a backend acts on besides its own fields.  [emitted] and [calls]
    are observation only: the messages passed to [emit], and the handler
    invocations made, in order. *)
Record World := mkWorld {
  user : U;
  debug : list LogLine;
  emitted : list AgentMessage;
  calls : list (nat * AgentMessage)
}.

Definition set_user (u : U) (w : World) : World :=
  mkWorld u (debug w) (emitted w) (calls w).

Definition logger_debug (l : LogLine) : Exn.M World unit :=
  Exn.modify (fun w => mkWorld (user w) (debug w ++ [l]) (emitted w) (calls w)).

Definition note_emit (msg : AgentMessage) : Exn.M World unit :=
  Exn.modify (fun w => mkWorld (user w) (debug w) (emitted w ++ [msg]) (calls w)).

Definition note_call (h : AgentMessageHandler) (msg : AgentMessage)
  : Exn.M World unit :=
  Exn.modify (fun w =>
    mkWorld (user w) (debug w) (emitted w) (calls w ++ [(hid h, msg)])).

(** [handler(message)] *)
Definition invoke (h : AgentMessageHandler) (msg : AgentMessage)
  : Exn.M World unit :=
  (note_call h msg ;; Exn.zoom user set_user (run h msg))%js.

(** [DroidBackend.emit] and [OpencodeBackend.emit]; [tag] is the log
    prefix, the only difference between the two. *)
Definition emit (tag : string) (messageHandlers : list AgentMessageHandler)
  (message : AgentMessage) : Exn.M World unit :=
  (note_emit message ;;
   Exn.for_of messageHandlers (fun handler =>
     Exn.try_catch (invoke handler message)
       (fun e => logger_debug (LogExn (tag ++ " Handler error:") e))))%js.

(** [onMessage]: [messageHandlers.push(handler)] *)
Definition onMessage (handler : AgentMessageHandler)
  (hs : list AgentMessageHandler) : list AgentMessageHandler :=
  hs ++ [handler].

(** [offMessage]: remove the first occurrence, if any. *)
Fixpoint offMessage (handler : AgentMessageHandler)
  (hs : list AgentMessageHandler) : list AgentMessageHandler :=
  match hs with
  | [] => []
  | h :: rest =>
      if Nat.eqb (hid h) (hid handler) then rest
      else h :: offMessage handler rest
  end.

End Handlers.

Arguments mkHandler {U} hid run.
Arguments mkWorld {U} user debug emitted calls.

End Agent.

(* ================================================================= *)
(** ** droid/types.ts *)

Module DroidTypes.

Inductive DroidOutputFormat := FmtText | FmtJson | FmtStreamJson | FmtStreamJsonrpc.

Definition format_name (f : DroidOutputFormat) : string :=
  match f with
  | FmtText => "text"
  | FmtJson => "json"
  | FmtStreamJson => "stream-json"
  | FmtStreamJsonrpc => "stream-jsonrpc"
  end.

Inductive DroidAutoLevel := Low | Medium | High.

Definition auto_name (a : DroidAutoLevel) : string :=
  match a with
  | Low => "low"
  | Medium => "medium"
  | High => "high"
  end.

(** [DroidExecOptions]; every field is optional.  [inputFormat] has the
    single value ['stream-jsonrpc'], and an absent [useSpec] is falsy
    like [false]. *)
Record DroidExecOptions := mkOptions {
  outputFormat : option DroidOutputFormat;
  inputFormat : bool;
  auto : option DroidAutoLevel;
  sessionId : option string;
  model : option string;
  cwd : option string;
  useSpec : bool;
  specModel : option string;
  enabledTools : option (list string);
  file : option string
}.

(** [{}] *)
Definition no_options : DroidExecOptions :=
  mkOptions None false None None None None false None None None.

(** [{ ...options, outputFormat: f }] *)
Definition with_outputFormat (f : DroidOutputFormat) (o : DroidExecOptions)
  : DroidExecOptions :=
  mkOptions (Some f) (inputFormat o) (auto o) (sessionId o) (model o)
    (cwd o) (useSpec o) (specModel o) (enabledTools o) (file o).

Inductive Role := RoleUser | RoleAssistant.

(** [DroidStreamEvent], the records of the stream-json output.  [EvOther]
    is a JSON value whose [type] is none of the five tags: the cast in
    [execStream] lets it through and every [switch] ignores it. *)
Inductive DroidStreamEvent :=
| EvSystem (session_id : string) (tools : list string) (model cwd : string)
| EvMessage (role : Role) (text : string)
| EvToolCall (id toolName : string) (parameters : Js.JsValue)
| EvToolResult (id toolId : string) (value : Js.JsValue)
| EvCompletion (finalText : string) (numTurns durationMs : Z)
| EvOther.

Definition permissionModeToAutoLevel (mode : Agent.PermissionMode)
  : option DroidAutoLevel :=
  match mode with
  | Agent.PmDefault | Agent.PmReadOnly => None
  | Agent.PmSafeYolo => Some Low
  | Agent.PmYolo => Some High
  end.

End DroidTypes.

(* ================================================================= *)
(** ** droid/droidClient.ts: the client record and [buildArgs] *)

Module DroidClient.

Import DroidTypes.

(** What [spawn] is called with.  [env] lists the entries laid over
    [process.env]. *)
Record SpawnRequest := mkSpawn {
  command : string;
  argv : list string;
  env : list (string * string);
  spawn_cwd : string
}.

(** The variables that one [execStream] call closes over, and whether
    its promise is settled. *)
Record Proc := mkProc {
  buffer : string;
  finalText : string;
  stderr : string;
  settled : bool
}.

(** [DroidClient].  [currentProcess] names a child by its index in
    [procs]; [spawned] and [signals] record the calls to [spawn] and to
    [kill('SIGTERM')]. *)
Record DroidClient := mkClient {
  apiKey : string;
  defaultModel : string;
  defaultCwd : string;
  currentProcess : option nat;
  procs : list Proc;
  spawned : list SpawnRequest;
  signals : list nat
}.

Definition set_currentProcess (p : option nat) (c : DroidClient) :=
  mkClient (apiKey c) (defaultModel c) (defaultCwd c) p (procs c)
    (spawned c) (signals c).

Definition set_procs (ps : list Proc) (c : DroidClient) :=
  mkClient (apiKey c) (defaultModel c) (defaultCwd c) (currentProcess c) ps
    (spawned c) (signals c).

Definition set_defaultModel (m : string) (c : DroidClient) :=
  mkClient (apiKey c) m (defaultCwd c) (currentProcess c) (procs c)
    (spawned c) (signals c).

Definition add_spawn (r : SpawnRequest) (c : DroidClient) :=
  mkClient (apiKey c) (defaultModel c) (defaultCwd c) (currentProcess c)
    (procs c ++ [mkProc "" "" "" false]) (spawned c ++ [r]) (signals c).

Definition add_signal (pid : nat) (c : DroidClient) :=
  mkClient (apiKey c) (defaultModel c) (defaultCwd c) (currentProcess c)
    (procs c) (spawned c) (signals c ++ [pid]).

Fixpoint set_nth {A} (n : nat) (x : A) (xs : list A) : list A :=
  match xs, n with
  | [], _ => []
  | _ :: r, O => x :: r
  | y :: r, S k => y :: set_nth k x r
  end.

Section Constants.

(** [FACTORY_API_KEY_ENV] and [DEFAULT_DROID_MODEL] come from
    droid/constants.ts, [process_cwd] is [process.cwd()]. *)
Variables FACTORY_API_KEY_ENV DEFAULT_DROID_MODEL process_cwd : string.

(** [new DroidClient(options)] *)
Definition create (apiKey : string) (defaultModel cwd : option string)
  : DroidClient :=
  mkClient apiKey (Js.or_else defaultModel DEFAULT_DROID_MODEL)
    (Js.or_else cwd process_cwd) None [] [] [].

Definition buildArgs (this : DroidClient) (prompt : string)
  (options : DroidExecOptions) : list string :=
  let args := ["exec"] in
  (* Output format *)
  let args := args ++ ["-o"; format_name (match outputFormat options with
                                          | Some f => f
                                          | None => FmtJson
                                          end)] in
  (* Input format *)
  let args := if inputFormat options
              then args ++ ["--input-format"; "stream-jsonrpc"] else args in
  (* Autonomy level *)
  let args := match auto options with
              | Some a => args ++ ["--auto"; auto_name a]
              | None => args
              end in
  (* Session continuation *)
  let args := if Js.truthy (sessionId options)
              then args ++ ["-s"; Js.or_else (sessionId options) ""]
              else args in
  (* Model selection *)
  let model := Js.or_else (model options) (defaultModel this) in
  let args := args ++ ["-m"; model] in
  (* Spec mode *)
  let args := if useSpec options
              then let args := args ++ ["--use-spec"] in
                   if Js.truthy (specModel options)
                   then args ++ ["--spec-model"; Js.or_else (specModel options) ""]
                   else args
              else args in
  (* Enabled tools *)
  let args := match enabledTools options with
              | Some (t :: ts) => args ++ ["--enabled-tools"; Js.join "," (t :: ts)]
              | _ => args
              end in
  (* Read prompt from file, else the prompt comes last *)
  if Js.truthy (file options)
  then args ++ ["-f"; Js.or_else (file options) ""]
  else args ++ [prompt].

(** The [spawn] call of [execStream]. *)
Definition execStream_spawn (this : DroidClient) (prompt : string)
  (options : DroidExecOptions) : SpawnRequest :=
  let args := buildArgs this prompt (with_outputFormat FmtStreamJson options) in
  mkSpawn "droid" args [(FACTORY_API_KEY_ENV, apiKey this)]
    (Js.or_else (cwd options) (defaultCwd this)).

(** The [spawn] call of [exec]. *)
Definition exec_spawn (this : DroidClient) (prompt : string)
  (options : DroidExecOptions) : SpawnRequest :=
  let args := buildArgs this prompt (with_outputFormat FmtJson options) in
  mkSpawn "droid" args [(FACTORY_API_KEY_ENV, apiKey this)]
    (Js.or_else (cwd options) (defaultCwd this)).

End Constants.

End DroidClient.

(* ================================================================= *)
(** ** droid/droidBackend.ts, with the stream reader of droidClient.ts

    [DroidBackend] owns its [DroidClient]; the callbacks that
    [execStream] registers on the child process run on the state of the
    backend, so the reader is defined here, next to the [onEvent]
    callback it is given. *)

Module DroidBackend.

Import DroidTypes Agent Exn.

Section Backend.

Variable U : Type.
Variables FACTORY_API_KEY_ENV DEFAULT_DROID_MODEL process_cwd : string.

(** [JSON.parse(line) as DroidStreamEvent]; [None] when it throws, and
    for the JSON text [null], on which the callback throws at
    [event.type] inside the same [try].  The chunks that the reader is
    given are the texts that [data.toString()] returned. *)
Variable JSON_parse : string -> option DroidStreamEvent.
Variable JSON_stringify : Js.JsValue -> string.

Record DroidBackend := mkBackend {
  client : DroidClient.DroidClient;
  messageHandlers : list (AgentMessageHandler U);
  currentSessionId : option string;
  droidSessionId : option string;
  auto : option DroidAutoLevel;
  permissionMode : PermissionMode;
  isRunning : bool;
  world : World U
}.

Definition set_client (c : DroidClient.DroidClient) (b : DroidBackend) :=
  mkBackend c (messageHandlers b) (currentSessionId b) (droidSessionId b)
    (auto b) (permissionMode b) (isRunning b) (world b).

Definition set_droidSessionId (s : option string) (b : DroidBackend) :=
  mkBackend (client b) (messageHandlers b) (currentSessionId b) s
    (auto b) (permissionMode b) (isRunning b) (world b).

Definition set_auto (a : option DroidAutoLevel) (b : DroidBackend) :=
  mkBackend (client b) (messageHandlers b) (currentSessionId b)
    (droidSessionId b) a (permissionMode b) (isRunning b) (world b).

Definition set_permissionMode (m : PermissionMode) (b : DroidBackend) :=
  mkBackend (client b) (messageHandlers b) (currentSessionId b)
    (droidSessionId b) (auto b) m (isRunning b) (world b).

Definition set_isRunning (r : bool) (b : DroidBackend) :=
  mkBackend (client b) (messageHandlers b) (currentSessionId b)
    (droidSessionId b) (auto b) (permissionMode b) r (world b).

Definition set_world (w : World U) (b : DroidBackend) :=
  mkBackend (client b) (messageHandlers b) (currentSessionId b)
    (droidSessionId b) (auto b) (permissionMode b) (isRunning b) w.

(** [new DroidBackend(options)] *)
Definition create (apiKey : string) (defaultModel cwd : option string)
  (optAuto : option DroidAutoLevel) (optMode : option PermissionMode)
  (w : World U) : DroidBackend :=
  let mode := match optMode with Some m => m | None => PmDefault end in
  mkBackend
    (DroidClient.create DEFAULT_DROID_MODEL process_cwd apiKey defaultModel cwd)
    [] None None
    (match optAuto with
     | Some a => Some a
     | None => permissionModeToAutoLevel mode
     end)
    mode false w.

Definition with_client (f : DroidClient.DroidClient -> DroidClient.DroidClient)
  : M DroidBackend unit :=
  modify (fun b => set_client (f (client b)) b).

Definition log (l : LogLine) : M DroidBackend unit :=
  zoom world set_world (logger_debug l).

(** [this.emit(message)] *)
Definition emit (message : AgentMessage) : M DroidBackend unit :=
  fun b =>
    zoom world set_world (Agent.emit "[droid]" (messageHandlers b) message) b.

Definition is_file_tool (toolId : string) : bool :=
  String.eqb toolId "Write" || String.eqb toolId "Edit"
  || String.eqb toolId "ApplyPatch" || String.eqb toolId "MultiEdit".

Definition handleStreamEvent (event : DroidStreamEvent) : M DroidBackend unit :=
  match event with
  | EvSystem session_id tools model cwd =>
      (modify (set_droidSessionId (Some session_id)) ;;
       emit (Event "system-init"
               (Js.JsObj [("sessionId", Js.JsStr session_id);
                          ("tools", Js.JsArr (map Js.JsStr tools));
                          ("model", Js.JsStr model);
                          ("cwd", Js.JsStr cwd)])) ;;
       log (LogText ("[droid] Session initialized: " ++ session_id)))%js
  | EvMessage role text =>
      match role with
      | RoleAssistant => emit (ModelOutput (Some text) (Some text))
      | RoleUser => ret tt
      end
  | EvToolCall id toolName parameters =>
      emit (ToolCall toolName parameters id)
  | EvToolResult id toolId value =>
      (emit (ToolResult toolId value id) ;;
       (if is_file_tool toolId
        then emit (FsEdit ("File modified by " ++ toolId) None
                     (match value with Js.JsStr s => Some s | _ => None end))
        else ret tt) ;;
       (if String.eqb toolId "Execute"
        then emit (TerminalOutput
                     (match value with
                      | Js.JsStr s => s
                      | v => JSON_stringify v
                      end))
        else ret tt))%js
  | EvCompletion finalText numTurns durationMs =>
      ((if Js.nonempty finalText
        then emit (ModelOutput None (Some finalText))
        else ret tt) ;;
       emit (TokenCount numTurns durationMs) ;;
       log (LogText "[droid] Completion"))%js
  | EvOther => ret tt
  end.

(** *** [DroidClient.execStream] *)

Definition get_proc (pid : nat) (b : DroidBackend) : option DroidClient.Proc :=
  nth_error (DroidClient.procs (client b)) pid.

Definition put_proc (pid : nat) (p : DroidClient.Proc) : M DroidBackend unit :=
  with_client (fun c =>
    DroidClient.set_procs (DroidClient.set_nth pid p (DroidClient.procs c)) c).

(** The call itself: build the arguments, spawn, remember the child. *)
Definition execStream (prompt : string) (options : DroidExecOptions)
  : M DroidBackend nat :=
  (b <- get ;;
   let req := DroidClient.execStream_spawn FACTORY_API_KEY_ENV (client b)
                prompt options in
   log (LogText ("[droid] Streaming: droid " ++ Js.join " " (DroidClient.argv req))) ;;
   let pid := length (DroidClient.procs (client b)) in
   with_client (DroidClient.add_spawn req) ;;
   with_client (DroidClient.set_currentProcess (Some pid)) ;;
   ret pid)%js.

(** The body of the [try] around one line; the result is the new value
    of [finalText]. *)
Definition parse_and_deliver (onEvent : DroidStreamEvent -> M DroidBackend unit)
  (text finalText : string) : M DroidBackend string :=
  match JSON_parse text with
  | None => throw (Js.JsError "SyntaxError")
  | Some event =>
      (onEvent event ;;
       ret (match event with
            | EvCompletion t _ _ => t
            | _ => finalText
            end))%js
  end.

(** The [for (const line of lines)] loop of the stdout callback. *)
Fixpoint each_line (onEvent : DroidStreamEvent -> M DroidBackend unit)
  (lines : list string) (finalText : string) : M DroidBackend string :=
  match lines with
  | [] => ret finalText
  | line :: rest =>
      if Js.nonempty (Js.trim line)
      then (ft <- try_catch (parse_and_deliver onEvent line finalText)
                    (fun e =>
                       log (LogText ("[droid] Failed to parse event: "
                                     ++ substring 0 100 line)) ;;
                       ret finalText) ;;
            each_line onEvent rest ft)%js
      else each_line onEvent rest finalText
  end.

(** [droid.stdout.on('data', ...)] *)
Definition execStream_data (pid : nat) (data : string)
  (onEvent : DroidStreamEvent -> M DroidBackend unit) : M DroidBackend unit :=
  (b <- get ;;
   match get_proc pid b with
   | None => ret tt
   | Some p =>
       let buffer := (DroidClient.buffer p ++ data)%string in
       let (popped, lines) := Js.pop (Js.split Js.LF buffer) in
       let buffer := Js.or_else popped "" in
       ft <- each_line onEvent lines (DroidClient.finalText p) ;;
       put_proc pid (DroidClient.mkProc buffer ft (DroidClient.stderr p)
                       (DroidClient.settled p))
   end)%js.

(** [droid.stderr.on('data', ...)] *)
Definition execStream_stderr (pid : nat) (data : string) : M DroidBackend unit :=
  (b <- get ;;
   match get_proc pid b with
   | None => ret tt
   | Some p =>
       put_proc pid (DroidClient.mkProc (DroidClient.buffer p)
                       (DroidClient.finalText p) (DroidClient.stderr p ++ data)
                       (DroidClient.settled p)) ;;
       log (LogText ("[droid] stderr: " ++ Js.trim data))
   end)%js.

(** Settling a promise a second time has no effect: the result is
    [Some] only for the call that settles it. *)
Definition settle (pid : nat) (p : DroidClient.Proc) (outcome : Res string)
  : M DroidBackend (option (Res string)) :=
  (put_proc pid (DroidClient.mkProc (DroidClient.buffer p)
                   (DroidClient.finalText p) (DroidClient.stderr p) true) ;;
   ret (if DroidClient.settled p then None else Some outcome))%js.

(** [droid.on('close', ...)] *)
Definition execStream_close (pid : nat) (code : option Z)
  (onEvent : DroidStreamEvent -> M DroidBackend unit)
  : M DroidBackend (option (Res string)) :=
  (b <- get ;;
   match get_proc pid b with
   | None => ret None
   | Some p =>
       with_client (DroidClient.set_currentProcess None) ;;
       ft <- (if Js.nonempty (Js.trim (DroidClient.buffer p))
              then try_catch
                     (parse_and_deliver onEvent (DroidClient.buffer p)
                        (DroidClient.finalText p))
                     (fun e => ret (DroidClient.finalText p))
              else ret (DroidClient.finalText p)) ;;
       let p := DroidClient.mkProc (DroidClient.buffer p) ft
                  (DroidClient.stderr p) (DroidClient.settled p) in
       match code with
       | Some 0%Z => settle pid p (Val ft)
       | _ =>
           settle pid p
             (Throw (Js.JsError ("Droid stream exited with code "
                                 ++ Js.show_code code ++ ": "
                                 ++ Js.or_else (Some (DroidClient.stderr p))
                                      "Unknown error")))
       end
   end)%js.

(** [droid.on('error', ...)] *)
Definition execStream_error (pid : nat) (message : string)
  : M DroidBackend (option (Res string)) :=
  (b <- get ;;
   match get_proc pid b with
   | None => ret None
   | Some p =>
       with_client (DroidClient.set_currentProcess None) ;;
       settle pid p (Throw (Js.JsError ("Failed to spawn droid: " ++ message)))
   end)%js.

(** [DroidClient.cancel] *)
Definition client_cancel : M DroidBackend bool :=
  (b <- get ;;
   match DroidClient.currentProcess (client b) with
   | Some pid =>
       log (LogText "[droid] Cancelling current process") ;;
       with_client (DroidClient.add_signal pid) ;;
       with_client (DroidClient.set_currentProcess None) ;;
       ret true
   | None => ret false
   end)%js.

(** *** The methods of [DroidBackend] *)

(** [sendPrompt] up to its [await]: the result names the child whose
    [execStream] promise is awaited. *)
Definition sendPrompt (prompt : string) : M DroidBackend nat :=
  (emit (Status StRunning None) ;;
   modify (set_isRunning true) ;;
   b <- get ;;
   let options :=
     mkOptions None false (auto b)
       (if Js.truthy (droidSessionId b) then droidSessionId b else None)
       None None false None None None in
   execStream prompt options)%js.

(** [sendPrompt] from its [await] on: the rest of the [try] block when
    the promise is fulfilled, the [catch] block when it is rejected. *)
Definition sendPrompt_resume (outcome : Res string) : M DroidBackend unit :=
  try_catch
    (match outcome with
     | Val _ => (modify (set_isRunning false) ;; emit (Status StIdle None))%js
     | Throw error => throw error
     end)
    (fun error =>
       (modify (set_isRunning false) ;;
        emit (Status StError (Some (Js.error_detail error))) ;;
        throw error)%js).

Definition cancel : M DroidBackend unit :=
  (cancelled <- client_cancel ;;
   if (cancelled : bool)
   then (modify (set_isRunning false) ;; emit (Status StStopped None))%js
   else ret tt)%js.

Definition onMessage (handler : AgentMessageHandler U) : M DroidBackend unit :=
  modify (fun b =>
    mkBackend (client b) (Agent.onMessage handler (messageHandlers b))
      (currentSessionId b) (droidSessionId b) (auto b) (permissionMode b)
      (isRunning b) (world b)).

Definition offMessage (handler : AgentMessageHandler U) : M DroidBackend unit :=
  modify (fun b =>
    mkBackend (client b) (Agent.offMessage handler (messageHandlers b))
      (currentSessionId b) (droidSessionId b) (auto b) (permissionMode b)
      (isRunning b) (world b)).

Definition respondToPermission (requestId : string) (approved : bool)
  : M DroidBackend unit :=
  log (LogText ("[droid] Permission response (handled via --auto level): "
                ++ requestId)).

Definition setPermissionMode (mode : PermissionMode) : M DroidBackend unit :=
  (modify (set_permissionMode mode) ;;
   modify (set_auto (permissionModeToAutoLevel mode)) ;;
   log (LogText "[droid] Permission mode set"))%js.

Definition setAutoLevel (level : option DroidAutoLevel) : M DroidBackend unit :=
  modify (set_auto level).

Definition setModel (model : string) : M DroidBackend unit :=
  with_client (DroidClient.set_defaultModel model).

Definition dispose : M DroidBackend unit :=
  (_ <- client_cancel ;;
   modify (fun b =>
     mkBackend (client b) [] None None (auto b) (permissionMode b) false
       (world b)))%js.

(** *** The event loop

    What can happen to a backend: a call from the driver, or an event
    of a child process.  The continuation of [sendPrompt] runs as soon
    as the promise it awaits settles. *)
Inductive Event :=
| CallSendPrompt (prompt : string)
| CallCancel
| Stdout (pid : nat) (data : string)
| Stderr (pid : nat) (data : string)
| Close (pid : nat) (code : option Z)
| SpawnError (pid : nat) (message : string).

Definition resume_if_settled (s : option (Res string)) : M DroidBackend unit :=
  match s with
  | Some outcome => sendPrompt_resume outcome
  | None => ret tt
  end.

Definition step (ev : Event) : M DroidBackend unit :=
  match ev with
  | CallSendPrompt prompt => (_ <- sendPrompt prompt ;; ret tt)%js
  | CallCancel => cancel
  | Stdout pid data => execStream_data pid data handleStreamEvent
  | Stderr pid data => execStream_stderr pid data
  | Close pid code =>
      (s <- execStream_close pid code handleStreamEvent ;; resume_if_settled s)%js
  | SpawnError pid message =>
      (s <- execStream_error pid message ;; resume_if_settled s)%js
  end.

(** A rejected [sendPrompt] promise is the caller's to handle; the
    backend goes on with the state the step left. *)
Definition run (evs : list Event) (b : DroidBackend) : DroidBackend :=
  fold_left (fun b ev => exec (step ev) b) evs b.

(** The messages emitted from state [b] on, after the events [evs]. *)
Definition trace (evs : list Event) (b : DroidBackend) : list AgentMessage :=
  skipn (length (emitted (world b))) (emitted (world (run evs b))).

(** A child still awaited: its promise is not settled. *)
Definition awaited (pid : nat) (b : DroidBackend) : Prop :=
  exists p, get_proc pid b = Some p /\ DroidClient.settled p = false.

End Backend.

Arguments mkBackend {U} client messageHandlers currentSessionId
  droidSessionId auto permissionMode isRunning world.

(** The life of one child, as the backend sees it: reads of its two
    output streams, then one ending. *)
Inductive Read :=
| ReadOut (data : string)
| ReadErr (data : string).

Inductive Ending :=
| Exited (code : option Z)
| SpawnFailed (message : string).

Definition read_event (pid : nat) (r : Read) : Event :=
  match r with
  | ReadOut data => Stdout pid data
  | ReadErr data => Stderr pid data
  end.

Definition end_event (pid : nat) (e : Ending) : Event :=
  match e with
  | Exited code => Close pid code
  | SpawnFailed message => SpawnError pid message
  end.

(** The status that closes a prompt, by the way its child ended. *)
Definition ending_status (e : Ending) : AgentStatus :=
  match e with
  | Exited (Some 0%Z) => StIdle
  | _ => StError
  end.

End DroidBackend.

(* ================================================================= *)
(** ** opencode/types.ts and opencode/constants.ts *)

Module OpencodeTypes.

Record OpencodeModel := mkModel { providerID : string; modelID : string }.

Definition parseModelString (model : string) : option OpencodeModel :=
  match Js.split Js.slash model with
  | [p; m] => Some (mkModel p m)
  | _ => None
  end.

Definition formatModelString (model : OpencodeModel) : string :=
  providerID model ++ "/" ++ modelID model.

Inductive OpencodePartType := PtText | PtToolCall | PtToolResult | PtImage | PtFile.

Record OpencodePart := mkPart {
  ptype : OpencodePartType;
  text : option string;
  toolName : option string;
  toolCallId : option string;
  args : option Js.JsValue;
  result : Js.JsValue
}.

Definition DEFAULT_OPENCODE_MODEL : string :=
  "anthropic/claude-3-5-sonnet-20241022".

End OpencodeTypes.

(* ================================================================= *)
(** ** opencode/opencodeBackend.ts, with the requests of
       opencode/opencodeClient.ts that it issues *)

Module OpencodeBackend.

Import OpencodeTypes Agent Exn.

(** The body of a request, by endpoint. *)
Inductive HttpBody :=
| PromptBody (model : option OpencodeModel) (text : string)
| PermissionBody (allow : bool)
| NoBody.

Record HttpRequest := mkRequest {
  method : string;
  url : string;
  body : HttpBody
}.

(** What [await fetch(...)] gives back: a response, or a rejection.
    [Response] is a response whose body, when it is OK, is the JSON of a
    message with its array [parts].  The two other responses are OK
    with another body: [Unreadable] has a body that is not JSON, so
    that [response.json()] rejects with [e]; [Faulty] has a JSON body
    on which reading [result.parts] and looping over it throws [e], a
    [TypeError], once the parts [parts] have been gone through: at
    once if the body is [null] or has no array [parts], or at an
    element that is [null]. *)
Inductive FetchResult :=
| Response (ok : bool) (status : Z) (text : string) (parts : list OpencodePart)
| Unreadable (e : Js.JsExn)
| Faulty (parts : list OpencodePart) (e : Js.JsExn)
| Rejected (e : Js.JsExn).

(** What [response.json()] resolves to: a message with its parts, or a
    value on which the loop over [parts] throws after some of them. *)
Inductive MessageBody :=
| WithParts (parts : list OpencodePart)
| FaultyAfter (parts : list OpencodePart) (e : Js.JsExn).

Section Backend.

Variable U : Type.
Variable JSON_stringify : Js.JsValue -> string.

(** The successive results of [randomUUID()]. *)
Variable randomUUID : nat -> string.

(** [OpencodeBackend] with the fields of its [OpencodeClient] that the
    methods below read: [baseUrl] and [config.model].  [requests] records
    the calls to [fetch], [awaiting] the requests whose response is
    awaited and still to come (prompt requests, and the abort requests
    of [cancel]), [uuids] the number of identifiers drawn. *)
Record OpencodeBackend := mkBackend {
  baseUrl : string;
  configModel : option string;
  requests : list HttpRequest;
  awaiting : list nat;
  messageHandlers : list (AgentMessageHandler U);
  happySessionId : option string;
  opencodeSessionId : option string;
  permissionMode : PermissionMode;
  isRunning : bool;
  eventSubscriptionActive : bool;
  uuids : nat;
  world : World U
}.

Definition set_isRunning (r : bool) (b : OpencodeBackend) :=
  mkBackend (baseUrl b) (configModel b) (requests b) (awaiting b)
    (messageHandlers b) (happySessionId b) (opencodeSessionId b)
    (permissionMode b) r (eventSubscriptionActive b) (uuids b) (world b).

Definition set_world (w : World U) (b : OpencodeBackend) :=
  mkBackend (baseUrl b) (configModel b) (requests b) (awaiting b)
    (messageHandlers b) (happySessionId b) (opencodeSessionId b)
    (permissionMode b) (isRunning b) (eventSubscriptionActive b) (uuids b) w.

Definition set_awaiting (a : list nat) (b : OpencodeBackend) :=
  mkBackend (baseUrl b) (configModel b) (requests b) a
    (messageHandlers b) (happySessionId b) (opencodeSessionId b)
    (permissionMode b) (isRunning b) (eventSubscriptionActive b) (uuids b)
    (world b).

Definition add_request (r : HttpRequest) (b : OpencodeBackend) :=
  mkBackend (baseUrl b) (configModel b) (requests b ++ [r]) (awaiting b)
    (messageHandlers b) (happySessionId b) (opencodeSessionId b)
    (permissionMode b) (isRunning b) (eventSubscriptionActive b) (uuids b)
    (world b).

Definition set_uuids (n : nat) (b : OpencodeBackend) :=
  mkBackend (baseUrl b) (configModel b) (requests b) (awaiting b)
    (messageHandlers b) (happySessionId b) (opencodeSessionId b)
    (permissionMode b) (isRunning b) (eventSubscriptionActive b) n (world b).

Definition set_permissionMode (m : PermissionMode) (b : OpencodeBackend) :=
  mkBackend (baseUrl b) (configModel b) (requests b) (awaiting b)
    (messageHandlers b) (happySessionId b) (opencodeSessionId b)
    m (isRunning b) (eventSubscriptionActive b) (uuids b) (world b).

Definition set_configModel (m : option string) (b : OpencodeBackend) :=
  mkBackend (baseUrl b) m (requests b) (awaiting b)
    (messageHandlers b) (happySessionId b) (opencodeSessionId b)
    (permissionMode b) (isRunning b) (eventSubscriptionActive b) (uuids b)
    (world b).

Definition log (l : LogLine) : M OpencodeBackend unit :=
  zoom world set_world (logger_debug l).

Definition fetch (r : HttpRequest) : M OpencodeBackend unit :=
  modify (add_request r).

Definition draw_uuid : M OpencodeBackend string :=
  (b <- get ;; modify (set_uuids (S (uuids b))) ;; ret (randomUUID (uuids b)))%js.

(** [this.emit(message)] *)
Definition emit (message : AgentMessage) : M OpencodeBackend unit :=
  fun b =>
    zoom world set_world (Agent.emit "[opencode]" (messageHandlers b) message) b.

Definition unknown_if_empty (o : option string) : string :=
  Js.or_else o "unknown".

Definition write_or_edit (toolName : string) : bool :=
  String.eqb toolName "write" || String.eqb toolName "edit".

(** The body of the loop of [processMessageResponse]. *)
Definition processPart (part : OpencodePart) : M OpencodeBackend unit :=
  match ptype part with
  | PtText =>
      if Js.truthy (text part)
      then emit (ModelOutput None (text part))
      else ret tt
  | PtToolCall =>
      (callId <- (if Js.truthy (toolCallId part)
                  then ret (Js.or_else (toolCallId part) "")
                  else draw_uuid) ;;
       emit (ToolCall (unknown_if_empty (toolName part))
               (match args part with Some a => a | None => Js.JsObj [] end)
               callId))%js
  | PtToolResult =>
      let toolName := unknown_if_empty (toolName part) in
      (emit (ToolResult toolName (result part) (Js.or_else (toolCallId part) "")) ;;
       (if write_or_edit toolName
        then emit (FsEdit ("File modified by " ++ toolName) None
                     (match result part with Js.JsStr s => Some s | _ => None end))
        else ret tt) ;;
       (if String.eqb toolName "bash"
        then emit (TerminalOutput
                     (match result part with
                      | Js.JsStr s => s
                      | v => JSON_stringify v
                      end))
        else ret tt))%js
  | PtImage | PtFile => ret tt
  end.

Definition processMessageResponse (parts : list OpencodePart)
  : M OpencodeBackend unit :=
  for_of parts processPart.

(** [this.processMessageResponse(result.parts)] *)
Definition processResult (result : MessageBody) : M OpencodeBackend unit :=
  match result with
  | WithParts parts => processMessageResponse parts
  | FaultyAfter parts e => (processMessageResponse parts ;; throw e)%js
  end.

(** [OpencodeClient.sendPrompt] up to its [await fetch]. *)
Definition client_sendPrompt (sessionId text : string) : M OpencodeBackend nat :=
  (b <- get ;;
   let model := match configModel b with
                | Some modelStr =>
                    if Js.nonempty modelStr then parseModelString modelStr else None
                | None => None
                end in
   let rid := length (requests b) in
   fetch (mkRequest "POST" (baseUrl b ++ "/session/" ++ sessionId ++ "/message")
            (PromptBody model text)) ;;
   modify (set_awaiting (awaiting b ++ [rid])) ;;
   ret rid)%js.

(** [OpencodeClient.sendPrompt] from its [await] on. *)
Definition client_sendPrompt_resume (r : FetchResult) : Res MessageBody :=
  match r with
  | Response ok status errorText parts =>
      if ok then Val (WithParts parts)
      else Throw (Js.JsError ("Failed to send prompt: "
                              ++ Js.show_code (Some status) ++ " - " ++ errorText))
  | Unreadable e => Throw e
  | Faulty parts e => Val (FaultyAfter parts e)
  | Rejected e => Throw e
  end.

(** [sendPrompt] up to its [await]. *)
Definition sendPrompt (prompt : string) : M OpencodeBackend nat :=
  (b <- get ;;
   match opencodeSessionId b with
   | Some sid =>
       if Js.nonempty sid
       then (emit (Status StRunning None) ;;
             modify (set_isRunning true) ;;
             client_sendPrompt sid prompt)
       else throw (Js.JsError "No OpenCode session active")
   | None => throw (Js.JsError "No OpenCode session active")
   end)%js.

(** [sendPrompt] from its [await] on. *)
Definition sendPrompt_resume (r : FetchResult) : M OpencodeBackend unit :=
  try_catch
    (match client_sendPrompt_resume r with
     | Val result =>
         (processResult result ;;
          modify (set_isRunning false) ;;
          emit (Status StIdle None))%js
     | Throw error => throw error
     end)
    (fun error =>
       (modify (set_isRunning false) ;;
        emit (Status StError (Some (Js.error_detail error))) ;;
        throw error)%js).

(** [cancel] from the end of its [if] on. *)
Definition cancel_finish : M OpencodeBackend unit :=
  (modify (set_isRunning false) ;;
   emit (Status StStopped None))%js.

(** [cancel] up to its [await]: with a session the request of
    [OpencodeClient.abortSession] is posted and its answer awaited;
    without one the method runs to its end. *)
Definition cancel_call : M OpencodeBackend unit :=
  (b <- get ;;
   if Js.truthy (opencodeSessionId b)
   then (let rid := length (requests b) in
         fetch (mkRequest "POST"
                  (baseUrl b ++ "/session/"
                   ++ Js.or_else (opencodeSessionId b) "" ++ "/abort") NoBody) ;;
         modify (set_awaiting (awaiting b ++ [rid])))
   else cancel_finish)%js.

(** [cancel] from its [await] on; [abort] is what the request to the
    abort endpoint comes back with: [response.ok], or a rejection. *)
Definition cancel_resume (abort : Res bool) : M OpencodeBackend unit :=
  match abort with
  | Val _ => cancel_finish
  | Throw e => throw e
  end.

(** The answer to the abort request [rid] resumes the [cancel] that
    awaits it. *)
Definition abort_answered (rid : nat) (abort : Res bool)
  : M OpencodeBackend unit :=
  (b <- get ;;
   if existsb (Nat.eqb rid) (awaiting b)
   then (modify (set_awaiting
                   (filter (fun x => negb (Nat.eqb rid x)) (awaiting b))) ;;
         cancel_resume abort)
   else ret tt)%js.

(** [cancel] when nothing else happens while it awaits: the call, and
    with a session the answer [abort] to its request right after. *)
Definition cancel (abort : Res bool) : M OpencodeBackend unit :=
  (b <- get ;;
   cancel_call ;;
   if Js.truthy (opencodeSessionId b)
   then abort_answered (length (requests b)) abort
   else ret tt)%js.

Definition onMessage (handler : AgentMessageHandler U) : M OpencodeBackend unit :=
  modify (fun b =>
    mkBackend (baseUrl b) (configModel b) (requests b) (awaiting b)
      (Agent.onMessage handler (messageHandlers b)) (happySessionId b)
      (opencodeSessionId b) (permissionMode b) (isRunning b)
      (eventSubscriptionActive b) (uuids b) (world b)).

Definition offMessage (handler : AgentMessageHandler U) : M OpencodeBackend unit :=
  modify (fun b =>
    mkBackend (baseUrl b) (configModel b) (requests b) (awaiting b)
      (Agent.offMessage handler (messageHandlers b)) (happySessionId b)
      (opencodeSessionId b) (permissionMode b) (isRunning b)
      (eventSubscriptionActive b) (uuids b) (world b)).

(** [respondToPermission], with the request of
    [OpencodeClient.respondToPermission]. *)
Definition respondToPermission (requestId : string) (approved : bool)
  : M OpencodeBackend unit :=
  (b <- get ;;
   if Js.truthy (opencodeSessionId b)
   then fetch (mkRequest "POST"
                 (baseUrl b ++ "/session/" ++ Js.or_else (opencodeSessionId b) ""
                  ++ "/permissions/" ++ requestId)
                 (PermissionBody approved))
   else log (LogText "[opencode] No session for permission response"))%js.

Definition setPermissionMode (mode : PermissionMode) : M OpencodeBackend unit :=
  (modify (set_permissionMode mode) ;;
   log (LogText "[opencode] Permission mode set"))%js.

Definition setModel (model : string) : M OpencodeBackend unit :=
  modify (set_configModel (Some model)).

(** *** The event loop

    [CallCancel] is [cancel] up to its [await].  A request is
    answered by the event of its kind that names it: [PromptResponse]
    for a prompt request, [AbortResponse] for an abort request, in
    whatever order the answers come. *)
Inductive Event :=
| CallSendPrompt (prompt : string)
| CallCancel
| PromptResponse (rid : nat) (r : FetchResult)
| AbortResponse (rid : nat) (abort : Res bool).

Definition step (ev : Event) : M OpencodeBackend unit :=
  match ev with
  | CallSendPrompt prompt => (_ <- sendPrompt prompt ;; ret tt)%js
  | CallCancel => cancel_call
  | PromptResponse rid r =>
      (b <- get ;;
       if existsb (Nat.eqb rid) (awaiting b)
       then (modify (set_awaiting
                       (filter (fun x => negb (Nat.eqb rid x)) (awaiting b))) ;;
             sendPrompt_resume r)
       else ret tt)%js
  | AbortResponse rid abort => abort_answered rid abort
  end.

Definition run (evs : list Event) (b : OpencodeBackend) : OpencodeBackend :=
  fold_left (fun b ev => exec (step ev) b) evs b.

Definition trace (evs : list Event) (b : OpencodeBackend) : list AgentMessage :=
  skipn (length (emitted (world b))) (emitted (world (run evs b))).



End Backend.

Arguments mkBackend {U} baseUrl configModel requests awaiting messageHandlers
  happySessionId opencodeSessionId permissionMode isRunning
  eventSubscriptionActive uuids world.

End OpencodeBackend.

(* ================================================================= *)
(** ** droid/runDroid.ts and opencode/runOpencode.ts: the session drivers

    The two drivers are the same code up to the name of the agent in
    their strings and the [permission-request] case, which only the
    opencode driver has.  The pictograms that open two of the lines
    written to the terminal UI are left out. *)

Module Driver.

Import Agent Exn.

Inductive Flavor := FlDroid | FlOpencode.

Definition agent_name (f : Flavor) : string :=
  match f with
  | FlDroid => "Droid"
  | FlOpencode => "OpenCode"
  end.

(** [DroidMode] and [OpencodeMode] *)
Record Mode := mkMode {
  mode_permissionMode : PermissionMode;
  mode_model : option string;
  originalUserMessage : option string
}.

Record QueueItem := mkItem { item_message : string; item_mode : Mode }.

(** Modelled from the spec: [MessageQueue2] (utils/MessageQueue2, not
    among the sources) is a sequence of pending items; [push] appends,
    [reset] discards all pending items, and [size] is the non-blocking
    length query used for readiness checks. *)
Definition MessageQueue2 := list QueueItem.

Definition size (q : MessageQueue2) : nat := length q.

Definition push (message : string) (mode : Mode) (q : MessageQueue2)
  : MessageQueue2 := q ++ [mkItem message mode].

Definition reset (q : MessageQueue2) : MessageQueue2 := [].

(** Payloads of [session.sendCodexMessage]; [id] is the rank of the
    [randomUUID()] draw that made it. *)
Inductive CodexMessage :=
| TurnAborted (id : nat)
| TaskStarted (id : nat)
| TaskComplete (id : nat)
| Message (message : string) (id : nat)
| ForwardedPermissionRequest (id reason : string) (payload : Js.JsValue).

(** Calls on the session client, the outgoing transport. *)
Inductive SessionCall :=
| KeepAlive (thinking : bool)
| SendCodexMessage (m : CodexMessage)
| SendSessionEvent_ready.

Inductive BufferKind := KSystem | KAssistant | KStatus.

(** Calls on the [MessageBuffer] of the terminal UI. *)
Inductive BufferCall :=
| AddMessage (text : string) (kind : BufferKind)
| RemoveLastMessage (kind : BufferKind)
| UpdateLastMessage (text : string) (kind : BufferKind).

(** Calls that the driver makes on its backend. *)
Inductive BackendCall :=
| RespondToPermission (requestId : string) (approved : bool)
| Cancel
| SendPrompt (prompt : string).

(** The variables of [runDroid] / [runOpencode] that the callbacks close
    over, then the calls made on the collaborators, in order.
    [pushError] is what [api.push().sendToAllDevices] throws, if it
    does.  The calls on the session made by the callbacks are logged
    by the definitions of this module; those of the keep-alive timer by
    [RunDroid.keepAliveInterval] and [RunOpencode.keepAliveInterval]. *)
Record Driver := mkDriver {
  shouldExit : bool;
  thinking : bool;
  isResponseInProgress : bool;
  accumulatedResponse : string;
  currentPermissionMode : PermissionMode;
  messageQueue : MessageQueue2;
  uuids : nat;
  pushError : option Js.JsExn;
  session : list SessionCall;
  pushes : list (string * string);
  messageBuffer : list BufferCall;
  backend : list BackendCall;
  logs : list LogLine
}.

Definition set_thinking (t : bool) (d : Driver) :=
  mkDriver (shouldExit d) t (isResponseInProgress d) (accumulatedResponse d)
    (currentPermissionMode d) (messageQueue d) (uuids d) (pushError d)
    (session d) (pushes d) (messageBuffer d) (backend d) (logs d).

Definition set_isResponseInProgress (r : bool) (d : Driver) :=
  mkDriver (shouldExit d) (thinking d) r (accumulatedResponse d)
    (currentPermissionMode d) (messageQueue d) (uuids d) (pushError d)
    (session d) (pushes d) (messageBuffer d) (backend d) (logs d).

Definition set_accumulatedResponse (a : string) (d : Driver) :=
  mkDriver (shouldExit d) (thinking d) (isResponseInProgress d) a
    (currentPermissionMode d) (messageQueue d) (uuids d) (pushError d)
    (session d) (pushes d) (messageBuffer d) (backend d) (logs d).

Definition set_messageQueue (q : MessageQueue2) (d : Driver) :=
  mkDriver (shouldExit d) (thinking d) (isResponseInProgress d)
    (accumulatedResponse d) (currentPermissionMode d) q (uuids d)
    (pushError d) (session d) (pushes d) (messageBuffer d) (backend d)
    (logs d).

Definition set_uuids (n : nat) (d : Driver) :=
  mkDriver (shouldExit d) (thinking d) (isResponseInProgress d)
    (accumulatedResponse d) (currentPermissionMode d) (messageQueue d) n
    (pushError d) (session d) (pushes d) (messageBuffer d) (backend d)
    (logs d).

Definition add_session (c : SessionCall) (d : Driver) :=
  mkDriver (shouldExit d) (thinking d) (isResponseInProgress d)
    (accumulatedResponse d) (currentPermissionMode d) (messageQueue d)
    (uuids d) (pushError d) (session d ++ [c]) (pushes d) (messageBuffer d)
    (backend d) (logs d).

Definition add_push (p : string * string) (d : Driver) :=
  mkDriver (shouldExit d) (thinking d) (isResponseInProgress d)
    (accumulatedResponse d) (currentPermissionMode d) (messageQueue d)
    (uuids d) (pushError d) (session d) (pushes d ++ [p]) (messageBuffer d)
    (backend d) (logs d).

Definition add_buffer (c : BufferCall) (d : Driver) :=
  mkDriver (shouldExit d) (thinking d) (isResponseInProgress d)
    (accumulatedResponse d) (currentPermissionMode d) (messageQueue d)
    (uuids d) (pushError d) (session d) (pushes d) (messageBuffer d ++ [c])
    (backend d) (logs d).

Definition add_backend (c : BackendCall) (d : Driver) :=
  mkDriver (shouldExit d) (thinking d) (isResponseInProgress d)
    (accumulatedResponse d) (currentPermissionMode d) (messageQueue d)
    (uuids d) (pushError d) (session d) (pushes d) (messageBuffer d)
    (backend d ++ [c]) (logs d).

Definition add_log (l : LogLine) (d : Driver) :=
  mkDriver (shouldExit d) (thinking d) (isResponseInProgress d)
    (accumulatedResponse d) (currentPermissionMode d) (messageQueue d)
    (uuids d) (pushError d) (session d) (pushes d) (messageBuffer d)
    (backend d) (logs d ++ [l]).

Definition randomUUID : M Driver nat :=
  (d <- get ;; modify (set_uuids (S (uuids d))) ;; ret (uuids d))%js.

Definition sendCodexMessage (m : CodexMessage) : M Driver unit :=
  modify (add_session (SendCodexMessage m)).

Definition keepAlive : M Driver unit :=
  (d <- get ;; modify (add_session (KeepAlive (thinking d))))%js.

Section Flavor.

Variable flavor : Flavor.

Definition tag : string := "[" ++ agent_name flavor ++ "]".

(** [api.push().sendToAllDevices(...)] *)
Definition sendToAllDevices (title text : string) : M Driver unit :=
  (modify (add_push (title, text)) ;;
   d <- get ;;
   match pushError d with
   | Some e => throw e
   | None => ret tt
   end)%js.

Definition sendReady : M Driver unit :=
  (modify (add_session SendSessionEvent_ready) ;;
   try_catch
     (sendToAllDevices "It's ready!"
        (agent_name flavor ++ " is waiting for your command"))
     (fun pushError =>
        modify (add_log (LogExn (tag ++ " Failed to send ready push") pushError))))%js.

Definition emitReadyIfIdle : M Driver bool :=
  (d <- get ;;
   if shouldExit d then ret false
   else if thinking d then ret false
   else if isResponseInProgress d then ret false
   else if Nat.ltb 0 (size (messageQueue d)) then ret false
   else (sendReady ;; ret true))%js.

Definition auto_approves (mode : PermissionMode) : bool :=
  match mode with
  | PmYolo | PmSafeYolo => true
  | PmDefault | PmReadOnly => false
  end.

(** The callback registered with [onMessage]. *)
Definition onMessage (msg : AgentMessage) : M Driver unit :=
  match msg with
  | ModelOutput textDelta fullText =>
      if Js.truthy textDelta || Js.truthy fullText
      then (let text := Js.or_else (Js.or_opt fullText textDelta) "" in
            d <- get ;;
            (if negb (isResponseInProgress d)
             then (modify (add_buffer (RemoveLastMessage KSystem)) ;;
                   modify (add_buffer (AddMessage text KAssistant)) ;;
                   modify (set_isResponseInProgress true))
             else modify (add_buffer (UpdateLastMessage text KAssistant))) ;;
            d <- get ;;
            modify (set_accumulatedResponse
                      (accumulatedResponse d ++ Js.or_else textDelta "")))%js
      else ret tt
  | Status status detail =>
      (modify (add_log (LogText (tag ++ " Status"))) ;;
       match status with
       | StRunning =>
           modify (set_thinking true) ;;
           keepAlive ;;
           id <- randomUUID ;;
           sendCodexMessage (TaskStarted id) ;;
           modify (add_buffer (AddMessage "Thinking..." KSystem))
       | StIdle | StStopped =>
           modify (set_thinking false) ;;
           keepAlive ;;
           d <- get ;;
           if isResponseInProgress d
              && Js.nonempty (Js.trim (accumulatedResponse d))
           then (id <- randomUUID ;;
                 sendCodexMessage (Message (accumulatedResponse d) id) ;;
                 id <- randomUUID ;;
                 sendCodexMessage (TaskComplete id) ;;
                 modify (set_accumulatedResponse "") ;;
                 modify (set_isResponseInProgress false))
           else ret tt
       | StError =>
           modify (set_thinking false) ;;
           keepAlive ;;
           id <- randomUUID ;;
           sendCodexMessage (TurnAborted id) ;;
           let errorMessage := Js.or_else detail "Unknown error" in
           modify (add_buffer (AddMessage ("Error: " ++ errorMessage) KStatus)) ;;
           id <- randomUUID ;;
           sendCodexMessage (Message ("Error: " ++ errorMessage) id) ;;
           modify (set_accumulatedResponse "") ;;
           modify (set_isResponseInProgress false)
       | StStarting => ret tt
       end)%js
  | ToolCall toolName _ _ =>
      (modify (add_log (LogText (tag ++ " Tool call: " ++ toolName))) ;;
       modify (add_buffer (AddMessage ("Using tool: " ++ toolName) KSystem)))%js
  | ToolResult toolName _ _ =>
      modify (add_log (LogText (tag ++ " Tool result: " ++ toolName)))
  | FsEdit description _ _ =>
      (modify (add_log (LogText (tag ++ " File edit: " ++ description))) ;;
       modify (add_buffer (AddMessage description KSystem)))%js
  | TerminalOutput _ =>
      modify (add_log (LogText (tag ++ " Terminal output")))
  | PermissionRequest id reason payload =>
      match flavor with
      | FlOpencode =>
          (modify (add_log (LogText (tag ++ " Permission request: " ++ reason))) ;;
           d <- get ;;
           if auto_approves (currentPermissionMode d)
           then modify (add_backend (RespondToPermission id true))
           else (modify (add_buffer
                           (AddMessage ("Permission requested: " ++ reason) KSystem)) ;;
                 sendCodexMessage (ForwardedPermissionRequest id reason payload)))%js
      | FlDroid => ret tt
      end
  | TokenCount _ _ | Event _ _ => ret tt
  end.

(** [handleAbort] as far as the driver's own variables and session go:
    the call of [cancel] on the backend is recorded in [backend].  What
    that call does, and what it makes the callback do before it
    returns, is in [RunDroid.handleAbort] and [RunOpencode.handleAbort]. *)
Definition handleAbort : M Driver unit :=
  (modify (add_log (LogText (tag ++ " Abort requested"))) ;;
   id <- randomUUID ;;
   sendCodexMessage (TurnAborted id) ;;
   d <- get ;;
   modify (set_messageQueue (reset (messageQueue d))) ;;
   modify (add_backend Cancel))%js.

(** The main loop between dequeuing an item and [sendPrompt]. *)
Definition turn_begin (prompt : string) : M Driver unit :=
  (modify (set_accumulatedResponse "") ;;
   modify (set_isResponseInProgress false) ;;
   modify (add_backend (SendPrompt prompt)))%js.

(** The main loop once the promise of [sendPrompt] is settled: the
    [catch] block if it was rejected, then the [finally] block. *)
Definition turn_end (settled : Res unit) : M Driver bool :=
  ((match settled with
    | Val _ => ret tt
    | Throw error =>
        modify (add_log (LogExn (tag ++ " Error sending prompt:") error)) ;;
        modify (add_buffer (AddMessage ("Error: " ++ Js.error_detail error) KStatus))
    end) ;;
   emitReadyIfIdle)%js.

End Flavor.

(** The driver's callback as a registered handler. *)
Definition handler (flavor : Flavor) : AgentMessageHandler Driver :=
  mkHandler 0 (onMessage flavor).

(** The readiness announcements among the calls made on the session. *)
Definition ready_count (calls : list SessionCall) : nat :=
  length (filter (fun c => match c with SendSessionEvent_ready => true | _ => false end)
            calls).

(** The four conditions of readiness, all at once: not
    shutting down, not thinking, no response in progress, queue empty. *)
Definition ready_now (d : Driver) : bool :=
  negb (shouldExit d) && negb (thinking d) && negb (isResponseInProgress d)
  && Nat.eqb (size (messageQueue d)) 0.

End Driver.

(* ================================================================= *)
(** ** [DroidClient.isAvailable], [DroidClient.getVersion]
       (and their twins on [OpencodeClient])

    Each probe spawns [<tool> --version] and returns a promise.  The
    child is described by the events it raises with their times in
    milliseconds since the spawn; the probe is the state of its promise
    at a given time. *)

Module Probe.

Inductive ChildEvent :=
| Data (text : string)
| Closed (code : option Z)
| Failed.

(** What the event loop delivers to the probe: an event of the child,
    or the expiry of a timer that the probe itself has set. *)
Inductive Delivery :=
| FromChild (ev : ChildEvent)
| Timeout.

(** The deliveries made up to time [now], in order: the events of the
    child that are due, and the timer (if one was set, for [delay]
    milliseconds) once it is due, after the events of the child that
    come no later than it. *)
Definition deliveries (timer : option Z) (child : list (Z * ChildEvent))
  (now : Z) : list Delivery :=
  let due := filter (fun te => Z.leb (fst te) now) child in
  match timer with
  | Some delay =>
      if Z.leb delay now
      then map (fun te => FromChild (snd te))
             (filter (fun te => Z.leb (fst te) delay) due)
           ++ [Timeout]
           ++ map (fun te => FromChild (snd te))
                (filter (fun te => negb (Z.leb (fst te) delay)) due)
      else map (fun te => FromChild (snd te)) due
  | None => map (fun te => FromChild (snd te)) due
  end.

(** A promise: pending, or resolved with a value.  Resolving it again
    changes nothing. *)
Definition resolve {A} (v : A) (p : option A) : option A :=
  match p with
  | Some w => Some w
  | None => Some v
  end.

Definition exited_zero (code : option Z) : bool :=
  match code with
  | Some z => Z.eqb z 0
  | None => false
  end.

(** The callbacks of [isAvailable]: ['close'], ['error'], and the
    function given to [setTimeout]. *)
Definition isAvailable_on (p : option bool) (d : Delivery) : option bool :=
  match d with
  | FromChild (Closed code) => resolve (exited_zero code) p
  | FromChild Failed => resolve false p
  | FromChild (Data _) => p
  | Timeout => resolve false p
  end.

(** [isAvailable]: the state of the returned promise at time [now]. *)
Definition isAvailable (child : list (Z * ChildEvent)) (now : Z) : option bool :=
  fold_left isAvailable_on (deliveries (Some 5000%Z) child now) None.

(** The callbacks of [getVersion]: stdout ['data'], ['close'], ['error'].
    The state is the [stdout] variable and the promise. *)
Definition getVersion_on (st : string * option (option string)) (d : Delivery)
  : string * option (option string) :=
  let (stdout, p) := st in
  match d with
  | FromChild (Data text) => ((stdout ++ text)%string, p)
  | FromChild (Closed code) =>
      (stdout, resolve (if exited_zero code then Some (Js.trim stdout) else None) p)
  | FromChild Failed => (stdout, resolve None p)
  | Timeout => (stdout, p)
  end.

(** [getVersion]: it sets no timer. *)
Definition getVersion (child : list (Z * ChildEvent)) (now : Z)
  : option (option string) :=
  snd (fold_left getVersion_on (deliveries None child now) (""%string, None)).

(** A child that ends: it raises ['close'] or ['error'] at some time. *)
Definition ends (child : list (Z * ChildEvent)) : bool :=
  existsb (fun te => match snd te with Data _ => false | _ => true end) child.

End Probe.

(* ================================================================= *)
(** ** The command line of [droid exec], as the process contract words it

    The segments of the argument list, each as a function of the option
    it encodes: what [buildArgs] is compared with. *)

Module ArgsLayout.

Import DroidTypes.

(** The input-format flag, only for the JSON-RPC input mode. *)
Definition input_flag (inputFormat : bool) : list string :=
  if inputFormat then ["--input-format"; "stream-jsonrpc"] else [].

(** The autonomy flag, absent when no level is set. *)
Definition auto_flag (level : option DroidAutoLevel) : list string :=
  match level with
  | Some a => ["--auto"; auto_name a]
  | None => []
  end.

(** The session-continuation flag, present when a session id is. *)
Definition session_flag (sessionId : option string) : list string :=
  match sessionId with
  | Some s => if String.eqb s "" then [] else ["-s"; s]
  | None => []
  end.

(** The model flag: the explicit model, or else the default one. *)
Definition model_flag (explicit : option string) (default : string) : list string :=
  ["-m"; match explicit with
         | Some m => if String.eqb m "" then default else m
         | None => default
         end].

(** Spec mode, enabled tools, and the prompt or the file it is read from. *)
Definition trailing_args (prompt : string) (o : DroidExecOptions) : list string :=
  (if useSpec o
   then "--use-spec" :: match specModel o with
                        | Some m => if String.eqb m "" then [] else ["--spec-model"; m]
                        | None => []
                        end
   else [])
  ++ match enabledTools o with
     | Some (t :: ts) => ["--enabled-tools"; Js.join "," (t :: ts)]
     | _ => []
     end
  ++ match file o with
     | Some f => if String.eqb f "" then [prompt] else ["-f"; f]
     | None => [prompt]
     end.

End ArgsLayout.

(* ================================================================= *)
(** ** What a message does to the handlers, handler by handler *)

Module Delivery.

Import Agent Exn.

Section Handlers.

Variable U : Type.

(** The state of the handlers once each of them, in registration order,
    has run on the message, whether it returned or threw. *)
Definition after_all (hs : list (AgentMessageHandler U)) (msg : AgentMessage)
  (u : U) : U :=
  fold_left (fun u h => snd (run h msg u)) hs u.

(** The log lines for the handlers that throw on the message, in order. *)
Fixpoint failures (tag : string) (hs : list (AgentMessageHandler U))
  (msg : AgentMessage) (u : U) : list LogLine :=
  match hs with
  | [] => []
  | h :: rest =>
      match run h msg u with
      | (Val _, u') => failures tag rest msg u'
      | (Throw e, u') =>
          LogExn (tag ++ " Handler error:") e :: failures tag rest msg u'
      end
  end.

(** One handler inside its [try]/[catch]: the body of the loop of
    [emit]. *)
Definition deliver (tag : string) (msg : AgentMessage)
  (handler : AgentMessageHandler U) : M (World U) unit :=
  try_catch (invoke handler msg)
    (fun e => logger_debug (LogExn (tag ++ " Handler error:") e)).

End Handlers.

End Delivery.

(* ================================================================= *)
(** ** Lines of a stream, and computations that leave the client alone *)

Module Reader.

Import Exn.

(** The complete lines of a text, and the fragment after its last
    line terminator. *)
Definition complete (s : string) : list string := removelast (Js.split Js.LF s).

Definition pending (s : string) : string := last (Js.split Js.LF s) EmptyString.

(** What the promise of [execStream] settles to when the child is
    gone: the exit code decides, the pending fragment has no say. *)
Definition exit_outcome (code : option Z) (finalText stderr : string)
  : Res string :=
  match code with
  | Some 0%Z => Val finalText
  | _ =>
      Throw (Js.JsError ("Droid stream exited with code "
                         ++ Js.show_code code ++ ": "
                         ++ Js.or_else (Some stderr) "Unknown error"))
  end.

Section Frame.

Variable U : Type.

(** A computation of the backend that neither reads nor writes the
    fields of the client: it runs the same whatever client is put in. *)
Definition client_blind {A} (m : M (DroidBackend.DroidBackend U) A) : Prop :=
  forall b c,
    m (DroidBackend.set_client c b)
    = (fst (m b), DroidBackend.set_client c (snd (m b))).

(** A computation that emits no terminal status. *)
Definition quiet {A} (m : M (DroidBackend.DroidBackend U) A) : Prop :=
  forall b, exists ms,
    Agent.emitted (DroidBackend.world (snd (m b)))
    = Agent.emitted (DroidBackend.world b) ++ ms
    /\ Agent.terminals ms = [].


End Frame.

End Reader.

(* ================================================================= *)
(** ** A sample run-time environment

    Concrete stand-ins for what the sources take from their
    environment, used to run the definitions on sample inputs. *)

Module Sample.

Import DroidTypes Agent.

(** A stand-in for [JSON.parse] that knows three records by name. *)
Definition parse (line : string) : option DroidStreamEvent :=
  if String.eqb line "init" then Some (EvSystem "sess-1" [] "glm-4.6" "/work")
  else if String.eqb line "hello" then Some (EvMessage RoleAssistant "a.txt")
  else if String.eqb line "done" then Some (EvCompletion "a.txt" 1 20)
  else None.

Definition stringify (v : Js.JsValue) : string := "[object]".

Definition uuid (n : nat) : string := "uuid".

Definition KEY : string := "FACTORY_API_KEY".

(** A droid backend as [runDroid] creates it, with no handler, and with
    the driver's callback registered. *)
Definition world0 {U} (u : U) : World U := mkWorld u [] [] [].

Definition droid0 : DroidBackend.DroidBackend unit :=
  DroidBackend.create "glm-4.6" "/work" "fk-secret" None None None
    (Some PmDefault) (world0 tt).

(** The same backend while one [execStream] is reading. *)
Definition droid_reading : DroidBackend.DroidBackend unit :=
  Exn.exec (DroidBackend.sendPrompt KEY "list files") droid0.

(** A driver at rest. *)
Definition driver0 : Driver.Driver :=
  Driver.mkDriver false false false "" PmDefault [] 0 None [] [] [] [] [].

(** The droid backend of [runDroid]: the driver's callback is its one
    handler, and the driver is the state that the handler owns. *)
Definition droid_driven : DroidBackend.DroidBackend Driver.Driver :=
  Exn.exec (DroidBackend.onMessage (Driver.handler Driver.FlDroid))
    (DroidBackend.create "glm-4.6" "/work" "fk-secret" None None None
       (Some PmDefault) (world0 driver0)).

(** Three complete records in one chunk. *)
Definition transcript : string :=
  Js.join (String Js.LF EmptyString) ["init"; "hello"; "done"; ""].

(** An opencode backend without and with a session. *)
Definition opencode0 : OpencodeBackend.OpencodeBackend unit :=
  OpencodeBackend.mkBackend "http://127.0.0.1:4097"
    (Some OpencodeTypes.DEFAULT_OPENCODE_MODEL) [] [] [] None None
    PmDefault false false 0 (world0 tt).

Definition opencode1 : OpencodeBackend.OpencodeBackend unit :=
  OpencodeBackend.mkBackend "http://127.0.0.1:4097"
    (Some OpencodeTypes.DEFAULT_OPENCODE_MODEL) [] [] [] (Some "happy-1")
    (Some "ses_1") PmDefault false true 0 (world0 tt).

(** The opencode backend of [runOpencode] once it has a session: the
    driver's callback is its one handler. *)
Definition opencode_driven : OpencodeBackend.OpencodeBackend Driver.Driver :=
  OpencodeBackend.mkBackend "http://127.0.0.1:4097"
    (Some OpencodeTypes.DEFAULT_OPENCODE_MODEL) [] []
    [Driver.handler Driver.FlOpencode] (Some "happy-1") (Some "ses_1")
    PmDefault false true 0 (world0 driver0).

End Sample.

(* ================================================================= *)
(** ** The drivers' [session.onUserMessage] callback and [handleAbort] *)

Module Inbox.

Import Agent Exn Driver.

(** [message.meta.model]: the key is absent, or holds [null], or holds
    a string. *)
Inductive MetaModel :=
| ModelAbsent
| ModelNull
| ModelGiven (model : string).

Record Meta := mkMeta {
  meta_permissionMode : option string;
  meta_model : MetaModel;
  appendSystemPrompt : option string
}.

Record UserMessage := mkUserMessage {
  text : string;
  meta : option Meta
}.

(** [validModes.includes(s)], with the mode that [s] names. *)
Definition validMode (s : string) : option PermissionMode :=
  if String.eqb s "default" then Some PmDefault
  else if String.eqb s "read-only" then Some PmReadOnly
  else if String.eqb s "safe-yolo" then Some PmSafeYolo
  else if String.eqb s "yolo" then Some PmYolo
  else None.

(** The configuration calls that the callback makes on the backend. *)
Inductive SettingCall :=
| SetPermissionMode (mode : PermissionMode)
| SetModel (model : string).

(** The driver with the two further variables that the callback closes
    over, and the configuration calls made, in order. *)
Record Inbox := mkInbox {
  driver : Driver;
  currentModel : option string;
  isFirstMessage : bool;
  settings : list SettingCall
}.

Definition set_currentPermissionMode (m : PermissionMode) (d : Driver) :=
  mkDriver (shouldExit d) (thinking d) (isResponseInProgress d)
    (accumulatedResponse d) m (messageQueue d) (uuids d) (pushError d)
    (session d) (pushes d) (messageBuffer d) (backend d) (logs d).

Definition blank_line : string := String Js.LF (String Js.LF EmptyString).

Section Callback.

Variable flavor : Flavor.

(** [CHANGE_TITLE_INSTRUCTION] of the constants file. *)
Variable CHANGE_TITLE_INSTRUCTION : string.

(** The mode that the message asks for, when it names a valid one. *)
Definition requested_mode (message : UserMessage) : option PermissionMode :=
  match meta message with
  | Some m =>
      if Js.truthy (meta_permissionMode m)
      then validMode (Js.or_else (meta_permissionMode m) "")
      else None
  | None => None
  end.

Definition onUserMessage (message : UserMessage) (s : Inbox) : Inbox :=
  let d := driver s in
  (* Resolve permission mode *)
  let messagePermissionMode :=
    match requested_mode message with
    | Some m => m
    | None => currentPermissionMode d
    end in
  let d :=
    match requested_mode message with
    | Some m =>
        add_log (LogText (tag flavor ++ " Permission mode updated"))
          (set_currentPermissionMode m d)
    | None => d
    end in
  let calls :=
    match requested_mode message with
    | Some m => settings s ++ [SetPermissionMode m]
    | None => settings s
    end in
  (* Resolve model *)
  let given :=
    match meta message with
    | Some m =>
        match meta_model m with
        | ModelGiven model => if Js.nonempty model then Some model else None
        | _ => None
        end
    | None => None
    end in
  let cleared :=
    match meta message with
    | Some m => match meta_model m with ModelNull => true | _ => false end
    | None => false
    end in
  let messageModel :=
    if cleared then None
    else match given with
         | Some model => Some model
         | None => currentModel s
         end in
  let d :=
    match given with
    | Some model => add_buffer (AddMessage ("Model changed to: " ++ model) KSystem) d
    | None => d
    end in
  let calls :=
    match given with
    | Some model => calls ++ [SetModel model]
    | None => calls
    end in
  (* Build the full prompt *)
  let originalUserMessage := text message in
  let system :=
    match meta message with
    | Some m => if Js.truthy (appendSystemPrompt m) then appendSystemPrompt m else None
    | None => None
    end in
  let titled := isFirstMessage s && match system with Some _ => true | None => false end in
  let fullPrompt :=
    if titled
    then (Js.or_else system "" ++ blank_line ++ originalUserMessage
          ++ blank_line ++ CHANGE_TITLE_INSTRUCTION)%string
    else originalUserMessage in
  let mode := mkMode messagePermissionMode messageModel (Some originalUserMessage) in
  mkInbox (set_messageQueue (push fullPrompt mode (messageQueue d)) d)
    messageModel
    (if titled then false else isFirstMessage s)
    calls.

(** The callback on a sequence of incoming messages. *)
Definition receive (messages : list UserMessage) (s : Inbox) : Inbox :=
  fold_left (fun s m => onUserMessage m s) messages s.

(** The items that the messages add to the queue. *)
Definition enqueued (messages : list UserMessage) (s : Inbox) : list QueueItem :=
  skipn (length (messageQueue (driver s)))
    (messageQueue (driver (receive messages s))).

(** The driver's handler on a sequence of backend messages. *)
Definition feed (msgs : list AgentMessage) (d : Driver) : Driver :=
  fold_left (fun d m => exec (onMessage flavor m) d) msgs d.

End Callback.

(** The text deltas of a sequence of model outputs, joined. *)
Definition deltas (outputs : list (option string * option string)) : string :=
  fold_right append EmptyString (map (fun o => Js.or_else (fst o) "") outputs).

Definition as_output (o : option string * option string) : AgentMessage :=
  ModelOutput (fst o) (snd o).

(** An item that carries more than the user's text. *)
Definition titled_item (i : QueueItem) : bool :=
  match originalUserMessage (item_mode i) with
  | Some t => negb (String.eqb (item_message i) t)
  | None => true
  end.

End Inbox.

(* ================================================================= *)
(** ** [DroidBackend.startSession], and the backend under all its
       methods *)

Module DroidOps.

Import DroidTypes Agent Exn.

Section Ops.

Variable U : Type.
Variable FACTORY_API_KEY_ENV : string.
Variable JSON_parse : string -> option DroidStreamEvent.
Variable JSON_stringify : Js.JsValue -> string.

Local Notation "'Backend'" := (DroidBackend.DroidBackend U).

(** [startSession] up to its [await]; [happySessionId] is the result
    of [randomUUID()].  The result names the child that is awaited, if
    a prompt was given. *)
Definition startSession (happySessionId : string) (initialPrompt : option string)
  : M Backend (option nat) :=
  (modify (fun b =>
     DroidBackend.mkBackend (DroidBackend.client b)
       (DroidBackend.messageHandlers b) (Some happySessionId)
       (DroidBackend.droidSessionId b) (DroidBackend.auto b)
       (DroidBackend.permissionMode b) (DroidBackend.isRunning b)
       (DroidBackend.world b)) ;;
   DroidBackend.emit (Status StStarting None) ;;
   if Js.truthy initialPrompt
   then (modify (DroidBackend.set_isRunning true) ;;
         b <- get ;;
         pid <- DroidBackend.execStream FACTORY_API_KEY_ENV
                  (Js.or_else initialPrompt "")
                  (mkOptions None false (DroidBackend.auto b) None None None
                     false None None None) ;;
         ret (Some pid))
   else (DroidBackend.emit (Status StIdle None) ;; ret None))%js.

(** A call of a method of the backend, or an event of a child. *)
Inductive Op :=
| OpEvent (e : DroidBackend.Event)
| OpStartSession (happySessionId : string) (initialPrompt : option string)
| OpSetPermissionMode (mode : PermissionMode)
| OpSetAutoLevel (level : option DroidAutoLevel)
| OpSetModel (model : string)
| OpRespondToPermission (requestId : string) (approved : bool)
| OpOnMessage (handler : AgentMessageHandler U)
| OpOffMessage (handler : AgentMessageHandler U)
| OpDispose.

Definition apply (op : Op) : M Backend unit :=
  match op with
  | OpEvent e => DroidBackend.step FACTORY_API_KEY_ENV JSON_parse JSON_stringify e
  | OpStartSession id prompt => (_ <- startSession id prompt ;; ret tt)%js
  | OpSetPermissionMode mode => DroidBackend.setPermissionMode mode
  | OpSetAutoLevel level => DroidBackend.setAutoLevel level
  | OpSetModel model => DroidBackend.setModel model
  | OpRespondToPermission id approved => DroidBackend.respondToPermission id approved
  | OpOnMessage h => DroidBackend.onMessage h
  | OpOffMessage h => DroidBackend.offMessage h
  | OpDispose => DroidBackend.dispose (U:=U)
  end.

(** The one method that registers a handler. *)
Definition registers (op : Op) : bool :=
  match op with
  | OpOnMessage _ => true
  | _ => false
  end.

Definition run_ops (ops : list Op) (b : Backend) : Backend :=
  fold_left (fun b op => exec (apply op) b) ops b.

(** The request that a prompt spawns [droid] with, from the fields of
    the backend at the time of the call. *)
Definition prompt_request (b : Backend) (session : option string) (prompt : string)
  : DroidClient.SpawnRequest :=
  DroidClient.mkSpawn "droid"
    (["exec"; "-o"; "stream-json"]
     ++ ArgsLayout.auto_flag (DroidBackend.auto b)
     ++ ArgsLayout.session_flag session
     ++ ["-m"; DroidClient.defaultModel (DroidBackend.client b); prompt])
    [(FACTORY_API_KEY_ENV, DroidClient.apiKey (DroidBackend.client b))]
    (DroidClient.defaultCwd (DroidBackend.client b)).

(** A computation that reaches no handler when none is registered, and
    registers none. *)
Definition detached {A} (m : M Backend A) : Prop :=
  forall b,
    DroidBackend.messageHandlers b = [] ->
    DroidBackend.messageHandlers (snd (m b)) = []
    /\ calls (DroidBackend.world (snd (m b))) = calls (DroidBackend.world b)
    /\ user (DroidBackend.world (snd (m b))) = user (DroidBackend.world b).

End Ops.

(** What a child can still deliver: a read, or an ending. *)
Definition child_event (pid : nat) (x : DroidBackend.Read + DroidBackend.Ending)
  : DroidBackend.Event :=
  match x with
  | inl r => DroidBackend.read_event pid r
  | inr e => DroidBackend.end_event pid e
  end.

(** All of the text that was read from stderr. *)
Definition stderr_text (reads : list DroidBackend.Read) : string :=
  fold_right
    (fun r acc =>
       match r with
       | DroidBackend.ReadErr data => (data ++ acc)%string
       | DroidBackend.ReadOut _ => acc
       end)
    EmptyString reads.

End DroidOps.
(* ================================================================= *)
(** ** Registered handlers *)

Module Registration.

Import Agent.

(** [messageHandlers.indexOf(handler) !== -1] *)
Definition registered {U} (h : AgentMessageHandler U)
  (hs : list (AgentMessageHandler U)) : bool :=
  existsb (fun g => Nat.eqb (hid g) (hid h)) hs.

End Registration.

(* ================================================================= *)
(** ** droid/droidClient.ts: [exec] and [getAvailableTools]

    Both spawn a child, collect its output and settle a promise when
    the child ends.  The child is the sequence of the events it
    raises. *)

Module DroidProcess.

Import Agent Exn.

Inductive ChildEvent :=
| Out (data : string)
| Err (data : string)
| Closed (code : option Z)
| Failed (message : string).

Definition of_read (r : DroidBackend.Read) : ChildEvent :=
  match r with
  | DroidBackend.ReadOut data => Out data
  | DroidBackend.ReadErr data => Err data
  end.

(** All of the text that was read from stdout. *)
Definition stdout_text (reads : list DroidBackend.Read) : string :=
  fold_right
    (fun r acc =>
       match r with
       | DroidBackend.ReadOut data => (data ++ acc)%string
       | DroidBackend.ReadErr _ => acc
       end)
    EmptyString reads.

Section Exec.

(** [JSON.parse(stdout)]; [None] when it throws. *)
Variable JSON_parse : string -> option Js.JsValue.

(** The result made up for output that is not JSON. *)
Definition fallback (stdout : string) : Js.JsValue :=
  Js.JsObj [("type", Js.JsStr "result");
            ("is_error", Js.JsBool false);
            ("duration_ms", Js.JsNum 0);
            ("num_turns", Js.JsNum 1);
            ("result", Js.JsStr stdout);
            ("session_id", Js.JsStr "")].

(** The variables of the promise executor of [exec], the promise, and
    the lines logged. *)
Record Exec := mkExec {
  stdout : string;
  stderr : string;
  promise : option (Res Js.JsValue);
  debug : list LogLine
}.

Definition exec_on (st : Exec) (ev : ChildEvent) : Exec :=
  match ev with
  | Out data => mkExec (stdout st ++ data) (stderr st) (promise st) (debug st)
  | Err data =>
      mkExec (stdout st) (stderr st ++ data) (promise st)
        (debug st ++ [LogText ("[droid] stderr: " ++ Js.trim data)])
  | Closed code =>
      if Probe.exited_zero code
      then mkExec (stdout st) (stderr st)
             (Probe.resolve
                (Val (match JSON_parse (stdout st) with
                      | Some result => result
                      | None => fallback (stdout st)
                      end))
                (promise st))
             (debug st)
      else mkExec (stdout st) (stderr st)
             (Probe.resolve
                (Throw (Js.JsError ("Droid exited with code " ++ Js.show_code code
                                    ++ ": "
                                    ++ Js.or_else (Some (stderr st)) "Unknown error")))
                (promise st))
             (debug st)
  | Failed message =>
      mkExec (stdout st) (stderr st)
        (Probe.resolve (Throw (Js.JsError ("Failed to spawn droid: " ++ message)))
           (promise st))
        (debug st)
  end.

(** [exec]: the state of the returned promise once the child has
    raised [evs]. *)
Definition exec (evs : list ChildEvent) : option (Res Js.JsValue) :=
  promise (fold_left exec_on evs (mkExec "" "" None [])).

End Exec.

(** [line.startsWith('#')] *)
Definition starts_with_hash (line : string) : bool :=
  match line with
  | String c _ => Ascii.eqb c "#"
  | EmptyString => false
  end.

Definition keep_line (line : string) : bool :=
  Nat.ltb 0 (String.length line) && negb (starts_with_hash line).

(** The tool list in the output of [droid exec --list-tools]. *)
Definition parse_tools (stdout : string) : list string :=
  filter keep_line (map Js.trim (Js.split Js.LF stdout)).

(** The callbacks of [getAvailableTools]; stderr has no listener. *)
Definition tools_on (st : string * option (list string)) (ev : ChildEvent)
  : string * option (list string) :=
  let (stdout, p) := st in
  match ev with
  | Out data => ((stdout ++ data)%string, p)
  | Err _ => (stdout, p)
  | Closed code =>
      (stdout,
       Probe.resolve (if Probe.exited_zero code then parse_tools stdout else []) p)
  | Failed _ => (stdout, Probe.resolve [] p)
  end.

Definition getAvailableTools (evs : list ChildEvent) : option (list string) :=
  snd (fold_left tools_on evs (EmptyString, None)).

(** A text that does not begin with white space. *)
Definition starts_clean (s : string) : bool :=
  match s with
  | EmptyString => true
  | String c _ => negb (Js.is_space c)
  end.

(** A tool name as [getAvailableTools] returns them. *)
Definition clean (tool : string) : bool :=
  Js.nonempty tool && String.eqb (Js.trim tool) tool
  && negb (starts_with_hash tool) && Nat.eqb (Js.count Js.LF tool) 0.

End DroidProcess.

(* ================================================================= *)
(** ** droid/utils/config.ts and opencode/utils/config.ts: the model to
       use, and the credentials of opencode *)

Module Config.

Import Agent.

(** An argument of type [string | null | undefined]. *)
Inductive Explicit :=
| Undefined
| Null
| Given (model : string).

Section Determine.

(** The name of the agent in the log lines, the name of the
    environment variable that is consulted, the default model. *)
Variables agent MODEL_ENV DEFAULT_MODEL : string.

(** [determineDroidModel] and [determineOpencodeModel], with the lines
    they log; [env] is [process.env[MODEL_ENV]], [localModel] is
    [localConfig.model]. *)
Definition determineModel (env : option string) (explicitModel : Explicit)
  (localModel : option string) : string * list LogLine :=
  match explicitModel with
  | Given model => (model, [])
  | Undefined | Null =>
      if Js.truthy env
      then (Js.or_else env "",
            [LogText ("[" ++ agent ++ "] Using model from " ++ MODEL_ENV ++ ": "
                      ++ Js.or_else env "")])
      else if Js.truthy localModel
      then (Js.or_else localModel "",
            [LogText ("[" ++ agent ++ "] Using model from local config: "
                      ++ Js.or_else localModel "")])
      else (DEFAULT_MODEL,
            [LogText ("[" ++ agent ++ "] Using default model: " ++ DEFAULT_MODEL)])
  end.

(** [getInitialDroidModel] and [getInitialOpencodeModel] on the
    configuration that they read. *)
Definition getInitialModel (env localModel : option string) : string :=
  Js.or_else env (Js.or_else localModel DEFAULT_MODEL).

End Determine.

Definition DROID_MODEL_ENV : string := "DROID_MODEL".
Definition DEFAULT_DROID_MODEL : string := "claude-sonnet-4-5-20250929".
Definition OPENCODE_MODEL_ENV : string := "OPENCODE_MODEL".

Record DroidLocalConfig := mkDroidConfig {
  accessToken : option string;
  refreshToken : option string;
  droid_model : option string
}.

Definition determineDroidModel (env : option string) (explicitModel : Explicit)
  (localConfig : DroidLocalConfig) : string * list LogLine :=
  determineModel "Droid" DROID_MODEL_ENV DEFAULT_DROID_MODEL env explicitModel
    (droid_model localConfig).

Definition getInitialDroidModel (env : option string)
  (localConfig : DroidLocalConfig) : string :=
  getInitialModel DEFAULT_DROID_MODEL env (droid_model localConfig).

(** A configuration file: not there, there but unreadable (reading or
    parsing it throws), or parsed. *)
Inductive File (A : Type) :=
| Missing
| Broken
| Parsed (content : A).

Arguments Missing {A}.
Arguments Broken {A}.
Arguments Parsed {A} content.

(** What [JSON.parse] gives is cast to [OpencodeAuthConfig] without a
    check, so the code below runs on any value.  In a [Js.JsObj] the
    fields are the own properties in the order of [Object.keys], each
    name once. *)

(** A value as a condition. *)
Definition value_truthy (v : Js.JsValue) : bool :=
  match v with
  | Js.JsUndefined | Js.JsNull => false
  | Js.JsBool b => b
  | Js.JsNum z => negb (Z.eqb z 0)
  | Js.JsStr s => Js.nonempty s
  | Js.JsArr _ | Js.JsObj _ => true
  end.

Definition nullish (v : Js.JsValue) : bool :=
  match v with
  | Js.JsUndefined | Js.JsNull => true
  | _ => false
  end.

Fixpoint lookup (name : string) (fields : list (string * Js.JsValue))
  : Js.JsValue :=
  match fields with
  | [] => Js.JsUndefined
  | (n, v) :: rest => if String.eqb n name then v else lookup name rest
  end.

(** [v.key], [v.token] and [v.model] on a value that is neither [null]
    nor [undefined]: the property of an object, [undefined] on a
    string, a number, a boolean or an array, which have no property of
    these names. *)
Definition property (name : string) (v : Js.JsValue) : Js.JsValue :=
  match v with
  | Js.JsObj fields => lookup name fields
  | _ => Js.JsUndefined
  end.

Fixpoint indexed (i : nat) (items : list Js.JsValue)
  : list (string * Js.JsValue) :=
  match items with
  | [] => []
  | v :: rest => (NilEmpty.string_of_uint (Nat.to_uint i), v) :: indexed (S i) rest
  end.

Fixpoint characters (s : string) : list Js.JsValue :=
  match s with
  | EmptyString => []
  | String c rest => Js.JsStr (String c EmptyString) :: characters rest
  end.

(** [Object.keys(v)] with [Object.values(v)]: a [TypeError] on [null]
    and [undefined], the fields of an object, the indices of an array or
    of a string, nothing for a number or a boolean. *)
Definition entries (v : Js.JsValue) : Exn.Res (list (string * Js.JsValue)) :=
  match v with
  | Js.JsUndefined | Js.JsNull =>
      Exn.Throw (Js.JsError "Cannot convert undefined or null to object")
  | Js.JsObj fields => Exn.Val fields
  | Js.JsArr items => Exn.Val (indexed 0 items)
  | Js.JsStr s => Exn.Val (indexed 0 (characters s))
  | Js.JsBool _ | Js.JsNum _ => Exn.Val []
  end.

(** [provider.key || provider.token], as a condition: a [TypeError] if
    the provider is [null] or [undefined]. *)
Definition has_credential (provider : Js.JsValue) : Exn.Res bool :=
  if nullish provider
  then Exn.Throw (Js.JsError "Cannot read properties of null (reading 'key')")
  else Exn.Val (value_truthy (property "key" provider)
                || value_truthy (property "token" provider)).

(** [values.some(provider => provider.key || provider.token)]: it
    stops at the first provider with a credential. *)
Fixpoint some_credential (values : list Js.JsValue) : Exn.Res bool :=
  match values with
  | [] => Exn.Val false
  | provider :: rest =>
      match has_credential provider with
      | Exn.Val true => Exn.Val true
      | Exn.Val false => some_credential rest
      | Exn.Throw e => Exn.Throw e
      end
  end.

(** [Object.values(authConfig).some(...)] *)
Definition any_credential (authConfig : Js.JsValue) : Exn.Res bool :=
  match entries authConfig with
  | Exn.Val es => some_credential (map snd es)
  | Exn.Throw e => Exn.Throw e
  end.

(** [keys.filter(id => providers[id].key || providers[id].token)]:
    every entry is looked at. *)
Fixpoint with_credential (es : list (string * Js.JsValue))
  : Exn.Res (list string) :=
  match es with
  | [] => Exn.Val []
  | (id, provider) :: rest =>
      match has_credential provider with
      | Exn.Val c =>
          match with_credential rest with
          | Exn.Val ids => Exn.Val (if c then id :: ids else ids)
          | Exn.Throw e => Exn.Throw e
          end
      | Exn.Throw e => Exn.Throw e
      end
  end.

Record OpencodeLocalConfig := mkOpencodeConfig {
  providers : Js.JsValue;
  opencode_model : option string;
  hasAuth : bool
}.

(** One of the two [try] blocks that read an auth file, on the
    variables [providers] and [hasAuth]: [providers] is assigned as soon
    as the file is parsed, [hasAuth] only if [some] returns. *)
Definition read_auth (file : File Js.JsValue) (vars : Js.JsValue * bool)
  : Js.JsValue * bool :=
  match file with
  | Parsed authConfig =>
      match any_credential authConfig with
      | Exn.Val found => (authConfig, found)
      | Exn.Throw _ => (authConfig, snd vars)
      end
  | _ => vars
  end.

(** The [try] block that reads the settings: [settings.model] throws on
    [null], which is caught. *)
Definition read_model (settings : File Js.JsValue) : option string :=
  match settings with
  | Parsed v =>
      if nullish v then None
      else match property "model" v with
           | Js.JsStr m => if Js.nonempty m then Some m else None
           | _ => None
           end
  | _ => None
  end.

(** [readOpencodeLocalConfig] on the three files it looks at: the auth
    file of the data directory, the legacy auth file, and the
    settings. *)
Definition readOpencodeLocalConfig (auth legacy settings : File Js.JsValue)
  : OpencodeLocalConfig :=
  let vars := (Js.JsObj [], false) in
  let vars := read_auth auth vars in
  let vars := if negb (snd vars) then read_auth legacy vars else vars in
  mkOpencodeConfig (fst vars) (read_model settings) (snd vars).

Definition isOpencodeAuthenticated (auth legacy settings : File Js.JsValue)
  : bool :=
  hasAuth (readOpencodeLocalConfig auth legacy settings).

(** [getConfiguredProviders]: nothing catches what [Object.keys] or the
    callback of [filter] throws. *)
Definition getConfiguredProviders (auth legacy settings : File Js.JsValue)
  : Exn.Res (list string) :=
  let config := readOpencodeLocalConfig auth legacy settings in
  match entries (providers config) with
  | Exn.Val es => with_credential es
  | Exn.Throw e => Exn.Throw e
  end.

(** A value of [providers] on which [getConfiguredProviders] finds
    nothing to throw at: it is not [null], and none of its entries
    is. *)
Definition entries_present (v : Js.JsValue) : bool :=
  match entries v with
  | Exn.Val es => forallb (fun e => negb (nullish (snd e))) es
  | Exn.Throw _ => false
  end.

Definition determineOpencodeModel (env : option string) (explicitModel : Explicit)
  (localConfig : OpencodeLocalConfig) : string * list LogLine :=
  determineModel "OpenCode" OPENCODE_MODEL_ENV OpencodeTypes.DEFAULT_OPENCODE_MODEL
    env explicitModel (opencode_model localConfig).

Definition getInitialOpencodeModel (env : option string)
  (localConfig : OpencodeLocalConfig) : string :=
  getInitialModel OpencodeTypes.DEFAULT_OPENCODE_MODEL env
    (opencode_model localConfig).

End Config.

(* ================================================================= *)
(** ** opencode/opencodeClient.ts: the reader of [subscribeToEvents] *)

Module Sse.

Import Exn.

Section Reader.

Variables S Ev : Type.

(** [JSON.parse]; [None] when it throws. *)
Variable JSON_parse : string -> option Ev.
Variable onEvent : Ev -> M S unit.

(** [line.slice(6)] *)
Definition slice6 (line : string) : string :=
  substring 6 (String.length line - 6) line.

(** The body of the [for (const line of lines)] loop. *)
Definition on_line (line : string) : M S unit :=
  if String.prefix "data: " line
  then try_catch
         (match JSON_parse (slice6 line) with
          | Some data => onEvent data
          | None => throw (Js.JsError "SyntaxError")
          end)
         (fun _ => ret tt)
  else ret tt.

(** One round of the [while] loop with a chunk read; the result is the
    new value of [buffer]. *)
Definition read (buffer chunk : string) : M S string :=
  let buffer := (buffer ++ chunk)%string in
  let (popped, lines) := Js.pop (Js.split Js.LF buffer) in
  let buffer := Js.or_else popped "" in
  (for_of lines on_line ;; ret buffer)%js.

(** The [while] loop on the chunks of a stream that ends: [done] makes
    it [break], and what is left in [buffer] is dropped. *)
Fixpoint read_loop (buffer : string) (chunks : list string) : M S unit :=
  match chunks with
  | [] => ret tt
  | chunk :: rest => (buffer <- read buffer chunk ;; read_loop buffer rest)%js
  end.

Definition subscribeToEvents_body (chunks : list string) : M S unit :=
  read_loop "" chunks.

End Reader.

(** The whole text of a stream. *)
Definition whole (chunks : list string) : string :=
  fold_right append EmptyString chunks.

End Sse.

(* ================================================================= *)
(** ** The opencode backend under the methods that [runOpencode] calls *)

Module OpencodeOps.

Import Agent Exn.

Section Ops.

Variable U : Type.
Variable JSON_stringify : Js.JsValue -> string.
Variable randomUUID : nat -> string.

Local Notation "'Backend'" := (OpencodeBackend.OpencodeBackend U).

Inductive Op :=
| OpEvent (e : OpencodeBackend.Event)
| OpSetPermissionMode (mode : PermissionMode)
| OpSetModel (model : string)
| OpRespondToPermission (requestId : string) (approved : bool)
| OpOnMessage (handler : AgentMessageHandler U)
| OpOffMessage (handler : AgentMessageHandler U).

Definition apply (op : Op) : M Backend unit :=
  match op with
  | OpEvent e => OpencodeBackend.step JSON_stringify randomUUID e
  | OpSetPermissionMode mode => OpencodeBackend.setPermissionMode mode
  | OpSetModel model => OpencodeBackend.setModel model
  | OpRespondToPermission id approved =>
      OpencodeBackend.respondToPermission id approved
  | OpOnMessage h => OpencodeBackend.onMessage h
  | OpOffMessage h => OpencodeBackend.offMessage h
  end.

Definition run_ops (ops : list Op) (b : Backend) : Backend :=
  fold_left (fun b op => exec (apply op) b) ops b.

(** The messages emitted from state [b] on, after [ops]. *)
Definition trace_ops (ops : list Op) (b : Backend) : list AgentMessage :=
  skipn (length (emitted (OpencodeBackend.world b)))
    (emitted (OpencodeBackend.world (run_ops ops b))).

(** The calls of [cancel] among the operations. *)
Definition is_cancel (op : Op) : bool :=
  match op with
  | OpEvent OpencodeBackend.CallCancel => true
  | _ => false
  end.

(** A backend on which [startSession] has not been called: it has no
    session, and no request in flight. *)
Definition sessionless (b : Backend) : Prop :=
  Js.truthy (OpencodeBackend.opencodeSessionId b) = false
  /\ OpencodeBackend.awaiting b = [].

Definition stopped_for (op : Op) : list AgentMessage :=
  if is_cancel op then [Status StStopped None] else [].

End Ops.

End OpencodeOps.

(* ================================================================= *)
(** ** From an incoming message to the droid backend *)

Module Wiring.

Import Agent.

(** The call on the droid backend that [onUserMessage] makes for an
    override. *)
Definition setting_op {U} (c : Inbox.SettingCall) : DroidOps.Op U :=
  match c with
  | Inbox.SetPermissionMode mode => DroidOps.OpSetPermissionMode U mode
  | Inbox.SetModel model => DroidOps.OpSetModel U model
  end.

(** The overrides that a message asks for. *)
Definition mode_calls (m : Inbox.UserMessage) : list Inbox.SettingCall :=
  match Inbox.requested_mode m with
  | Some mode => [Inbox.SetPermissionMode mode]
  | None => []
  end.

Definition model_calls (m : Inbox.UserMessage) : list Inbox.SettingCall :=
  match Inbox.meta m with
  | Some mt =>
      match Inbox.meta_model mt with
      | Inbox.ModelGiven model =>
          if Js.nonempty model then [Inbox.SetModel model] else []
      | _ => []
      end
  | None => []
  end.

Definition calls_for (ms : list Inbox.UserMessage) : list Inbox.SettingCall :=
  flat_map (fun m => mode_calls m ++ model_calls m) ms.

End Wiring.

(* ================================================================= *)
(** ** What a computation of the droid backend emits, and what it
       leaves alone *)

Module Emission.

Import Agent Exn.

Definition is_status (msg : AgentMessage) : bool :=
  match msg with
  | Status _ _ => true
  | _ => false
  end.

Definition is_permission_request (msg : AgentMessage) : bool :=
  match msg with
  | PermissionRequest _ _ _ => true
  | _ => false
  end.

(** The messages that report what the agent did, as opposed to the
    state of the turn. *)
Definition is_report (msg : AgentMessage) : bool :=
  negb (is_status msg) && negb (is_permission_request msg).

Section Frame.

Variable U : Type.

(** A computation all of whose emitted messages satisfy [P]. *)
Definition emits_only (P : AgentMessage -> bool) {A}
  (m : M (DroidBackend.DroidBackend U) A) : Prop :=
  forall b, exists ms,
    emitted (DroidBackend.world (snd (m b)))
    = emitted (DroidBackend.world b) ++ ms
    /\ forallb P ms = true.

(** A computation that leaves the registered handlers as they are. *)
Definition keeps_handlers {A} (m : M (DroidBackend.DroidBackend U) A) : Prop :=
  forall b,
    DroidBackend.messageHandlers (snd (m b)) = DroidBackend.messageHandlers b.

End Frame.

(** A message that adds to the text the driver accumulates. *)
Definition carries_delta (msg : AgentMessage) : bool :=
  match msg with
  | ModelOutput textDelta _ => Js.truthy textDelta
  | _ => false
  end.

(** A report with no text delta. *)
Definition is_plain_report (msg : AgentMessage) : bool :=
  is_report msg && negb (carries_delta msg).

(** A computation of the opencode backend with the driver's callback
    as its one handler: the messages it emits all satisfy [P], and the
    driver's state is what the callback makes of them, in order. *)
Definition relays (P : AgentMessage -> bool) {A}
  (m : M (OpencodeBackend.OpencodeBackend Driver.Driver) A) : Prop :=
  forall b,
    OpencodeBackend.messageHandlers b = [Driver.handler Driver.FlOpencode] ->
    exists ms,
      emitted (OpencodeBackend.world (snd (m b)))
      = emitted (OpencodeBackend.world b) ++ ms
      /\ user (OpencodeBackend.world (snd (m b)))
         = Inbox.feed Driver.FlOpencode ms (user (OpencodeBackend.world b))
      /\ OpencodeBackend.messageHandlers (snd (m b))
         = [Driver.handler Driver.FlOpencode]
      /\ OpencodeBackend.awaiting (snd (m b)) = OpencodeBackend.awaiting b
      /\ forallb P ms = true.

(** The same for the droid backend and its driver. *)
Definition carries {A}
  (m : M (DroidBackend.DroidBackend Driver.Driver) A) : Prop :=
  forall b,
    DroidBackend.messageHandlers b = [Driver.handler Driver.FlDroid] ->
    exists ms,
      emitted (DroidBackend.world (snd (m b)))
      = emitted (DroidBackend.world b) ++ ms
      /\ user (DroidBackend.world (snd (m b)))
         = Inbox.feed Driver.FlDroid ms (user (DroidBackend.world b))
      /\ calls (DroidBackend.world (snd (m b)))
         = calls (DroidBackend.world b)
           ++ map (fun msg => (hid (Driver.handler Driver.FlDroid), msg)) ms
      /\ DroidBackend.messageHandlers (snd (m b))
         = [Driver.handler Driver.FlDroid].


(** The methods that change the list of handlers. *)
Definition rewires (op : DroidOps.Op Driver.Driver) : bool :=
  match op with
  | DroidOps.OpOnMessage _ | DroidOps.OpOffMessage _ | DroidOps.OpDispose _ => true
  | _ => false
  end.

End Emission.

(* ================================================================= *)
(** ** droid/runDroid.ts: the driver together with its backend

    The variables that the callbacks of [runDroid] close over are the
    state that the handler registered with [onMessage] acts on, so a
    call on the backend that emits a message changes them before it
    returns. *)

Module RunDroid.

Import Agent Exn.

Section Run.

Variable FACTORY_API_KEY_ENV : string.
Variable JSON_parse : string -> option DroidTypes.DroidStreamEvent.
Variable JSON_stringify : Js.JsValue -> string.

Local Notation "'Backend'" := (DroidBackend.DroidBackend Driver.Driver).

(** A piece of the driver's own code, run where the backend is. *)
Definition on_driver {A} (m : M Driver.Driver A) : M Backend A :=
  zoom (fun b : Backend => user (DroidBackend.world b))
    (fun d b => DroidBackend.set_world (set_user d (DroidBackend.world b)) b) m.

(** [handleAbort].  [DroidBackend.cancel] has no [await]: it is over,
    [stopped] emitted and handled, when the call returns. *)
Definition handleAbort : M Backend unit :=
  (on_driver (Driver.handleAbort Driver.FlDroid) ;;
   try_catch
     (DroidBackend.cancel (U:=Driver.Driver) ;;
      on_driver
        (modify (Driver.add_log
                   (LogText (Driver.tag Driver.FlDroid ++ " Abort completed")))))
     (fun error =>
        on_driver
          (modify (Driver.add_log
                     (LogExn (Driver.tag Driver.FlDroid ++ " Error during abort:")
                        error)))))%js.

(** The callback of [setInterval(..., 2000)]. *)
Definition keepAliveInterval : M Backend unit :=
  on_driver Driver.keepAlive.

(** What happens to a running session: an event of the backend, a tick
    of the keep-alive timer, an abort request from the session. *)
Inductive Event :=
| OfBackend (e : DroidBackend.Event)
| Tick
| Abort.

Definition step (ev : Event) : M Backend unit :=
  match ev with
  | OfBackend e =>
      DroidBackend.step FACTORY_API_KEY_ENV JSON_parse JSON_stringify e
  | Tick => keepAliveInterval
  | Abort => handleAbort
  end.

Definition run (evs : list Event) (b : Backend) : Backend :=
  fold_left (fun b ev => exec (step ev) b) evs b.


End Run.

End RunDroid.

(* ================================================================= *)
(** ** opencode/runOpencode.ts: the driver together with its backend *)

Module RunOpencode.

Import Agent Exn.

Section Run.

Variable JSON_stringify : Js.JsValue -> string.
Variable randomUUID : nat -> string.

Local Notation "'Backend'" := (OpencodeBackend.OpencodeBackend Driver.Driver).

Definition on_driver {A} (m : M Driver.Driver A) : M Backend A :=
  zoom (fun b : Backend => user (OpencodeBackend.world b))
    (fun d b => OpencodeBackend.set_world (set_user d (OpencodeBackend.world b)) b)
    m.

Definition abort_completed : M Backend unit :=
  on_driver
    (modify (Driver.add_log
               (LogText (Driver.tag Driver.FlOpencode ++ " Abort completed")))).

(** [handleAbort] up to the [await] inside [OpencodeBackend.cancel]:
    with a session the abort request is posted and awaited; without one
    [cancel] runs to its end, [stopped] emitted and handled. *)
Definition handleAbort : M Backend unit :=
  (on_driver (Driver.handleAbort Driver.FlOpencode) ;;
   b <- get ;;
   OpencodeBackend.cancel_call (U:=Driver.Driver) ;;
   if Js.truthy (OpencodeBackend.opencodeSessionId b)
   then ret tt
   else abort_completed)%js.

(** [handleAbort] once the abort request [rid] is answered: the rest
    of [cancel], then the end of the [try], or the [catch] if the
    request was rejected. *)
Definition handleAbort_resume (rid : nat) (abort : Res bool) : M Backend unit :=
  (b <- get ;;
   if existsb (Nat.eqb rid) (OpencodeBackend.awaiting b)
   then try_catch
          (OpencodeBackend.abort_answered rid abort ;; abort_completed)
          (fun error =>
             on_driver
               (modify (Driver.add_log
                          (LogExn (Driver.tag Driver.FlOpencode
                                   ++ " Error during abort:") error))))
   else ret tt)%js.

(** The callback of [setInterval(..., 2000)]. *)
Definition keepAliveInterval : M Backend unit :=
  on_driver Driver.keepAlive.

Inductive Event :=
| OfBackend (e : OpencodeBackend.Event)
| Tick
| Abort
| AbortAnswered (rid : nat) (abort : Res bool).

Definition step (ev : Event) : M Backend unit :=
  match ev with
  | OfBackend e => OpencodeBackend.step JSON_stringify randomUUID e
  | Tick => keepAliveInterval
  | Abort => handleAbort
  | AbortAnswered rid abort => handleAbort_resume rid abort
  end.

Definition run (evs : list Event) (b : Backend) : Backend :=
  fold_left (fun b ev => exec (step ev) b) evs b.

End Run.

End RunOpencode.
(* ================================================================= *)
(** * Properties *)

(** ** Splitting and joining *)

Section SplitFacts.

Variable sep : ascii.

Lemma split_nonempty (s : string) : Js.split sep s <> [].
Proof.
  destruct s as [|c r]; simpl; [discriminate|].
  destruct (Ascii.eqb c sep); [discriminate|].
  destruct (Js.split sep r); discriminate.
Qed.

Lemma split_length (s : string) :
  length (Js.split sep s) = S (Js.count sep s).
Proof.
  induction s as [|c r IH]; simpl; [reflexivity|].
  destruct (Ascii.eqb c sep); simpl.
  - now rewrite IH.
  - destruct (Js.split sep r) as [|x xs] eqn:E.
    + now destruct (split_nonempty r).
    + simpl in *. exact IH.
Qed.

Lemma split_join (s : string) :
  Js.join (String sep EmptyString) (Js.split sep s) = s.
Proof.
  induction s as [|c r IH]; simpl; [reflexivity|].
  destruct (Ascii.eqb c sep) eqn:E.
  - apply Ascii.eqb_eq in E; subst c.
    destruct (Js.split sep r) as [|x xs] eqn:Er.
    + now destruct (split_nonempty r).
    + simpl. f_equal. exact IH.
  - destruct (Js.split sep r) as [|x xs] eqn:Er.
    + now destruct (split_nonempty r).
    + destruct xs; simpl in *; now rewrite <- IH.
Qed.

Lemma split_parts_no_sep (s p : string) :
  In p (Js.split sep s) -> Js.count sep p = 0.
Proof.
  revert p; induction s as [|c r IH]; simpl; intros p H.
  - destruct H as [<-|[]]; reflexivity.
  - destruct (Ascii.eqb c sep) eqn:E.
    + destruct H as [<-|H]; [reflexivity | now apply IH].
    + destruct (Js.split sep r) as [|x xs] eqn:Er.
      * destruct H as [<-|[]]; simpl; now rewrite E.
      * destruct H as [<-|H].
        -- simpl. rewrite E. apply IH. now left.
        -- apply IH. now right.
Qed.

End SplitFacts.

(** ** Model identifiers *)

Section ModelStrings.

Import OpencodeTypes.

Example parse_anthropic :
  parseModelString DEFAULT_OPENCODE_MODEL
  = Some (mkModel "anthropic" "claude-3-5-sonnet-20241022").
Proof. reflexivity. Qed.

Example parse_no_separator : parseModelString "gpt-4o" = None.
Proof. reflexivity. Qed.

Example parse_two_separators : parseModelString "openrouter/meta/llama" = None.
Proof. reflexivity. Qed.

Example parse_empty_sides : parseModelString "/" = Some (mkModel "" "").
Proof. reflexivity. Qed.

(** C10.  [parseModelString] returns a provider/model pair exactly when
    its input splits on ['/'] into exactly two parts, that is when the
    input holds exactly one separator, and returns [null] for every
    other input; whenever it returns a pair, the two parts hold no
    separator and [formatModelString] gives the input back. *)
Theorem parseModelString_formatModelString (s : string) :
  match parseModelString s with
  | Some m =>
      length (Js.split Js.slash s) = 2
      /\ Js.count Js.slash s = 1
      /\ Js.count Js.slash (providerID m) = 0
      /\ Js.count Js.slash (modelID m) = 0
      /\ formatModelString m = s
  | None =>
      length (Js.split Js.slash s) <> 2 /\ Js.count Js.slash s <> 1
  end.
Proof.
  unfold parseModelString.
  pose proof (split_length Js.slash s) as L.
  pose proof (split_join Js.slash s) as J.
  pose proof (split_parts_no_sep Js.slash s) as P.
  destruct (Js.split Js.slash s) as [|p [|m [|x xs]]]; simpl in L.
  - discriminate.
  - split; [discriminate | lia].
  - repeat split; try lia.
    + apply P; simpl; auto.
    + apply P; simpl; auto.
    + exact J.
  - split; [discriminate | lia].
Qed.

(** Composing a well-formed identifier and parsing it gives the two
    parts back. *)
Lemma parseModelString_compose (p m : string) :
  Js.count Js.slash p = 0 -> Js.count Js.slash m = 0 ->
  parseModelString (p ++ "/" ++ m) = Some (mkModel p m).
Proof.
  intros Hp Hm. unfold parseModelString.
  assert (Hs : forall q, Js.count Js.slash q = 0 -> Js.split Js.slash q = [q]).
  { induction q as [|c r IH]; simpl; [reflexivity|].
    destruct (Ascii.eqb c Js.slash); [discriminate|].
    intros H. now rewrite (IH H). }
  assert (Hsp : Js.split Js.slash (p ++ "/" ++ m) = [p; m]).
  { revert Hp. induction p as [|c r IH]; simpl.
    - intros _. now rewrite (Hs m Hm).
    - destruct (Ascii.eqb c Js.slash); [discriminate|].
      intros H. simpl in IH. now rewrite (IH H). }
  now rewrite Hsp.
Qed.

End ModelStrings.

(** ** The command line built by [DroidClient.buildArgs] *)

Section BuildArgs.

Import DroidTypes DroidClient ArgsLayout.

Variables FACTORY_API_KEY_ENV : string.

Lemma buildArgs_segments (this : DroidClient) (prompt : string)
  (o : DroidExecOptions) :
  buildArgs this prompt o
  = ["exec"; "-o"; format_name (match outputFormat o with
                                | Some f => f
                                | None => FmtJson
                                end)]
    ++ input_flag (inputFormat o)
    ++ auto_flag (auto o)
    ++ session_flag (sessionId o)
    ++ model_flag (model o) (defaultModel this)
    ++ trailing_args prompt o.
Proof.
  unfold buildArgs, input_flag, auto_flag, session_flag, model_flag,
    trailing_args, Js.truthy, Js.or_else.
  destruct o as [fmt inp au sid mdl cw us sm et fl]; simpl.
  destruct inp, au as [a|], sid as [s|], us, sm as [m|], et as [[|t ts]|],
    fl as [f|]; simpl;
    repeat match goal with
      | |- context [String.eqb ?x ""] => destruct (String.eqb x ""); simpl
      end;
    repeat rewrite <- app_assoc; reflexivity.
Qed.

Example buildArgs_default_mode :
  buildArgs (mkClient "fk-secret" "glm-4.6" "/work" None [] [] [])
    "list files"
    (with_outputFormat FmtStreamJson
       (mkOptions None false (permissionModeToAutoLevel Agent.PmDefault)
          None None None false None None None))
  = ["exec"; "-o"; "stream-json"; "-m"; "glm-4.6"; "list files"].
Proof. reflexivity. Qed.

Example buildArgs_yolo_continue :
  buildArgs (mkClient "fk-secret" "glm-4.6" "/work" None [] [] [])
    "go on"
    (with_outputFormat FmtStreamJson
       (mkOptions None false (permissionModeToAutoLevel Agent.PmYolo)
          (Some "sess-1") (Some "gpt-5") None false None None None))
  = ["exec"; "-o"; "stream-json"; "--auto"; "high"; "-s"; "sess-1";
     "-m"; "gpt-5"; "go on"].
Proof. reflexivity. Qed.

(** C7.  The argument list that [execStream] spawns [droid] with starts
    with [exec], asks for the [stream-json] output format, then holds
    in this order the input-format flag, the [--auto] flag (absent when
    no autonomy level is set, which is the case for the level mapped
    from the ['default'] permission mode), the [-s] flag (present iff
    the session id is a non-empty string), the [-m] flag with the
    explicit model or else the client's default, and the trailing
    arguments.  The list does not depend on the API key, which goes to
    the child through its environment only. *)
Theorem execStream_spawn_contract (this : DroidClient) (prompt : string)
  (o : DroidExecOptions) :
  let req := execStream_spawn FACTORY_API_KEY_ENV this prompt o in
  command req = "droid"
  /\ argv req
     = ["exec"; "-o"; "stream-json"]
       ++ input_flag (inputFormat o)
       ++ auto_flag (auto o)
       ++ session_flag (sessionId o)
       ++ model_flag (model o) (defaultModel this)
       ++ trailing_args prompt o
  /\ auto_flag (permissionModeToAutoLevel Agent.PmDefault) = []
  /\ (forall a, auto o = Some a -> auto_flag (auto o) = ["--auto"; auto_name a])
  /\ (session_flag (sessionId o) <> [] <-> Js.truthy (sessionId o) = true)
  /\ (forall key,
        argv (execStream_spawn FACTORY_API_KEY_ENV
                (mkClient key (defaultModel this) (defaultCwd this)
                   (currentProcess this) (procs this) (spawned this)
                   (signals this))
                prompt o)
        = argv req)
  /\ env req = [(FACTORY_API_KEY_ENV, apiKey this)].
Proof.
  cbv zeta. unfold execStream_spawn. cbn [command argv env].
  rewrite !buildArgs_segments.
  repeat split.
  - intros a ->. reflexivity.
  - destruct (sessionId o) as [s|]; simpl; [|congruence].
    destruct (String.eqb s ""); simpl; congruence.
  - destruct (sessionId o) as [s|]; simpl; [|discriminate].
    destruct (String.eqb s ""); simpl; [discriminate|]. discriminate.
  - intros key. rewrite buildArgs_segments. reflexivity.
Qed.

End BuildArgs.

(** ** Fan-out of a message to the registered handlers *)

Section Emit.

Import Agent Exn Delivery.

Variable U : Type.

Lemma deliver_one (tag : string) (msg : AgentMessage)
  (h : AgentMessageHandler U) (w : World U) :
  deliver tag msg h w
  = (Val tt,
     mkWorld (snd (run h msg (user w)))
       (debug w ++ failures tag [h] msg (user w))
       (emitted w)
       (calls w ++ [(hid h, msg)])).
Proof.
  destruct w as [u dbg em cs].
  unfold deliver, try_catch, invoke, bind, note_call, modify, zoom,
    logger_debug, set_user.
  cbn [user debug emitted calls failures].
  destruct (run h msg u) as [[[]|e] u']; cbn [snd fst];
    now rewrite ?app_nil_r.
Qed.

Lemma deliver_loop (tag : string) (msg : AgentMessage)
  (hs : list (AgentMessageHandler U)) (w : World U) :
  for_of hs (deliver tag msg) w
  = (Val tt,
     mkWorld (after_all hs msg (user w))
       (debug w ++ failures tag hs msg (user w))
       (emitted w)
       (calls w ++ map (fun h => (hid h, msg)) hs)).
Proof.
  revert w; induction hs as [|h rest IH]; intros w.
  - destruct w; simpl. unfold ret. now rewrite !app_nil_r.
  - cbn [for_of]. unfold bind. rewrite deliver_one, IH.
    cbn [user debug emitted calls after_all fold_left failures map].
    destruct (run h msg (user w)) as [[[]|e] u']; cbn [snd];
      now rewrite ?app_nil_r, <- ?app_assoc.
Qed.

(** [emit] in closed form: it returns, and the world it leaves is the
    one in which every handler has run in turn. *)
Lemma emit_fanout (tag : string)
  (hs : list (AgentMessageHandler U)) (msg : AgentMessage) (w : World U) :
  emit tag hs msg w
  = (Val tt,
     mkWorld (after_all hs msg (user w))
       (debug w ++ failures tag hs msg (user w))
       (emitted w ++ [msg])
       (calls w ++ map (fun h => (hid h, msg)) hs)).
Proof.
  unfold emit, bind, note_emit, modify.
  change (fun handler : AgentMessageHandler U =>
            try_catch (invoke handler msg)
              (fun e => logger_debug (LogExn (tag ++ " Handler error:") e)))
    with (deliver (U:=U) tag msg).
  rewrite deliver_loop. reflexivity.
Qed.

(** C9.  For every message and every list of registered handlers, [emit]
    returns normally, whatever the handlers do; every handler is invoked
    once with the message, in registration order, on the state that its
    predecessors left, also after one of them has thrown; and the log
    receives one line per throwing handler and nothing else. *)
Theorem emit_isolates_handlers (tag : string)
  (hs : list (AgentMessageHandler U)) (msg : AgentMessage) (w : World U) :
  let w' := exec (emit tag hs msg) w in
  outcome (emit tag hs msg) w = Val tt
  /\ calls w' = calls w ++ map (fun h => (hid h, msg)) hs
  /\ user w' = after_all hs msg (user w)
  /\ debug w' = debug w ++ failures tag hs msg (user w)
  /\ length (failures tag hs msg (user w)) <= length hs
  /\ emitted w' = emitted w ++ [msg].
Proof.
  cbv zeta. unfold outcome, exec. rewrite emit_fanout. cbn [fst snd].
  repeat split.
  generalize (user w). induction hs as [|h rest IH]; intros u; cbn [failures length].
  - apply Nat.le_refl.
  - destruct (run h msg u) as [[[]|e] u']; cbn [length].
    + apply Nat.le_trans with (length rest); [apply IH | apply Nat.le_succ_diag_r].
    + apply le_n_S, IH.
Qed.

(** The handlers registered after a throwing one are reached all the
    same: emitting to [hs1 ++ h :: hs2] ends as emitting to [hs2] does
    from the state left by [hs1] and [h]. *)
Lemma emit_reaches_the_rest (tag : string) (msg : AgentMessage)
  (hs1 hs2 : list (AgentMessageHandler U)) (h : AgentMessageHandler U)
  (w : World U) :
  calls (exec (emit tag (hs1 ++ h :: hs2) msg) w)
  = calls w ++ map (fun k => (hid k, msg)) hs1
    ++ (hid h, msg) :: map (fun k => (hid k, msg)) hs2.
Proof.
  unfold exec. rewrite emit_fanout. cbn [snd calls].
  now rewrite map_app.
Qed.

Lemma emit_outcome (tag : string) (hs : list (AgentMessageHandler U))
  (msg : AgentMessage) (w : World U) :
  outcome (emit tag hs msg) w = Val tt.
Proof. unfold outcome. now rewrite emit_fanout. Qed.

Lemma emit_emitted (tag : string) (hs : list (AgentMessageHandler U))
  (msg : AgentMessage) (w : World U) :
  emitted (exec (emit tag hs msg) w) = emitted w ++ [msg].
Proof. unfold exec. now rewrite emit_fanout. Qed.

End Emit.

(** Three handlers, the middle one throwing: the first and the third
    both count the message, and one line is logged. *)
Example emit_with_faulty_handler :
  let count := Agent.mkHandler 1 (fun _ => Exn.modify S) in
  let faulty := Agent.mkHandler 2 (fun _ => Exn.throw (Js.JsError "boom")) in
  Agent.emit "[droid]" [count; faulty; count]
    (Agent.Status Agent.StIdle None) (Agent.mkWorld 0 [] [] [])
  = (Exn.Val tt,
     Agent.mkWorld 2
       [Agent.LogExn "[droid] Handler error:" (Js.JsError "boom")]
       [Agent.Status Agent.StIdle None]
       [(1, Agent.Status Agent.StIdle None);
        (2, Agent.Status Agent.StIdle None);
        (1, Agent.Status Agent.StIdle None)]).
Proof. reflexivity. Qed.

(** ** The session drivers *)

Section DriverFacts.

Import Agent Exn Driver.

Variable flavor : Flavor.

Lemma sendReady_effect (d : Driver) :
  outcome (sendReady flavor) d = Val tt
  /\ session (exec (sendReady flavor) d) = session d ++ [SendSessionEvent_ready]
  /\ shouldExit (exec (sendReady flavor) d) = shouldExit d
  /\ thinking (exec (sendReady flavor) d) = thinking d
  /\ isResponseInProgress (exec (sendReady flavor) d) = isResponseInProgress d
  /\ messageQueue (exec (sendReady flavor) d) = messageQueue d.
Proof.
  unfold outcome, exec, sendReady, sendToAllDevices, bind, try_catch, modify,
    get, throw, ret.
  destruct d as [se th rip acc cpm q uu pe ss ps mb bk lg]; cbn.
  destruct pe; cbn; repeat split; reflexivity.
Qed.

(** C3.  [emitReadyIfIdle] returns [true] exactly when the four
    readiness conditions hold together: [shouldExit] is false, [thinking] is
    false, no response is in progress and the queue is empty.  In that
    case it sends one ready announcement to the session; in every other
    case, so while a prompt is queued or a response is streaming, it
    returns [false] and changes nothing. *)
Theorem emitReadyIfIdle_iff_idle (d : Driver) :
  let d' := exec (emitReadyIfIdle flavor) d in
  outcome (emitReadyIfIdle flavor) d = Val (ready_now d)
  /\ (ready_now d = true <->
      shouldExit d = false /\ thinking d = false
      /\ isResponseInProgress d = false /\ messageQueue d = [])
  /\ (if ready_now d
      then session d' = session d ++ [SendSessionEvent_ready]
      else d' = d)
  /\ ready_count (session d')
     = ready_count (session d) + (if ready_now d then 1 else 0).
Proof.
  cbv zeta.
  destruct (sendReady_effect d) as (Ho & Hs & _).
  unfold outcome, exec in *. unfold emitReadyIfIdle, ready_now, bind, get, ret, size.
  destruct (shouldExit d) eqn:E1; cbn [negb andb fst snd].
  { repeat split; try lia; intros; intuition congruence. }
  destruct (thinking d) eqn:E2; cbn [negb andb fst snd].
  { repeat split; try lia; intros; intuition congruence. }
  destruct (isResponseInProgress d) eqn:E3; cbn [negb andb fst snd].
  { repeat split; try lia; intros; intuition congruence. }
  destruct (messageQueue d) as [|i q] eqn:E4; cbn [length Nat.ltb Nat.leb Nat.eqb fst snd].
  - destruct (sendReady flavor d) as [[[]|e] d1]; cbn [fst snd] in *;
      [|discriminate].
    repeat split; auto.
    rewrite Hs. unfold ready_count. rewrite filter_app, length_app. reflexivity.
  - repeat split; try lia; intros; intuition congruence.
Qed.


(** A terminal [idle] or [stopped] forwards the accumulated response
    when one is in progress and it is not blank. *)
Lemma onMessage_idle_forwards (d : Driver) (st : AgentStatus) (detail : option string) :
  st = StIdle \/ st = StStopped ->
  isResponseInProgress d = true ->
  Js.nonempty (Js.trim (accumulatedResponse d)) = true ->
  let d' := exec (onMessage flavor (Status st detail)) d in
  session d'
  = session d
    ++ [KeepAlive false;
        SendCodexMessage (Message (accumulatedResponse d) (uuids d));
        SendCodexMessage (TaskComplete (S (uuids d)))]
  /\ accumulatedResponse d' = ""
  /\ isResponseInProgress d' = false.
Proof.
  intros Hst Hrip Hacc.
  destruct d as [se th rip acc cpm q uu pe ss ps mb bk lg].
  cbn in Hrip, Hacc. subst rip.
  cbv zeta. unfold exec.
  destruct Hst; subst st; cbn; rewrite Hacc; cbn;
    repeat split; now rewrite <- !app_assoc.
Qed.

End DriverFacts.

Section PermissionRequests.

Import Agent Exn Driver.


End PermissionRequests.

(** ** Lines across chunks *)

Section LineFacts.

Variable sep : ascii.

Lemma split_no_sep (s : string) :
  Js.count sep s = 0 -> Js.split sep s = [s].
Proof.
  induction s as [|c r IH]; simpl; [reflexivity|].
  destruct (Ascii.eqb c sep); [discriminate|].
  intros H. now rewrite (IH H).
Qed.

Lemma split_app (a b : string) :
  Js.split sep (a ++ b)
  = removelast (Js.split sep a)
    ++ match Js.split sep b with
       | x :: xs => (last (Js.split sep a) EmptyString ++ x)%string :: xs
       | [] => []
       end.
Proof.
  induction a as [|c r IH]; simpl.
  - destruct (Js.split sep b) eqn:E; [now destruct (split_nonempty sep b)|].
    reflexivity.
  - destruct (Ascii.eqb c sep).
    + rewrite IH.
      destruct (Js.split sep r) as [|y ys] eqn:Er;
        [now destruct (split_nonempty sep r)|].
      reflexivity.
    + rewrite IH.
      destruct (Js.split sep r) as [|y ys] eqn:Er;
        [now destruct (split_nonempty sep r)|].
      destruct (Js.split sep b) as [|x xs] eqn:Eb;
        [now destruct (split_nonempty sep b)|].
      destruct ys as [|y' ys']; reflexivity.
Qed.

Lemma last_split_no_sep (s : string) :
  Js.count sep (last (Js.split sep s) EmptyString) = 0.
Proof.
  apply split_parts_no_sep with (s := s).
  pose proof (split_nonempty sep s) as N.
  destruct (Js.split sep s) as [|x xs]; [congruence|].
  clear N. revert x. induction xs as [|y ys IH]; intros x.
  - now left.
  - right. apply (IH y).
Qed.

(** Splitting a text is splitting its first part, then splitting its
    pending fragment followed by the rest. *)
Lemma split_resume (a b : string) :
  Js.split sep (a ++ b)
  = removelast (Js.split sep a)
    ++ Js.split sep (last (Js.split sep a) EmptyString ++ b).
Proof.
  rewrite (split_app a b).
  rewrite (split_app (last (Js.split sep a) EmptyString) b).
  rewrite (split_no_sep _ (last_split_no_sep a)). reflexivity.
Qed.

End LineFacts.

Lemma removelast_app_nonempty {A} (l1 l2 : list A) :
  l2 <> [] -> removelast (l1 ++ l2) = l1 ++ removelast l2.
Proof. intros H. now apply removelast_app. Qed.

Lemma last_app_nonempty {A} (l1 l2 : list A) (d : A) :
  l2 <> [] -> last (l1 ++ l2) d = last l2 d.
Proof.
  intros H. induction l1 as [|x l1 IH]; [reflexivity|].
  simpl. destruct (l1 ++ l2) eqn:E; [|exact IH].
  apply app_eq_nil in E. now destruct E.
Qed.

Lemma complete_app (a b : string) :
  Reader.complete (a ++ b)
  = Reader.complete a ++ Reader.complete (Reader.pending a ++ b).
Proof.
  unfold Reader.complete, Reader.pending.
  rewrite split_resume at 1.
  apply removelast_app_nonempty, split_nonempty.
Qed.

Lemma pending_app (a b : string) :
  Reader.pending (a ++ b) = Reader.pending (Reader.pending a ++ b).
Proof.
  unfold Reader.pending.
  rewrite split_resume at 1.
  apply last_app_nonempty, split_nonempty.
Qed.

Lemma pop_split (s : string) :
  Js.pop (Js.split Js.LF s) = (Some (Reader.pending s), Reader.complete s).
Proof.
  unfold Js.pop, Reader.pending, Reader.complete.
  pose proof (split_nonempty Js.LF s).
  destruct (Js.split Js.LF s); [congruence | reflexivity].
Qed.

Lemma append_empty_r (s : string) : (s ++ "")%string = s.
Proof. induction s as [|c s IH]; [reflexivity | cbn; now rewrite IH]. Qed.

Lemma append_assoc_s (a b c : string) :
  ((a ++ b) ++ c)%string = (a ++ (b ++ c))%string.
Proof. induction a as [|x a IH]; [reflexivity | cbn; now rewrite IH]. Qed.

(** A text without terminator, then one terminator: one complete line
    and nothing pending. *)
Lemma one_line (s : string) :
  Js.count Js.LF s = 0 ->
  Reader.complete (s ++ String Js.LF "") = [s]
  /\ Reader.pending (s ++ String Js.LF "") = EmptyString.
Proof.
  intros H. unfold Reader.complete, Reader.pending.
  rewrite split_app, (split_no_sep Js.LF s H). cbn.
  now rewrite append_empty_r.
Qed.

Lemma or_else_empty (s : string) : Js.or_else (Some s) "" = s.
Proof.
  unfold Js.or_else. destruct (String.eqb s "") eqn:E; [|reflexivity].
  apply String.eqb_eq in E. now subst.
Qed.

(** ** The stream reader of [execStream] *)

Section ReaderFacts.

Import Agent Exn DroidTypes Reader.

Variable U : Type.
Variable JSON_parse : string -> option DroidStreamEvent.
Variable JSON_stringify : Js.JsValue -> string.

Local Notation "'Backend'" := (DroidBackend.DroidBackend U).

Lemma set_client_same (b : Backend) :
  DroidBackend.set_client (DroidBackend.client b) b = b.
Proof. now destruct b. Qed.

Lemma blind_ret {A} (a : A) : client_blind (U:=U) (ret a).
Proof. intros b c. reflexivity. Qed.

Lemma blind_throw {A} (e : Js.JsExn) : client_blind (U:=U) (A:=A) (throw e).
Proof. intros b c. reflexivity. Qed.

Lemma blind_bind {A B} (m : M Backend A) (k : A -> M Backend B) :
  client_blind m -> (forall a, client_blind (k a)) -> client_blind (bind m k).
Proof.
  intros Hm Hk b c. unfold bind. rewrite Hm.
  destruct (m b) as [[a|e] b1]; cbn [fst snd]; [apply Hk | reflexivity].
Qed.

Lemma blind_try_catch {A} (m : M Backend A) (h : Js.JsExn -> M Backend A) :
  client_blind m -> (forall e, client_blind (h e)) -> client_blind (try_catch m h).
Proof.
  intros Hm Hh b c. unfold try_catch. rewrite Hm.
  destruct (m b) as [[a|e] b1]; cbn [fst snd]; [reflexivity | apply Hh].
Qed.

Lemma blind_emit (msg : AgentMessage) : client_blind (U:=U) (DroidBackend.emit msg).
Proof.
  intros b c. destruct b as [cl hs cs ds au pm ir w].
  unfold DroidBackend.emit, zoom, DroidBackend.set_client.
  cbn [DroidBackend.messageHandlers DroidBackend.world].
  destruct (emit "[droid]" hs msg w) as [r w1]. reflexivity.
Qed.

Lemma blind_log (l : LogLine) : client_blind (U:=U) (DroidBackend.log l).
Proof. intros b c. now destruct b. Qed.

Lemma blind_set_session (s : option string) :
  client_blind (U:=U) (modify (DroidBackend.set_droidSessionId s)).
Proof. intros b c. now destruct b. Qed.

Lemma blind_handleStreamEvent (ev : DroidStreamEvent) :
  client_blind (U:=U) (DroidBackend.handleStreamEvent JSON_stringify ev).
Proof.
  destruct ev as [sid tools mdl cwd|role text|id tn ps|id tid v|ft nt dm|];
    cbn [DroidBackend.handleStreamEvent].
  - repeat (apply blind_bind; [|intros _]);
      auto using blind_emit, blind_log, blind_set_session.
  - destruct role; auto using blind_emit, blind_ret.
  - apply blind_emit.
  - repeat (apply blind_bind; [|intros _]); try apply blind_emit.
    + destruct (DroidBackend.is_file_tool tid); auto using blind_emit, blind_ret.
    + destruct (String.eqb tid "Execute"); auto using blind_emit, blind_ret.
  - repeat (apply blind_bind; [|intros _]);
      auto using blind_emit, blind_log.
    destruct (Js.nonempty ft); auto using blind_emit, blind_ret.
  - apply blind_ret.
Qed.

Section WithCallback.

Variable onEvent : DroidStreamEvent -> M Backend unit.
Hypothesis onEvent_blind : forall ev, client_blind (onEvent ev).

Lemma blind_parse_and_deliver (text ft : string) :
  client_blind (DroidBackend.parse_and_deliver JSON_parse onEvent text ft).
Proof.
  unfold DroidBackend.parse_and_deliver.
  destruct (JSON_parse text) as [ev|]; [|apply blind_throw].
  apply blind_bind; [apply onEvent_blind | intros _; apply blind_ret].
Qed.

Lemma blind_each_line (lines : list string) (ft : string) :
  client_blind (DroidBackend.each_line JSON_parse onEvent lines ft).
Proof.
  revert ft; induction lines as [|line rest IH]; intros ft;
    cbn [DroidBackend.each_line]; [apply blind_ret|].
  destruct (Js.nonempty (Js.trim line)); [|apply IH].
  apply blind_bind; [|intros ft'; apply IH].
  apply blind_try_catch; [apply blind_parse_and_deliver|].
  intros e. apply blind_bind; [apply blind_log | intros _; apply blind_ret].
Qed.

End WithCallback.

(** The loop over the lines never throws, whatever the callback does:
    what a line throws is caught on that line. *)
Lemma each_line_returns (onEvent : DroidStreamEvent -> M Backend unit)
  (lines : list string) (ft : string) (b : Backend) :
  exists ft', fst (DroidBackend.each_line JSON_parse onEvent lines ft b) = Val ft'.
Proof.
  revert ft b; induction lines as [|line rest IH]; intros ft b;
    cbn [DroidBackend.each_line]; [now exists ft|].
  destruct (Js.nonempty (Js.trim line)); [|apply IH].
  unfold bind at 1. unfold try_catch.
  destruct (DroidBackend.parse_and_deliver JSON_parse onEvent line ft b)
    as [[ft1|e] b1].
  - apply IH.
  - unfold bind at 1. unfold DroidBackend.log, zoom, logger_debug, modify.
    cbn [fst snd]. unfold ret. apply IH.
Qed.

Lemma each_line_app (onEvent : DroidStreamEvent -> M Backend unit)
  (l1 l2 : list string) (ft : string) (b : Backend) :
  DroidBackend.each_line JSON_parse onEvent (l1 ++ l2) ft b
  = bind (DroidBackend.each_line JSON_parse onEvent l1 ft)
      (fun ft' => DroidBackend.each_line JSON_parse onEvent l2 ft') b.
Proof.
  revert ft b; induction l1 as [|line rest IH]; intros ft b.
  - reflexivity.
  - cbn [app DroidBackend.each_line].
    destruct (Js.nonempty (Js.trim line)); [|apply IH].
    unfold bind at 1 3 4.
    match goal with |- context [try_catch ?m ?h b] =>
      destruct (try_catch m h b) as [[ft1|e] b1] end.
    + rewrite IH. reflexivity.
    + reflexivity.
Qed.

End ReaderFacts.

Section ReaderContract.

Import Agent Exn DroidTypes Reader.

Variable U : Type.
Variable FACTORY_API_KEY_ENV : string.
Variable JSON_parse : string -> option DroidStreamEvent.
Variable JSON_stringify : Js.JsValue -> string.

Local Notation "'Backend'" := (DroidBackend.DroidBackend U).
Local Notation "'handle'" := (DroidBackend.handleStreamEvent (U:=U) JSON_stringify).
Local Notation "'step'" :=
  (DroidBackend.step (U:=U) FACTORY_API_KEY_ENV JSON_parse JSON_stringify).
Local Notation "'run'" :=
  (DroidBackend.run (U:=U) FACTORY_API_KEY_ENV JSON_parse JSON_stringify).

Lemma emit_returns (msg : AgentMessage) (b : Backend) :
  fst (DroidBackend.emit msg b) = Val tt.
Proof.
  unfold DroidBackend.emit, zoom.
  rewrite emit_fanout. reflexivity.
Qed.

Lemma emit_then {A} (msg : AgentMessage) (k : M Backend A) (b : Backend) :
  bind (DroidBackend.emit msg) (fun _ => k) b = k (snd (DroidBackend.emit msg b)).
Proof.
  unfold bind. pose proof (emit_returns msg b) as H.
  destruct (DroidBackend.emit msg b) as [[[]|e] b1]; cbn in H; [reflexivity|discriminate].
Qed.

(** [handleStreamEvent] never throws. *)
Lemma handleStreamEvent_returns (ev : DroidStreamEvent) (b : Backend) :
  fst (handle ev b) = Val tt.
Proof.
  destruct ev as [sid tools mdl cwd|role text|id tn ps|id tid v|ft nt dm|];
    cbn [DroidBackend.handleStreamEvent].
  - unfold bind at 1. unfold modify. rewrite emit_then. reflexivity.
  - destruct role; [reflexivity | apply emit_returns].
  - apply emit_returns.
  - rewrite emit_then.
    destruct (DroidBackend.is_file_tool tid).
    + rewrite emit_then.
      destruct (String.eqb tid "Execute"); [apply emit_returns | reflexivity].
    + unfold bind, ret.
      destruct (String.eqb tid "Execute"); [apply emit_returns | reflexivity].
  - destruct (Js.nonempty ft).
    + rewrite !emit_then. reflexivity.
    + unfold bind at 1. unfold ret. rewrite emit_then. reflexivity.
  - reflexivity.
Qed.

Lemma data_unfold (onEvent : DroidStreamEvent -> M Backend unit)
  (pid : nat) (data : string) (b : Backend) (p : DroidClient.Proc) :
  DroidBackend.get_proc pid b = Some p ->
  DroidBackend.execStream_data JSON_parse pid data onEvent b
  = bind (DroidBackend.each_line JSON_parse onEvent
            (complete (DroidClient.buffer p ++ data)) (DroidClient.finalText p))
      (fun ft =>
         DroidBackend.put_proc pid
           (DroidClient.mkProc (pending (DroidClient.buffer p ++ data)) ft
              (DroidClient.stderr p) (DroidClient.settled p))) b.
Proof.
  intros H. unfold DroidBackend.execStream_data.
  unfold bind at 1. unfold get. rewrite H, pop_split, or_else_empty.
  reflexivity.
Qed.

Lemma set_nth_twice {A} (n : nat) (x y : A) (l : list A) :
  DroidClient.set_nth n x (DroidClient.set_nth n y l) = DroidClient.set_nth n x l.
Proof.
  revert n; induction l as [|z l IH]; intros [|n]; simpl; try reflexivity.
  now rewrite IH.
Qed.

Lemma nth_error_set_nth {A} (n : nat) (x y : A) (l : list A) :
  nth_error l n = Some y -> nth_error (DroidClient.set_nth n x l) n = Some x.
Proof.
  revert n; induction l as [|z l IH]; intros [|n]; simpl; try discriminate.
  - reflexivity.
  - apply IH.
Qed.

(** Two reads give what one read of the joined chunks gives. *)
Lemma data_twice (onEvent : DroidStreamEvent -> M Backend unit)
  (pid : nat) (c1 c2 : string) (b : Backend) (p : DroidClient.Proc) :
  (forall ev, client_blind (onEvent ev)) ->
  DroidBackend.get_proc pid b = Some p ->
  exec (DroidBackend.execStream_data JSON_parse pid c2 onEvent)
    (exec (DroidBackend.execStream_data JSON_parse pid c1 onEvent) b)
  = exec (DroidBackend.execStream_data JSON_parse pid (c1 ++ c2) onEvent) b.
Proof.
  intros Hblind Hp. unfold exec.
  rewrite (data_unfold onEvent pid (c1 ++ c2) b Hp).
  rewrite (data_unfold onEvent pid c1 b Hp).
  assert (Hc : (DroidClient.buffer p ++ (c1 ++ c2)
                = (DroidClient.buffer p ++ c1) ++ c2)%string).
  { generalize (DroidClient.buffer p). intros s.
    induction s as [|ch s IH]; simpl; [reflexivity | now rewrite IH]. }
  set (buf1 := pending (DroidClient.buffer p ++ c1)).
  set (l1 := complete (DroidClient.buffer p ++ c1)).
  set (l2 := complete (buf1 ++ c2)).
  assert (El : complete (DroidClient.buffer p ++ (c1 ++ c2)) = l1 ++ l2).
  { rewrite Hc. apply complete_app. }
  assert (Eb : pending (DroidClient.buffer p ++ (c1 ++ c2)) = pending (buf1 ++ c2)).
  { rewrite Hc. apply pending_app. }
  rewrite El, Eb. clear El Eb Hc.
  unfold bind at 2. rewrite each_line_app.
  unfold bind.
  destruct (each_line_returns JSON_parse onEvent l1 (DroidClient.finalText p) b)
    as [ft1 E1].
  pose proof (blind_each_line JSON_parse onEvent Hblind l1 (DroidClient.finalText p)) as F1.
  destruct (DroidBackend.each_line JSON_parse onEvent l1 (DroidClient.finalText p) b)
    as [r1 b1] eqn:R1.
  cbn [fst] in E1. subst r1.
  assert (Hcl : DroidBackend.client b1 = DroidBackend.client b).
  { specialize (F1 b (DroidBackend.client b)).
    rewrite set_client_same, R1 in F1. cbn [fst snd] in F1.
    injection F1 as F1. rewrite F1 at 1. now destruct b1. }
  cbn [snd].
  set (p1 := DroidClient.mkProc buf1 ft1 (DroidClient.stderr p) (DroidClient.settled p)).
  set (c' := DroidClient.set_procs
               (DroidClient.set_nth pid p1 (DroidClient.procs (DroidBackend.client b1)))
               (DroidBackend.client b1)).
  assert (Hp1 : DroidBackend.get_proc pid (DroidBackend.set_client c' b1) = Some p1).
  { unfold DroidBackend.get_proc. destruct b1; cbn.
    cbn in Hcl. subst. apply nth_error_set_nth with (y := p). exact Hp. }
  change (snd (DroidBackend.put_proc pid p1 b1))
    with (DroidBackend.set_client c' b1).
  rewrite (data_unfold onEvent pid c2 _ Hp1).
  subst p1. cbn [DroidClient.buffer DroidClient.finalText DroidClient.stderr
                 DroidClient.settled].
  fold l2. unfold bind.
  pose proof (blind_each_line JSON_parse onEvent Hblind l2 ft1) as F2.
  rewrite (F2 b1 c').
  destruct (each_line_returns JSON_parse onEvent l2 ft1 b1) as [ft2 E2].
  destruct (DroidBackend.each_line JSON_parse onEvent l2 ft1 b1) as [r2 b2] eqn:R2.
  cbn [fst] in E2. subst r2. cbn [fst snd].
  assert (Hcl2 : DroidBackend.client b2 = DroidBackend.client b1).
  { specialize (F2 b1 (DroidBackend.client b1)).
    rewrite set_client_same, R2 in F2. cbn [fst snd] in F2.
    injection F2 as F2. rewrite F2 at 1. now destruct b2. }
  unfold DroidBackend.put_proc, DroidBackend.with_client, modify. cbn [snd].
  destruct b2 as [cl2 hs2 cs2 ds2 au2 pm2 ir2 w2]. cbn in Hcl2. subst cl2.
  unfold DroidBackend.set_client. cbn. f_equal.
  subst c'. unfold DroidClient.set_procs. cbn. f_equal.
  apply set_nth_twice.
Qed.

End ReaderContract.

Section ReaderTheorem.

Import Agent Exn DroidTypes Reader.

Variable U : Type.
Variable FACTORY_API_KEY_ENV : string.
Variable JSON_parse : string -> option DroidStreamEvent.
Variable JSON_stringify : Js.JsValue -> string.

Local Notation "'Backend'" := (DroidBackend.DroidBackend U).
Local Notation "'handle'" := (DroidBackend.handleStreamEvent (U:=U) JSON_stringify).
Local Notation "'step'" :=
  (DroidBackend.step (U:=U) FACTORY_API_KEY_ENV JSON_parse JSON_stringify).
Local Notation "'run'" :=
  (DroidBackend.run (U:=U) FACTORY_API_KEY_ENV JSON_parse JSON_stringify).

Lemma no_terminator (s : string) :
  Js.count Js.LF s = 0 -> complete s = [] /\ pending s = s.
Proof.
  intros H. unfold complete, pending.
  now rewrite (split_no_sep Js.LF s H).
Qed.

(** A line that does not parse is logged and the loop goes on. *)
Lemma each_line_skips (onEvent : DroidStreamEvent -> M Backend unit)
  (line : string) (rest : list string) (ft : string) (b : Backend) :
  Js.nonempty (Js.trim line) = true ->
  JSON_parse line = None ->
  DroidBackend.each_line JSON_parse onEvent (line :: rest) ft b
  = DroidBackend.each_line JSON_parse onEvent rest ft
      (exec (DroidBackend.log
               (LogText ("[droid] Failed to parse event: " ++ substring 0 100 line)))
         b).
Proof.
  intros Hn Hp. cbn [DroidBackend.each_line]. rewrite Hn.
  unfold bind at 1. unfold try_catch, DroidBackend.parse_and_deliver.
  rewrite Hp. reflexivity.
Qed.

(** A line that parses is handed to the callback, then the loop goes on. *)
Lemma each_line_delivers (line : string) (rest : list string) (ft : string)
  (ev : DroidStreamEvent) (b : Backend) :
  Js.nonempty (Js.trim line) = true ->
  JSON_parse line = Some ev ->
  DroidBackend.each_line JSON_parse handle (line :: rest) ft b
  = DroidBackend.each_line JSON_parse handle rest
      (match ev with EvCompletion t _ _ => t | _ => ft end)
      (exec (handle ev) b).
Proof.
  intros Hn Hp. cbn [DroidBackend.each_line]. rewrite Hn.
  unfold bind at 1. unfold try_catch, DroidBackend.parse_and_deliver.
  rewrite Hp. unfold bind, exec.
  pose proof (handleStreamEvent_returns JSON_stringify ev b) as H.
  destruct (handle ev b) as [[[]|e] b1]; cbn in H; [reflexivity | discriminate].
Qed.

(** At exit, a pending fragment that is blank or does not parse is
    dropped without a trace; the promise settles by the exit code. *)
Lemma close_drops_fragment (onEvent : DroidStreamEvent -> M Backend unit)
  (pid : nat) (code : option Z) (b : Backend) (p : DroidClient.Proc) :
  DroidBackend.get_proc pid b = Some p ->
  Js.nonempty (Js.trim (DroidClient.buffer p)) = false
  \/ JSON_parse (DroidClient.buffer p) = None ->
  DroidBackend.execStream_close JSON_parse pid code onEvent b
  = (Val (if DroidClient.settled p then None
          else Some (exit_outcome code (DroidClient.finalText p)
                       (DroidClient.stderr p))),
     exec (DroidBackend.put_proc pid
             (DroidClient.mkProc (DroidClient.buffer p) (DroidClient.finalText p)
                (DroidClient.stderr p) true))
       (exec (DroidBackend.with_client (DroidClient.set_currentProcess None)) b)).
Proof.
  intros Hp Hfrag. unfold DroidBackend.execStream_close.
  unfold bind at 1. unfold get. rewrite Hp.
  unfold bind at 1. unfold DroidBackend.with_client at 1. unfold modify at 1.
  assert (Hft :
    (if Js.nonempty (Js.trim (DroidClient.buffer p))
     then try_catch
            (DroidBackend.parse_and_deliver JSON_parse onEvent
               (DroidClient.buffer p) (DroidClient.finalText p))
            (fun _ => ret (DroidClient.finalText p))
     else ret (DroidClient.finalText p))
    = (ret (DroidClient.finalText p) : M Backend string)).
  { destruct Hfrag as [Hb|Hn].
    - now rewrite Hb.
    - destruct (Js.nonempty (Js.trim (DroidClient.buffer p))); [|reflexivity].
      unfold try_catch, DroidBackend.parse_and_deliver. now rewrite Hn. }
  rewrite Hft. unfold bind at 1. unfold ret at 1.
  cbn [DroidClient.buffer DroidClient.finalText DroidClient.stderr
       DroidClient.settled].
  unfold exit_outcome, exec.
  destruct code as [[|z|z]|]; reflexivity.
Qed.

(** At exit, a pending fragment that parses is delivered first. *)
Lemma close_delivers_fragment (pid : nat) (code : option Z) (b : Backend)
  (p : DroidClient.Proc) (ev : DroidStreamEvent) :
  DroidBackend.get_proc pid b = Some p ->
  Js.nonempty (Js.trim (DroidClient.buffer p)) = true ->
  JSON_parse (DroidClient.buffer p) = Some ev ->
  let ft := match ev with EvCompletion t _ _ => t | _ => DroidClient.finalText p end in
  DroidBackend.execStream_close JSON_parse pid code handle b
  = (Val (if DroidClient.settled p then None
          else Some (exit_outcome code ft (DroidClient.stderr p))),
     exec (DroidBackend.put_proc pid
             (DroidClient.mkProc (DroidClient.buffer p) ft (DroidClient.stderr p) true))
       (exec (handle ev)
          (exec (DroidBackend.with_client (DroidClient.set_currentProcess None)) b))).
Proof.
  intros Hp Hn Hev ft. unfold DroidBackend.execStream_close.
  unfold bind at 1. unfold get. rewrite Hp.
  unfold bind at 1. unfold DroidBackend.with_client at 1. unfold modify at 1.
  rewrite Hn. unfold bind at 1. unfold try_catch, DroidBackend.parse_and_deliver.
  rewrite Hev. unfold bind at 1.
  match goal with |- context [handle ev ?s] =>
    pose proof (handleStreamEvent_returns JSON_stringify ev s) as H;
    destruct (handle ev s) as [[[]|e] b1] eqn:E; cbn in H; [|discriminate]
  end.
  unfold ret at 1.
  cbn [DroidClient.buffer DroidClient.finalText DroidClient.stderr
       DroidClient.settled].
  unfold exit_outcome, exec. fold ft.
  unfold DroidBackend.with_client, modify. cbn [snd]. rewrite E. cbn [snd].
  destruct code as [[|z|z]|]; reflexivity.
Qed.

Lemma data_outcome (onEvent : DroidStreamEvent -> M Backend unit)
  (pid : nat) (data : string) (b : Backend) :
  outcome (DroidBackend.execStream_data JSON_parse pid data onEvent) b = Val tt.
Proof.
  unfold outcome.
  destruct (DroidBackend.get_proc pid b) as [p|] eqn:Hp.
  - rewrite (data_unfold JSON_parse onEvent pid data b Hp). unfold bind.
    destruct (each_line_returns JSON_parse onEvent
                (complete (DroidClient.buffer p ++ data))
                (DroidClient.finalText p) b) as [ft E].
    destruct (DroidBackend.each_line JSON_parse onEvent _ _ b) as [r b1].
    cbn in E. subst r. reflexivity.
  - unfold DroidBackend.execStream_data, bind, get. now rewrite Hp.
Qed.

Lemma data_buffer (pid : nat) (data : string) (b : Backend) (p : DroidClient.Proc) :
  DroidBackend.get_proc pid b = Some p ->
  exists ft,
    DroidBackend.get_proc pid
      (exec (DroidBackend.execStream_data JSON_parse pid data handle) b)
    = Some (DroidClient.mkProc (pending (DroidClient.buffer p ++ data)) ft
              (DroidClient.stderr p) (DroidClient.settled p)).
Proof.
  intros Hp. unfold exec.
  rewrite (data_unfold JSON_parse handle pid data b Hp). unfold bind.
  set (ls := complete (DroidClient.buffer p ++ data)).
  destruct (each_line_returns JSON_parse handle ls (DroidClient.finalText p) b)
    as [ft E].
  pose proof (blind_each_line JSON_parse handle
                (blind_handleStreamEvent JSON_stringify) ls
                (DroidClient.finalText p) b (DroidBackend.client b)) as F.
  rewrite set_client_same in F.
  destruct (DroidBackend.each_line JSON_parse handle ls (DroidClient.finalText p) b)
    as [r b1].
  cbn [fst snd] in *. subst r. exists ft.
  injection F as F. unfold DroidBackend.get_proc in *.
  rewrite F. destruct b1; cbn.
  now apply nth_error_set_nth with (y := p).
Qed.

(** A read that brings the terminator of one line: the line, made of
    the buffered fragment and the chunk, goes through the loop and
    nothing stays in [buffer]. *)
Lemma data_one_line (pid : nat) (chunk : string) (b : Backend)
  (p : DroidClient.Proc) :
  DroidBackend.get_proc pid b = Some p ->
  Js.count Js.LF (DroidClient.buffer p ++ chunk) = 0 ->
  step (DroidBackend.Stdout pid (chunk ++ String Js.LF "")) b
  = bind (DroidBackend.each_line JSON_parse handle
            [(DroidClient.buffer p ++ chunk)%string] (DroidClient.finalText p))
      (fun ft =>
         DroidBackend.put_proc pid
           (DroidClient.mkProc "" ft (DroidClient.stderr p) (DroidClient.settled p)))
      b.
Proof.
  intros Hp Hn. cbn [DroidBackend.step].
  rewrite (data_unfold JSON_parse handle pid _ b Hp).
  rewrite <- append_assoc_s.
  destruct (one_line _ Hn) as [-> ->]. reflexivity.
Qed.

(** C4.  For a child whose stdout is being read: two reads leave the
    backend as one read of the two chunks joined does, the fragment
    after the last line terminator being kept in [buffer] between
    reads; a read without terminator delivers nothing and only extends
    [buffer]; a read hands the complete lines of the buffered fragment
    followed by the chunk, in order, to the loop over the lines, and
    keeps what follows the last terminator; so a read that brings the
    terminator of a line that parses delivers its record, and one that
    brings the terminator of a line that does not parse logs it, both
    leaving [buffer] empty; a read never throws; a complete line that
    does not parse is logged and the lines after it are processed, a
    line that parses is handed to the callback; when the child has
    gone, a pending
    fragment that is blank or does not parse is dropped without log
    line or event, one that parses is delivered, and in both cases the
    promise settles by the exit code alone. *)
Theorem execStream_reader_contract (b : Backend) (pid : nat)
  (p : DroidClient.Proc) :
  DroidBackend.get_proc pid b = Some p ->
  (forall c1 c2,
     run [DroidBackend.Stdout pid c1; DroidBackend.Stdout pid c2] b
     = run [DroidBackend.Stdout pid (c1 ++ c2)] b)
  /\ (forall data,
        exists ft,
          DroidBackend.get_proc pid (run [DroidBackend.Stdout pid data] b)
          = Some (DroidClient.mkProc (pending (DroidClient.buffer p ++ data)) ft
                    (DroidClient.stderr p) (DroidClient.settled p)))
  /\ (forall data,
        Js.count Js.LF (DroidClient.buffer p ++ data) = 0 ->
        run [DroidBackend.Stdout pid data] b
        = exec (DroidBackend.put_proc pid
                  (DroidClient.mkProc (DroidClient.buffer p ++ data)
                     (DroidClient.finalText p) (DroidClient.stderr p)
                     (DroidClient.settled p))) b)
  /\ (forall data,
        step (DroidBackend.Stdout pid data) b
        = bind (DroidBackend.each_line JSON_parse handle
                  (complete (DroidClient.buffer p ++ data))
                  (DroidClient.finalText p))
            (fun ft =>
               DroidBackend.put_proc pid
                 (DroidClient.mkProc (pending (DroidClient.buffer p ++ data)) ft
                    (DroidClient.stderr p) (DroidClient.settled p)))
            b)
  /\ (forall chunk ev,
        Js.count Js.LF (DroidClient.buffer p ++ chunk) = 0 ->
        Js.nonempty (Js.trim (DroidClient.buffer p ++ chunk)) = true ->
        JSON_parse (DroidClient.buffer p ++ chunk)%string = Some ev ->
        run [DroidBackend.Stdout pid (chunk ++ String Js.LF "")] b
        = exec (DroidBackend.put_proc pid
                  (DroidClient.mkProc ""
                     (match ev with
                      | EvCompletion t _ _ => t
                      | _ => DroidClient.finalText p
                      end)
                     (DroidClient.stderr p) (DroidClient.settled p)))
            (exec (handle ev) b))
  /\ (forall chunk,
        Js.count Js.LF (DroidClient.buffer p ++ chunk) = 0 ->
        Js.nonempty (Js.trim (DroidClient.buffer p ++ chunk)) = true ->
        JSON_parse (DroidClient.buffer p ++ chunk)%string = None ->
        run [DroidBackend.Stdout pid (chunk ++ String Js.LF "")] b
        = exec (DroidBackend.put_proc pid
                  (DroidClient.mkProc "" (DroidClient.finalText p)
                     (DroidClient.stderr p) (DroidClient.settled p)))
            (exec (DroidBackend.log
                     (LogText ("[droid] Failed to parse event: "
                               ++ substring 0 100 (DroidClient.buffer p ++ chunk))))
               b))
  /\ (forall data, outcome (step (DroidBackend.Stdout pid data)) b = Val tt)
  /\ (forall line rest ft b',
        Js.nonempty (Js.trim line) = true ->
        JSON_parse line = None ->
        DroidBackend.each_line JSON_parse handle (line :: rest) ft b'
        = DroidBackend.each_line JSON_parse handle rest ft
            (exec (DroidBackend.log
                     (LogText ("[droid] Failed to parse event: "
                               ++ substring 0 100 line))) b'))
  /\ (forall line rest ft ev b',
        Js.nonempty (Js.trim line) = true ->
        JSON_parse line = Some ev ->
        DroidBackend.each_line JSON_parse handle (line :: rest) ft b'
        = DroidBackend.each_line JSON_parse handle rest
            (match ev with EvCompletion t _ _ => t | _ => ft end)
            (exec (handle ev) b'))
  /\ (forall code,
        Js.nonempty (Js.trim (DroidClient.buffer p)) = false
        \/ JSON_parse (DroidClient.buffer p) = None ->
        DroidBackend.execStream_close JSON_parse pid code handle b
        = (Val (if DroidClient.settled p then None
                else Some (exit_outcome code (DroidClient.finalText p)
                             (DroidClient.stderr p))),
           exec (DroidBackend.put_proc pid
                   (DroidClient.mkProc (DroidClient.buffer p)
                      (DroidClient.finalText p) (DroidClient.stderr p) true))
             (exec (DroidBackend.with_client
                      (DroidClient.set_currentProcess None)) b)))
  /\ (forall code ev,
        Js.nonempty (Js.trim (DroidClient.buffer p)) = true ->
        JSON_parse (DroidClient.buffer p) = Some ev ->
        let ft := match ev with
                  | EvCompletion t _ _ => t
                  | _ => DroidClient.finalText p
                  end in
        DroidBackend.execStream_close JSON_parse pid code handle b
        = (Val (if DroidClient.settled p then None
                else Some (exit_outcome code ft (DroidClient.stderr p))),
           exec (DroidBackend.put_proc pid
                   (DroidClient.mkProc (DroidClient.buffer p) ft
                      (DroidClient.stderr p) true))
             (exec (handle ev)
                (exec (DroidBackend.with_client
                         (DroidClient.set_currentProcess None)) b)))).
Proof.
  intros Hp. repeat match goal with |- _ /\ _ => split end.
  - intros c1 c2. unfold DroidBackend.run. cbn [fold_left DroidBackend.step].
    apply (data_twice JSON_parse handle pid c1 c2 b
             (blind_handleStreamEvent JSON_stringify) Hp).
  - intros data. unfold DroidBackend.run. cbn [fold_left DroidBackend.step].
    now apply data_buffer.
  - intros data Hn. unfold DroidBackend.run. cbn [fold_left DroidBackend.step].
    unfold exec at 1. rewrite (data_unfold JSON_parse handle pid data b Hp).
    destruct (no_terminator _ Hn) as [-> ->]. reflexivity.
  - intros data. cbn [DroidBackend.step].
    apply (data_unfold JSON_parse handle pid data b Hp).
  - intros chunk ev Hn Hb Hev. unfold DroidBackend.run. cbn [fold_left].
    unfold exec at 1. rewrite (data_one_line pid chunk b Hp Hn).
    unfold bind at 1.
    rewrite (each_line_delivers [] (DroidClient.finalText p) b Hb Hev).
    reflexivity.
  - intros chunk Hn Hb Hev. unfold DroidBackend.run. cbn [fold_left].
    unfold exec at 1. rewrite (data_one_line pid chunk b Hp Hn).
    unfold bind at 1.
    rewrite (each_line_skips handle [] (DroidClient.finalText p) b Hb Hev).
    reflexivity.
  - intros data. cbn [DroidBackend.step]. apply data_outcome.
  - intros. now apply each_line_skips.
  - intros. now apply each_line_delivers.
  - intros code Hfrag. now apply close_drops_fragment.
  - intros code ev Hn Hev. now apply close_delivers_fragment.
Qed.

End ReaderTheorem.

(** The reader on the child of a first prompt. *)
Lemma execStream_reader_contract_sample :
  DroidBackend.get_proc 0 Sample.droid_reading
  = Some (DroidClient.mkProc "" "" "" false)
  /\ Exn.outcome
       (DroidBackend.step Sample.KEY Sample.parse Sample.stringify
          (DroidBackend.Stdout 0 "hel"))
       Sample.droid_reading
     = Exn.Val tt.
Proof.
  split; [reflexivity|].
  apply (execStream_reader_contract Sample.KEY Sample.parse Sample.stringify
           Sample.droid_reading 0 (p := DroidClient.mkProc "" "" "" false)
           eq_refl).
Defined.

(** ** Terminal statuses of the droid backend *)

Section DroidStatuses.

Import Agent Exn DroidTypes Reader.

Variable U : Type.
Variable FACTORY_API_KEY_ENV : string.
Variable JSON_parse : string -> option DroidStreamEvent.
Variable JSON_stringify : Js.JsValue -> string.

Local Notation "'Backend'" := (DroidBackend.DroidBackend U).
Local Notation "'handle'" := (DroidBackend.handleStreamEvent (U:=U) JSON_stringify).
Local Notation "'step'" :=
  (DroidBackend.step (U:=U) FACTORY_API_KEY_ENV JSON_parse JSON_stringify).
Local Notation "'run'" :=
  (DroidBackend.run (U:=U) FACTORY_API_KEY_ENV JSON_parse JSON_stringify).
Local Notation "'trace'" :=
  (DroidBackend.trace (U:=U) FACTORY_API_KEY_ENV JSON_parse JSON_stringify).
Local Notation "'emitted_by' b" := (emitted (DroidBackend.world b))
  (at level 10, b at level 9).

Lemma terminals_app (a b : list AgentMessage) :
  terminals (a ++ b) = terminals a ++ terminals b.
Proof.
  induction a as [|m a IH]; [reflexivity|].
  destruct m; cbn [app terminals]; try exact IH.
  destruct (terminal_status status); cbn; now rewrite IH.
Qed.

(** [emit] in closed form. *)
Lemma emit_closed (msg : AgentMessage) (b : Backend) :
  DroidBackend.emit msg b
  = (Val tt,
     DroidBackend.set_world
       (mkWorld
          (Delivery.after_all (DroidBackend.messageHandlers b) msg
             (user (DroidBackend.world b)))
          (debug (DroidBackend.world b)
           ++ Delivery.failures "[droid]" (DroidBackend.messageHandlers b) msg
                (user (DroidBackend.world b)))
          (emitted_by b ++ [msg])
          (calls (DroidBackend.world b)
           ++ map (fun h => (hid h, msg)) (DroidBackend.messageHandlers b)))
       b).
Proof.
  unfold DroidBackend.emit, zoom. now rewrite emit_fanout.
Qed.

Lemma quiet_ret {A} (a : A) : quiet (U:=U) (ret a).
Proof. intros b. exists []. now rewrite app_nil_r. Qed.

Lemma quiet_throw {A} (e : Js.JsExn) : quiet (U:=U) (A:=A) (throw e).
Proof. intros b. exists []. now rewrite app_nil_r. Qed.

Lemma quiet_bind {A B} (m : M Backend A) (k : A -> M Backend B) :
  quiet m -> (forall a, quiet (k a)) -> quiet (bind m k).
Proof.
  intros Hm Hk b. unfold bind. destruct (Hm b) as (ms & E & T).
  destruct (m b) as [[a|e] b1]; cbn [snd] in *.
  - destruct (Hk a b1) as (ms' & E' & T'). exists (ms ++ ms').
    rewrite E', E, app_assoc, terminals_app, T, T'. now split.
  - now exists ms.
Qed.

Lemma quiet_try_catch {A} (m : M Backend A) (h : Js.JsExn -> M Backend A) :
  quiet m -> (forall e, quiet (h e)) -> quiet (try_catch m h).
Proof.
  intros Hm Hh b. unfold try_catch. destruct (Hm b) as (ms & E & T).
  destruct (m b) as [[a|e] b1]; cbn [snd] in *.
  - now exists ms.
  - destruct (Hh e b1) as (ms' & E' & T'). exists (ms ++ ms').
    rewrite E', E, app_assoc, terminals_app, T, T'. now split.
Qed.

Lemma quiet_emit (msg : AgentMessage) :
  is_terminal msg = false -> quiet (U:=U) (DroidBackend.emit msg).
Proof.
  intros H b. rewrite emit_closed. exists [msg]. split.
  - now destruct b.
  - destruct msg; try reflexivity. cbn in *. now rewrite H.
Qed.

Lemma quiet_log (l : LogLine) : quiet (U:=U) (DroidBackend.log l).
Proof. intros b. exists []. rewrite app_nil_r. now destruct b. Qed.

Lemma quiet_modify (f : Backend -> Backend) :
  (forall b, emitted_by (f b) = emitted_by b) -> quiet (modify f).
Proof. intros H b. exists []. rewrite app_nil_r. split; [apply H | reflexivity]. Qed.

Ltac quiet_sequence := repeat (apply quiet_bind; [|intros _]).

Lemma quiet_handle (ev : DroidStreamEvent) : quiet (handle ev).
Proof.
  destruct ev as [sid tools mdl cwd|role text|id tn ps|id tid v|ft nt dm|];
    cbn [DroidBackend.handleStreamEvent].
  - quiet_sequence;
      auto using quiet_emit, quiet_log, quiet_modify.
  - destruct role; auto using quiet_emit, quiet_ret.
  - now apply quiet_emit.
  - quiet_sequence; try now apply quiet_emit.
    + destruct (DroidBackend.is_file_tool tid); auto using quiet_emit, quiet_ret.
    + destruct (String.eqb tid "Execute"); auto using quiet_emit, quiet_ret.
  - quiet_sequence;
      auto using quiet_emit, quiet_log.
    destruct (Js.nonempty ft); auto using quiet_emit, quiet_ret.
  - apply quiet_ret.
Qed.

Lemma quiet_each_line (lines : list string) (ft : string) :
  quiet (DroidBackend.each_line JSON_parse handle lines ft).
Proof.
  revert ft; induction lines as [|line rest IH]; intros ft;
    cbn [DroidBackend.each_line]; [apply quiet_ret|].
  destruct (Js.nonempty (Js.trim line)); [|apply IH].
  apply quiet_bind; [|intros ft'; apply IH].
  apply quiet_try_catch.
  - unfold DroidBackend.parse_and_deliver.
    destruct (JSON_parse line); [|apply quiet_throw].
    apply quiet_bind; [apply quiet_handle | intros _; apply quiet_ret].
  - intros e. apply quiet_bind; [apply quiet_log | intros _; apply quiet_ret].
Qed.

Lemma quiet_put_proc (pid : nat) (p : DroidClient.Proc) :
  quiet (U:=U) (DroidBackend.put_proc pid p).
Proof. apply quiet_modify. now intros []. Qed.

Lemma quiet_data (pid : nat) (data : string) :
  quiet (DroidBackend.execStream_data JSON_parse pid data handle).
Proof.
  unfold DroidBackend.execStream_data. intros b.
  unfold bind at 1. unfold get.
  destruct (DroidBackend.get_proc pid b) as [p|]; [|apply quiet_ret].
  destruct (Js.pop _) as [popped lines].
  apply quiet_bind; [apply quiet_each_line | intros ft; apply quiet_put_proc].
Qed.

Lemma quiet_stderr (pid : nat) (data : string) :
  quiet (U:=U) (DroidBackend.execStream_stderr pid data).
Proof.
  unfold DroidBackend.execStream_stderr. intros b.
  unfold bind at 1. unfold get.
  destruct (DroidBackend.get_proc pid b) as [p|]; [|apply quiet_ret].
  apply quiet_bind; [apply quiet_put_proc | intros _; apply quiet_log].
Qed.

Lemma nth_error_set_nth_same {A} (n : nat) (x : A) (l : list A) (y : A) :
  nth_error l n = Some y -> nth_error (DroidClient.set_nth n x l) n = Some x.
Proof.
  revert n; induction l as [|z l IH]; intros [|n]; simpl; try discriminate.
  - reflexivity.
  - apply IH.
Qed.

(** What a read of stdout does to the client: one entry of [procs]. *)
Lemma data_client (pid : nat) (data : string) (b : Backend) (p : DroidClient.Proc) :
  DroidBackend.get_proc pid b = Some p ->
  exists ft,
    DroidBackend.client
      (exec (DroidBackend.execStream_data JSON_parse pid data handle) b)
    = DroidClient.set_procs
        (DroidClient.set_nth pid
           (DroidClient.mkProc (pending (DroidClient.buffer p ++ data)) ft
              (DroidClient.stderr p) (DroidClient.settled p))
           (DroidClient.procs (DroidBackend.client b)))
        (DroidBackend.client b).
Proof.
  intros Hp. unfold exec.
  rewrite (data_unfold JSON_parse handle pid data b Hp). unfold bind.
  set (ls := complete (DroidClient.buffer p ++ data)).
  destruct (each_line_returns JSON_parse handle ls (DroidClient.finalText p) b)
    as [ft E].
  pose proof (blind_each_line JSON_parse handle
                (blind_handleStreamEvent JSON_stringify) ls
                (DroidClient.finalText p) b (DroidBackend.client b)) as F.
  rewrite set_client_same in F.
  destruct (DroidBackend.each_line JSON_parse handle ls (DroidClient.finalText p) b)
    as [r b1].
  cbn [fst snd] in *. subst r. exists ft.
  injection F as F. rewrite F. now destruct b1.
Qed.




(** The continuation of [sendPrompt] emits one status: [idle] for a
    fulfilled promise, [error] for a rejected one. *)
Lemma resume_emits (outcome : Res string) (b : Backend) :
  emitted_by (snd (DroidBackend.sendPrompt_resume outcome b))
  = emitted_by b
    ++ [match outcome with
        | Val _ => Status StIdle None
        | Throw e => Status StError (Some (Js.error_detail e))
        end].
Proof.
  unfold DroidBackend.sendPrompt_resume, try_catch.
  destruct outcome as [v|e].
  - unfold bind, modify. rewrite emit_closed. now destruct b.
  - unfold throw at 1. unfold bind, modify. rewrite emit_closed. now destruct b.
Qed.

Lemma exit_outcome_status (code : option Z) (ft err : string) :
  terminals
    [match exit_outcome code ft err with
     | Val _ => Status StIdle None
     | Throw e => Status StError (Some (Js.error_detail e))
     end]
  = [DroidBackend.ending_status (DroidBackend.Exited code)].
Proof. destruct code as [[|z|z]|]; reflexivity. Qed.

Lemma put_proc_emitted (pid : nat) (p : DroidClient.Proc) (b : Backend) :
  emitted_by (exec (DroidBackend.put_proc pid p) b) = emitted_by b.
Proof. now destruct b. Qed.

Lemma with_client_emitted (f : DroidClient.DroidClient -> DroidClient.DroidClient)
  (b : Backend) :
  emitted_by (exec (DroidBackend.with_client f) b) = emitted_by b.
Proof. now destruct b. Qed.

Lemma end_step (pid : nat) (e : DroidBackend.Ending) (b : Backend) :
  DroidBackend.awaited pid b ->
  exists ms,
    emitted_by (exec (step (DroidBackend.end_event pid e)) b) = emitted_by b ++ ms
    /\ terminals ms = [DroidBackend.ending_status e].
Proof.
  intros (p & Hp & Hs). destruct e as [code|message];
    cbn [DroidBackend.end_event DroidBackend.step]; unfold exec at 1; unfold bind at 1.
  - destruct (Js.nonempty (Js.trim (DroidClient.buffer p))) eqn:Hn;
      [destruct (JSON_parse (DroidClient.buffer p)) as [ev|] eqn:Hev|].
    + rewrite (close_delivers_fragment JSON_parse JSON_stringify pid code b Hp Hn Hev).
      rewrite Hs. cbn [DroidBackend.resume_if_settled].
      rewrite resume_emits, put_proc_emitted.
      destruct (quiet_handle ev
                  (exec (DroidBackend.with_client
                           (DroidClient.set_currentProcess None)) b))
        as (ms & E & T).
      unfold exec at 1. rewrite E, with_client_emitted.
      eexists. split; [rewrite <- app_assoc; reflexivity|].
      rewrite terminals_app, T. apply exit_outcome_status.
    + rewrite (close_drops_fragment JSON_parse handle pid code b Hp (or_intror Hev)).
      rewrite Hs. cbn [DroidBackend.resume_if_settled].
      rewrite resume_emits, put_proc_emitted, with_client_emitted.
      eexists. split; [reflexivity | apply exit_outcome_status].
    + rewrite (close_drops_fragment JSON_parse handle pid code b Hp (or_introl Hn)).
      rewrite Hs. cbn [DroidBackend.resume_if_settled].
      rewrite resume_emits, put_proc_emitted, with_client_emitted.
      eexists. split; [reflexivity | apply exit_outcome_status].
  - unfold DroidBackend.execStream_error, bind, get. rewrite Hp.
    unfold DroidBackend.with_client at 1. unfold modify at 1.
    unfold DroidBackend.settle, bind, DroidBackend.put_proc,
      DroidBackend.with_client, modify, ret.
    rewrite Hs. cbn [DroidBackend.resume_if_settled].
    rewrite resume_emits.
    eexists. split; [now destruct b | reflexivity].
Qed.

(** [cancel] with a live child, in closed form. *)
Lemma cancel_live (live : nat) (b : Backend) :
  DroidClient.currentProcess (DroidBackend.client b) = Some live ->
  exec (step DroidBackend.CallCancel) b
  = snd (DroidBackend.emit (Status StStopped None)
           (DroidBackend.set_isRunning false
              (DroidBackend.set_client
                 (DroidClient.set_currentProcess None
                    (DroidClient.add_signal live (DroidBackend.client b)))
                 (exec (DroidBackend.log
                          (LogText "[droid] Cancelling current process")) b)))).
Proof.
  intros Hlive. unfold exec. cbn [DroidBackend.step].
  unfold DroidBackend.cancel, DroidBackend.client_cancel.
  unfold bind at 1. unfold bind at 1. unfold get. rewrite Hlive.
  unfold bind, DroidBackend.log, DroidBackend.with_client, zoom, logger_debug,
    modify, ret. cbn [fst snd].
  now destruct b.
Qed.


(** [cancel] with no live child does nothing at all. *)
Lemma cancel_idle (b : Backend) :
  DroidClient.currentProcess (DroidBackend.client b) = None ->
  DroidBackend.cancel b = (Val tt, b).
Proof.
  intros Hidle. unfold DroidBackend.cancel, DroidBackend.client_cancel.
  unfold bind at 1. unfold bind at 1. unfold get. now rewrite Hidle.
Qed.

Lemma skipn_exact {A} (l ms : list A) : skipn (length l) (l ++ ms) = ms.
Proof. induction l; [reflexivity | assumption]. Qed.

Lemma run_app (evs1 evs2 : list DroidBackend.Event) (b : Backend) :
  run (evs1 ++ evs2) b = run evs2 (run evs1 b).
Proof. apply fold_left_app. Qed.



End DroidStatuses.

(** ** Terminal statuses of the opencode backend *)

Section OpencodeStatuses.

Import Agent Exn OpencodeTypes Reader.

Variable U : Type.
Variable JSON_stringify : Js.JsValue -> string.
Variable randomUUID : nat -> string.

Local Notation "'Backend'" := (OpencodeBackend.OpencodeBackend U).
Local Notation "'step'" :=
  (OpencodeBackend.step (U:=U) JSON_stringify randomUUID).
Local Notation "'run'" :=
  (OpencodeBackend.run (U:=U) JSON_stringify randomUUID).
Local Notation "'trace'" :=
  (OpencodeBackend.trace (U:=U) JSON_stringify randomUUID).
Local Notation "'emitted_by' b" := (emitted (OpencodeBackend.world b))
  (at level 10, b at level 9).

Lemma oc_emit_closed (msg : AgentMessage) (b : Backend) :
  OpencodeBackend.emit msg b
  = (Val tt,
     OpencodeBackend.set_world
       (mkWorld
          (Delivery.after_all (OpencodeBackend.messageHandlers b) msg
             (user (OpencodeBackend.world b)))
          (debug (OpencodeBackend.world b)
           ++ Delivery.failures "[opencode]" (OpencodeBackend.messageHandlers b)
                msg (user (OpencodeBackend.world b)))
          (emitted_by b ++ [msg])
          (calls (OpencodeBackend.world b)
           ++ map (fun h => (hid h, msg)) (OpencodeBackend.messageHandlers b)))
       b).
Proof.
  unfold OpencodeBackend.emit, zoom. now rewrite emit_fanout.
Qed.







(** [processMessageResponse] never throws. *)
Lemma oc_parts_return (parts : list OpencodePart) (b : Backend) :
  fst (OpencodeBackend.processMessageResponse JSON_stringify randomUUID parts b)
  = Val tt.
Proof.
  unfold OpencodeBackend.processMessageResponse.
  revert b; induction parts as [|part rest IH]; intros b; cbn [for_of];
    [reflexivity|].
  unfold bind.
  assert (H : fst (OpencodeBackend.processPart JSON_stringify randomUUID part b)
              = Val tt).
  { unfold OpencodeBackend.processPart. destruct (ptype part).
    - destruct (Js.truthy (text part)); [|reflexivity].
      now rewrite oc_emit_closed.
    - unfold bind. destruct (Js.truthy (toolCallId part)).
      + unfold ret. now rewrite oc_emit_closed.
      + unfold OpencodeBackend.draw_uuid, bind, get, modify, ret.
        now rewrite oc_emit_closed.
    - unfold bind. rewrite oc_emit_closed.
      destruct (OpencodeBackend.write_or_edit _).
      + rewrite oc_emit_closed.
        destruct (String.eqb _ "bash"); [now rewrite oc_emit_closed | reflexivity].
      + unfold ret.
        destruct (String.eqb _ "bash"); [now rewrite oc_emit_closed | reflexivity].
    - reflexivity.
    - reflexivity. }
  destruct (OpencodeBackend.processPart JSON_stringify randomUUID part b)
    as [[[]|e] b1]; cbn in H; [apply IH | discriminate].
Qed.

(** Without a session, [sendPrompt] throws before anything is emitted. *)
Lemma oc_sendPrompt_no_session (prompt : string) (b : Backend) :
  Js.truthy (OpencodeBackend.opencodeSessionId b) = false ->
  OpencodeBackend.sendPrompt prompt b
  = (Throw (Js.JsError "No OpenCode session active"), b).
Proof.
  intros H. unfold OpencodeBackend.sendPrompt, bind, get.
  destruct (OpencodeBackend.opencodeSessionId b) as [sid|]; [|reflexivity].
  cbn in H. unfold Js.nonempty. now rewrite H.
Qed.





Lemma existsb_last (rid : nat) (l : list nat) :
  existsb (Nat.eqb rid) (l ++ [rid]) = true.
Proof.
  rewrite existsb_app. cbn. now rewrite Nat.eqb_refl, orb_true_r.
Qed.




Lemma oc_cancel_emits (ok : bool) (b : Backend) :
  let b' := exec (OpencodeBackend.cancel (Val ok)) b in
  outcome (OpencodeBackend.cancel (Val ok)) b = Val tt
  /\ emitted_by b' = emitted_by b ++ [Status StStopped None]
  /\ OpencodeBackend.isRunning b' = false.
Proof.
  cbv zeta. unfold outcome, exec, OpencodeBackend.cancel,
    OpencodeBackend.cancel_call, OpencodeBackend.abort_answered,
    OpencodeBackend.cancel_resume, OpencodeBackend.cancel_finish, bind, get.
  destruct (Js.truthy (OpencodeBackend.opencodeSessionId b)).
  - unfold OpencodeBackend.fetch, modify, ret. cbn [fst snd].
    replace (OpencodeBackend.awaiting
               (OpencodeBackend.set_awaiting
                  (OpencodeBackend.awaiting b ++ [length (OpencodeBackend.requests b)])
                  (OpencodeBackend.add_request _ b)))
      with (OpencodeBackend.awaiting b ++ [length (OpencodeBackend.requests b)])
      by now destruct b.
    rewrite existsb_last, oc_emit_closed.
    destruct b; cbn; now repeat split.
  - unfold modify, ret. rewrite oc_emit_closed.
    destruct b; cbn; now repeat split.
Qed.

End OpencodeStatuses.

Section OpencodeTraces.

Import Agent Exn OpencodeTypes Reader.

Variable U : Type.
Variable JSON_stringify : Js.JsValue -> string.
Variable randomUUID : nat -> string.

Local Notation "'Backend'" := (OpencodeBackend.OpencodeBackend U).
Local Notation "'step'" :=
  (OpencodeBackend.step (U:=U) JSON_stringify randomUUID).
Local Notation "'trace'" :=
  (OpencodeBackend.trace (U:=U) JSON_stringify randomUUID).
Local Notation "'emitted_by' b" := (emitted (OpencodeBackend.world b))
  (at level 10, b at level 9).







End OpencodeTraces.

(** ** One terminal status per prompt, and what [cancel] adds *)

Section TerminalStatuses.

Import Agent Exn.

Variable U : Type.
Variable FACTORY_API_KEY_ENV : string.
Variable JSON_parse : string -> option DroidTypes.DroidStreamEvent.
Variable JSON_stringify : Js.JsValue -> string.
Variable randomUUID : nat -> string.


(** [cancel] on the droid backend twice in a row is [cancel] once. *)
Lemma droid_cancel_twice (b : DroidBackend.DroidBackend U) :
  exec (DroidBackend.cancel (U:=U)) (exec (DroidBackend.cancel (U:=U)) b)
  = exec (DroidBackend.cancel (U:=U)) b.
Proof.
  destruct (DroidClient.currentProcess (DroidBackend.client b)) as [live|] eqn:E.
  - pose proof (cancel_live FACTORY_API_KEY_ENV JSON_parse JSON_stringify b E) as H.
    cbn [DroidBackend.step] in H. rewrite H.
    unfold exec at 1. rewrite cancel_idle; [reflexivity|].
    rewrite emit_closed. now destruct b.
  - unfold exec. rewrite (cancel_idle b E). cbn [snd]. now rewrite (cancel_idle b E).
Qed.

End TerminalStatuses.


(** C2 on the opencode backend: [cancel] on a backend that has a
    session and no prompt in flight posts an abort request, emits
    [stopped], and does so again when called again. *)
Theorem opencode_cancel_idle_emits_stopped :
  OpencodeBackend.isRunning Sample.opencode1 = false
  /\ OpencodeBackend.awaiting Sample.opencode1 = []
  /\ Agent.emitted (OpencodeBackend.world Sample.opencode1) = []
  /\ let once := Exn.exec (OpencodeBackend.cancel (Exn.Val true)) Sample.opencode1 in
     let twice := Exn.exec (OpencodeBackend.cancel (Exn.Val true)) once in
     Agent.emitted (OpencodeBackend.world once)
     = [Agent.Status Agent.StStopped None]
     /\ OpencodeBackend.requests once
        = [OpencodeBackend.mkRequest "POST"
             "http://127.0.0.1:4097/session/ses_1/abort" OpencodeBackend.NoBody]
     /\ Agent.emitted (OpencodeBackend.world twice)
        = [Agent.Status Agent.StStopped None; Agent.Status Agent.StStopped None]
     /\ length (OpencodeBackend.requests twice) = 2.
Proof. repeat split. Qed.

(** The same without a session: nothing is posted, [stopped] is
    emitted all the same. *)
Example opencode_cancel_without_session :
  Agent.emitted
    (OpencodeBackend.world
       (Exn.exec (OpencodeBackend.cancel (Exn.Val true)) Sample.opencode0))
  = [Agent.Status Agent.StStopped None].
Proof. reflexivity. Qed.

(** C2 on the droid backend: with no child alive [cancel] returns
    without touching the backend, and a second [cancel] in a row adds
    nothing to the first. *)
Lemma droid_cancel_idempotent (U : Type) (b : DroidBackend.DroidBackend U) :
  (DroidClient.currentProcess (DroidBackend.client b) = None ->
   DroidBackend.cancel b = (Exn.Val tt, b))
  /\ Exn.exec (DroidBackend.cancel (U:=U)) (Exn.exec (DroidBackend.cancel (U:=U)) b)
     = Exn.exec (DroidBackend.cancel (U:=U)) b.
Proof.
  split.
  - apply cancel_idle.
  - apply (droid_cancel_twice Sample.KEY Sample.parse Sample.stringify).
Qed.

(** ** The availability probe and the version query *)

Section Probes.

Import Probe.

Local Open Scope Z_scope.

Lemma isAvailable_sticky (ds : list Delivery) (v : bool) :
  fold_left isAvailable_on ds (Some v) = Some v.
Proof.
  induction ds as [|d ds IH]; [reflexivity|].
  cbn [fold_left]. destruct d as [[text|code|]|]; exact IH.
Qed.

Lemma isAvailable_after_timeout (ds1 ds2 : list Delivery) (p : option bool) :
  exists v, fold_left isAvailable_on (ds1 ++ [Timeout] ++ ds2) p = Some v.
Proof.
  rewrite !fold_left_app. cbn [fold_left].
  destruct (fold_left isAvailable_on ds1 p) as [v|]; cbn [isAvailable_on resolve].
  - exists v. apply isAvailable_sticky.
  - exists false. apply isAvailable_sticky.
Qed.

(** [isAvailable] is resolved five seconds after the spawn at the
    latest, whatever the child does. *)
Lemma isAvailable_resolves_by_timeout (child : list (Z * ChildEvent)) (now : Z) :
  5000 <= now -> exists v, isAvailable child now = Some v.
Proof.
  intros H. unfold isAvailable, deliveries.
  apply Z.leb_le in H. rewrite H. apply isAvailable_after_timeout.
Qed.

(** [isAvailable] fails closed: a child that does nothing, one that
    fails to spawn and one that exits with another code than 0 all
    give [false]. *)
Example isAvailable_fails_closed :
  isAvailable [] 5000 = Some false
  /\ isAvailable [(3, Failed)] 10 = Some false
  /\ isAvailable [(40, Closed (Some 127))] 50 = Some false
  /\ isAvailable [(40, Closed (Some 0))] 50 = Some true
  /\ isAvailable [(7000, Closed (Some 0))] 8000 = Some false.
Proof. repeat split. Qed.

Lemma getVersion_pending (ds : list (Z * ChildEvent)) (stdout : string) :
  ends ds = false ->
  snd (fold_left getVersion_on (map (fun te => FromChild (snd te)) ds)
         (stdout, None))
  = None.
Proof.
  revert stdout; induction ds as [|[t ev] ds IH]; intros stdout H;
    [reflexivity|].
  cbn [ends existsb snd] in H. apply orb_false_elim in H as [Hev Hds].
  destruct ev as [text| |]; try discriminate.
  cbn [map fold_left getVersion_on snd]. now apply IH.
Qed.

Lemma ends_filter (f : Z * ChildEvent -> bool) (child : list (Z * ChildEvent)) :
  ends child = false -> ends (filter f child) = false.
Proof.
  unfold ends. induction child as [|te child IH]; [reflexivity|].
  cbn [existsb filter]. intros H. apply orb_false_elim in H as [H1 H2].
  destruct (f te); cbn [existsb]; [rewrite H1|]; now apply IH.
Qed.

(** [getVersion] stays pending for ever when the child never raises
    ['close'] or ['error']: no timer resolves it. *)
Lemma getVersion_needs_an_end (child : list (Z * ChildEvent)) (now : Z) :
  ends child = false -> getVersion child now = None.
Proof.
  intros H. unfold getVersion, deliveries.
  apply getVersion_pending. now apply ends_filter.
Qed.

(** C8 at the failing input: for a child that prints nothing and never
    ends, [isAvailable] resolves to [false] once five seconds have
    passed, and [getVersion] is still pending at every time. *)
Theorem getVersion_hangs (now : Z) :
  getVersion [] now = None
  /\ isAvailable [] (Z.max now 5000) = Some false.
Proof.
  split; [reflexivity|].
  unfold isAvailable, deliveries. cbn [filter map app].
  assert (H : (5000 <=? Z.max now 5000) = true) by (apply Z.leb_le; lia).
  now rewrite H.
Qed.

(** [getVersion] fails closed on the endings it does see. *)
Example getVersion_fails_closed :
  getVersion [(3, Failed)] 10 = Some None
  /\ getVersion [(40, Closed (Some 1))] 50 = Some None
  /\ getVersion [(40, Closed None)] 50 = Some None
  /\ getVersion [(10, Data "droid 0.22 "); (40, Closed (Some 0))] 50
     = Some (Some "droid 0.22")
  /\ getVersion [(10, Data "droid 0.22 ")] 3600000 = None.
Proof. repeat split. Qed.

End Probes.

(** ** End to end: backend, handler fan-out and driver together *)

Section Scenarios.

Import Agent Driver.

(** A basic turn: init, one assistant message and the completion
    record arrive in one chunk, the child exits with code 0.  The
    backend emits the canonical events and one [idle]; the driver
    forwards the text and reports the turn complete. *)
Example basic_turn :
  let b := DroidBackend.run Sample.KEY Sample.parse Sample.stringify
             [DroidBackend.CallSendPrompt "list files";
              DroidBackend.Stdout 0 Sample.transcript;
              DroidBackend.Close 0 (Some 0%Z)]
             Sample.droid_driven in
  map is_terminal (emitted (DroidBackend.world b))
  = [false; false; false; false; false; true]
  /\ session (user (DroidBackend.world b))
     = [KeepAlive true;
        SendCodexMessage (TaskStarted 0);
        KeepAlive false;
        SendCodexMessage (Message "a.txt" 1);
        SendCodexMessage (TaskComplete 2)]
  /\ DroidBackend.droidSessionId b = Some "sess-1"
  /\ DroidBackend.isRunning b = false.
Proof. repeat split. Qed.

(** The same turn cancelled after the assistant message: the text so
    far is forwarded on [stopped], then the ending of the killed child
    reaches the driver as an error of the same turn. *)
Example cancelled_turn :
  let b := DroidBackend.run Sample.KEY Sample.parse Sample.stringify
             [DroidBackend.CallSendPrompt "list files";
              DroidBackend.Stdout 0 (Js.join (String Js.LF EmptyString) ["hello"; ""]);
              DroidBackend.CallCancel;
              DroidBackend.Close 0 None]
             Sample.droid_driven in
  terminals (emitted (DroidBackend.world b)) = [StStopped; StError]
  /\ session (user (DroidBackend.world b))
     = [KeepAlive true;
        SendCodexMessage (TaskStarted 0);
        KeepAlive false;
        SendCodexMessage (Message "a.txt" 1);
        SendCodexMessage (TaskComplete 2);
        KeepAlive false;
        SendCodexMessage (TurnAborted 3);
        SendCodexMessage
          (Message "Error: Droid stream exited with code null: Unknown error" 4)].
Proof. repeat split. Qed.

(** A line that is not a record, between two that are: both records
    are delivered and the line is logged. *)
Example malformed_line :
  let b := DroidBackend.run Sample.KEY Sample.parse Sample.stringify
             [DroidBackend.Stdout 0
                (Js.join (String Js.LF EmptyString) ["hello"; "{oops"; "done"; ""])]
             Sample.droid_reading in
  DroidBackend.trace Sample.KEY Sample.parse Sample.stringify
    [DroidBackend.Stdout 0
       (Js.join (String Js.LF EmptyString) ["hello"; "{oops"; "done"; ""])]
    Sample.droid_reading
  = [ModelOutput (Some "a.txt") (Some "a.txt");
     ModelOutput None (Some "a.txt");
     TokenCount 1 20]
  /\ In (LogText "[droid] Failed to parse event: {oops")
       (debug (DroidBackend.world b)).
Proof. split; [reflexivity | vm_compute; auto]. Qed.

(** What the approval of the opencode driver becomes on the wire. *)
Example respondToPermission_posts_allow :
  OpencodeBackend.requests
    (Exn.exec (OpencodeBackend.respondToPermission "perm-7" true) Sample.opencode1)
  = [OpencodeBackend.mkRequest "POST"
       "http://127.0.0.1:4097/session/ses_1/permissions/perm-7"
       (OpencodeBackend.PermissionBody true)].
Proof. reflexivity. Qed.

(** With a queued prompt the end of a turn announces nothing. *)
Example no_ready_between_turns :
  let d := set_messageQueue
             (push "second" (mkMode PmDefault None (Some "second")) [])
             Sample.driver0 in
  Exn.outcome (turn_end FlDroid (Exn.Val tt)) d = Exn.Val false
  /\ ready_count (session (Exn.exec (turn_end FlDroid (Exn.Val tt)) d)) = 0
  /\ Exn.outcome (turn_end FlDroid (Exn.Val tt)) Sample.driver0 = Exn.Val true.
Proof. repeat split. Qed.

End Scenarios.

(** ** More on the drivers: accumulation, incoming messages, abort *)

Section StringFacts.

Lemma trim_start_empty : Js.trim "" = "".
Proof. reflexivity. Qed.

End StringFacts.

Section Accumulation.

Import Agent Exn Driver Inbox.

Variable flavor : Flavor.

Lemma output_step (o : option string * option string) (d : Driver) :
  let d' := exec (onMessage flavor (as_output o)) d in
  accumulatedResponse d' = (accumulatedResponse d ++ Js.or_else (fst o) "")%string
  /\ isResponseInProgress d'
     = isResponseInProgress d || (Js.truthy (fst o) || Js.truthy (snd o))
  /\ session d' = session d
  /\ uuids d' = uuids d
  /\ thinking d' = thinking d
  /\ shouldExit d' = shouldExit d
  /\ messageQueue d' = messageQueue d.
Proof.
  destruct o as [delta full]. destruct d as [se th rip acc cpm q uu pe ss ps mb bk lg].
  cbv zeta. unfold exec, as_output. cbn [fst snd onMessage].
  destruct (Js.truthy delta || Js.truthy full) eqn:T.
  - destruct rip; cbn; rewrite ?orb_true_r; repeat split.
  - apply orb_false_elim in T as [Td _].
    assert (E : Js.or_else delta "" = "").
    { destruct delta as [s|]; [|reflexivity]. cbn in *.
      destruct (String.eqb s ""); [reflexivity | discriminate]. }
    cbn. rewrite E, append_empty_r, orb_false_r. repeat split.
Qed.

Lemma feed_outputs (outputs : list (option string * option string)) (d : Driver) :
  let d' := feed flavor (map as_output outputs) d in
  accumulatedResponse d' = (accumulatedResponse d ++ deltas outputs)%string
  /\ isResponseInProgress d'
     = isResponseInProgress d
       || existsb (fun o => Js.truthy (fst o) || Js.truthy (snd o)) outputs
  /\ session d' = session d
  /\ uuids d' = uuids d
  /\ thinking d' = thinking d
  /\ shouldExit d' = shouldExit d
  /\ messageQueue d' = messageQueue d.
Proof.
  revert d; induction outputs as [|o rest IH]; intros d; cbv zeta.
  - cbn. rewrite append_empty_r, orb_false_r. repeat split.
  - cbn [map feed fold_left].
    destruct (output_step o d) as (A & R & S1 & U1 & T1 & E1 & Q1).
    destruct (IH (exec (onMessage flavor (as_output o)) d))
      as (A' & R' & S' & U' & T' & E' & Q').
    unfold feed in *. rewrite A', R', S', U', T', E', Q', A, R, S1, U1, T1, E1, Q1.
    cbn [existsb deltas map fold_right]. rewrite append_assoc_s.
    repeat split.
    destruct (isResponseInProgress d), (Js.truthy (fst o)), (Js.truthy (snd o));
      reflexivity.
Qed.

Lemma feed_app (ms1 ms2 : list AgentMessage) (d : Driver) :
  feed flavor (ms1 ++ ms2) d = feed flavor ms2 (feed flavor ms1 d).
Proof. apply fold_left_app. Qed.

Lemma nonblank_deltas_truthy (outputs : list (option string * option string)) :
  Js.nonempty (Js.trim (deltas outputs)) = true ->
  existsb (fun o => Js.truthy (fst o) || Js.truthy (snd o)) outputs = true.
Proof.
  induction outputs as [|[delta full] rest IH]; cbn [deltas map fold_right existsb fst snd].
  - discriminate.
  - intros H. destruct (Js.truthy delta) eqn:T; [reflexivity|].
    assert (E : Js.or_else delta "" = "").
    { destruct delta as [s|]; [|reflexivity]. cbn in *.
      destruct (String.eqb s ""); [reflexivity | discriminate]. }
    rewrite E in H. cbn [append] in H. rewrite (IH H). apply orb_true_r.
Qed.

Lemma terminal_clears_thinking (st : AgentStatus) (detail : option string)
  (d : Driver) :
  st = StIdle \/ st = StStopped ->
  thinking (exec (onMessage flavor (Status st detail)) d) = false.
Proof.
  intros Hst. destruct d as [se th rip acc cpm q uu pe ss ps mb bk lg].
  unfold exec. destruct Hst; subst st; cbn;
    match goal with |- context [if ?c then _ else _] => destruct c end;
    reflexivity.
Qed.

(** X1.  In a turn the driver forwards, on [idle] or [stopped], exactly
    the text deltas it received joined in order, provided that text is
    not blank; the full texts play no part in what is forwarded. *)
Theorem turn_forwards_joined_deltas (prompt : string)
  (outputs : list (option string * option string)) (stopped : bool)
  (detail : option string) (d : Driver) :
  Js.nonempty (Js.trim (deltas outputs)) = true ->
  let d1 := exec (turn_begin prompt) d in
  let d2 := feed flavor
              (Status StRunning None :: map as_output outputs
               ++ [Status (if stopped then StStopped else StIdle) detail]) d1 in
  session d2
  = session d
    ++ [KeepAlive true;
        SendCodexMessage (TaskStarted (uuids d));
        KeepAlive false;
        SendCodexMessage (Message (deltas outputs) (S (uuids d)));
        SendCodexMessage (TaskComplete (S (S (uuids d))))]
  /\ accumulatedResponse d2 = ""
  /\ isResponseInProgress d2 = false
  /\ thinking d2 = false.
Proof.
  intros H. cbv zeta.
  change (Status StRunning None :: map as_output outputs ++ [Status (if stopped then StStopped else StIdle) detail])
    with ([Status StRunning None] ++ map as_output outputs
          ++ [Status (if stopped then StStopped else StIdle) detail]).
  rewrite !feed_app.
  set (d1 := feed flavor [Status StRunning None] (exec (turn_begin prompt) d)).
  assert (D1 : accumulatedResponse d1 = "" /\ isResponseInProgress d1 = false
               /\ session d1 = session d ++ [KeepAlive true; SendCodexMessage (TaskStarted (uuids d))]
               /\ uuids d1 = S (uuids d)).
  { subst d1. destruct d as [se th rip acc cpm q uu pe ss ps mb bk lg].
    cbn. repeat split. now rewrite <- app_assoc. }
  destruct D1 as (A1 & R1 & S1 & U1).
  destruct (feed_outputs outputs d1) as (A2 & R2 & S2 & U2 & _).
  set (d2 := feed flavor (map as_output outputs) d1) in *.
  rewrite A1 in A2. cbn [append] in A2. rewrite R1, (nonblank_deltas_truthy _ H) in R2.
  cbn [orb] in R2. rewrite S1 in S2. rewrite U1 in U2.
  set (st := if stopped then StStopped else StIdle).
  assert (Hst : st = StIdle \/ st = StStopped) by (subst st; destruct stopped; auto).
  assert (Hacc : Js.nonempty (Js.trim (accumulatedResponse d2)) = true)
    by now rewrite A2.
  destruct (onMessage_idle_forwards flavor d2 detail Hst R2 Hacc) as (S3 & A3 & R3).
  change (feed flavor [Status st detail] d2)
    with (exec (onMessage flavor (Status st detail)) d2).
  rewrite S3, A3, R3, S2, A2, U2, <- app_assoc. repeat split.
  apply terminal_clears_thinking. exact Hst.
Qed.

(** X2.  In a turn whose model outputs carry a full text but no text
    delta, nothing is forwarded on [idle] or [stopped], the response
    stays marked in progress, and the end of the turn announces no
    readiness. *)
Theorem full_text_only_turn_stays_busy (prompt : string)
  (outputs : list (option string * option string)) (stopped : bool)
  (detail : option string) (d : Driver) :
  forallb (fun o => negb (Js.truthy (fst o))) outputs = true ->
  existsb (fun o => Js.truthy (snd o)) outputs = true ->
  let d1 := exec (turn_begin prompt) d in
  let d2 := feed flavor
              (map as_output outputs
               ++ [Status (if stopped then StStopped else StIdle) detail]) d1 in
  session d2 = session d ++ [KeepAlive false]
  /\ isResponseInProgress d2 = true
  /\ outcome (turn_end flavor (Val tt)) d2 = Val false
  /\ exec (turn_end flavor (Val tt)) d2 = d2.
Proof.
  intros Hd Hf. cbv zeta. rewrite feed_app.
  set (d1 := exec (turn_begin prompt) d).
  assert (D1 : accumulatedResponse d1 = "" /\ isResponseInProgress d1 = false
               /\ session d1 = session d).
  { subst d1. now destruct d. }
  destruct D1 as (A1 & R1 & S1).
  destruct (feed_outputs outputs d1) as (A2 & R2 & S2 & _).
  set (d2 := feed flavor (map as_output outputs) d1) in *.
  assert (Hdel : deltas outputs = "").
  { clear -Hd. induction outputs as [|[delta full] rest IH]; [reflexivity|].
    cbn [forallb fst] in Hd. apply andb_prop in Hd as [H1 H2].
    cbn [deltas map fold_right fst]. fold (deltas rest). rewrite (IH H2).
    destruct delta as [s|]; [|reflexivity]. cbn in *.
    destruct (String.eqb s ""); [reflexivity | discriminate]. }
  assert (Hex : existsb (fun o => Js.truthy (fst o) || Js.truthy (snd o)) outputs = true).
  { clear -Hf. induction outputs as [|o rest IH]; [discriminate|].
    cbn [existsb] in *. apply orb_prop in Hf as [H|H].
    - rewrite H, orb_true_r. reflexivity.
    - rewrite (IH H). apply orb_true_r. }
  rewrite A1, Hdel in A2. rewrite R1, Hex in R2. rewrite S1 in S2. cbn in A2, R2.
  destruct d2 as [se th rip acc cpm q uu pe ss ps mb bk lg].
  cbn in A2, R2, S2. subst acc rip ss.
  destruct stopped; cbn; repeat split;
    unfold outcome, exec; cbn; destruct se; reflexivity.
Qed.

(** [handleAbort] before the backend's [cancel] runs: the queue is
    emptied whatever it held, one turn-aborted event is sent, the call
    of [cancel] is recorded, and the turn's own variables are as they
    were. *)
Lemma handleAbort_before_cancel (d : Driver) :
  let d1 := exec (handleAbort flavor) d in
  let d2 := exec (handleAbort flavor) d1 in
  outcome (handleAbort flavor) d = Val tt
  /\ messageQueue d1 = []
  /\ session d1 = session d ++ [SendCodexMessage (TurnAborted (uuids d))]
  /\ backend d1 = backend d ++ [Cancel]
  /\ (thinking d1, isResponseInProgress d1, accumulatedResponse d1)
     = (thinking d, isResponseInProgress d, accumulatedResponse d)
  /\ ready_now d1
     = negb (shouldExit d) && negb (thinking d) && negb (isResponseInProgress d)
  /\ messageQueue d2 = []
  /\ session d2
     = session d ++ [SendCodexMessage (TurnAborted (uuids d));
                     SendCodexMessage (TurnAborted (S (uuids d)))]
  /\ backend d2 = backend d ++ [Cancel; Cancel].
Proof.
  destruct d as [se th rip acc cpm q uu pe ss ps mb bk lg].
  cbv zeta. unfold outcome, exec, ready_now. cbn.
  rewrite andb_true_r, <- !app_assoc. repeat split.
Qed.

End Accumulation.

(** Three deltas, the second empty. *)
Lemma turn_forwards_joined_deltas_sample :
  Js.nonempty
    (Js.trim (Inbox.deltas [(Some "a", None); (None, Some "ab"); (Some "b", Some "ab")]))
  = true
  /\ Driver.accumulatedResponse
       (Inbox.feed Driver.FlDroid
          (Agent.Status Agent.StRunning None
           :: map Inbox.as_output
                [(Some "a", None); (None, Some "ab"); (Some "b", Some "ab")]
           ++ [Agent.Status Agent.StIdle None])
          (Exn.exec (Driver.turn_begin "p") Sample.driver0))
     = "".
Proof.
  split; [reflexivity|].
  apply (turn_forwards_joined_deltas Driver.FlDroid "p"
           [(Some "a", None); (None, Some "ab"); (Some "b", Some "ab")]
           false None Sample.driver0 eq_refl).
Defined.

(** The response of the opencode backend to a prompt: one text part. *)
Lemma full_text_only_turn_stays_busy_sample :
  forallb (fun o => negb (Js.truthy (fst o))) [(None, Some "done")] = true
  /\ existsb (fun o : option string * option string => Js.truthy (snd o))
       [(None, Some "done")] = true
  /\ Driver.isResponseInProgress
       (Inbox.feed Driver.FlOpencode
          (map Inbox.as_output [(None, Some "done")]
           ++ [Agent.Status Agent.StIdle None])
          (Exn.exec (Driver.turn_begin "p") Sample.driver0))
     = true.
Proof.
  split; [reflexivity|]. split; [reflexivity|].
  apply (full_text_only_turn_stays_busy Driver.FlOpencode "p"
           [(None, Some "done")] false None Sample.driver0 eq_refl eq_refl).
Defined.

(** ** Incoming user messages *)

Section InboxFacts.

Import Agent Exn Driver Inbox.

Variable flavor : Flavor.
Variable CHANGE_TITLE_INSTRUCTION : string.

Local Notation "'on_message'" := (onUserMessage flavor CHANGE_TITLE_INSTRUCTION).
Local Notation "'receive_all'" := (receive flavor CHANGE_TITLE_INSTRUCTION).
Local Notation "'enqueued_by'" := (enqueued flavor CHANGE_TITLE_INSTRUCTION).

(** One message: one item at the tail, and what it carries. *)
Lemma onUserMessage_step (m : UserMessage) (s : Inbox) :
  exists item,
    messageQueue (driver (on_message m s)) = messageQueue (driver s) ++ [item]
    /\ originalUserMessage (item_mode item) = Some (text m)
    /\ (titled_item item = true -> isFirstMessage s = true)
    /\ (isFirstMessage (on_message m s) = true ->
        isFirstMessage s = true /\ titled_item item = false)
    /\ mode_permissionMode (item_mode item)
       = currentPermissionMode (driver (on_message m s))
    /\ mode_model (item_mode item) = currentModel (on_message m s)
    /\ currentPermissionMode (driver (on_message m s))
       = match requested_mode m with
         | Some pm => pm
         | None => currentPermissionMode (driver s)
         end
    /\ (meta m = None -> currentModel (on_message m s) = currentModel s).
Proof.
  destruct s as [d cm fm st]. destruct d as [se th rip acc cpm q uu pe ss ps mb bk lg].
  destruct m as [t [[pmode mm asp]|]];
    unfold onUserMessage, requested_mode;
    cbn [driver currentModel isFirstMessage settings meta meta_permissionMode
         meta_model appendSystemPrompt text].
  - destruct (Js.truthy pmode); [destruct (validMode _)|];
      destruct mm as [| |model]; try destruct (Js.nonempty model);
      (destruct asp as [a|]; [unfold Js.truthy; destruct (String.eqb a "")|]);
      destruct fm; cbn;
      (eexists; split; [reflexivity|]);
      unfold titled_item; cbn; rewrite ?String.eqb_refl;
      repeat split; intros; try discriminate; try reflexivity.
  - destruct fm; cbn; (eexists; split; [reflexivity|]);
      unfold titled_item; cbn; rewrite ?String.eqb_refl;
      repeat split; intros; try discriminate; try reflexivity.
Qed.

Lemma receive_grows (ms : list UserMessage) (s : Inbox) :
  exists items,
    messageQueue (driver (receive_all ms s)) = messageQueue (driver s) ++ items.
Proof.
  revert s; induction ms as [|m rest IH]; intros s.
  - exists []. cbn. now rewrite app_nil_r.
  - cbn [receive fold_left]. fold (receive_all rest (on_message m s)).
    destruct (onUserMessage_step m s) as (item & Q & _).
    destruct (IH (on_message m s)) as [items E].
    exists (item :: items). rewrite E, Q, <- app_assoc. reflexivity.
Qed.

Lemma receive_queue (ms : list UserMessage) (s : Inbox) :
  messageQueue (driver (receive_all ms s))
  = messageQueue (driver s) ++ enqueued_by ms s.
Proof.
  destruct (receive_grows ms s) as [items E].
  unfold enqueued. rewrite E, skipn_exact. reflexivity.
Qed.

Lemma enqueued_cons (m : UserMessage) (rest : list UserMessage) (s : Inbox) :
  exists item,
    enqueued_by (m :: rest) s = item :: enqueued_by rest (on_message m s)
    /\ messageQueue (driver (on_message m s)) = messageQueue (driver s) ++ [item].
Proof.
  destruct (onUserMessage_step m s) as (item & Q & _). exists item. split; [|exact Q].
  unfold enqueued at 1. cbn [receive fold_left].
  fold (receive_all rest (on_message m s)).
  rewrite (receive_queue rest (on_message m s)), Q, <- app_assoc, skipn_exact.
  reflexivity.
Qed.

(** X4.  Every incoming message adds one item at the tail of the queue,
    in arrival order and after the items already there, and the item
    keeps the text of the message as [originalUserMessage]. *)
Theorem receive_keeps_every_text (ms : list UserMessage) (s : Inbox) :
  messageQueue (driver (receive_all ms s))
  = messageQueue (driver s) ++ enqueued_by ms s
  /\ map (fun i => originalUserMessage (item_mode i)) (enqueued_by ms s)
     = map (fun m => Some (text m)) ms.
Proof.
  split; [apply receive_queue|].
  revert s; induction ms as [|m rest IH]; intros s.
  - unfold enqueued. cbn. now rewrite skipn_all.
  - destruct (enqueued_cons m rest s) as (item & E & Q). rewrite E.
    cbn [map]. rewrite IH. f_equal.
    destruct (onUserMessage_step m s) as (item' & Q' & T & _).
    rewrite Q in Q'. apply app_inv_head in Q'. injection Q' as <-. exact T.
Qed.

(** X5.  Over any sequence of incoming messages the title instruction
    is added to at most one prompt, and to none once it has been added:
    every other item carries the text of its message unchanged. *)
Theorem title_instruction_at_most_once (ms : list UserMessage) (s : Inbox) :
  length (filter titled_item (enqueued_by ms s))
  <= (if isFirstMessage s then 1 else 0).
Proof.
  revert s; induction ms as [|m rest IH]; intros s.
  - unfold enqueued. cbn. rewrite skipn_all. cbn. destruct (isFirstMessage s); lia.
  - destruct (enqueued_cons m rest s) as (item & E & Q). rewrite E.
    destruct (onUserMessage_step m s) as (item' & Q' & _ & T1 & T2 & _).
    rewrite Q in Q'. apply app_inv_head in Q'. injection Q' as <-.
    specialize (IH (on_message m s)). cbn [filter].
    destruct (titled_item item) eqn:Ti; cbn [length].
    + rewrite (T1 eq_refl).
      destruct (isFirstMessage (on_message m s)) eqn:F; [|lia].
      destruct (T2 eq_refl) as [_ C]. congruence.
    + destruct (isFirstMessage (on_message m s)) eqn:F.
      * destruct (T2 eq_refl) as [-> _]. exact IH.
      * destruct (isFirstMessage s); lia.
Qed.

Lemma plain_followers (rest : list UserMessage) (s2 : Inbox)
  (pm : PermissionMode) (cm : option string) :
  Forall (fun r => meta r = None) rest ->
  currentPermissionMode (driver s2) = pm ->
  currentModel s2 = cm ->
  Forall (fun i =>
            mode_permissionMode (item_mode i) = pm
            /\ mode_model (item_mode i) = cm)
    (enqueued_by rest s2)
  /\ currentPermissionMode (driver (receive_all rest s2)) = pm
  /\ currentModel (receive_all rest s2) = cm.
Proof.
  intros Hrest. revert s2.
  induction Hrest as [|r rest Hr Hrest IH]; intros s2 HP HM.
  - unfold enqueued. cbn. rewrite skipn_all. repeat split; auto.
  - destruct (enqueued_cons r rest s2) as (it & E & Q). rewrite E.
    destruct (onUserMessage_step r s2) as (it' & Q' & _ & _ & _ & P2 & M2 & C2 & K2).
    rewrite Q in Q'. apply app_inv_head in Q'. injection Q' as <-.
    assert (R : requested_mode r = None) by (unfold requested_mode; now rewrite Hr).
    rewrite R in C2. specialize (K2 Hr).
    cbn [receive fold_left]. fold (receive_all rest (on_message r s2)).
    destruct (IH (on_message r s2)) as (F & A & B); [congruence | congruence |].
    repeat split; auto. constructor; [|exact F]. split; congruence.
Qed.

(** X6.  The permission mode and the model that a message sets stay in
    force for the messages after it that carry no metadata: each of
    their items has the mode and the model that the first message left
    as the current ones. *)
Theorem overrides_stick (m : UserMessage) (rest : list UserMessage) (s : Inbox) :
  Forall (fun r => meta r = None) rest ->
  let s1 := on_message m s in
  Forall (fun i =>
            mode_permissionMode (item_mode i) = currentPermissionMode (driver s1)
            /\ mode_model (item_mode i) = currentModel s1)
    (enqueued_by (m :: rest) s)
  /\ currentPermissionMode (driver (receive_all (m :: rest) s))
     = currentPermissionMode (driver s1)
  /\ currentModel (receive_all (m :: rest) s) = currentModel s1.
Proof.
  intros Hrest. cbv zeta.
  destruct (enqueued_cons m rest s) as (item & E & Q). rewrite E.
  destruct (onUserMessage_step m s) as (item' & Q' & _ & _ & _ & P & M & _).
  rewrite Q in Q'. apply app_inv_head in Q'. injection Q' as <-.
  cbn [receive fold_left]. fold (receive_all rest (on_message m s)).
  destruct (plain_followers (on_message m s) Hrest eq_refl eq_refl) as (F & A & B).
  repeat split; auto.
Qed.

End InboxFacts.

(** A first message that asks for ['yolo'] and a model, then a plain
    one. *)
Lemma overrides_stick_sample :
  Forall (fun r => Inbox.meta r = None) [Inbox.mkUserMessage "next" None]
  /\ Driver.currentPermissionMode
       (Inbox.driver
          (Inbox.receive Driver.FlDroid "TITLE"
             [Inbox.mkUserMessage "first"
                (Some (Inbox.mkMeta (Some "yolo") (Inbox.ModelGiven "gpt-5.1") None));
              Inbox.mkUserMessage "next" None]
             (Inbox.mkInbox Sample.driver0 None true [])))
     = Driver.currentPermissionMode
         (Inbox.driver
            (Inbox.onUserMessage Driver.FlDroid "TITLE"
               (Inbox.mkUserMessage "first"
                  (Some (Inbox.mkMeta (Some "yolo") (Inbox.ModelGiven "gpt-5.1") None)))
               (Inbox.mkInbox Sample.driver0 None true []))).
Proof.
  split; [repeat constructor|].
  apply overrides_stick. repeat constructor.
Defined.

(** A mode that is not one of the four is ignored; [null] clears the
    model. *)
Example invalid_mode_is_ignored :
  let s := Inbox.onUserMessage Driver.FlDroid "TITLE"
             (Inbox.mkUserMessage "hi"
                (Some (Inbox.mkMeta (Some "root") Inbox.ModelNull None)))
             (Inbox.mkInbox Sample.driver0 (Some "glm-4.6") true []) in
  Driver.currentPermissionMode (Inbox.driver s) = Agent.PmDefault
  /\ Inbox.currentModel s = None
  /\ Inbox.settings s = []
  /\ Inbox.isFirstMessage s = true.
Proof. repeat split. Qed.

(** ** The droid backend under all its methods *)

Section DroidOpsFacts.

Import Agent Exn DroidTypes Reader DroidOps.

Variable U : Type.
Variable FACTORY_API_KEY_ENV : string.
Variable JSON_parse : string -> option DroidStreamEvent.
Variable JSON_stringify : Js.JsValue -> string.

Local Notation "'Backend'" := (DroidBackend.DroidBackend U).
Local Notation "'handle'" := (DroidBackend.handleStreamEvent (U:=U) JSON_stringify).
Local Notation "'step'" :=
  (DroidBackend.step (U:=U) FACTORY_API_KEY_ENV JSON_parse JSON_stringify).
Local Notation "'run'" :=
  (DroidBackend.run (U:=U) FACTORY_API_KEY_ENV JSON_parse JSON_stringify).
Local Notation "'trace'" :=
  (DroidBackend.trace (U:=U) FACTORY_API_KEY_ENV JSON_parse JSON_stringify).
Local Notation "'ops'" :=
  (run_ops (U:=U) FACTORY_API_KEY_ENV JSON_parse JSON_stringify).
Local Notation "'emitted_by' b" := (emitted (DroidBackend.world b))
  (at level 10, b at level 9).
Local Notation "'spawned_by' b" := (DroidClient.spawned (DroidBackend.client b))
  (at level 10, b at level 9).

Lemma session_flag_truthy (sid : option string) :
  ArgsLayout.session_flag (if Js.truthy sid then sid else None)
  = ArgsLayout.session_flag sid.
Proof.
  destruct sid as [s|]; [|reflexivity]. cbn.
  destruct (String.eqb s "") eqn:E; cbn; now rewrite ?E.
Qed.

Lemma execStream_spawn_prompt (c : DroidClient.DroidClient) (prompt : string)
  (au : option DroidAutoLevel) (sid : option string) :
  DroidClient.execStream_spawn FACTORY_API_KEY_ENV c prompt
    (mkOptions None false au sid None None false None None None)
  = DroidClient.mkSpawn "droid"
      (["exec"; "-o"; "stream-json"]
       ++ ArgsLayout.auto_flag au
       ++ ArgsLayout.session_flag sid
       ++ ["-m"; DroidClient.defaultModel c; prompt])
      [(FACTORY_API_KEY_ENV, DroidClient.apiKey c)]
      (DroidClient.defaultCwd c).
Proof.
  unfold DroidClient.execStream_spawn. rewrite buildArgs_segments. reflexivity.
Qed.

Lemma execStream_spawned (prompt : string) (o : DroidExecOptions) (b : Backend) :
  spawned_by (exec (DroidBackend.execStream FACTORY_API_KEY_ENV prompt o) b)
  = spawned_by b
    ++ [DroidClient.execStream_spawn FACTORY_API_KEY_ENV (DroidBackend.client b)
          prompt o].
Proof. now destruct b as [[k dm cw cp ps sp sg] hs cs ds au pm ir w]. Qed.

Lemma sendPrompt_spawned (prompt : string) (b : Backend) :
  spawned_by (exec (DroidBackend.sendPrompt FACTORY_API_KEY_ENV prompt) b)
  = spawned_by b
    ++ [prompt_request FACTORY_API_KEY_ENV b (DroidBackend.droidSessionId b) prompt].
Proof.
  unfold exec, DroidBackend.sendPrompt, DroidBackend.execStream, bind,
    prompt_request.
  rewrite emit_closed.
  unfold DroidBackend.log, DroidBackend.with_client, zoom, logger_debug,
    modify, get, ret.
  destruct b as [[k dm cw cp ps sp sg] hs cs ds au pm ir w].
  cbn [fst snd DroidBackend.client DroidBackend.world DroidBackend.auto
       DroidBackend.droidSessionId DroidBackend.set_world
       DroidBackend.set_client DroidBackend.set_isRunning
       DroidBackend.messageHandlers DroidBackend.currentSessionId
       DroidBackend.permissionMode DroidBackend.isRunning].
  rewrite execStream_spawn_prompt, session_flag_truthy. reflexivity.
Qed.

(** X7.  [sendPrompt] spawns [droid exec -o stream-json] with the
    autonomy level, the droid session id and the default model that the
    backend holds at the time of the call, the prompt last, and the API
    key in the environment; [startSession] with a prompt spawns the
    same but never the session flag; [startSession] without a prompt,
    or with an empty one, spawns nothing and emits [starting] then
    [idle]. *)
Theorem prompts_spawn_with_current_configuration (prompt uuid : string)
  (b : Backend) :
  spawned_by (exec (DroidBackend.sendPrompt FACTORY_API_KEY_ENV prompt) b)
  = spawned_by b
    ++ [prompt_request FACTORY_API_KEY_ENV b (DroidBackend.droidSessionId b) prompt]
  /\ (if Js.nonempty prompt
      then
        spawned_by (exec (startSession FACTORY_API_KEY_ENV uuid (Some prompt)) b)
        = spawned_by b ++ [prompt_request FACTORY_API_KEY_ENV b None prompt]
        /\ emitted_by (exec (startSession FACTORY_API_KEY_ENV uuid (Some prompt)) b)
           = emitted_by b ++ [Status StStarting None]
      else
        spawned_by (exec (startSession FACTORY_API_KEY_ENV uuid (Some prompt)) b)
        = spawned_by b
        /\ emitted_by (exec (startSession FACTORY_API_KEY_ENV uuid (Some prompt)) b)
           = emitted_by b ++ [Status StStarting None; Status StIdle None])
  /\ spawned_by (exec (startSession FACTORY_API_KEY_ENV uuid None) b) = spawned_by b
  /\ emitted_by (exec (startSession FACTORY_API_KEY_ENV uuid None) b)
     = emitted_by b ++ [Status StStarting None; Status StIdle None].
Proof.
  unfold exec at 2 3 4 5 6 7. unfold startSession, DroidBackend.execStream,
    bind, prompt_request.
  assert (Hn : Js.truthy (Some prompt) = Js.nonempty prompt) by reflexivity.
  rewrite Hn. clear Hn.
  split; [|split; [|split]].
  - apply sendPrompt_spawned.
  - unfold modify. cbn [fst snd]. rewrite emit_closed. cbn [fst snd].
    destruct (Js.nonempty prompt) eqn:E.
    + unfold DroidBackend.log, DroidBackend.with_client, zoom, logger_debug,
        modify, get, ret.
      assert (Hp : Js.or_else (Some prompt) "" = prompt).
      { unfold Js.or_else. unfold Js.nonempty in E.
        destruct (String.eqb prompt ""); [discriminate | reflexivity]. }
      rewrite !Hp.
      destruct b as [[k dm cw cp ps sp sg] hs cs ds au pm ir w].
      cbn [fst snd DroidBackend.client DroidBackend.world DroidBackend.auto
           DroidBackend.droidSessionId DroidBackend.set_world
           DroidBackend.set_client DroidBackend.set_isRunning
           DroidBackend.messageHandlers DroidBackend.currentSessionId
           DroidBackend.permissionMode DroidBackend.isRunning].
      rewrite execStream_spawn_prompt. split; reflexivity.
    + rewrite emit_closed. unfold ret.
      destruct b as [[k dm cw cp ps sp sg] hs cs ds au pm ir w].
      cbn. split; [reflexivity | now rewrite <- app_assoc].
  - cbn [Js.truthy]. unfold modify. cbn [fst snd].
    rewrite emit_closed. cbn [fst snd]. rewrite emit_closed. unfold ret.
    now destruct b as [[k dm cw cp ps sp sg] hs cs ds au pm ir w].
  - cbn [Js.truthy]. unfold modify. cbn [fst snd].
    rewrite emit_closed. cbn [fst snd]. rewrite emit_closed. unfold ret.
    destruct b as [[k dm cw cp ps sp sg] hs cs ds au pm ir w]. cbn.
    now rewrite <- app_assoc.
Qed.


(** What the request of a prompt reads from the backend. *)
Lemma prompt_request_ext (b b' : Backend) (session : option string)
  (prompt : string) :
  DroidBackend.auto b' = DroidBackend.auto b ->
  DroidClient.defaultModel (DroidBackend.client b')
  = DroidClient.defaultModel (DroidBackend.client b) ->
  DroidClient.apiKey (DroidBackend.client b')
  = DroidClient.apiKey (DroidBackend.client b) ->
  DroidClient.defaultCwd (DroidBackend.client b')
  = DroidClient.defaultCwd (DroidBackend.client b) ->
  prompt_request FACTORY_API_KEY_ENV b' session prompt
  = prompt_request FACTORY_API_KEY_ENV b session prompt.
Proof. unfold prompt_request. now intros -> -> -> ->. Qed.

(** A read of stdout that completes one line, a [system] event. *)
Lemma system_line_state (b : Backend) (pid : nat) (p : DroidClient.Proc)
  (data line sid : string) (tools : list string) (mdl cwd : string) :
  DroidBackend.get_proc pid b = Some p ->
  complete (DroidClient.buffer p ++ data) = [line] ->
  Js.nonempty (Js.trim line) = true ->
  JSON_parse line = Some (EvSystem sid tools mdl cwd) ->
  let b1 := exec (step (DroidBackend.Stdout pid data)) b in
  DroidBackend.droidSessionId b1 = Some sid
  /\ DroidBackend.auto b1 = DroidBackend.auto b
  /\ DroidClient.defaultModel (DroidBackend.client b1)
     = DroidClient.defaultModel (DroidBackend.client b)
  /\ DroidClient.apiKey (DroidBackend.client b1)
     = DroidClient.apiKey (DroidBackend.client b)
  /\ DroidClient.defaultCwd (DroidBackend.client b1)
     = DroidClient.defaultCwd (DroidBackend.client b)
  /\ spawned_by b1 = spawned_by b.
Proof.
  intros Hp Hl Hn Hj. cbv zeta.
  assert (E : exec (step (DroidBackend.Stdout pid data)) b
              = exec (DroidBackend.put_proc pid
                        (DroidClient.mkProc (pending (DroidClient.buffer p ++ data))
                           (DroidClient.finalText p) (DroidClient.stderr p)
                           (DroidClient.settled p)))
                  (exec (handle (EvSystem sid tools mdl cwd)) b)).
  { unfold exec at 1. cbn [DroidBackend.step].
    rewrite (data_unfold JSON_parse handle pid data b Hp), Hl.
    unfold bind at 1.
    rewrite (each_line_delivers JSON_parse JSON_stringify
               line [] (DroidClient.finalText p) b Hn Hj).
    reflexivity. }
  rewrite E. clear E.
  assert (E : exists w',
            exec (handle (EvSystem sid tools mdl cwd)) b
            = DroidBackend.mkBackend (DroidBackend.client b)
                (DroidBackend.messageHandlers b) (DroidBackend.currentSessionId b)
                (Some sid) (DroidBackend.auto b) (DroidBackend.permissionMode b)
                (DroidBackend.isRunning b) w').
  { unfold exec. cbn [DroidBackend.handleStreamEvent].
    unfold bind at 1. unfold modify at 1. rewrite emit_then, emit_closed.
    unfold DroidBackend.log, zoom, logger_debug, modify.
    clear Hp. destruct b as [[k dm cw cp ps sp sg] hs cs ds au pm ir w].
    eexists. cbn. reflexivity. }
  destruct E as [w' ->].
  unfold exec, DroidBackend.put_proc, DroidBackend.with_client, modify.
  destruct b as [[k dm cw cp ps sp sg] hs cs ds au pm ir w]. cbn.
  repeat split.
Qed.

Lemma dispose_state (b : Backend) :
  let b1 := exec (DroidBackend.dispose (U:=U)) b in
  DroidBackend.droidSessionId b1 = None
  /\ DroidBackend.currentSessionId b1 = None
  /\ DroidBackend.messageHandlers b1 = []
  /\ DroidBackend.isRunning b1 = false
  /\ DroidBackend.auto b1 = DroidBackend.auto b
  /\ DroidBackend.permissionMode b1 = DroidBackend.permissionMode b
  /\ DroidClient.currentProcess (DroidBackend.client b1) = None
  /\ DroidClient.defaultModel (DroidBackend.client b1)
     = DroidClient.defaultModel (DroidBackend.client b)
  /\ DroidClient.apiKey (DroidBackend.client b1)
     = DroidClient.apiKey (DroidBackend.client b)
  /\ DroidClient.defaultCwd (DroidBackend.client b1)
     = DroidClient.defaultCwd (DroidBackend.client b)
  /\ DroidClient.procs (DroidBackend.client b1)
     = DroidClient.procs (DroidBackend.client b)
  /\ spawned_by b1 = spawned_by b
  /\ emitted_by b1 = emitted_by b
  /\ calls (DroidBackend.world b1) = calls (DroidBackend.world b)
  /\ user (DroidBackend.world b1) = user (DroidBackend.world b).
Proof.
  cbv zeta.
  unfold exec, DroidBackend.dispose, DroidBackend.client_cancel, bind, get,
    DroidBackend.with_client, DroidBackend.log, zoom, logger_debug, modify, ret.
  destruct b as [[k dm cw [live|] ps sp sg] hs cs ds au pm ir w]; cbn;
    repeat split.
Qed.

(** X8.  The session id that droid announces in a [system] event is
    kept and passed to the next prompt with the session flag, all other
    configuration unchanged; after [dispose] it is forgotten, and the
    next prompt starts a new droid session. *)
Theorem droid_session_is_continued (b : Backend) (pid : nat)
  (p : DroidClient.Proc) (data line sid : string) (tools : list string)
  (mdl cwd prompt : string) :
  DroidBackend.get_proc pid b = Some p ->
  complete (DroidClient.buffer p ++ data) = [line] ->
  Js.nonempty (Js.trim line) = true ->
  JSON_parse line = Some (EvSystem sid tools mdl cwd) ->
  spawned_by (ops [OpEvent U (DroidBackend.Stdout pid data);
                   OpEvent U (DroidBackend.CallSendPrompt prompt)] b)
  = spawned_by b ++ [prompt_request FACTORY_API_KEY_ENV b (Some sid) prompt]
  /\ spawned_by (ops [OpEvent U (DroidBackend.Stdout pid data);
                      OpDispose U;
                      OpEvent U (DroidBackend.CallSendPrompt prompt)] b)
     = spawned_by b ++ [prompt_request FACTORY_API_KEY_ENV b None prompt].
Proof.
  intros Hp Hl Hn Hj.
  destruct (system_line_state _ _ _ Hp Hl Hn Hj)
    as (Hs & Ha & Hm & Hk & Hc & Hsp).
  unfold run_ops. cbn [fold_left apply DroidBackend.step].
  set (b1 := exec (step (DroidBackend.Stdout pid data)) b) in *.
  cbn [DroidBackend.step] in b1. fold b1.
  split.
  - unfold exec at 1. unfold bind at 1.
    pose proof (sendPrompt_spawned prompt b1) as S. unfold exec at 1 in S.
    destruct (DroidBackend.sendPrompt FACTORY_API_KEY_ENV prompt b1) as [[n|e] b2];
      cbn [snd] in *; unfold ret; cbn [snd];
      rewrite S, Hs, Hsp; f_equal; f_equal;
      now apply prompt_request_ext.
  - destruct (dispose_state b1)
      as (Ds & _ & _ & _ & Da & _ & _ & Dm & Dk & Dc & _ & Dsp & _).
    set (b2 := exec (DroidBackend.dispose (U:=U)) b1) in *.
    unfold exec at 1. unfold bind at 1.
    pose proof (sendPrompt_spawned prompt b2) as S. unfold exec at 1 in S.
    destruct (DroidBackend.sendPrompt FACTORY_API_KEY_ENV prompt b2) as [[n|e] b3];
      cbn [snd] in *; unfold ret; cbn [snd];
      rewrite S, Ds, Dsp, Hsp; f_equal; f_equal;
      apply prompt_request_ext; congruence.
Qed.

End DroidOpsFacts.

(** The reading backend of the sample is told its session. *)
Lemma droid_session_is_continued_sample :
  DroidBackend.get_proc 0 Sample.droid_reading
  = Some (DroidClient.mkProc "" "" "" false)
  /\ DroidClient.spawned
       (DroidBackend.client
          (DroidOps.run_ops Sample.KEY Sample.parse Sample.stringify
             [DroidOps.OpEvent unit
                (DroidBackend.Stdout 0 ("init" ++ String Js.LF ""));
              DroidOps.OpEvent unit (DroidBackend.CallSendPrompt "next")]
             Sample.droid_reading))
     = DroidClient.spawned (DroidBackend.client Sample.droid_reading)
       ++ [DroidOps.prompt_request Sample.KEY Sample.droid_reading
             (Some "sess-1") "next"].
Proof.
  split; [reflexivity|].
  apply (droid_session_is_continued Sample.KEY Sample.parse Sample.stringify
           Sample.droid_reading 0 (p := DroidClient.mkProc "" "" "" false)
           ("init" ++ String Js.LF "") (line := "init") (sid := "sess-1")
           (tools := []) (mdl := "glm-4.6") (cwd := "/work") "next"
           eq_refl eq_refl eq_refl eq_refl).
Defined.

(** ** The promise of [execStream] settles once *)

Section SettleOnce.

Import Agent Exn DroidTypes Reader DroidOps.

Variable U : Type.
Variable FACTORY_API_KEY_ENV : string.
Variable JSON_parse : string -> option DroidStreamEvent.
Variable JSON_stringify : Js.JsValue -> string.

Local Notation "'Backend'" := (DroidBackend.DroidBackend U).
Local Notation "'handle'" := (DroidBackend.handleStreamEvent (U:=U) JSON_stringify).
Local Notation "'step'" :=
  (DroidBackend.step (U:=U) FACTORY_API_KEY_ENV JSON_parse JSON_stringify).
Local Notation "'run'" :=
  (DroidBackend.run (U:=U) FACTORY_API_KEY_ENV JSON_parse JSON_stringify).
Local Notation "'trace'" :=
  (DroidBackend.trace (U:=U) FACTORY_API_KEY_ENV JSON_parse JSON_stringify).
Local Notation "'emitted_by' b" := (emitted (DroidBackend.world b))
  (at level 10, b at level 9).

Lemma handle_client (ev : DroidStreamEvent) (b : Backend) :
  DroidBackend.client (exec (handle ev) b) = DroidBackend.client b.
Proof.
  pose proof (blind_handleStreamEvent JSON_stringify ev b (DroidBackend.client b))
    as F.
  rewrite set_client_same in F. unfold exec.
  destruct (handle ev b) as [r b1]. cbn [fst snd] in *.
  injection F as F. rewrite F at 1. now destruct b1.
Qed.

Lemma resume_client (s : option (Res string)) (b : Backend) :
  DroidBackend.client (snd (DroidBackend.resume_if_settled s b))
  = DroidBackend.client b.
Proof.
  destruct s as [[v|e]|]; cbn [DroidBackend.resume_if_settled];
    [| |reflexivity];
    unfold DroidBackend.sendPrompt_resume, try_catch, bind, modify, throw;
    cbn [fst snd]; rewrite emit_closed; now destruct b.
Qed.

Lemma resume_none_emits (b : Backend) :
  emitted_by (snd (DroidBackend.resume_if_settled None b)) = emitted_by b.
Proof. reflexivity. Qed.

(** The state that an ending leaves, up to the continuation of
    [sendPrompt], and what the promise is settled with. *)
Lemma end_state (pid : nat) (e : DroidBackend.Ending) (b : Backend)
  (p : DroidClient.Proc) :
  DroidBackend.get_proc pid b = Some p ->
  exists (p' : DroidClient.Proc) (b1 : Backend) (ms : list AgentMessage)
         (o : Res string),
    exec (step (DroidBackend.end_event pid e)) b
    = snd (DroidBackend.resume_if_settled
             (if DroidClient.settled p then None else Some o)
             (exec (DroidBackend.put_proc pid p') b1))
    /\ DroidClient.settled p' = true
    /\ DroidClient.procs (DroidBackend.client b1)
       = DroidClient.procs (DroidBackend.client b)
    /\ emitted_by b1 = emitted_by b ++ ms
    /\ terminals ms = []
    /\ match e with
       | DroidBackend.Exited code =>
           exists ft, o = exit_outcome code ft (DroidClient.stderr p)
       | DroidBackend.SpawnFailed message =>
           o = Throw (Js.JsError ("Failed to spawn droid: " ++ message))
       end.
Proof.
  intros Hp. destruct e as [code|message];
    cbn [DroidBackend.end_event DroidBackend.step]; unfold exec at 1;
    unfold bind at 1.
  - destruct (Js.nonempty (Js.trim (DroidClient.buffer p))) eqn:Hn;
      [destruct (JSON_parse (DroidClient.buffer p)) as [ev|] eqn:Hev|].
    + rewrite (close_delivers_fragment JSON_parse JSON_stringify pid code b Hp Hn Hev).
      destruct (quiet_handle JSON_stringify ev
                  (exec (DroidBackend.with_client
                           (DroidClient.set_currentProcess None)) b))
        as (ms & E & T).
      do 4 eexists. split; [reflexivity|]. split; [reflexivity|].
      split; [|split; [|split; [exact T|]]].
      * rewrite handle_client. now destruct b.
      * unfold exec at 1. rewrite E. now destruct b.
      * eexists. reflexivity.
    + rewrite (close_drops_fragment JSON_parse handle pid code b Hp (or_intror Hev)).
      do 2 eexists. exists []. eexists.
      split; [reflexivity|]. split; [reflexivity|].
      rewrite app_nil_r. split; [now destruct b|]. split; [now destruct b|].
      split; [reflexivity|]. eexists. reflexivity.
    + rewrite (close_drops_fragment JSON_parse handle pid code b Hp (or_introl Hn)).
      do 2 eexists. exists []. eexists.
      split; [reflexivity|]. split; [reflexivity|].
      rewrite app_nil_r. split; [now destruct b|]. split; [now destruct b|].
      split; [reflexivity|]. eexists. reflexivity.
  - unfold DroidBackend.execStream_error, bind, get. rewrite Hp.
    unfold DroidBackend.with_client at 1. unfold modify at 1.
    unfold DroidBackend.settle, bind.
    unfold DroidBackend.put_proc at 1. unfold DroidBackend.with_client at 1.
    unfold modify at 1. unfold ret at 1. cbn [fst snd].
    do 2 eexists. exists []. eexists.
    split; [reflexivity|]. split; [reflexivity|].
    rewrite app_nil_r. split; [now destruct b|]. split; [now destruct b|].
    split; reflexivity.
Qed.

Lemma put_proc_get (pid : nat) (p' p : DroidClient.Proc) (b b1 : Backend) :
  DroidBackend.get_proc pid b = Some p ->
  DroidClient.procs (DroidBackend.client b1)
  = DroidClient.procs (DroidBackend.client b) ->
  DroidBackend.get_proc pid (exec (DroidBackend.put_proc pid p') b1) = Some p'.
Proof.
  intros Hp Hc. unfold DroidBackend.get_proc in *.
  destruct b1 as [[k dm cw cp ps sp sg] hs cs ds au pm ir w]. cbn in *.
  subst ps. eapply nth_error_set_nth_same. exact Hp.
Qed.

(** After an ending the promise is settled, whatever it was before. *)
Lemma end_settles (pid : nat) (e : DroidBackend.Ending) (b : Backend)
  (p : DroidClient.Proc) :
  DroidBackend.get_proc pid b = Some p ->
  exists p',
    DroidBackend.get_proc pid (exec (step (DroidBackend.end_event pid e)) b)
    = Some p'
    /\ DroidClient.settled p' = true.
Proof.
  intros Hp. destruct (end_state pid e b Hp) as (p' & b1 & ms & o & E & S & C & _ & _ & _).
  exists p'. split; [|exact S].
  rewrite E. unfold DroidBackend.get_proc at 1. rewrite resume_client.
  exact (put_proc_get pid p' b b1 Hp C).
Qed.

(** An ending of a child whose promise is settled emits no status. *)
Lemma settled_end_quiet (pid : nat) (e : DroidBackend.Ending) (b : Backend)
  (p : DroidClient.Proc) :
  DroidBackend.get_proc pid b = Some p ->
  DroidClient.settled p = true ->
  exists ms,
    emitted_by (exec (step (DroidBackend.end_event pid e)) b) = emitted_by b ++ ms
    /\ terminals ms = [].
Proof.
  intros Hp Hs. destruct (end_state pid e b Hp) as (p' & b1 & ms & o & E & _ & _ & Em & T & _).
  exists ms. split; [|exact T].
  rewrite E, Hs, resume_none_emits, put_proc_emitted. exact Em.
Qed.

(** A read leaves the promise as it was; a read of stderr adds to the
    text kept for the error message. *)
Lemma read_keeps_flag (pid : nat) (r : DroidBackend.Read) (b : Backend)
  (p : DroidClient.Proc) :
  DroidBackend.get_proc pid b = Some p ->
  exists p',
    DroidBackend.get_proc pid (exec (step (DroidBackend.read_event pid r)) b)
    = Some p'
    /\ DroidClient.settled p' = DroidClient.settled p
    /\ DroidClient.stderr p'
       = (DroidClient.stderr p ++ stderr_text [r])%string.
Proof.
  intros Hp. destruct r as [data|data];
    cbn [DroidBackend.read_event DroidBackend.step stderr_text fold_right].
  - destruct (data_client JSON_parse JSON_stringify pid data b Hp) as [ft Hc].
    eexists. unfold DroidBackend.get_proc. rewrite Hc. cbn. split.
    + eapply nth_error_set_nth_same. exact Hp.
    + now rewrite append_empty_r.
  - unfold exec, DroidBackend.execStream_stderr, bind, get.
    rewrite Hp. unfold DroidBackend.get_proc in *.
    destruct b as [cl hs cs ds au pm ir w]. cbn in *.
    eexists. split; [eapply nth_error_set_nth_same; exact Hp |].
    cbn. now rewrite append_empty_r.
Qed.

Lemma read_quiet (pid : nat) (r : DroidBackend.Read) (b : Backend) :
  exists ms,
    emitted_by (exec (step (DroidBackend.read_event pid r)) b) = emitted_by b ++ ms
    /\ terminals ms = [].
Proof.
  destruct r as [data|data]; cbn [DroidBackend.read_event DroidBackend.step].
  - apply quiet_data.
  - apply quiet_stderr.
Qed.

(** Whatever a child delivers after its promise is settled, no
    terminal status is emitted. *)
Lemma late_events_quiet (pid : nat)
  (late : list (DroidBackend.Read + DroidBackend.Ending)) (b : Backend)
  (p : DroidClient.Proc) :
  DroidBackend.get_proc pid b = Some p ->
  DroidClient.settled p = true ->
  exists ms,
    emitted_by (run (map (child_event pid) late) b) = emitted_by b ++ ms
    /\ terminals ms = [].
Proof.
  revert b p; induction late as [|x late IH]; intros b p Hp Hs.
  - exists []. now rewrite app_nil_r.
  - cbn [map DroidBackend.run fold_left].
    destruct x as [r|e]; cbn [child_event].
    + destruct (read_keeps_flag pid r b Hp) as (p' & Hp' & Hs' & _).
      destruct (read_quiet pid r b) as (ms & E & T).
      rewrite Hs in Hs'.
      destruct (IH _ _ Hp' Hs') as (ms' & E' & T').
      exists (ms ++ ms'). unfold DroidBackend.run in E'.
      rewrite E', E, app_assoc, terminals_app, T, T'. now split.
    + destruct (end_settles pid e b Hp) as (p' & Hp' & Hs').
      destruct (settled_end_quiet pid e b Hp Hs) as (ms & E & T).
      destruct (IH _ _ Hp' Hs') as (ms' & E' & T').
      exists (ms ++ ms'). unfold DroidBackend.run in E'.
      rewrite E', E, app_assoc, terminals_app, T, T'. now split.
Qed.

(** X9.  The first ending of an awaited child, [close] or [error],
    decides the one terminal status of its prompt: whatever the child
    delivers afterwards, further reads or a second ending, adds no
    terminal status. *)
Theorem droid_promise_settles_once (pid : nat) (e : DroidBackend.Ending)
  (late : list (DroidBackend.Read + DroidBackend.Ending)) (b : Backend) :
  DroidBackend.awaited pid b ->
  terminals (trace (DroidBackend.end_event pid e :: map (child_event pid) late) b)
  = [DroidBackend.ending_status e].
Proof.
  intros A. pose proof A as (p & Hp & Hs).
  unfold DroidBackend.trace.
  change (DroidBackend.end_event pid e :: map (child_event pid) late)
    with ([DroidBackend.end_event pid e] ++ map (child_event pid) late).
  rewrite run_app.
  change (run [DroidBackend.end_event pid e] b)
    with (exec (step (DroidBackend.end_event pid e)) b).
  destruct (end_step FACTORY_API_KEY_ENV JSON_parse JSON_stringify e A)
    as (ms & E & T).
  destruct (end_settles pid e b Hp) as (p' & Hp' & Hs').
  destruct (late_events_quiet pid late _ Hp' Hs') as (ms' & E' & T').
  rewrite E', E, <- app_assoc, skipn_exact, terminals_app, T, T'.
  apply app_nil_r.
Qed.


Lemma stderr_text_cons (r : DroidBackend.Read) (rest : list DroidBackend.Read) :
  stderr_text (r :: rest) = (stderr_text [r] ++ stderr_text rest)%string.
Proof.
  destruct r as [data|data]; cbn [stderr_text fold_right]; [reflexivity|].
  now rewrite append_empty_r.
Qed.

(** Reads of an awaited child: nothing terminal is emitted, and the
    text of stderr is kept in the order it came. *)
Lemma reads_keep_stderr (pid : nat) (reads : list DroidBackend.Read)
  (b : Backend) (p : DroidClient.Proc) :
  DroidBackend.get_proc pid b = Some p ->
  exists p' ms,
    DroidBackend.get_proc pid (run (map (DroidBackend.read_event pid) reads) b)
    = Some p'
    /\ DroidClient.settled p' = DroidClient.settled p
    /\ DroidClient.stderr p'
       = (DroidClient.stderr p ++ stderr_text reads)%string
    /\ emitted_by (run (map (DroidBackend.read_event pid) reads) b)
       = emitted_by b ++ ms
    /\ terminals ms = [].
Proof.
  revert b p; induction reads as [|r rest IH]; intros b p Hp.
  - exists p, []. cbn. now rewrite append_empty_r, app_nil_r.
  - cbn [map DroidBackend.run fold_left].
    destruct (read_keeps_flag pid r b Hp) as (p1 & Hp1 & Hs1 & He1).
    destruct (read_quiet pid r b) as (ms & E & T).
    destruct (IH _ _ Hp1) as (p' & ms' & Hp' & Hs' & He' & E' & T').
    exists p', (ms ++ ms'). unfold DroidBackend.run in *.
    rewrite Hp', Hs', He', E', E, He1, Hs1, (stderr_text_cons r rest).
    rewrite append_assoc_s, app_assoc, terminals_app, T, T'.
    repeat split.
Qed.

Lemma sendPrompt_proc (prompt : string) (b : Backend) :
  let pid := length (DroidClient.procs (DroidBackend.client b)) in
  let b1 := exec (step (DroidBackend.CallSendPrompt prompt)) b in
  emitted_by b1 = emitted_by b ++ [Status StRunning None]
  /\ DroidBackend.get_proc pid b1 = Some (DroidClient.mkProc "" "" "" false).
Proof.
  cbv zeta. unfold exec. cbn [DroidBackend.step].
  unfold DroidBackend.sendPrompt, DroidBackend.execStream, bind.
  rewrite emit_closed.
  unfold DroidBackend.log, DroidBackend.with_client, zoom, logger_debug,
    modify, get, ret.
  destruct b as [cl hs cs ds au pm ir w]. destruct cl as [k dm cw cp ps sp sg].
  cbn. split; [reflexivity|].
  unfold DroidBackend.get_proc. cbn.
  rewrite nth_error_app2, Nat.sub_diag; [reflexivity | lia].
Qed.

(** X10.  A prompt whose child exits with a code other than 0 ends
    with the status [error], and its detail quotes the exit code and
    all the text the child wrote to stderr, in order, or the words
    [Unknown error] if it wrote none; nothing terminal is emitted
    before. *)
Theorem droid_error_detail_quotes_stderr (prompt : string)
  (reads : list DroidBackend.Read) (code : option Z) (b : Backend) :
  code <> Some 0%Z ->
  let pid := length (DroidClient.procs (DroidBackend.client b)) in
  exists ms,
    trace (DroidBackend.CallSendPrompt prompt
           :: map (DroidBackend.read_event pid) reads
           ++ [DroidBackend.Close pid code]) b
    = Status StRunning None
      :: ms
      ++ [Status StError
            (Some ("Droid stream exited with code " ++ Js.show_code code ++ ": "
                   ++ Js.or_else (Some (stderr_text reads)) "Unknown error")%string)]
    /\ terminals ms = [].
Proof.
  intros Hcode. cbv zeta. unfold DroidBackend.trace.
  set (pid := length (DroidClient.procs (DroidBackend.client b))).
  change (DroidBackend.CallSendPrompt prompt
          :: map (DroidBackend.read_event pid) reads
          ++ [DroidBackend.Close pid code])
    with ([DroidBackend.CallSendPrompt prompt]
          ++ map (DroidBackend.read_event pid) reads
          ++ [DroidBackend.Close pid code]).
  rewrite !run_app.
  destruct (sendPrompt_proc prompt b) as (E1 & P1). fold pid in P1.
  change (run [DroidBackend.CallSendPrompt prompt] b)
    with (exec (step (DroidBackend.CallSendPrompt prompt)) b).
  set (b1 := exec (step (DroidBackend.CallSendPrompt prompt)) b) in *.
  destruct (reads_keep_stderr pid reads b1 P1)
    as (p2 & ms2 & P2 & S2 & R2 & E2 & T2).
  set (b2 := run (map (DroidBackend.read_event pid) reads) b1) in *.
  cbn [DroidClient.settled DroidClient.stderr append] in S2, R2.
  destruct (end_state pid (DroidBackend.Exited code) b2 P2)
    as (p3 & b3 & ms3 & o & E3 & _ & _ & Em3 & T3 & [ft Ho]).
  change (run [DroidBackend.Close pid code] b2)
    with (exec (step (DroidBackend.end_event pid (DroidBackend.Exited code))) b2).
  rewrite E3, S2. cbn [DroidBackend.resume_if_settled].
  rewrite resume_emits, put_proc_emitted, Em3, E2, E1, <- !app_assoc.
  rewrite skipn_exact. exists (ms2 ++ ms3).
  split; [|now rewrite terminals_app, T2, T3].
  cbn [app]. rewrite <- app_assoc. do 3 f_equal.
  subst o. rewrite R2. unfold exit_outcome.
  destruct code as [[|z|z]|]; try reflexivity. now destruct Hcode.
Qed.

End SettleOnce.

(** A spawn failure reports [error] and then [close]. *)
Lemma droid_promise_settles_once_sample :
  DroidBackend.awaited 0 Sample.droid_reading
  /\ Agent.terminals
       (DroidBackend.trace Sample.KEY Sample.parse Sample.stringify
          [DroidBackend.SpawnError 0 "spawn droid ENOENT";
           DroidBackend.Close 0 None]
          Sample.droid_reading)
     = [Agent.StError].
Proof.
  assert (A : DroidBackend.awaited 0 Sample.droid_reading).
  { exists (DroidClient.mkProc "" "" "" false). split; reflexivity. }
  split; [exact A|].
  apply (droid_promise_settles_once Sample.KEY Sample.parse Sample.stringify
           (DroidBackend.SpawnFailed "spawn droid ENOENT")
           [inr (DroidBackend.Exited None)] A).
Defined.

(** The child complains twice and exits with code 1. *)
Lemma droid_error_detail_quotes_stderr_sample :
  Some 1%Z <> Some 0%Z
  /\ exists ms,
       DroidBackend.trace Sample.KEY Sample.parse Sample.stringify
         [DroidBackend.CallSendPrompt "list files";
          DroidBackend.Stderr 0 "no ";
          DroidBackend.Stderr 0 "key";
          DroidBackend.Close 0 (Some 1%Z)]
         Sample.droid0
       = Agent.Status Agent.StRunning None
         :: ms
         ++ [Agent.Status Agent.StError
               (Some "Droid stream exited with code 1: no key")]
       /\ Agent.terminals ms = [].
Proof.
  split; [discriminate|].
  apply (droid_error_detail_quotes_stderr Sample.KEY Sample.parse Sample.stringify
           "list files" [DroidBackend.ReadErr "no "; DroidBackend.ReadErr "key"]
           (code := Some 1%Z) Sample.droid0).
  discriminate.
Defined.

(** ** After [dispose] *)

Section Dispose.

Import Agent Exn DroidTypes Reader DroidOps.

Variable U : Type.
Variable FACTORY_API_KEY_ENV : string.
Variable JSON_parse : string -> option DroidStreamEvent.
Variable JSON_stringify : Js.JsValue -> string.

Local Notation "'Backend'" := (DroidBackend.DroidBackend U).
Local Notation "'handle'" := (DroidBackend.handleStreamEvent (U:=U) JSON_stringify).
Local Notation "'step'" :=
  (DroidBackend.step (U:=U) FACTORY_API_KEY_ENV JSON_parse JSON_stringify).
Local Notation "'ops'" :=
  (run_ops (U:=U) FACTORY_API_KEY_ENV JSON_parse JSON_stringify).
Local Notation "'apply_op'" :=
  (DroidOps.apply (U:=U) FACTORY_API_KEY_ENV JSON_parse JSON_stringify).

Lemma detached_ret {A} (a : A) : detached (U:=U) (ret a).
Proof. intros b H. cbn. auto. Qed.

Lemma detached_throw {A} (e : Js.JsExn) : detached (U:=U) (A:=A) (throw e).
Proof. intros b H. cbn. auto. Qed.

Lemma detached_get : detached (U:=U) get.
Proof. intros b H. cbn. auto. Qed.

Lemma detached_bind {A B} (m : M Backend A) (k : A -> M Backend B) :
  detached m -> (forall a, detached (k a)) -> detached (bind m k).
Proof.
  intros Hm Hk b H. unfold bind. specialize (Hm b H).
  destruct (m b) as [[a|e] b1]; cbn [snd] in *; [|exact Hm].
  destruct Hm as (H1 & C1 & U1).
  destruct (Hk a b1 H1) as (H2 & C2 & U2).
  repeat split; congruence.
Qed.

Lemma detached_try_catch {A} (m : M Backend A) (h : Js.JsExn -> M Backend A) :
  detached m -> (forall e, detached (h e)) -> detached (try_catch m h).
Proof.
  intros Hm Hh b H. unfold try_catch. specialize (Hm b H).
  destruct (m b) as [[a|e] b1]; cbn [snd] in *; [exact Hm|].
  destruct Hm as (H1 & C1 & U1).
  destruct (Hh e b1 H1) as (H2 & C2 & U2).
  repeat split; congruence.
Qed.

Lemma detached_modify (f : Backend -> Backend) :
  (forall b, DroidBackend.messageHandlers (f b) = DroidBackend.messageHandlers b
             /\ calls (DroidBackend.world (f b)) = calls (DroidBackend.world b)
             /\ user (DroidBackend.world (f b)) = user (DroidBackend.world b)) ->
  detached (modify f).
Proof.
  intros Hf b H. cbn. destruct (Hf b) as (H1 & C1 & U1).
  repeat split; congruence.
Qed.

Lemma detached_with_client
  (f : DroidClient.DroidClient -> DroidClient.DroidClient) :
  detached (U:=U) (DroidBackend.with_client f).
Proof. apply detached_modify. now intros []. Qed.

Lemma detached_log (l : LogLine) : detached (U:=U) (DroidBackend.log l).
Proof. intros b H. destruct b. cbn in *. auto. Qed.

(** With no handler registered, [emit] calls nobody. *)
Lemma detached_emit (msg : AgentMessage) : detached (U:=U) (DroidBackend.emit msg).
Proof.
  intros b H. rewrite emit_closed, H. destruct b. cbn in *.
  rewrite app_nil_r. auto.
Qed.

Lemma detached_handle (ev : DroidStreamEvent) : detached (handle ev).
Proof.
  destruct ev as [sid tools mdl cwd|role text|id tn ps|id tid v|ft nt dm|];
    cbn [DroidBackend.handleStreamEvent].
  - repeat (apply detached_bind; [|intros _]);
      auto using detached_emit, detached_log.
    apply detached_modify. now intros [].
  - destruct role; auto using detached_emit, detached_ret.
  - apply detached_emit.
  - repeat (apply detached_bind; [|intros _]); try apply detached_emit.
    + destruct (DroidBackend.is_file_tool tid);
        auto using detached_emit, detached_ret.
    + destruct (String.eqb tid "Execute");
        auto using detached_emit, detached_ret.
  - repeat (apply detached_bind; [|intros _]);
      auto using detached_emit, detached_log.
    destruct (Js.nonempty ft); auto using detached_emit, detached_ret.
  - apply detached_ret.
Qed.

Lemma detached_parse_and_deliver (text ft : string) :
  detached (DroidBackend.parse_and_deliver JSON_parse handle text ft).
Proof.
  unfold DroidBackend.parse_and_deliver.
  destruct (JSON_parse text) as [ev|]; [|apply detached_throw].
  apply detached_bind; [apply detached_handle | intros _; apply detached_ret].
Qed.

Lemma detached_each_line (lines : list string) (ft : string) :
  detached (DroidBackend.each_line JSON_parse handle lines ft).
Proof.
  revert ft; induction lines as [|line rest IH]; intros ft;
    cbn [DroidBackend.each_line]; [apply detached_ret|].
  destruct (Js.nonempty (Js.trim line)); [|apply IH].
  apply detached_bind; [|intros ft'; apply IH].
  apply detached_try_catch; [apply detached_parse_and_deliver|].
  intros e. apply detached_bind; [apply detached_log | intros _; apply detached_ret].
Qed.

Lemma detached_put_proc (pid : nat) (p : DroidClient.Proc) :
  detached (U:=U) (DroidBackend.put_proc pid p).
Proof. apply detached_with_client. Qed.

Lemma detached_settle (pid : nat) (p : DroidClient.Proc) (o : Res string) :
  detached (U:=U) (DroidBackend.settle pid p o).
Proof.
  apply detached_bind; [apply detached_put_proc | intros _; apply detached_ret].
Qed.

Lemma detached_resume (s : option (Res string)) :
  detached (U:=U) (DroidBackend.resume_if_settled s).
Proof.
  destruct s as [o|]; [|apply detached_ret].
  cbn [DroidBackend.resume_if_settled]. unfold DroidBackend.sendPrompt_resume.
  apply detached_try_catch.
  - destruct o as [v|e]; [|apply detached_throw].
    apply detached_bind; [|intros _; apply detached_emit].
    apply detached_modify. now intros [].
  - intros e. repeat (apply detached_bind; [|intros _]);
      auto using detached_emit, detached_throw.
    apply detached_modify. now intros [].
Qed.

Lemma detached_client_cancel : detached (U:=U) (DroidBackend.client_cancel (U:=U)).
Proof.
  unfold DroidBackend.client_cancel.
  apply detached_bind; [apply detached_get | intros b].
  destruct (DroidClient.currentProcess (DroidBackend.client b)) as [pid|];
    [|apply detached_ret].
  repeat (apply detached_bind; [|intros _]);
    auto using detached_log, detached_with_client, detached_ret.
Qed.

Lemma detached_execStream (prompt : string) (o : DroidExecOptions) :
  detached (U:=U) (DroidBackend.execStream FACTORY_API_KEY_ENV prompt o).
Proof.
  unfold DroidBackend.execStream.
  apply detached_bind; [apply detached_get | intros b].
  repeat (apply detached_bind; [|intros _]);
    auto using detached_log, detached_with_client, detached_ret.
Qed.

Lemma detached_step (ev : DroidBackend.Event) : detached (step ev).
Proof.
  destruct ev as [prompt| |pid data|pid data|pid code|pid message];
    cbn [DroidBackend.step].
  - apply detached_bind; [|intros _; apply detached_ret].
    unfold DroidBackend.sendPrompt.
    apply detached_bind; [apply detached_emit | intros _].
    apply detached_bind; [apply detached_modify; now intros [] | intros _].
    apply detached_bind; [apply detached_get | intros b].
    apply detached_execStream.
  - unfold DroidBackend.cancel.
    apply detached_bind; [apply detached_client_cancel | intros [|]];
      [|apply detached_ret].
    apply detached_bind; [apply detached_modify; now intros [] | intros _].
    apply detached_emit.
  - unfold DroidBackend.execStream_data.
    apply detached_bind; [apply detached_get | intros b].
    destruct (DroidBackend.get_proc pid b) as [p|]; [|apply detached_ret].
    destruct (Js.pop _) as [popped lines].
    apply detached_bind; [apply detached_each_line | intros ft].
    apply detached_put_proc.
  - unfold DroidBackend.execStream_stderr.
    apply detached_bind; [apply detached_get | intros b].
    destruct (DroidBackend.get_proc pid b) as [p|]; [|apply detached_ret].
    apply detached_bind; [apply detached_put_proc | intros _; apply detached_log].
  - apply detached_bind; [|intros s; apply detached_resume].
    unfold DroidBackend.execStream_close.
    apply detached_bind; [apply detached_get | intros b].
    destruct (DroidBackend.get_proc pid b) as [p|]; [|apply detached_ret].
    apply detached_bind; [apply detached_with_client | intros _].
    apply detached_bind.
    + destruct (Js.nonempty (Js.trim (DroidClient.buffer p)));
        [|apply detached_ret].
      apply detached_try_catch; [apply detached_parse_and_deliver|].
      intros e. apply detached_ret.
    + intros ft. destruct code as [[|z|z]|]; apply detached_settle.
  - apply detached_bind; [|intros s; apply detached_resume].
    unfold DroidBackend.execStream_error.
    apply detached_bind; [apply detached_get | intros b].
    destruct (DroidBackend.get_proc pid b) as [p|]; [|apply detached_ret].
    apply detached_bind; [apply detached_with_client | intros _].
    apply detached_settle.
Qed.

Lemma offMessage_nil (h : AgentMessageHandler U) : Agent.offMessage h [] = [].
Proof. reflexivity. Qed.

Lemma detached_apply (op : Op U) :
  registers op = false -> detached (apply_op op).
Proof.
  destruct op as [ev|id prompt|mode|level|model|id approved|h|h|];
    cbn [registers DroidOps.apply]; intros R; try discriminate.
  - apply detached_step.
  - apply detached_bind; [|intros _; apply detached_ret].
    unfold startSession.
    apply detached_bind; [apply detached_modify; now intros [] | intros _].
    apply detached_bind; [apply detached_emit | intros _].
    destruct (Js.truthy prompt).
    + apply detached_bind; [apply detached_modify; now intros [] | intros _].
      apply detached_bind; [apply detached_get | intros b].
      apply detached_bind; [apply detached_execStream | intros pid].
      apply detached_ret.
    + apply detached_bind; [apply detached_emit | intros _; apply detached_ret].
  - unfold DroidBackend.setPermissionMode.
    repeat (apply detached_bind; [|intros _]); try apply detached_log;
      apply detached_modify; now intros [].
  - apply detached_modify. now intros [].
  - apply detached_with_client.
  - apply detached_log.
  - intros b H. unfold DroidBackend.offMessage, modify. cbn.
    rewrite H. auto.
  - intros b H. destruct (dispose_state b) as (_ & _ & Hh & _ & _ & _ & _ & _ & _ & _ & _ & _ & _ & Hc & Hu).
    auto.
Qed.

(** X11.  After [dispose] the backend calls no handler: whatever happens
    next, late output or endings of a child, new prompts, cancellation,
    changes of configuration, no handler that was registered is
    invoked and the handlers' state is left as it was, as long as no
    handler is registered anew. *)
Theorem dispose_detaches_handlers (later : list (Op U)) (b : Backend) :
  forallb (fun op => negb (registers op)) later = true ->
  let b' := ops later (exec (DroidBackend.dispose (U:=U)) b) in
  DroidBackend.messageHandlers b' = []
  /\ calls (DroidBackend.world b') = calls (DroidBackend.world b)
  /\ user (DroidBackend.world b') = user (DroidBackend.world b).
Proof.
  intros Hl. cbv zeta.
  destruct (dispose_state b)
    as (_ & _ & Hh & _ & _ & _ & _ & _ & _ & _ & _ & _ & _ & Hc & Hu).
  rewrite <- Hc, <- Hu. clear Hc Hu.
  set (b0 := exec (DroidBackend.dispose (U:=U)) b) in *. clearbody b0.
  clear b. rename b0 into b.
  revert b Hh; induction later as [|op rest IH]; intros b Hh; [auto|].
  cbn [forallb] in Hl. apply andb_prop in Hl as [Hop Hrest].
  apply negb_true_iff in Hop.
  unfold run_ops. cbn [fold_left].
  destruct (detached_apply op Hop b Hh) as (H1 & C1 & U1).
  destruct (IH Hrest _ H1) as (H2 & C2 & U2).
  unfold run_ops, exec in *. repeat split; congruence.
Qed.

End Dispose.

(** The driver's backend is disposed of while its child still writes. *)
Lemma dispose_detaches_handlers_sample :
  let later :=
    [DroidOps.OpEvent Driver.Driver (DroidBackend.Stdout 0 ("hello" ++ String Js.LF ""));
     DroidOps.OpEvent Driver.Driver (DroidBackend.Close 0 (Some 0%Z));
     DroidOps.OpEvent Driver.Driver (DroidBackend.CallSendPrompt "next")] in
  let b := Exn.exec (DroidBackend.sendPrompt Sample.KEY "list files")
             Sample.droid_driven in
  forallb (fun op => negb (DroidOps.registers op)) later = true
  /\ Agent.calls
       (DroidBackend.world
          (DroidOps.run_ops Sample.KEY Sample.parse Sample.stringify later
             (Exn.exec (DroidBackend.dispose (U:=Driver.Driver)) b)))
     = Agent.calls (DroidBackend.world b).
Proof.
  cbv zeta. split; [reflexivity|].
  apply (dispose_detaches_handlers Sample.KEY Sample.parse Sample.stringify
           [DroidOps.OpEvent Driver.Driver
              (DroidBackend.Stdout 0 ("hello" ++ String Js.LF ""));
            DroidOps.OpEvent Driver.Driver (DroidBackend.Close 0 (Some 0%Z));
            DroidOps.OpEvent Driver.Driver (DroidBackend.CallSendPrompt "next")]
           (Exn.exec (DroidBackend.sendPrompt Sample.KEY "list files")
              Sample.droid_driven)
           eq_refl).
Defined.

(** ** Registration of handlers *)

Section RegistrationFacts.

Import Agent Registration.

Variable U : Type.

Lemma offMessage_unregistered (h : AgentMessageHandler U)
  (hs : list (AgentMessageHandler U)) :
  registered h hs = false -> offMessage h hs = hs.
Proof.
  induction hs as [|g hs IH]; [reflexivity|].
  cbn [registered existsb offMessage]. intros H.
  apply orb_false_elim in H as [Hg Hhs]. rewrite Hg.
  f_equal. now apply IH.
Qed.

Lemma offMessage_app_unregistered (h : AgentMessageHandler U)
  (hs rest : list (AgentMessageHandler U)) :
  registered h hs = false -> offMessage h (hs ++ rest) = hs ++ offMessage h rest.
Proof.
  induction hs as [|g hs IH]; [reflexivity|].
  cbn [registered existsb offMessage app]. intros H.
  apply orb_false_elim in H as [Hg Hhs]. rewrite Hg.
  f_equal. now apply IH.
Qed.

Lemma offMessage_length (h : AgentMessageHandler U)
  (hs : list (AgentMessageHandler U)) :
  length (offMessage h hs) = length hs - (if registered h hs then 1 else 0).
Proof.
  induction hs as [|g hs IH]; [reflexivity|].
  cbn [registered existsb offMessage length].
  destruct (Nat.eqb (hid g) (hid h)); cbn [orb]; [lia|].
  cbn [length]. rewrite IH. fold (registered h hs).
  destruct (registered h hs) eqn:R; [|lia].
  destruct hs; [discriminate R | cbn [length]; lia].
Qed.

(** X12.  [offMessage] undoes [onMessage] for a handler that was not
    registered before, leaving the other handlers and their order as
    they were, and does nothing for a handler that is not registered;
    on either backend, since both keep their handlers the same way. *)
Theorem offMessage_undoes_onMessage (h : AgentMessageHandler U)
  (hs : list (AgentMessageHandler U)) (droid : DroidBackend.DroidBackend U)
  (opencode : OpencodeBackend.OpencodeBackend U) :
  registered h hs = false ->
  offMessage h (onMessage h hs) = hs
  /\ offMessage h hs = hs
  /\ (DroidBackend.messageHandlers droid = hs ->
      DroidBackend.messageHandlers
        (Exn.exec (DroidBackend.offMessage h)
           (Exn.exec (DroidBackend.onMessage h) droid)) = hs)
  /\ (OpencodeBackend.messageHandlers opencode = hs ->
      OpencodeBackend.messageHandlers
        (Exn.exec (OpencodeBackend.offMessage h)
           (Exn.exec (OpencodeBackend.onMessage h) opencode)) = hs).
Proof.
  intros H.
  assert (E : offMessage h (onMessage h hs) = hs).
  { unfold onMessage. rewrite (offMessage_app_unregistered h hs [h] H).
    cbn [offMessage]. rewrite Nat.eqb_refl. apply app_nil_r. }
  split; [exact E|]. split; [now apply offMessage_unregistered|].
  split; intros <-; cbn; exact E.
Qed.

End RegistrationFacts.

Lemma offMessage_undoes_onMessage_sample :
  Registration.registered (Driver.handler Driver.FlDroid) [] = false
  /\ Agent.offMessage (Driver.handler Driver.FlDroid)
       (Agent.onMessage (Driver.handler Driver.FlDroid) [])
     = [].
Proof.
  split; [reflexivity|].
  exact (proj1 (offMessage_undoes_onMessage (Driver.handler Driver.FlDroid) []
                  Sample.droid_driven
                  (OpencodeBackend.mkBackend "" None [] [] [] None None
                     Agent.PmDefault false false 0 (Sample.world0 Sample.driver0))
                  eq_refl)).
Defined.

(** ** Child processes: the availability probe, [exec],
       [getAvailableTools] *)

Section ProbeVerdict.

Import Probe.

Local Open Scope Z_scope.

Lemma isAvailable_true_from (ds : list Delivery) (p : option bool) :
  fold_left isAvailable_on ds p = Some true ->
  p = Some true
  \/ exists code, In (FromChild (Closed code)) ds /\ exited_zero code = true.
Proof.
  revert p; induction ds as [|d ds IH]; intros p H; [now left|].
  cbn [fold_left] in H. destruct (IH _ H) as [Hp | (code & Hin & Hz)].
  - destruct p as [v|]; [left; destruct d as [[t|c|]|]; exact Hp|].
    destruct d as [[t|c|]|]; cbn in Hp; try discriminate.
    right. exists c. split; [now left | congruence].
  - right. exists code. split; [now right | exact Hz].
Qed.

Lemma exited_zero_code (code : option Z) :
  exited_zero code = true -> code = Some 0.
Proof.
  destruct code as [z|]; [|discriminate]. cbn. intros H.
  apply Z.eqb_eq in H. now subst.
Qed.

Lemma closed_in_deliveries (f : Z * ChildEvent -> bool)
  (child : list (Z * ChildEvent)) (code : option Z) :
  In (FromChild (Closed code)) (map (fun te => FromChild (snd te)) (filter f child)) ->
  exists t, In (t, Closed code) child /\ f (t, Closed code) = true.
Proof.
  intros H. apply in_map_iff in H as ([t ev] & E & Hin).
  apply filter_In in Hin as [Hin Hf]. cbn [snd] in E. injection E as ->.
  exists t. now split.
Qed.

(** X13.  [isAvailable] answers [true] only if the child closed with
    exit code 0 no later than the five-second timer and no later than
    now; and five seconds after the spawn it has answered, whatever the
    child does. *)
Theorem isAvailable_true_only_on_timely_exit (child : list (Z * ChildEvent))
  (now : Z) :
  (isAvailable child now = Some true ->
   exists t, In (t, Closed (Some 0)) child /\ t <= now /\ t <= 5000)
  /\ (5000 <= now -> isAvailable child now <> None).
Proof.
  split.
  - unfold isAvailable, deliveries. intros H.
    destruct (Z.leb 5000 now) eqn:Hnow.
    + rewrite !fold_left_app in H. cbn [fold_left] in H.
      set (due := filter (fun te => Z.leb (fst te) now) child) in *.
      destruct (fold_left isAvailable_on
                  (map (fun te => FromChild (snd te))
                     (filter (fun te => Z.leb (fst te) 5000) due)) None)
        as [v|] eqn:E.
      * cbn [isAvailable_on resolve] in H. rewrite isAvailable_sticky in H.
        injection H as ->.
        destruct (isAvailable_true_from _ _ E) as [D | (code & Hin & Hz)];
          [discriminate|].
        apply exited_zero_code in Hz. subst code.
        apply closed_in_deliveries in Hin as (t & Hin & Ht).
        apply filter_In in Hin as [Hin Hdue]. cbn [fst] in *.
        exists t. apply Z.leb_le in Ht, Hdue. auto.
      * cbn [isAvailable_on resolve] in H. rewrite isAvailable_sticky in H.
        discriminate.
    + destruct (isAvailable_true_from _ _ H) as [D | (code & Hin & Hz)];
        [discriminate|].
      apply exited_zero_code in Hz. subst code.
      apply closed_in_deliveries in Hin as (t & Hin & Ht).
      cbn [fst] in Ht. apply Z.leb_le in Ht. apply Z.leb_gt in Hnow.
      exists t. repeat split; [exact Hin | lia | lia].
  - intros H. destruct (isAvailable_resolves_by_timeout child H) as [v E].
    congruence.
Qed.

End ProbeVerdict.

Lemma isAvailable_true_only_on_timely_exit_sample :
  Probe.isAvailable [(40, Probe.Closed (Some 0))]%Z 50%Z = Some true
  /\ exists t, In (t, Probe.Closed (Some 0%Z)) [(40, Probe.Closed (Some 0))]%Z
               /\ (t <= 50)%Z /\ (t <= 5000)%Z.
Proof.
  split; [reflexivity|].
  apply (proj1 (isAvailable_true_only_on_timely_exit
                  [(40, Probe.Closed (Some 0))]%Z 50%Z)).
  reflexivity.
Defined.

Section ExecOnce.

Import Exn DroidProcess.

Variable JSON_parse : string -> option Js.JsValue.

Local Notation "'on'" := (exec_on JSON_parse).

Lemma exec_reads (reads : list DroidBackend.Read) (st : Exec) :
  exists d,
    fold_left on (map of_read reads) st
    = mkExec (stdout st ++ stdout_text reads)
        (stderr st ++ DroidOps.stderr_text reads) (promise st) d.
Proof.
  revert st; induction reads as [|r reads IH]; intros st.
  - exists (debug st). cbn. rewrite !append_empty_r. now destruct st.
  - cbn [map fold_left]. destruct (IH (on st (of_read r))) as [d E].
    exists d. rewrite E. destruct r as [data|data];
      cbn [of_read exec_on stdout stderr promise stdout_text
           DroidOps.stderr_text fold_right];
      now rewrite append_assoc_s.
Qed.

Lemma exec_settled (evs : list ChildEvent) (st : Exec) (r : Res Js.JsValue) :
  promise st = Some r -> promise (fold_left on evs st) = Some r.
Proof.
  revert st; induction evs as [|ev evs IH]; intros st H; [exact H|].
  cbn [fold_left]. apply IH.
  destruct ev as [data|data|code|message]; cbn [exec_on promise]; try exact H.
  - destruct (Probe.exited_zero code); cbn [promise]; now rewrite H.
  - now rewrite H.
Qed.

(** X14.  [exec] settles with the first ending of the child and keeps
    that result whatever follows.  On exit code 0 it is fulfilled, with
    the parsed output or else a result record that carries the whole
    of stdout; on any other code it is rejected with the code and the
    whole of stderr in the message; on a spawn error it is rejected
    with the error's message.  Before an ending it is pending. *)
Theorem exec_settles_with_first_ending (reads : list DroidBackend.Read)
  (late : list ChildEvent) :
  (forall code,
     DroidProcess.exec JSON_parse (map of_read reads ++ Closed code :: late)
     = Some (if Probe.exited_zero code
             then Val (match JSON_parse (stdout_text reads) with
                       | Some result => result
                       | None => fallback (stdout_text reads)
                       end)
             else Throw (Js.JsError
                           ("Droid exited with code " ++ Js.show_code code ++ ": "
                            ++ Js.or_else (Some (DroidOps.stderr_text reads))
                                 "Unknown error"))))
  /\ (forall message,
        DroidProcess.exec JSON_parse (map of_read reads ++ Failed message :: late)
        = Some (Throw (Js.JsError ("Failed to spawn droid: " ++ message))))
  /\ DroidProcess.exec JSON_parse (map of_read reads) = None.
Proof.
  unfold DroidProcess.exec.
  destruct (exec_reads reads (mkExec "" "" None [])) as [d E].
  cbn [stdout stderr promise append] in E.
  split; [|split].
  - intros code. rewrite fold_left_app, E. cbn [fold_left].
    apply exec_settled. cbn [exec_on stdout stderr promise].
    destruct (Probe.exited_zero code); reflexivity.
  - intros message. rewrite fold_left_app, E. cbn [fold_left].
    apply exec_settled. reflexivity.
  - now rewrite E.
Qed.

End ExecOnce.

(** *** Trimming *)

Section TrimFacts.

Import DroidProcess.

Lemma trim_end_idem (s : string) : Js.trim_end (Js.trim_end s) = Js.trim_end s.
Proof.
  induction s as [|c r IH]; [reflexivity|].
  cbn [Js.trim_end]. destruct (Js.trim_end r) as [|d r'] eqn:E.
  - destruct (Js.is_space c) eqn:Hc; [reflexivity|].
    change (Js.trim_end (String c ""))
      with (if Js.is_space c then EmptyString else String c "").
    now rewrite Hc.
  - change (Js.trim_end (String c (String d r')))
      with (match Js.trim_end (String d r') with
            | EmptyString => if Js.is_space c then EmptyString else String c ""
            | x => String c x
            end).
    now rewrite IH.
Qed.

Lemma trim_start_clean (s : string) : starts_clean (Js.trim_start s) = true.
Proof.
  induction s as [|c r IH]; [reflexivity|].
  cbn [Js.trim_start]. destruct (Js.is_space c) eqn:Hc; [exact IH|].
  cbn [starts_clean]. now rewrite Hc.
Qed.

Lemma trim_start_of_clean (s : string) :
  starts_clean s = true -> Js.trim_start s = s.
Proof.
  destruct s as [|c r]; [reflexivity|]. cbn [starts_clean Js.trim_start].
  now destruct (Js.is_space c).
Qed.

Lemma trim_end_clean (s : string) :
  starts_clean s = true -> starts_clean (Js.trim_end s) = true.
Proof.
  destruct s as [|c r]; [reflexivity|]. cbn [starts_clean Js.trim_end].
  intros Hc. destruct (Js.trim_end r); [|exact Hc].
  destruct (Js.is_space c) eqn:X; [reflexivity|].
  cbn [starts_clean]. now rewrite X.
Qed.

Lemma trim_idem (s : string) : Js.trim (Js.trim s) = Js.trim s.
Proof.
  unfold Js.trim.
  rewrite (trim_start_of_clean (Js.trim_end (Js.trim_start s))).
  - apply trim_end_idem.
  - apply trim_end_clean, trim_start_clean.
Qed.

Lemma count_trim_start (c : ascii) (s : string) :
  Js.count c s = 0 -> Js.count c (Js.trim_start s) = 0.
Proof.
  induction s as [|d r IH]; [reflexivity|].
  cbn [Js.trim_start]. destruct (Js.is_space d); [|auto].
  cbn [Js.count]. intros H. apply IH. lia.
Qed.

Lemma count_trim_end (c : ascii) (s : string) :
  Js.count c s = 0 -> Js.count c (Js.trim_end s) = 0.
Proof.
  induction s as [|d r IH]; [reflexivity|].
  cbn [Js.count Js.trim_end]. intros H.
  assert (Hd : (if Ascii.eqb d c then 1 else 0) = 0) by lia.
  assert (Hr : Js.count c r = 0) by lia.
  specialize (IH Hr).
  destruct (Js.trim_end r) as [|e r'].
  - destruct (Js.is_space d); [reflexivity|]. cbn [Js.count]. lia.
  - cbn [Js.count] in *. lia.
Qed.

Lemma count_trim (c : ascii) (s : string) :
  Js.count c s = 0 -> Js.count c (Js.trim s) = 0.
Proof. intros H. now apply count_trim_end, count_trim_start. Qed.

End TrimFacts.

(** *** The tool list *)

Section Tools.

Import DroidProcess.

Lemma parse_tools_clean (s : string) :
  Forall (fun t => clean t = true) (parse_tools s).
Proof.
  unfold parse_tools. apply Forall_forall. intros t Ht.
  apply filter_In in Ht as [Hin Hk].
  apply in_map_iff in Hin as (p & <- & Hp).
  unfold keep_line in Hk. apply andb_prop in Hk as [Hlen Hhash].
  unfold clean. rewrite Hhash, trim_idem, String.eqb_refl.
  rewrite (count_trim Js.LF p (split_parts_no_sep Js.LF _ _ Hp)).
  unfold Js.nonempty. destruct (Js.trim p); [discriminate Hlen | reflexivity].
Qed.

Lemma tools_reads (reads : list DroidBackend.Read) (out : string)
  (p : option (list string)) :
  fold_left tools_on (map of_read reads) (out, p)
  = ((out ++ stdout_text reads)%string, p).
Proof.
  revert out; induction reads as [|r reads IH]; intros out.
  - cbn. now rewrite append_empty_r.
  - cbn [map fold_left]. destruct r as [data|data];
      cbn [of_read tools_on stdout_text fold_right]; rewrite IH;
      [now rewrite append_assoc_s | reflexivity].
Qed.

Lemma tools_settled (evs : list ChildEvent) (out : string) (ts : list string) :
  snd (fold_left tools_on evs (out, Some ts)) = Some ts.
Proof.
  revert out; induction evs as [|ev evs IH]; intros out; [reflexivity|].
  cbn [fold_left]. destruct ev as [data|data|code|message];
    cbn [tools_on Probe.resolve]; apply IH.
Qed.

Lemma tools_invariant (evs : list ChildEvent) (out : string)
  (p : option (list string)) (tools : list string) :
  (forall ts, p = Some ts -> Forall (fun t => clean t = true) ts) ->
  snd (fold_left tools_on evs (out, p)) = Some tools ->
  Forall (fun t => clean t = true) tools.
Proof.
  revert out p; induction evs as [|ev evs IH]; intros out p Hp H.
  - apply Hp. exact H.
  - cbn [fold_left] in H. destruct ev as [data|data|code|message];
      cbn [tools_on] in H; eapply IH; try exact H; try exact Hp.
    + intros ts. destruct p as [w|]; cbn [Probe.resolve]; [apply Hp|].
      intros [= <-]. destruct (Probe.exited_zero code);
        [apply parse_tools_clean | constructor].
    + intros ts. destruct p as [w|]; cbn [Probe.resolve]; [apply Hp|].
      intros [= <-]. constructor.
Qed.

(** X15.  [getAvailableTools] settles with the first ending of the
    child: with the names parsed from the whole of stdout on exit code
    0, with the empty list on any other code and on a spawn error; it
    never rejects.  Every name it returns is non-empty, has no white
    space around it, spans one line and does not start with [#]. *)
Theorem getAvailableTools_lists_clean_names (reads : list DroidBackend.Read)
  (late : list ChildEvent) :
  (forall code,
     getAvailableTools (map of_read reads ++ Closed code :: late)
     = Some (if Probe.exited_zero code
             then parse_tools (stdout_text reads)
             else []))
  /\ (forall message,
        getAvailableTools (map of_read reads ++ Failed message :: late) = Some [])
  /\ (forall evs tools,
        getAvailableTools evs = Some tools ->
        Forall (fun t => clean t = true) tools).
Proof.
  unfold getAvailableTools. split; [|split].
  - intros code. rewrite fold_left_app, tools_reads. cbn [fold_left tools_on].
    cbn [Probe.resolve append]. apply tools_settled.
  - intros message. rewrite fold_left_app, tools_reads.
    cbn [fold_left tools_on Probe.resolve]. apply tools_settled.
  - intros evs tools. apply tools_invariant. discriminate.
Qed.

Lemma split_join_lines (lines : list string) :
  lines <> [] ->
  Forall (fun l => Js.count Js.LF l = 0) lines ->
  Js.split Js.LF (Js.join (String Js.LF EmptyString) lines) = lines.
Proof.
  induction lines as [|l rest IH]; [congruence|]. intros _ H.
  inversion H as [|? ? Hl Hrest]; subst.
  destruct rest as [|l2 rest].
  - cbn [Js.join]. now apply split_no_sep.
  - change (Js.join (String Js.LF "") (l :: l2 :: rest))
      with (l ++ String Js.LF (Js.join (String Js.LF "") (l2 :: rest)))%string.
    rewrite split_app, (split_no_sep Js.LF l Hl).
    cbn [removelast last app].
    change (Js.split Js.LF (String Js.LF (Js.join (String Js.LF "") (l2 :: rest))))
      with (EmptyString :: Js.split Js.LF (Js.join (String Js.LF "") (l2 :: rest))).
    cbv iota. rewrite append_empty_r, IH; [reflexivity | discriminate | exact Hrest].
Qed.

Lemma clean_parts (t : string) :
  clean t = true ->
  Js.trim t = t /\ keep_line t = true /\ Js.count Js.LF t = 0.
Proof.
  unfold clean, keep_line, Js.nonempty. intros H.
  apply andb_prop in H as [H Hc]. apply andb_prop in H as [H Hh].
  apply andb_prop in H as [Hn Ht].
  apply String.eqb_eq in Ht. apply Nat.eqb_eq in Hc.
  repeat split; auto. rewrite Hh.
  destruct t; [discriminate | reflexivity].
Qed.

Lemma keep_clean (tools : list string) :
  Forall (fun t => clean t = true) tools ->
  filter keep_line (map Js.trim tools) = tools.
Proof.
  induction 1 as [|t tools Ht _ IH]; [reflexivity|].
  destruct (clean_parts t Ht) as (E & K & _).
  cbn [map filter]. now rewrite E, K, IH.
Qed.

Lemma clean_lines (tools : list string) :
  Forall (fun t => clean t = true) tools ->
  Forall (fun l => Js.count Js.LF l = 0) tools.
Proof.
  intros H. eapply Forall_impl; [|exact H].
  intros t Ht. now destruct (clean_parts t Ht) as (_ & _ & C).
Qed.

Lemma parse_tools_listing (tools : list string) :
  Forall (fun t => clean t = true) tools ->
  parse_tools (Js.join (String Js.LF EmptyString) tools) = tools
  /\ parse_tools (Js.join (String Js.LF EmptyString) tools ++ String Js.LF "")
     = tools.
Proof.
  intros H. unfold parse_tools. destruct tools as [|t rest]; [split; reflexivity|].
  split.
  - rewrite split_join_lines; [now apply keep_clean | discriminate |].
    now apply clean_lines.
  - rewrite split_app, split_join_lines; [| discriminate | now apply clean_lines].
    change (Js.split Js.LF (String Js.LF "")) with [EmptyString; EmptyString].
    cbv iota. rewrite append_empty_r.
    set (ts := t :: rest) in *.
    assert (E : removelast ts ++ [last ts EmptyString; EmptyString]
                = ts ++ [EmptyString]).
    { rewrite (app_removelast_last EmptyString (l := ts)) at 3; [|discriminate].
      now rewrite <- app_assoc. }
    rewrite E, map_app, filter_app, (keep_clean H). cbn [map filter]. change (keep_line (Js.trim "")) with false. cbv iota. apply app_nil_r.
Qed.

(** X16.  A listing of clean names, one per line, with or without a
    final line terminator and however it is cut into chunks, is read
    back by [getAvailableTools] as the same list of names. *)
Theorem getAvailableTools_reads_back_listing (tools : list string)
  (reads : list DroidBackend.Read) (late : list ChildEvent) :
  Forall (fun t => clean t = true) tools ->
  stdout_text reads = Js.join (String Js.LF EmptyString) tools
  \/ stdout_text reads
     = (Js.join (String Js.LF EmptyString) tools ++ String Js.LF "")%string ->
  getAvailableTools (map of_read reads ++ Closed (Some 0%Z) :: late) = Some tools.
Proof.
  intros Hc Ht. unfold getAvailableTools.
  rewrite fold_left_app, tools_reads. cbn [fold_left tools_on].
  cbn [Probe.resolve append Probe.exited_zero Z.eqb]. rewrite tools_settled.
  destruct (parse_tools_listing Hc) as [E1 E2].
  destruct Ht as [-> | ->]; now f_equal.
Qed.

End Tools.

Lemma getAvailableTools_reads_back_listing_sample :
  Forall (fun t => DroidProcess.clean t = true) ["Read"; "Execute"]
  /\ DroidProcess.getAvailableTools
       [DroidProcess.Out ("Read" ++ String Js.LF "Exe");
        DroidProcess.Err "warning";
        DroidProcess.Out ("cute" ++ String Js.LF "");
        DroidProcess.Closed (Some 0%Z)]
     = Some ["Read"; "Execute"].
Proof.
  assert (H : Forall (fun t => DroidProcess.clean t = true) ["Read"; "Execute"]).
  { repeat constructor. }
  split; [exact H|].
  apply (getAvailableTools_reads_back_listing
           (tools := ["Read"; "Execute"])
           [DroidBackend.ReadOut ("Read" ++ String Js.LF "Exe");
            DroidBackend.ReadErr "warning";
            DroidBackend.ReadOut ("cute" ++ String Js.LF "")]
           [] H).
  right. reflexivity.
Defined.

(** ** More on the command line of [droid exec] *)

Section MoreArgs.

Import DroidTypes DroidClient ArgsLayout.

Variable FACTORY_API_KEY_ENV : string.

(** The arguments after the output format. *)
Local Notation "'tail_of' this prompt o" :=
  (input_flag (inputFormat o)
   ++ auto_flag (auto o)
   ++ session_flag (sessionId o)
   ++ model_flag (model o) (defaultModel this)
   ++ trailing_args prompt o)
  (at level 10, this at level 9, prompt at level 9, o at level 9).

(** X17.  [exec] and [execStream] spawn the same command but for the
    output format: [json] for [exec] and [stream-json] for
    [execStream], whatever output format the caller's options name;
    arguments after it, environment and working directory are the
    same. *)
Theorem exec_and_execStream_differ_in_format_only (this : DroidClient)
  (prompt : string) (o : DroidExecOptions) :
  exec_spawn FACTORY_API_KEY_ENV this prompt o
  = mkSpawn "droid" (["exec"; "-o"; "json"] ++ tail_of this prompt o)
      [(FACTORY_API_KEY_ENV, apiKey this)]
      (Js.or_else (cwd o) (defaultCwd this))
  /\ execStream_spawn FACTORY_API_KEY_ENV this prompt o
     = mkSpawn "droid" (["exec"; "-o"; "stream-json"] ++ tail_of this prompt o)
         [(FACTORY_API_KEY_ENV, apiKey this)]
         (Js.or_else (cwd o) (defaultCwd this)).
Proof.
  unfold exec_spawn, execStream_spawn. rewrite !buildArgs_segments.
  destruct o; split; reflexivity.
Qed.

Lemma last_app_one {A} (l : list A) (x d : A) : last (l ++ [x]) d = x.
Proof. induction l as [|y l IH]; [reflexivity|]. cbn. destruct (l ++ [x]) eqn:E; [now destruct l | exact IH]. Qed.

(** When the options name a file, the prompt text is not passed to
    droid at all: the command line ends with [-f] and the file and is
    the same for every prompt.  Otherwise the prompt is the last
    argument, as it is, whatever it starts with. *)
Lemma file_option_replaces_prompt (this : DroidClient) (prompt : string)
  (o : DroidExecOptions) :
  if Js.truthy (file o)
  then (forall other, buildArgs this other o = buildArgs this prompt o)
       /\ exists before,
            buildArgs this prompt o
            = before ++ ["-f"; Js.or_else (file o) ""]
  else last (buildArgs this prompt o) EmptyString = prompt.
Proof.
  destruct (Js.truthy (file o)) eqn:Hf.
  - split.
    + intros other. unfold buildArgs. rewrite Hf. reflexivity.
    + unfold buildArgs. rewrite Hf. eexists. reflexivity.
  - unfold buildArgs. rewrite Hf. apply last_app_one.
Qed.

End MoreArgs.

(** ** The model to use, and the credentials of opencode *)

Section ConfigFacts.

Import Config.

Section Generic.

Variables agent MODEL_ENV DEFAULT_MODEL : string.
Hypothesis default_named : DEFAULT_MODEL <> EmptyString.

Lemma or_else_truthy (o : option string) (d : string) :
  Js.truthy o = true -> Js.or_else o d <> EmptyString.
Proof.
  destruct o as [s|]; [|discriminate]. cbn.
  destruct (String.eqb s "") eqn:E; [discriminate|].
  intros _ H. subst s. discriminate.
Qed.

Lemma or_else_falsy (o : option string) (d : string) :
  Js.truthy o = false -> Js.or_else o d = d.
Proof.
  destruct o as [s|]; [|reflexivity]. cbn.
  now destruct (String.eqb s "").
Qed.

Lemma or_else_of_truthy (o : option string) (d d' : string) :
  Js.truthy o = true -> Js.or_else o d = Js.or_else o d'.
Proof.
  destruct o as [s|]; [|discriminate]. cbn.
  now destruct (String.eqb s "").
Qed.

Lemma determineModel_unset (env localModel : option string) (e : Explicit) :
  (forall m, e <> Given m) ->
  fst (determineModel agent MODEL_ENV DEFAULT_MODEL env e localModel)
  = getInitialModel DEFAULT_MODEL env localModel.
Proof.
  intros He. unfold determineModel, getInitialModel.
  destruct e as [| |m]; [| |now destruct (He m)];
    (destruct (Js.truthy env) eqn:Henv;
     [cbn [fst]; now apply or_else_of_truthy
     |rewrite (or_else_falsy env _ Henv);
      destruct (Js.truthy localModel) eqn:Hl;
      [cbn [fst]; now apply or_else_of_truthy
      |cbn [fst]; now rewrite (or_else_falsy localModel _ Hl)]]).
Qed.

Lemma getInitialModel_named (env localModel : option string) :
  getInitialModel DEFAULT_MODEL env localModel <> EmptyString.
Proof.
  unfold getInitialModel.
  destruct (Js.truthy env) eqn:Henv; [now apply or_else_truthy|].
  rewrite (or_else_falsy env _ Henv).
  destruct (Js.truthy localModel) eqn:Hl; [now apply or_else_truthy|].
  now rewrite (or_else_falsy localModel _ Hl).
Qed.

Lemma determineModel_empty (env localModel : option string) (e : Explicit) :
  fst (determineModel agent MODEL_ENV DEFAULT_MODEL env e localModel) = EmptyString
  <-> e = Given EmptyString.
Proof.
  split.
  - destruct e as [| |m].
    + rewrite determineModel_unset by discriminate.
      intros H. now destruct (getInitialModel_named env localModel).
    + rewrite determineModel_unset by discriminate.
      intros H. now destruct (getInitialModel_named env localModel).
    + cbn. now intros ->.
  - now intros ->.
Qed.

End Generic.

(** X18.  [determineDroidModel] returns an explicit model as it is,
    even the empty string; when none is given ([undefined] or [null])
    it returns what [getInitialDroidModel] shows: the environment
    variable if set and non-empty, else the model of the local
    configuration if non-empty, else the default.  The result is the
    empty string only if the caller passed the empty string. *)
Theorem determineDroidModel_agrees_with_initial (env : option string)
  (explicitModel : Explicit) (localConfig : DroidLocalConfig) :
  (forall model,
     fst (determineDroidModel env (Given model) localConfig) = model)
  /\ fst (determineDroidModel env Undefined localConfig)
     = getInitialDroidModel env localConfig
  /\ fst (determineDroidModel env Null localConfig)
     = getInitialDroidModel env localConfig
  /\ getInitialDroidModel env localConfig
     = (if Js.truthy env then Js.or_else env ""
        else if Js.truthy (droid_model localConfig)
             then Js.or_else (droid_model localConfig) ""
             else DEFAULT_DROID_MODEL)
  /\ (fst (determineDroidModel env explicitModel localConfig) = EmptyString
      <-> explicitModel = Given EmptyString).
Proof.
  unfold determineDroidModel, getInitialDroidModel.
  split; [reflexivity|].
  split; [now apply determineModel_unset|].
  split; [now apply determineModel_unset|].
  split; [|apply determineModel_empty; discriminate].
  unfold getInitialModel.
  destruct (Js.truthy env) eqn:Henv; [now apply or_else_of_truthy|].
  rewrite (or_else_falsy env _ Henv).
  destruct (Js.truthy (droid_model localConfig)) eqn:Hl;
    [now apply or_else_of_truthy | now apply or_else_falsy].
Qed.

(** X19.  The same for [determineOpencodeModel] and
    [getInitialOpencodeModel]. *)
Theorem determineOpencodeModel_agrees_with_initial (env : option string)
  (explicitModel : Explicit) (localConfig : OpencodeLocalConfig) :
  (forall model,
     fst (determineOpencodeModel env (Given model) localConfig) = model)
  /\ fst (determineOpencodeModel env Undefined localConfig)
     = getInitialOpencodeModel env localConfig
  /\ fst (determineOpencodeModel env Null localConfig)
     = getInitialOpencodeModel env localConfig
  /\ getInitialOpencodeModel env localConfig
     = (if Js.truthy env then Js.or_else env ""
        else if Js.truthy (opencode_model localConfig)
             then Js.or_else (opencode_model localConfig) ""
             else OpencodeTypes.DEFAULT_OPENCODE_MODEL)
  /\ (fst (determineOpencodeModel env explicitModel localConfig) = EmptyString
      <-> explicitModel = Given EmptyString).
Proof.
  unfold determineOpencodeModel, getInitialOpencodeModel.
  split; [reflexivity|].
  split; [now apply determineModel_unset|].
  split; [now apply determineModel_unset|].
  split; [|apply determineModel_empty; discriminate].
  unfold getInitialModel.
  destruct (Js.truthy env) eqn:Henv; [now apply or_else_of_truthy|].
  rewrite (or_else_falsy env _ Henv).
  destruct (Js.truthy (opencode_model localConfig)) eqn:Hl;
    [now apply or_else_of_truthy | now apply or_else_falsy].
Qed.

Lemma listed_iff_found (es : list (string * Js.JsValue)) (ids : list string) :
  with_credential es = Exn.Val ids ->
  some_credential (map snd es)
  = Exn.Val (match ids with [] => false | _ :: _ => true end).
Proof.
  revert ids; induction es as [|[id v] es IH]; intros ids; cbn.
  - now intros [= <-].
  - destruct (has_credential v) as [c|e]; [|discriminate].
    destruct (with_credential es) as [rest|e]; [|discriminate].
    intros [= <-]. destruct c; [reflexivity|]. now apply IH.
Qed.

Lemma found_is_listed (es : list (string * Js.JsValue)) :
  some_credential (map snd es) = Exn.Val true ->
  with_credential es <> Exn.Val [].
Proof.
  induction es as [|[id v] es IH]; cbn; [discriminate|].
  destruct (has_credential v) as [c|e]; [|discriminate].
  destruct c.
  - intros _. now destruct (with_credential es).
  - intros H. specialize (IH H).
    destruct (with_credential es) as [rest|e]; [|discriminate].
    intros [= ->]. now apply IH.
Qed.

Lemma present_is_listed (es : list (string * Js.JsValue)) :
  forallb (fun e => negb (nullish (snd e))) es = true ->
  exists ids, with_credential es = Exn.Val ids.
Proof.
  induction es as [|[id v] es IH]; cbn; [now exists []|].
  intros H. apply andb_prop in H as [Hv Hes].
  destruct (IH Hes) as [ids E]. rewrite E.
  unfold has_credential. destruct (nullish v); [discriminate|].
  eexists. reflexivity.
Qed.

Lemma listed_is_present (es : list (string * Js.JsValue)) (ids : list string) :
  with_credential es = Exn.Val ids ->
  forallb (fun e => negb (nullish (snd e))) es = true.
Proof.
  revert ids; induction es as [|[id v] es IH]; intros ids; cbn; [reflexivity|].
  unfold has_credential. destruct (nullish v); [discriminate|].
  destruct (with_credential es) as [rest|e]; [|discriminate].
  intros _. cbn. now apply (IH rest).
Qed.

(** [hasAuth] is what [some] finds in the value that [providers] ends
    up with, and false if [some] throws on it. *)
Lemma hasAuth_of_providers (auth legacy settings : File Js.JsValue) :
  let config := readOpencodeLocalConfig auth legacy settings in
  hasAuth config
  = match any_credential (providers config) with
    | Exn.Val found => found
    | Exn.Throw _ => false
    end.
Proof.
  cbv zeta. unfold readOpencodeLocalConfig. cbn [hasAuth providers].
  assert (L : forall file v,
            any_credential v = Exn.Val false \/ (exists e, any_credential v = Exn.Throw e) ->
            snd (read_auth file (v, false))
            = match any_credential (fst (read_auth file (v, false))) with
              | Exn.Val found => found
              | Exn.Throw _ => false
              end).
  { intros file v Hv. destruct file as [| |l]; cbn [read_auth fst snd].
    - destruct Hv as [-> | [e ->]]; reflexivity.
    - destruct Hv as [-> | [e ->]]; reflexivity.
    - destruct (any_credential l) as [found|e] eqn:El; cbn [fst snd];
        now rewrite El. }
  destruct auth as [| |a]; cbn [read_auth fst snd negb].
  - apply L. now left.
  - apply L. now left.
  - destruct (any_credential a) as [[|]|e] eqn:Ea; cbn [fst snd negb].
    + now rewrite Ea.
    + apply L. now left.
    + apply L. right. now exists e.
Qed.

(** X20.  [isOpencodeAuthenticated] and [getConfiguredProviders] on
    the same three files, whatever JSON they hold.  Whenever
    [getConfiguredProviders] returns, it returns a non-empty list
    exactly when [isOpencodeAuthenticated] holds; and it returns
    exactly when the value that [providers] ends up with is not [null]
    and has no [null] entry.  Otherwise it throws, whatever
    [isOpencodeAuthenticated] says: a file that holds [null] is not
    authenticated, a file with a credential and a [null] entry after it
    is, and [getConfiguredProviders] throws on both.  The auth file of
    the data directory wins when [some] finds a credential in it; the
    settings have no say. *)
Theorem opencode_auth_agrees_with_providers
  (auth legacy settings : File Js.JsValue) :
  let config := readOpencodeLocalConfig auth legacy settings in
  (forall ids,
     getConfiguredProviders auth legacy settings = Exn.Val ids ->
     (isOpencodeAuthenticated auth legacy settings = true <-> ids <> []))
  /\ (isOpencodeAuthenticated auth legacy settings = true ->
      getConfiguredProviders auth legacy settings <> Exn.Val [])
  /\ ((exists ids, getConfiguredProviders auth legacy settings = Exn.Val ids)
      <-> entries_present (providers config) = true)
  /\ (forall primary,
        auth = Parsed primary ->
        any_credential primary = Exn.Val true ->
        providers config = primary /\ hasAuth config = true)
  /\ (forall other,
        isOpencodeAuthenticated auth legacy other
        = isOpencodeAuthenticated auth legacy settings
        /\ getConfiguredProviders auth legacy other
           = getConfiguredProviders auth legacy settings)
  /\ (isOpencodeAuthenticated (Parsed Js.JsNull) Missing settings = false
      /\ exists e,
           getConfiguredProviders (Parsed Js.JsNull) Missing settings = Exn.Throw e)
  /\ (forall id credential,
        let file := Parsed (Js.JsObj [(id, Js.JsObj [("key", Js.JsStr credential)]);
                                      ("other", Js.JsNull)]) in
        credential <> EmptyString ->
        isOpencodeAuthenticated file legacy settings = true
        /\ exists e, getConfiguredProviders file legacy settings = Exn.Throw e).
Proof.
  cbv zeta.
  pose proof (hasAuth_of_providers auth legacy settings) as HA. cbv zeta in HA.
  unfold isOpencodeAuthenticated, getConfiguredProviders.
  repeat match goal with |- _ /\ _ => split end.
  - intros ids. rewrite HA. unfold any_credential.
    destruct (entries _) as [es|e]; [|discriminate].
    intros Hids. rewrite (listed_iff_found es Hids).
    destruct ids; split; congruence.
  - rewrite HA. unfold any_credential.
    destruct (entries _) as [es|e]; [|discriminate].
    destruct (some_credential (map snd es)) as [[|]|e] eqn:E; try discriminate.
    intros _. now apply found_is_listed.
  - unfold entries_present.
    destruct (entries _) as [es|e].
    + split.
      * intros [ids E]. now apply (listed_is_present es E).
      * apply present_is_listed.
    + split; [intros [ids E]; discriminate | discriminate].
  - intros primary -> Hp. unfold readOpencodeLocalConfig.
    cbn [read_auth]. rewrite Hp. now cbn.
  - intros other. now unfold readOpencodeLocalConfig.
  - reflexivity.
  - eexists. reflexivity.
  - intros id credential Hc.
    assert (Hn : Js.nonempty credential = true).
    { unfold Js.nonempty.
      destruct (String.eqb_spec credential ""); [contradiction | reflexivity]. }
    unfold readOpencodeLocalConfig. cbn. rewrite Hn. cbn.
    split; [reflexivity | eexists; reflexivity].
Qed.

End ConfigFacts.
(** ** The reader of the server's event stream *)

Section SseFacts.

Import Exn Reader Sse.

Variables S Ev : Type.
Variable JSON_parse : string -> option Ev.
Variable onEvent : Ev -> M S unit.

Local Notation "'line'" := (on_line JSON_parse onEvent).
Local Notation "'loop'" := (read_loop JSON_parse onEvent).

(** The body of the loop never throws: the [try] catches everything. *)
Lemma on_line_returns (l : string) (s : S) : fst (line l s) = Val tt.
Proof.
  unfold on_line. destruct (String.prefix "data: " l); [|reflexivity].
  unfold try_catch.
  destruct (JSON_parse (slice6 l)) as [data|]; [|reflexivity].
  destruct (onEvent data s) as [[[]|e] s']; reflexivity.
Qed.

Lemma lines_return (ls : list string) (s : S) : fst (for_of ls line s) = Val tt.
Proof.
  revert s; induction ls as [|l ls IH]; intros s; [reflexivity|].
  cbn [for_of]. unfold bind. pose proof (on_line_returns l s) as H.
  destruct (line l s) as [[[]|e] s']; cbn in H; [apply IH | discriminate].
Qed.

Lemma lines_app (ls1 ls2 : list string) (s : S) :
  for_of (ls1 ++ ls2) line s = for_of ls2 line (exec (for_of ls1 line) s).
Proof.
  revert s; induction ls1 as [|l ls1 IH]; intros s; [reflexivity|].
  cbn [app for_of]. unfold bind, exec. pose proof (on_line_returns l s) as H.
  destruct (line l s) as [[[]|e] s']; cbn in H; [|discriminate].
  rewrite IH. reflexivity.
Qed.

Lemma read_closed (buffer chunk : string) (s : S) :
  read JSON_parse onEvent buffer chunk s
  = (Val (pending (buffer ++ chunk)),
     exec (for_of (complete (buffer ++ chunk)) line) s).
Proof.
  unfold read. rewrite pop_split, or_else_empty. unfold bind, exec.
  pose proof (lines_return (complete (buffer ++ chunk)) s) as H.
  destruct (for_of (complete (buffer ++ chunk)) line s) as [[[]|e] s'];
    cbn in H; [reflexivity | discriminate].
Qed.

Lemma whole_app (a b : list string) :
  whole (a ++ b) = (whole a ++ whole b)%string.
Proof.
  induction a as [|x a IH]; [reflexivity|].
  cbn [app whole fold_right]. fold (whole (a ++ b)). fold (whole a).
  now rewrite IH, append_assoc_s.
Qed.

Lemma loop_closed (chunks : list string) (buffer : string) (s : S) :
  Js.count Js.LF buffer = 0 ->
  loop buffer chunks s
  = (Val tt, exec (for_of (complete (buffer ++ whole chunks)) line) s).
Proof.
  revert buffer s; induction chunks as [|c rest IH]; intros buffer s Hb.
  - cbn [read_loop whole fold_right]. rewrite append_empty_r.
    destruct (no_terminator buffer Hb) as [-> _]. reflexivity.
  - cbn [read_loop]. unfold bind at 1. rewrite read_closed.
    rewrite IH by apply last_split_no_sep.
    cbn [whole fold_right]. fold (whole rest).
    rewrite <- append_assoc_s, (complete_app (buffer ++ c) (whole rest)).
    unfold exec at 3. rewrite lines_app. reflexivity.
Qed.

(** X21.  The reader of [subscribeToEvents] treats the stream as one
    text: whatever the chunks it arrives in, the lines handled are the
    terminated lines of the whole text, each once and in order; the
    text after the last line terminator is never handled; and the loop
    itself never throws, whatever the callback does. *)
Theorem subscribeToEvents_reads_terminated_lines (chunks : list string) (s : S) :
  subscribeToEvents_body JSON_parse onEvent chunks s
  = (Val tt, exec (for_of (complete (whole chunks)) line) s)
  /\ (forall others,
        whole others = whole chunks ->
        subscribeToEvents_body JSON_parse onEvent others s
        = subscribeToEvents_body JSON_parse onEvent chunks s)
  /\ (forall fragment,
        Js.count Js.LF fragment = 0 ->
        subscribeToEvents_body JSON_parse onEvent (chunks ++ [fragment]) s
        = subscribeToEvents_body JSON_parse onEvent chunks s).
Proof.
  unfold subscribeToEvents_body.
  assert (E : forall cs, loop "" cs s
                         = (Val tt, exec (for_of (complete (whole cs)) line) s)).
  { intros cs. now rewrite loop_closed. }
  split; [apply E|]. split.
  - intros others H. now rewrite !E, H.
  - intros fragment H. rewrite !E, whole_app.
    cbn [whole fold_right]. rewrite append_empty_r, complete_app.
    destruct (no_terminator (pending (whole chunks) ++ fragment)) as [-> _].
    + rewrite <- (Nat.add_0_r 0).
      assert (C : forall a b, Js.count Js.LF (a ++ b)
                              = Js.count Js.LF a + Js.count Js.LF b).
      { intros a b. induction a as [|x a IH]; [reflexivity|].
        cbn [append Js.count]. rewrite IH. lia. }
      rewrite C, H. unfold pending. now rewrite last_split_no_sep.
    + now rewrite app_nil_r.
Qed.

End SseFacts.

(** ** The opencode backend as [runOpencode] drives it *)

Section NoSession.

Import Agent Exn OpencodeTypes OpencodeOps.

Variable U : Type.
Variable JSON_stringify : Js.JsValue -> string.
Variable randomUUID : nat -> string.

Local Notation "'Backend'" := (OpencodeBackend.OpencodeBackend U).
Local Notation "'apply_op'" := (OpencodeOps.apply (U:=U) JSON_stringify randomUUID).
Local Notation "'ops_run'" := (run_ops (U:=U) JSON_stringify randomUUID).
Local Notation "'emitted_by' b" := (emitted (OpencodeBackend.world b))
  (at level 10, b at level 9).

Lemma sessionless_op (op : Op U) (b : Backend) :
  sessionless b ->
  let b' := exec (apply_op op) b in
  sessionless b'
  /\ OpencodeBackend.requests b' = OpencodeBackend.requests b
  /\ emitted_by b' = emitted_by b ++ stopped_for op.
Proof.
  intros [Hs Ha]. cbv zeta. unfold sessionless, stopped_for, exec.
  destruct op as [[prompt| |rid r|rid abort]|mode|model|id approved|h|h];
    cbn [OpencodeOps.apply OpencodeBackend.step is_cancel].
  - unfold bind. rewrite (oc_sendPrompt_no_session prompt b Hs).
    cbn [snd]. rewrite app_nil_r. auto.
  - unfold OpencodeBackend.cancel_call, OpencodeBackend.cancel_finish, bind, get.
    rewrite Hs. unfold ret, modify. rewrite oc_emit_closed.
    destruct b as [bu cm rq aw hs hsid osid pm ir es uu w]. cbn in *. auto.
  - unfold bind, get. rewrite Ha. cbn [existsb ret snd].
    rewrite app_nil_r. auto.
  - unfold OpencodeBackend.abort_answered, bind, get. rewrite Ha.
    cbn [existsb ret snd]. rewrite app_nil_r. auto.
  - unfold OpencodeBackend.setPermissionMode, bind, modify, OpencodeBackend.log,
      zoom, logger_debug.
    destruct b as [bu cm rq aw hs hsid osid pm ir es uu w]. cbn in *.
    rewrite app_nil_r. auto.
  - unfold OpencodeBackend.setModel, modify.
    destruct b as [bu cm rq aw hs hsid osid pm ir es uu w]. cbn in *.
    rewrite app_nil_r. auto.
  - unfold OpencodeBackend.respondToPermission, bind, get. rewrite Hs.
    unfold OpencodeBackend.log, zoom, logger_debug, modify.
    destruct b as [bu cm rq aw hs hsid osid pm ir es uu w]. cbn in *.
    rewrite app_nil_r. auto.
  - unfold OpencodeBackend.onMessage, modify.
    destruct b as [bu cm rq aw hs hsid osid pm ir es uu w]. cbn in *.
    rewrite app_nil_r. auto.
  - unfold OpencodeBackend.offMessage, modify.
    destruct b as [bu cm rq aw hs hsid osid pm ir es uu w]. cbn in *.
    rewrite app_nil_r. auto.
Qed.

Lemma sessionless_run (ops : list (Op U)) (b : Backend) :
  sessionless b ->
  let b' := ops_run ops b in
  sessionless b'
  /\ OpencodeBackend.requests b' = OpencodeBackend.requests b
  /\ emitted_by b'
     = emitted_by b ++ map (fun _ => Status StStopped None) (filter (is_cancel (U:=U)) ops).
Proof.
  revert b; induction ops as [|op ops IH]; intros b Hb; cbv zeta.
  - cbn. rewrite app_nil_r. auto.
  - unfold run_ops. cbn [fold_left].
    destruct (sessionless_op op Hb) as (H1 & R1 & E1).
    destruct (IH _ H1) as (H2 & R2 & E2).
    unfold run_ops in *. split; [exact H2|]. split; [congruence|].
    rewrite E2, E1, <- app_assoc. f_equal.
    unfold stopped_for. cbn [filter]. now destruct (is_cancel op).
Qed.

(** X22.  A backend on which [startSession] was never called stays
    without a session under every method that [runOpencode] calls; it
    sends no request to the server; [cancel] is the only call that
    emits anything, one [stopped] each time; and every [sendPrompt]
    throws [No OpenCode session active] before it emits or changes
    anything, which the main loop then shows as an error line. *)
Theorem opencode_without_session_sends_nothing (ops : list (Op U)) (b : Backend)
  (prompt : string) (d : Driver.Driver) :
  Js.truthy (OpencodeBackend.opencodeSessionId b) = false ->
  OpencodeBackend.awaiting b = [] ->
  let b' := ops_run ops b in
  Js.truthy (OpencodeBackend.opencodeSessionId b') = false
  /\ OpencodeBackend.requests b' = OpencodeBackend.requests b
  /\ trace_ops JSON_stringify randomUUID ops b
     = map (fun _ => Status StStopped None) (filter (is_cancel (U:=U)) ops)
  /\ OpencodeBackend.sendPrompt prompt b'
     = (Throw (Js.JsError "No OpenCode session active"), b')
  /\ Driver.messageBuffer
       (exec (Driver.turn_end Driver.FlOpencode
                (Throw (Js.JsError "No OpenCode session active"))) d)
     = Driver.messageBuffer d
       ++ [Driver.AddMessage "Error: No OpenCode session active" Driver.KStatus].
Proof.
  intros Hs Ha. cbv zeta.
  destruct (sessionless_run ops (conj Hs Ha)) as ((Hs' & Ha') & R & E).
  split; [exact Hs'|]. split; [exact R|]. split; [|split].
  - unfold trace_ops. rewrite E. apply skipn_exact.
  - now apply oc_sendPrompt_no_session.
  - unfold exec, Driver.turn_end, Driver.emitReadyIfIdle, Driver.sendReady,
      Driver.sendToAllDevices, bind, modify, get, ret, try_catch.
    destruct d as [se th ip ac cp mq uu pe ss ps mb bk lg]. cbn.
    destruct se; [reflexivity|]. destruct th; [reflexivity|].
    destruct ip; [reflexivity|]. destruct mq; cbn; [|reflexivity].
    destruct pe; reflexivity.
Qed.

End NoSession.

Lemma opencode_without_session_sends_nothing_sample :
  Js.truthy (OpencodeBackend.opencodeSessionId Sample.opencode0) = false
  /\ OpencodeBackend.awaiting Sample.opencode0 = []
  /\ OpencodeBackend.sendPrompt "hello"
       (OpencodeOps.run_ops Sample.stringify Sample.uuid
          [OpencodeOps.OpSetModel unit "openai/gpt-5";
           OpencodeOps.OpEvent unit (OpencodeBackend.CallSendPrompt "first")]
          Sample.opencode0)
     = (Exn.Throw (Js.JsError "No OpenCode session active"),
        OpencodeOps.run_ops Sample.stringify Sample.uuid
          [OpencodeOps.OpSetModel unit "openai/gpt-5";
           OpencodeOps.OpEvent unit (OpencodeBackend.CallSendPrompt "first")]
          Sample.opencode0).
Proof.
  split; [reflexivity|]. split; [reflexivity|].
  apply (opencode_without_session_sends_nothing Sample.stringify Sample.uuid
           [OpencodeOps.OpSetModel unit "openai/gpt-5";
            OpencodeOps.OpEvent unit (OpencodeBackend.CallSendPrompt "first")]
           Sample.opencode0 "hello" Sample.driver0 eq_refl eq_refl).
Defined.

(** ** From incoming messages to the command line of droid *)

Section WiringFacts.

Import Agent Exn DroidTypes Driver Inbox DroidOps Wiring.

Variable U : Type.
Variable FACTORY_API_KEY_ENV : string.
Variable JSON_parse : string -> option DroidStreamEvent.
Variable JSON_stringify : Js.JsValue -> string.
Variable CHANGE_TITLE_INSTRUCTION : string.

Local Notation "'Backend'" := (DroidBackend.DroidBackend U).
Local Notation "'ops'" :=
  (run_ops (U:=U) FACTORY_API_KEY_ENV JSON_parse JSON_stringify).
Local Notation "'on_message'" := (onUserMessage FlDroid CHANGE_TITLE_INSTRUCTION).
Local Notation "'receive_all'" := (receive FlDroid CHANGE_TITLE_INSTRUCTION).
Local Notation "'spawned_by' b" := (DroidClient.spawned (DroidBackend.client b))
  (at level 10, b at level 9).

Lemma settings_step (m : UserMessage) (s : Inbox) :
  settings (on_message m s) = settings s ++ mode_calls m ++ model_calls m.
Proof.
  destruct s as [d cm fm st].
  destruct m as [t [[pmode mm asp]|]];
    unfold onUserMessage, mode_calls, model_calls, requested_mode;
    cbn [driver currentModel isFirstMessage settings meta meta_permissionMode
         meta_model appendSystemPrompt text].
  - destruct (Js.truthy pmode); [destruct (validMode _)|];
      destruct mm as [| |model]; try destruct (Js.nonempty model);
      cbn [app]; rewrite ?app_nil_r, <- ?app_assoc; reflexivity.
  - now rewrite app_nil_r.
Qed.

Lemma settings_receive (ms : list UserMessage) (s : Inbox) :
  settings (receive_all ms s) = settings s ++ calls_for ms.
Proof.
  revert s; induction ms as [|m ms IH]; intros s.
  - cbn. now rewrite app_nil_r.
  - cbn [receive fold_left calls_for flat_map].
    fold (receive_all ms (on_message m s)). fold (calls_for ms).
    now rewrite IH, settings_step, <- !app_assoc.
Qed.

Lemma mode_receive (ms : list UserMessage) (s : Inbox) :
  currentPermissionMode (driver (receive_all ms s))
  = fold_left (fun pm m => match requested_mode m with
                           | Some r => r
                           | None => pm
                           end)
      ms (currentPermissionMode (driver s)).
Proof.
  revert s; induction ms as [|m ms IH]; intros s; [reflexivity|].
  cbn [receive fold_left]. fold (receive_all ms (on_message m s)).
  rewrite IH. f_equal.
  now destruct (onUserMessage_step FlDroid CHANGE_TITLE_INSTRUCTION m s)
    as (item & _ & _ & _ & _ & _ & _ & E & _).
Qed.

(** What the two configuration calls do to the backend. *)
Lemma setting_effect (c : SettingCall) (b : Backend) :
  let b' := exec (DroidOps.apply FACTORY_API_KEY_ENV JSON_parse JSON_stringify
                    (setting_op c)) b in
  spawned_by b' = spawned_by b
  /\ DroidBackend.droidSessionId b' = DroidBackend.droidSessionId b
  /\ DroidClient.apiKey (DroidBackend.client b')
     = DroidClient.apiKey (DroidBackend.client b)
  /\ DroidClient.defaultCwd (DroidBackend.client b')
     = DroidClient.defaultCwd (DroidBackend.client b)
  /\ match c with
     | SetPermissionMode mode =>
         DroidBackend.permissionMode b' = mode
         /\ DroidBackend.auto b' = permissionModeToAutoLevel mode
         /\ DroidClient.defaultModel (DroidBackend.client b')
            = DroidClient.defaultModel (DroidBackend.client b)
     | SetModel model =>
         DroidBackend.permissionMode b' = DroidBackend.permissionMode b
         /\ DroidBackend.auto b' = DroidBackend.auto b
         /\ DroidClient.defaultModel (DroidBackend.client b') = model
     end.
Proof.
  cbv zeta. destruct c as [mode|model]; cbn [setting_op DroidOps.apply];
    unfold exec, DroidBackend.setPermissionMode, DroidBackend.setModel,
      DroidBackend.with_client, DroidBackend.log, bind, modify, zoom,
      logger_debug;
    destruct b as [[k dm cw cp ps sp sg] hs cs ds au pm ir w]; cbn;
    repeat split.
Qed.

(** The state of the backend after the calls for a sequence of
    messages: the mode of the last message that named a valid one, the
    model of the last message that gave one. *)
Lemma calls_effect (ms : list UserMessage) (b : Backend) :
  let b' := ops (map setting_op (calls_for ms)) b in
  spawned_by b' = spawned_by b
  /\ DroidBackend.droidSessionId b' = DroidBackend.droidSessionId b
  /\ DroidClient.apiKey (DroidBackend.client b')
     = DroidClient.apiKey (DroidBackend.client b)
  /\ DroidClient.defaultCwd (DroidBackend.client b')
     = DroidClient.defaultCwd (DroidBackend.client b)
  /\ (DroidBackend.auto b = permissionModeToAutoLevel (DroidBackend.permissionMode b) ->
      DroidBackend.auto b' = permissionModeToAutoLevel (DroidBackend.permissionMode b'))
  /\ DroidBackend.permissionMode b'
     = fold_left (fun pm m => match requested_mode m with
                              | Some r => r
                              | None => pm
                              end)
         ms (DroidBackend.permissionMode b).
Proof.
  revert b; induction ms as [|m ms IH]; intros b; cbv zeta.
  - cbn. repeat split; auto.
  - cbn [calls_for flat_map]. fold (calls_for ms).
    rewrite !map_app. unfold run_ops. rewrite !fold_left_app.
    fold (ops (map setting_op (mode_calls m)) b).
    set (b1 := ops (map setting_op (mode_calls m)) b).
    fold (ops (map setting_op (model_calls m)) b1).
    set (b2 := ops (map setting_op (model_calls m)) b1).
    fold (ops (map setting_op (calls_for ms)) b2).
    destruct (IH b2) as (S3 & D3 & K3 & C3 & A3 & P3).
    assert (H1 : spawned_by b1 = spawned_by b
                 /\ DroidBackend.droidSessionId b1 = DroidBackend.droidSessionId b
                 /\ DroidClient.apiKey (DroidBackend.client b1)
                    = DroidClient.apiKey (DroidBackend.client b)
                 /\ DroidClient.defaultCwd (DroidBackend.client b1)
                    = DroidClient.defaultCwd (DroidBackend.client b)
                 /\ (DroidBackend.auto b
                     = permissionModeToAutoLevel (DroidBackend.permissionMode b) ->
                     DroidBackend.auto b1
                     = permissionModeToAutoLevel (DroidBackend.permissionMode b1))
                 /\ DroidBackend.permissionMode b1
                    = match requested_mode m with
                      | Some r => r
                      | None => DroidBackend.permissionMode b
                      end).
    { subst b1. unfold mode_calls.
      destruct (requested_mode m) as [r|]; [|cbn; repeat split; auto].
      cbn [map run_ops fold_left].
      destruct (setting_effect (SetPermissionMode r) b)
        as (Hs & Hd & Hk & Hc & Hp & Ha & _).
      repeat split; auto; try (intros _; now rewrite Ha, Hp). }
    assert (H2 : spawned_by b2 = spawned_by b1
                 /\ DroidBackend.droidSessionId b2 = DroidBackend.droidSessionId b1
                 /\ DroidClient.apiKey (DroidBackend.client b2)
                    = DroidClient.apiKey (DroidBackend.client b1)
                 /\ DroidClient.defaultCwd (DroidBackend.client b2)
                    = DroidClient.defaultCwd (DroidBackend.client b1)
                 /\ DroidBackend.auto b2 = DroidBackend.auto b1
                 /\ DroidBackend.permissionMode b2 = DroidBackend.permissionMode b1).
    { subst b2. unfold model_calls.
      destruct (meta m) as [mt|]; [|cbn; repeat split].
      destruct (meta_model mt) as [| |model]; try (cbn; now repeat split).
      destruct (Js.nonempty model); [|cbn; now repeat split].
      cbn [map run_ops fold_left].
      destruct (setting_effect (SetModel model) b1)
        as (Hs & Hd & Hk & Hc & Hp & Ha & _).
      repeat split; auto. }
    destruct H1 as (S1 & D1 & K1 & C1 & A1 & P1).
    destruct H2 as (S2 & D2 & K2 & C2 & A2 & P2).
    cbn [fold_left].
    repeat split; try congruence.
    intros H. apply A3. rewrite A2, P2. now apply A1.
Qed.

(** X23.  The configuration calls that incoming messages make on the
    droid backend depend on the messages only, and leave it with the
    permission mode that the driver holds as current, the one of the
    latest message that named a valid mode.  So a prompt that is sent
    after these messages arrived, also the prompt of an earlier one of
    them still waiting in the queue, is run with the autonomy level of
    that latest mode. *)
Theorem queued_prompts_run_with_latest_mode (ms : list UserMessage)
  (s : Inbox) (b : Backend) (prompt : string) :
  DroidBackend.permissionMode b = currentPermissionMode (driver s) ->
  DroidBackend.auto b = permissionModeToAutoLevel (DroidBackend.permissionMode b) ->
  let s' := receive_all ms s in
  let b' := ops (map setting_op (calls_for ms)) b in
  settings s' = settings s ++ calls_for ms
  /\ DroidBackend.permissionMode b' = currentPermissionMode (driver s')
  /\ spawned_by (exec (DroidBackend.sendPrompt FACTORY_API_KEY_ENV prompt) b')
     = spawned_by b
       ++ [DroidClient.mkSpawn "droid"
             (["exec"; "-o"; "stream-json"]
              ++ ArgsLayout.auto_flag
                   (permissionModeToAutoLevel (currentPermissionMode (driver s')))
              ++ ArgsLayout.session_flag (DroidBackend.droidSessionId b)
              ++ ["-m"; DroidClient.defaultModel (DroidBackend.client b'); prompt])
             [(FACTORY_API_KEY_ENV, DroidClient.apiKey (DroidBackend.client b))]
             (DroidClient.defaultCwd (DroidBackend.client b))].
Proof.
  intros Hp Ha. cbv zeta.
  destruct (calls_effect ms b) as (S1 & D1 & K1 & C1 & A1 & P1).
  split; [apply settings_receive|].
  assert (Hm : DroidBackend.permissionMode
                 (ops (map setting_op (calls_for ms)) b)
               = currentPermissionMode (driver (receive_all ms s))).
  { now rewrite P1, mode_receive, Hp. }
  split; [exact Hm|].
  rewrite sendPrompt_spawned.
  unfold prompt_request. now rewrite S1, D1, K1, C1, (A1 Ha), Hm.
Qed.

End WiringFacts.

(** Two messages arrive before the first prompt is sent: the first asks
    for [yolo], the second for [read-only]. *)
Lemma queued_prompts_run_with_latest_mode_sample :
  let ms :=
    [Inbox.mkUserMessage "delete the build directory"
       (Some (Inbox.mkMeta (Some "yolo") Inbox.ModelAbsent None));
     Inbox.mkUserMessage "what is in src?"
       (Some (Inbox.mkMeta (Some "read-only") Inbox.ModelAbsent None))] in
  DroidBackend.permissionMode Sample.droid0 = Agent.PmDefault
  /\ DroidBackend.permissionMode
       (DroidOps.run_ops Sample.KEY Sample.parse Sample.stringify
          (map Wiring.setting_op (Wiring.calls_for ms)) Sample.droid0)
     = Agent.PmReadOnly.
Proof.
  cbv zeta. split; [reflexivity|].
  apply (queued_prompts_run_with_latest_mode Sample.KEY Sample.parse
           Sample.stringify "title"
           [Inbox.mkUserMessage "delete the build directory"
              (Some (Inbox.mkMeta (Some "yolo") Inbox.ModelAbsent None));
            Inbox.mkUserMessage "what is in src?"
              (Some (Inbox.mkMeta (Some "read-only") Inbox.ModelAbsent None))]
           (Inbox.mkInbox Sample.driver0 None true []) Sample.droid0
           "delete the build directory" eq_refl eq_refl).
Defined.

(** ** The model in the requests of the opencode backend *)

Section PromptModel.

Import Agent Exn OpencodeTypes OpencodeOps.

Variable U : Type.
Variable JSON_stringify : Js.JsValue -> string.
Variable randomUUID : nat -> string.

Local Notation "'Backend'" := (OpencodeBackend.OpencodeBackend U).
Local Notation "'ops_run'" := (run_ops (U:=U) JSON_stringify randomUUID).

Lemma parseModelString_needs_one_slash (m : string) :
  Js.count Js.slash m <> 1 -> parseModelString m = None.
Proof.
  intros H. unfold parseModelString.
  pose proof (split_length Js.slash m) as L.
  destruct (Js.split Js.slash m) as [|p [|i [|x xs]]]; cbn in L;
    try reflexivity. lia.
Qed.

(** X24.  With a session, the request of a prompt carries the model
    that was last set, parsed into provider and model: a model without
    a provider prefix, or with more than one ['/'], is left out of the
    request without any notice, and the server's default is used. *)
Theorem opencode_prompt_carries_parsed_model (b : Backend)
  (sid model prompt : string) :
  OpencodeBackend.opencodeSessionId b = Some sid ->
  Js.nonempty sid = true ->
  let b' := ops_run [OpSetModel U model;
                     OpEvent U (OpencodeBackend.CallSendPrompt prompt)] b in
  OpencodeBackend.requests b'
  = OpencodeBackend.requests b
    ++ [OpencodeBackend.mkRequest "POST"
          (OpencodeBackend.baseUrl b ++ "/session/" ++ sid ++ "/message")
          (OpencodeBackend.PromptBody (parseModelString model) prompt)]
  /\ (Js.count Js.slash model <> 1 ->
      OpencodeBackend.requests b'
      = OpencodeBackend.requests b
        ++ [OpencodeBackend.mkRequest "POST"
              (OpencodeBackend.baseUrl b ++ "/session/" ++ sid ++ "/message")
              (OpencodeBackend.PromptBody None prompt)])
  /\ (forall provider name,
        Js.count Js.slash provider = 0 ->
        Js.count Js.slash name = 0 ->
        model = (provider ++ "/" ++ name)%string ->
        OpencodeBackend.requests b'
        = OpencodeBackend.requests b
          ++ [OpencodeBackend.mkRequest "POST"
                (OpencodeBackend.baseUrl b ++ "/session/" ++ sid ++ "/message")
                (OpencodeBackend.PromptBody (Some (mkModel provider name)) prompt)]).
Proof.
  intros Hs Hn. cbv zeta.
  assert (E : OpencodeBackend.requests
                (ops_run [OpSetModel U model;
                          OpEvent U (OpencodeBackend.CallSendPrompt prompt)] b)
              = OpencodeBackend.requests b
                ++ [OpencodeBackend.mkRequest "POST"
                      (OpencodeBackend.baseUrl b ++ "/session/" ++ sid ++ "/message")
                      (OpencodeBackend.PromptBody (parseModelString model) prompt)]).
  { unfold run_ops. cbn [fold_left OpencodeOps.apply OpencodeBackend.step].
    unfold exec, OpencodeBackend.setModel, OpencodeBackend.sendPrompt, bind,
      modify, get.
    destruct b as [bu cm rq aw hs hsid osid pm ir es uu w].
    cbn [snd OpencodeBackend.set_configModel OpencodeBackend.opencodeSessionId
         OpencodeBackend.baseUrl OpencodeBackend.configModel
         OpencodeBackend.requests OpencodeBackend.awaiting
         OpencodeBackend.messageHandlers OpencodeBackend.happySessionId
         OpencodeBackend.permissionMode OpencodeBackend.isRunning
         OpencodeBackend.eventSubscriptionActive OpencodeBackend.uuids
         OpencodeBackend.world] in *.
    subst osid. rewrite Hn, oc_emit_closed.
    unfold OpencodeBackend.client_sendPrompt, OpencodeBackend.fetch, bind, get,
      modify, ret. cbn.
    unfold Js.nonempty. destruct (String.eqb model "") eqn:Em; cbn; [|reflexivity].
    apply String.eqb_eq in Em. subst model. reflexivity. }
  split; [exact E|]. split.
  - intros H. now rewrite E, (parseModelString_needs_one_slash model H).
  - intros provider name Hp Hm ->.
    now rewrite E, (parseModelString_compose provider name Hp Hm).
Qed.

End PromptModel.

Lemma opencode_prompt_carries_parsed_model_sample :
  OpencodeBackend.opencodeSessionId Sample.opencode1 = Some "ses_1"
  /\ Js.nonempty "ses_1" = true
  /\ OpencodeBackend.requests
       (OpencodeOps.run_ops Sample.stringify Sample.uuid
          [OpencodeOps.OpSetModel unit "gpt-4o";
           OpencodeOps.OpEvent unit (OpencodeBackend.CallSendPrompt "hello")]
          Sample.opencode1)
     = OpencodeBackend.requests Sample.opencode1
       ++ [OpencodeBackend.mkRequest "POST"
             (OpencodeBackend.baseUrl Sample.opencode1
              ++ "/session/" ++ "ses_1" ++ "/message")
             (OpencodeBackend.PromptBody
                (OpencodeTypes.parseModelString "gpt-4o") "hello")].
Proof.
  split; [reflexivity|]. split; [reflexivity|].
  exact (proj1 (opencode_prompt_carries_parsed_model Sample.stringify
                  Sample.uuid Sample.opencode1 (sid := "ses_1") "gpt-4o" "hello"
                  eq_refl eq_refl)).
Defined.

(** ** What the droid backend emits *)

Section EmissionFacts.

Import Agent Exn DroidTypes Reader DroidOps Emission.

Variable U : Type.
Variable FACTORY_API_KEY_ENV : string.
Variable JSON_parse : string -> option DroidStreamEvent.
Variable JSON_stringify : Js.JsValue -> string.

Local Notation "'Backend'" := (DroidBackend.DroidBackend U).
Local Notation "'handle'" := (DroidBackend.handleStreamEvent (U:=U) JSON_stringify).
Local Notation "'step'" :=
  (DroidBackend.step (U:=U) FACTORY_API_KEY_ENV JSON_parse JSON_stringify).
Local Notation "'run'" :=
  (DroidBackend.run (U:=U) FACTORY_API_KEY_ENV JSON_parse JSON_stringify).
Local Notation "'ops'" :=
  (run_ops (U:=U) FACTORY_API_KEY_ENV JSON_parse JSON_stringify).
Local Notation "'apply_op'" :=
  (DroidOps.apply (U:=U) FACTORY_API_KEY_ENV JSON_parse JSON_stringify).
Local Notation "'emitted_by' b" := (emitted (DroidBackend.world b))
  (at level 10, b at level 9).

Section Only.

Variable P : AgentMessage -> bool.

Lemma only_ret {A} (a : A) : emits_only (U:=U) P (ret a).
Proof. intros b. exists []. now rewrite app_nil_r. Qed.

Lemma only_throw {A} (e : Js.JsExn) : emits_only (U:=U) P (A:=A) (throw e).
Proof. intros b. exists []. now rewrite app_nil_r. Qed.

Lemma only_get : emits_only (U:=U) P get.
Proof. intros b. exists []. now rewrite app_nil_r. Qed.

Lemma only_bind {A B} (m : M Backend A) (k : A -> M Backend B) :
  emits_only P m -> (forall a, emits_only P (k a)) -> emits_only P (bind m k).
Proof.
  intros Hm Hk b. unfold bind. destruct (Hm b) as (ms & E & F).
  destruct (m b) as [[a|e] b1]; cbn [snd] in *; [|now exists ms].
  destruct (Hk a b1) as (ms' & E' & F').
  exists (ms ++ ms'). rewrite E', E, app_assoc, forallb_app, F, F'. now split.
Qed.

Lemma only_try_catch {A} (m : M Backend A) (h : Js.JsExn -> M Backend A) :
  emits_only P m -> (forall e, emits_only P (h e)) -> emits_only P (try_catch m h).
Proof.
  intros Hm Hh b. unfold try_catch. destruct (Hm b) as (ms & E & F).
  destruct (m b) as [[a|e] b1]; cbn [snd] in *; [now exists ms|].
  destruct (Hh e b1) as (ms' & E' & F').
  exists (ms ++ ms'). rewrite E', E, app_assoc, forallb_app, F, F'. now split.
Qed.

Lemma only_modify (f : Backend -> Backend) :
  (forall b, emitted_by (f b) = emitted_by b) -> emits_only P (modify f).
Proof. intros Hf b. exists []. cbn. now rewrite Hf, app_nil_r. Qed.

Lemma only_with_client (f : DroidClient.DroidClient -> DroidClient.DroidClient) :
  emits_only (U:=U) P (DroidBackend.with_client f).
Proof. apply only_modify. now intros []. Qed.

Lemma only_log (l : LogLine) : emits_only (U:=U) P (DroidBackend.log l).
Proof. intros b. exists []. destruct b. cbn. now rewrite app_nil_r. Qed.

Lemma only_emit (msg : AgentMessage) :
  P msg = true -> emits_only (U:=U) P (DroidBackend.emit msg).
Proof.
  intros H b. exists [msg]. rewrite emit_closed. destruct b. cbn.
  now rewrite H.
Qed.

(** Every message that [handleStreamEvent] emits is a report. *)
Hypothesis reports_pass : forall msg, is_report msg = true -> P msg = true.

Lemma only_handle (ev : DroidStreamEvent) : emits_only P (handle ev).
Proof.
  destruct ev as [sid tools mdl cwd|role text|id tn ps|id tid v|ft nt dm|];
    cbn [DroidBackend.handleStreamEvent].
  - repeat (apply only_bind; [|intros _]);
      auto using only_emit, only_log.
    apply only_modify. now intros [].
  - destruct role; auto using only_emit, only_ret.
  - now apply only_emit, reports_pass.
  - repeat (apply only_bind; [|intros _]); auto using only_emit.
    + destruct (DroidBackend.is_file_tool tid); auto using only_emit, only_ret.
    + destruct (String.eqb tid "Execute"); auto using only_emit, only_ret.
  - repeat (apply only_bind; [|intros _]); auto using only_emit, only_log.
    destruct (Js.nonempty ft); auto using only_emit, only_ret.
  - apply only_ret.
Qed.

Lemma only_parse_and_deliver (text ft : string) :
  emits_only P (DroidBackend.parse_and_deliver JSON_parse handle text ft).
Proof.
  unfold DroidBackend.parse_and_deliver.
  destruct (JSON_parse text) as [ev|]; [|apply only_throw].
  apply only_bind; [apply only_handle | intros _; apply only_ret].
Qed.

Lemma only_each_line (lines : list string) (ft : string) :
  emits_only P (DroidBackend.each_line JSON_parse handle lines ft).
Proof.
  revert ft; induction lines as [|line rest IH]; intros ft;
    cbn [DroidBackend.each_line]; [apply only_ret|].
  destruct (Js.nonempty (Js.trim line)); [|apply IH].
  apply only_bind; [|intros ft'; apply IH].
  apply only_try_catch; [apply only_parse_and_deliver|].
  intros e. apply only_bind; [apply only_log | intros _; apply only_ret].
Qed.

Lemma only_settle (pid : nat) (p : DroidClient.Proc) (o : Res string) :
  emits_only (U:=U) P (DroidBackend.settle pid p o).
Proof.
  apply only_bind; [apply only_with_client | intros _; apply only_ret].
Qed.

(** What the child writes, and its ending up to the settling of the
    promise, emits reports only. *)
Lemma only_data (pid : nat) (data : string) :
  emits_only P (DroidBackend.execStream_data JSON_parse pid data handle).
Proof.
  unfold DroidBackend.execStream_data.
  apply only_bind; [apply only_get | intros b].
  destruct (DroidBackend.get_proc pid b) as [p|]; [|apply only_ret].
  destruct (Js.pop _) as [popped lines].
  apply only_bind; [apply only_each_line | intros ft].
  apply only_with_client.
Qed.

Lemma only_stderr (pid : nat) (data : string) :
  emits_only (U:=U) P (DroidBackend.execStream_stderr pid data).
Proof.
  unfold DroidBackend.execStream_stderr.
  apply only_bind; [apply only_get | intros b].
  destruct (DroidBackend.get_proc pid b) as [p|]; [|apply only_ret].
  apply only_bind; [apply only_with_client | intros _; apply only_log].
Qed.

Lemma only_close (pid : nat) (code : option Z) :
  emits_only P (DroidBackend.execStream_close JSON_parse pid code handle).
Proof.
  unfold DroidBackend.execStream_close.
  apply only_bind; [apply only_get | intros b].
  destruct (DroidBackend.get_proc pid b) as [p|]; [|apply only_ret].
  apply only_bind; [apply only_with_client | intros _].
  apply only_bind.
  - destruct (Js.nonempty (Js.trim (DroidClient.buffer p))); [|apply only_ret].
    apply only_try_catch; [apply only_parse_and_deliver|].
    intros e. apply only_ret.
  - intros ft. destruct code as [[|z|z]|]; apply only_settle.
Qed.

Lemma only_error (pid : nat) (message : string) :
  emits_only (U:=U) P (DroidBackend.execStream_error pid message).
Proof.
  unfold DroidBackend.execStream_error.
  apply only_bind; [apply only_get | intros b].
  destruct (DroidBackend.get_proc pid b) as [p|]; [|apply only_ret].
  apply only_bind; [apply only_with_client | intros _].
  apply only_settle.
Qed.

Lemma only_execStream (prompt : string) (o : DroidExecOptions) :
  emits_only (U:=U) P (DroidBackend.execStream FACTORY_API_KEY_ENV prompt o).
Proof.
  unfold DroidBackend.execStream.
  apply only_bind; [apply only_get | intros b].
  repeat (apply only_bind; [|intros _]);
    auto using only_log, only_with_client, only_ret.
Qed.

Lemma only_client_cancel : emits_only (U:=U) P (DroidBackend.client_cancel (U:=U)).
Proof.
  unfold DroidBackend.client_cancel.
  apply only_bind; [apply only_get | intros b].
  destruct (DroidClient.currentProcess (DroidBackend.client b)) as [pid|];
    [|apply only_ret].
  repeat (apply only_bind; [|intros _]);
    auto using only_log, only_with_client, only_ret.
Qed.

(** With statuses let through as well: every method of the backend. *)
Hypothesis statuses_pass : forall msg, is_status msg = true -> P msg = true.

Lemma only_resume (s : option (Res string)) :
  emits_only (U:=U) P (DroidBackend.resume_if_settled s).
Proof.
  destruct s as [o|]; [|apply only_ret].
  cbn [DroidBackend.resume_if_settled]. unfold DroidBackend.sendPrompt_resume.
  apply only_try_catch.
  - destruct o as [v|e]; [|apply only_throw].
    apply only_bind; [|intros _; now apply only_emit, statuses_pass].
    apply only_modify. now intros [].
  - intros e. repeat (apply only_bind; [|intros _]);
      auto using only_emit, only_throw.
    apply only_modify. now intros [].
Qed.

Lemma only_step (ev : DroidBackend.Event) : emits_only P (step ev).
Proof.
  destruct ev as [prompt| |pid data|pid data|pid code|pid message];
    cbn [DroidBackend.step].
  - apply only_bind; [|intros _; apply only_ret].
    unfold DroidBackend.sendPrompt.
    apply only_bind; [now apply only_emit, statuses_pass | intros _].
    apply only_bind; [apply only_modify; now intros [] | intros _].
    apply only_bind; [apply only_get | intros b].
    apply only_execStream.
  - unfold DroidBackend.cancel.
    apply only_bind; [apply only_client_cancel | intros [|]];
      [|apply only_ret].
    apply only_bind; [apply only_modify; now intros [] | intros _].
    now apply only_emit, statuses_pass.
  - apply only_data.
  - apply only_stderr.
  - apply only_bind; [apply only_close | intros s; apply only_resume].
  - apply only_bind; [apply only_error | intros s; apply only_resume].
Qed.

Lemma only_apply (op : Op U) : emits_only P (apply_op op).
Proof.
  destruct op as [ev|id prompt|mode|level|model|id approved|h|h|];
    cbn [DroidOps.apply].
  - apply only_step.
  - apply only_bind; [|intros _; apply only_ret].
    unfold startSession.
    apply only_bind; [apply only_modify; now intros [] | intros _].
    apply only_bind; [now apply only_emit, statuses_pass | intros _].
    destruct (Js.truthy prompt).
    + apply only_bind; [apply only_modify; now intros [] | intros _].
      apply only_bind; [apply only_get | intros b].
      apply only_bind; [apply only_execStream | intros pid].
      apply only_ret.
    + apply only_bind; [now apply only_emit, statuses_pass | intros _].
      apply only_ret.
  - unfold DroidBackend.setPermissionMode.
    repeat (apply only_bind; [|intros _]); try apply only_log;
      apply only_modify; now intros [].
  - apply only_modify. now intros [].
  - apply only_with_client.
  - apply only_log.
  - apply only_modify. now intros [].
  - apply only_modify. now intros [].
  - unfold DroidBackend.dispose.
    apply only_bind; [apply only_client_cancel | intros _].
    apply only_modify. now intros [].
Qed.

Lemma only_ops (l : list (Op U)) (b : Backend) :
  exists ms,
    emitted_by (ops l b) = emitted_by b ++ ms /\ forallb P ms = true.
Proof.
  revert b; induction l as [|op l IH]; intros b.
  - exists []. cbn. now rewrite app_nil_r.
  - unfold run_ops. cbn [fold_left].
    destruct (only_apply op b) as (ms & E & F).
    destruct (IH (exec (apply_op op) b)) as (ms' & E' & F').
    exists (ms ++ ms'). unfold run_ops, exec in *.
    rewrite E', E, app_assoc, forallb_app, F, F'. now split.
Qed.

End Only.

(** X25.  The droid backend never emits a permission request, whatever
    is called on it and whatever its children do; and nothing that a
    child writes to stdout or stderr makes it emit a status: statuses
    come from the calls of [startSession], [sendPrompt] and [cancel]
    and from the ending of a child only. *)
Theorem droid_emits_no_permission_request (l : list (Op U))
  (reads : list DroidBackend.Read) (pid : nat) (b : Backend) :
  (exists ms,
     emitted_by (ops l b) = emitted_by b ++ ms
     /\ forallb (fun msg => negb (is_permission_request msg)) ms = true)
  /\ (exists ms,
        emitted_by (run (map (DroidBackend.read_event pid) reads) b)
        = emitted_by b ++ ms
        /\ forallb is_report ms = true).
Proof.
  split.
  - apply only_ops.
    + intros msg H. unfold is_report in H. now apply andb_prop in H as [_ H].
    + intros [] H; try discriminate. reflexivity.
  - revert b; induction reads as [|r reads IH]; intros b.
    + exists []. cbn. now rewrite app_nil_r.
    + cbn [map DroidBackend.run fold_left].
      assert (H : emits_only is_report (step (DroidBackend.read_event pid r))).
      { destruct r as [data|data]; cbn [DroidBackend.read_event DroidBackend.step];
          [apply only_data | apply only_stderr]; auto. }
      destruct (H b) as (ms & E & F).
      destruct (IH (exec (step (DroidBackend.read_event pid r)) b))
        as (ms' & E' & F').
      exists (ms ++ ms'). unfold DroidBackend.run, exec in *.
      rewrite E', E, app_assoc, forallb_app, F, F'. now split.
Qed.

End EmissionFacts.

(** ** A failed prompt, from the child to the terminal *)

Section ReportedTwice.

Import Agent Exn DroidTypes Reader DroidOps Emission.

Variable FACTORY_API_KEY_ENV : string.
Variable JSON_parse : string -> option DroidStreamEvent.
Variable JSON_stringify : Js.JsValue -> string.

Local Notation "'U'" := Driver.Driver.
Local Notation "'Backend'" := (DroidBackend.DroidBackend Driver.Driver).
Local Notation "'handle'" :=
  (DroidBackend.handleStreamEvent (U:=Driver.Driver) JSON_stringify).
Local Notation "'step'" :=
  (DroidBackend.step (U:=Driver.Driver) FACTORY_API_KEY_ENV JSON_parse
     JSON_stringify).
Local Notation "'run'" :=
  (DroidBackend.run (U:=Driver.Driver) FACTORY_API_KEY_ENV JSON_parse
     JSON_stringify).

Lemma keeps_ret {A} (a : A) : keeps_handlers (U:=U) (ret a).
Proof. intros b. reflexivity. Qed.

Lemma keeps_throw {A} (e : Js.JsExn) : keeps_handlers (U:=U) (A:=A) (throw e).
Proof. intros b. reflexivity. Qed.

Lemma keeps_get : keeps_handlers (U:=U) get.
Proof. intros b. reflexivity. Qed.

Lemma keeps_bind {A B} (m : M Backend A) (k : A -> M Backend B) :
  keeps_handlers m -> (forall a, keeps_handlers (k a)) -> keeps_handlers (bind m k).
Proof.
  intros Hm Hk b. unfold bind. specialize (Hm b).
  destruct (m b) as [[a|e] b1]; cbn [snd] in *; [|exact Hm].
  now rewrite (Hk a b1).
Qed.

Lemma keeps_try_catch {A} (m : M Backend A) (h : Js.JsExn -> M Backend A) :
  keeps_handlers m -> (forall e, keeps_handlers (h e)) ->
  keeps_handlers (try_catch m h).
Proof.
  intros Hm Hh b. unfold try_catch. specialize (Hm b).
  destruct (m b) as [[a|e] b1]; cbn [snd] in *; [exact Hm|].
  now rewrite (Hh e b1).
Qed.

Lemma keeps_modify (f : Backend -> Backend) :
  (forall b, DroidBackend.messageHandlers (f b) = DroidBackend.messageHandlers b) ->
  keeps_handlers (modify f).
Proof. intros Hf b. apply Hf. Qed.

Lemma keeps_with_client (f : DroidClient.DroidClient -> DroidClient.DroidClient) :
  keeps_handlers (U:=U) (DroidBackend.with_client f).
Proof. apply keeps_modify. now intros []. Qed.

Lemma keeps_log (l : LogLine) : keeps_handlers (U:=U) (DroidBackend.log l).
Proof. intros b. now destruct b. Qed.

Lemma keeps_emit (msg : AgentMessage) : keeps_handlers (U:=U) (DroidBackend.emit msg).
Proof. intros b. rewrite emit_closed. now destruct b. Qed.

Lemma keeps_handle (ev : DroidStreamEvent) : keeps_handlers (handle ev).
Proof.
  destruct ev as [sid tools mdl cwd|role text|id tn ps|id tid v|ft nt dm|];
    cbn [DroidBackend.handleStreamEvent].
  - repeat (apply keeps_bind; [|intros _]);
      auto using keeps_emit, keeps_log.
    apply keeps_modify. now intros [].
  - destruct role; auto using keeps_emit, keeps_ret.
  - apply keeps_emit.
  - repeat (apply keeps_bind; [|intros _]); try apply keeps_emit.
    + destruct (DroidBackend.is_file_tool tid); auto using keeps_emit, keeps_ret.
    + destruct (String.eqb tid "Execute"); auto using keeps_emit, keeps_ret.
  - repeat (apply keeps_bind; [|intros _]); auto using keeps_emit, keeps_log.
    destruct (Js.nonempty ft); auto using keeps_emit, keeps_ret.
  - apply keeps_ret.
Qed.

Lemma keeps_parse_and_deliver (text ft : string) :
  keeps_handlers (DroidBackend.parse_and_deliver JSON_parse handle text ft).
Proof.
  unfold DroidBackend.parse_and_deliver.
  destruct (JSON_parse text) as [ev|]; [|apply keeps_throw].
  apply keeps_bind; [apply keeps_handle | intros _; apply keeps_ret].
Qed.

Lemma keeps_each_line (lines : list string) (ft : string) :
  keeps_handlers (DroidBackend.each_line JSON_parse handle lines ft).
Proof.
  revert ft; induction lines as [|line rest IH]; intros ft;
    cbn [DroidBackend.each_line]; [apply keeps_ret|].
  destruct (Js.nonempty (Js.trim line)); [|apply IH].
  apply keeps_bind; [|intros ft'; apply IH].
  apply keeps_try_catch; [apply keeps_parse_and_deliver|].
  intros e. apply keeps_bind; [apply keeps_log | intros _; apply keeps_ret].
Qed.

Lemma keeps_close (pid : nat) (code : option Z) :
  keeps_handlers (DroidBackend.execStream_close JSON_parse pid code handle).
Proof.
  unfold DroidBackend.execStream_close.
  apply keeps_bind; [apply keeps_get | intros b].
  destruct (DroidBackend.get_proc pid b) as [p|]; [|apply keeps_ret].
  apply keeps_bind; [apply keeps_with_client | intros _].
  apply keeps_bind.
  - destruct (Js.nonempty (Js.trim (DroidClient.buffer p))); [|apply keeps_ret].
    apply keeps_try_catch; [apply keeps_parse_and_deliver|].
    intros e. apply keeps_ret.
  - intros ft. destruct code as [[|z|z]|];
      (apply keeps_bind; [apply keeps_with_client | intros _; apply keeps_ret]).
Qed.

Lemma keeps_read (pid : nat) (r : DroidBackend.Read) :
  keeps_handlers (step (DroidBackend.read_event pid r)).
Proof.
  destruct r as [data|data]; cbn [DroidBackend.read_event DroidBackend.step].
  - unfold DroidBackend.execStream_data.
    apply keeps_bind; [apply keeps_get | intros b].
    destruct (DroidBackend.get_proc pid b) as [p|]; [|apply keeps_ret].
    destruct (Js.pop _) as [popped lines].
    apply keeps_bind; [apply keeps_each_line | intros ft].
    apply keeps_with_client.
  - unfold DroidBackend.execStream_stderr.
    apply keeps_bind; [apply keeps_get | intros b].
    destruct (DroidBackend.get_proc pid b) as [p|]; [|apply keeps_ret].
    apply keeps_bind; [apply keeps_with_client | intros _; apply keeps_log].
Qed.

Lemma keeps_reads (pid : nat) (reads : list DroidBackend.Read) (b : Backend) :
  DroidBackend.messageHandlers (run (map (DroidBackend.read_event pid) reads) b)
  = DroidBackend.messageHandlers b.
Proof.
  revert b; induction reads as [|r reads IH]; intros b; [reflexivity|].
  cbn [map DroidBackend.run fold_left].
  unfold DroidBackend.run in IH. rewrite IH. apply keeps_read.
Qed.

Lemma keeps_sendPrompt (prompt : string) (b : Backend) :
  DroidBackend.messageHandlers (exec (step (DroidBackend.CallSendPrompt prompt)) b)
  = DroidBackend.messageHandlers b.
Proof.
  unfold exec. cbn [DroidBackend.step].
  unfold DroidBackend.sendPrompt, DroidBackend.execStream, bind.
  rewrite emit_closed.
  unfold DroidBackend.log, DroidBackend.with_client, zoom, logger_debug,
    modify, get, ret.
  now destruct b as [[k dm cw cp ps sp sg] hs cs ds au pm ir w].
Qed.

(** What [close] settles the promise with. *)
Lemma close_result (pid : nat) (code : option Z) (b : Backend)
  (p : DroidClient.Proc) :
  DroidBackend.get_proc pid b = Some p ->
  exists ft,
    fst (DroidBackend.execStream_close JSON_parse pid code handle b)
    = Val (if DroidClient.settled p then None
           else Some (exit_outcome code ft (DroidClient.stderr p))).
Proof.
  intros Hp.
  destruct (Js.nonempty (Js.trim (DroidClient.buffer p))) eqn:Hn;
    [destruct (JSON_parse (DroidClient.buffer p)) as [ev|] eqn:Hev|].
  - rewrite (close_delivers_fragment JSON_parse JSON_stringify pid code b Hp Hn Hev).
    eexists. reflexivity.
  - rewrite (close_drops_fragment JSON_parse handle pid code b Hp (or_intror Hev)).
    eexists. reflexivity.
  - rewrite (close_drops_fragment JSON_parse handle pid code b Hp (or_introl Hn)).
    eexists. reflexivity.
Qed.

(** The driver's handler on an [error] status with a detail. *)
Lemma handler_shows_error (detail : string) (d : Driver.Driver) :
  Js.nonempty detail = true ->
  Driver.messageBuffer
    (snd (Driver.onMessage Driver.FlDroid (Status StError (Some detail)) d))
  = Driver.messageBuffer d
    ++ [Driver.AddMessage ("Error: " ++ detail) Driver.KStatus].
Proof.
  intros H. unfold Js.nonempty in H.
  unfold Driver.onMessage, Driver.keepAlive, Driver.randomUUID,
    Driver.sendCodexMessage, bind, modify, get, ret, Js.or_else.
  destruct (String.eqb detail ""); [discriminate|].
  now destruct d.
Qed.

(** The [catch] and [finally] of the main loop on a rejected prompt. *)
Lemma loop_shows_error (e : Js.JsExn) (d : Driver.Driver) :
  Driver.messageBuffer (exec (Driver.turn_end Driver.FlDroid (Throw e)) d)
  = Driver.messageBuffer d
    ++ [Driver.AddMessage ("Error: " ++ Js.error_detail e) Driver.KStatus].
Proof.
  unfold exec, Driver.turn_end, Driver.emitReadyIfIdle, Driver.sendReady,
    Driver.sendToAllDevices, bind, modify, get, ret, try_catch.
  destruct d as [se th ip ac cp mq uu pe ss ps mb bk lg]. cbn.
  destruct se; [reflexivity|]. destruct th; [reflexivity|].
  destruct ip; [reflexivity|]. destruct mq; cbn; [|reflexivity].
  destruct pe; reflexivity.
Qed.

(** X26.  A droid prompt whose child exits with a code other than 0 is
    reported to the terminal twice with the same line: once by the
    driver's handler, on the [error] status that [sendPrompt] emits,
    and once more by the main loop, which catches the error that
    [sendPrompt] throws after emitting that status. *)
Theorem failed_prompt_is_reported_twice (prompt : string)
  (reads : list DroidBackend.Read) (code : option Z) (b : Backend) :
  DroidBackend.messageHandlers b = [Driver.handler Driver.FlDroid] ->
  code <> Some 0%Z ->
  let pid := length (DroidClient.procs (DroidBackend.client b)) in
  let awaiting :=
    run (DroidBackend.CallSendPrompt prompt
         :: map (DroidBackend.read_event pid) reads) b in
  let settled := outcome (step (DroidBackend.Close pid code)) awaiting in
  let after := exec (step (DroidBackend.Close pid code)) awaiting in
  let line :=
    ("Error: Droid stream exited with code " ++ Js.show_code code ++ ": "
     ++ Js.or_else (Some (stderr_text reads)) "Unknown error")%string in
  exists before,
    Driver.messageBuffer
      (exec (Driver.turn_end Driver.FlDroid settled)
         (user (DroidBackend.world after)))
    = before ++ [Driver.AddMessage line Driver.KStatus;
                 Driver.AddMessage line Driver.KStatus].
Proof.
  intros Hh Hcode. cbv zeta.
  set (pid := length (DroidClient.procs (DroidBackend.client b))).
  change (DroidBackend.CallSendPrompt prompt
          :: map (DroidBackend.read_event pid) reads)
    with ([DroidBackend.CallSendPrompt prompt]
          ++ map (DroidBackend.read_event pid) reads).
  rewrite (run_app FACTORY_API_KEY_ENV JSON_parse JSON_stringify).
  change (run [DroidBackend.CallSendPrompt prompt] b)
    with (exec (step (DroidBackend.CallSendPrompt prompt)) b).
  destruct (sendPrompt_proc FACTORY_API_KEY_ENV JSON_parse JSON_stringify prompt b)
    as (_ & P1).
  fold pid in P1.
  pose proof (keeps_sendPrompt prompt b) as H1. rewrite Hh in H1.
  set (b1 := exec (step (DroidBackend.CallSendPrompt prompt)) b) in *.
  destruct (reads_keep_stderr FACTORY_API_KEY_ENV JSON_parse JSON_stringify
              pid reads b1 P1) as (p2 & ms2 & P2 & S2 & R2 & _).
  pose proof (keeps_reads pid reads b1) as H2. rewrite H1 in H2.
  set (b2 := run (map (DroidBackend.read_event pid) reads) b1) in *.
  cbn [DroidClient.settled DroidClient.stderr append] in S2, R2.
  destruct (close_result pid code b2 P2) as [ft Hr].
  pose proof (keeps_close pid code b2) as H3. rewrite H2 in H3.
  rewrite S2, R2 in Hr.
  unfold outcome, exec. cbn [DroidBackend.step]. unfold bind.
  destruct (DroidBackend.execStream_close JSON_parse pid code handle b2)
    as [r b3]. cbn [fst snd] in *. subst r.
  cbn [DroidBackend.resume_if_settled].
  assert (Ho : exit_outcome code ft (stderr_text reads)
               = Throw (Js.JsError
                          ("Droid stream exited with code " ++ Js.show_code code
                           ++ ": "
                           ++ Js.or_else (Some (stderr_text reads)) "Unknown error"))).
  { unfold exit_outcome. destruct code as [[|z|z]|]; try reflexivity.
    now destruct Hcode. }
  rewrite Ho.
  unfold DroidBackend.sendPrompt_resume, try_catch, throw, bind, modify.
  rewrite emit_closed. cbn [fst snd Js.error_detail].
  match goal with |- context [snd (Driver.turn_end ?f ?r ?d)] =>
    change (snd (Driver.turn_end f r d)) with (exec (Driver.turn_end f r) d)
  end.
  rewrite loop_shows_error. cbn [Js.error_detail].
  destruct b3 as [cl hs cs ds au pm ir w]. cbn in H3. subst hs.
  cbn [DroidBackend.set_isRunning DroidBackend.set_world DroidBackend.world
       DroidBackend.messageHandlers user Delivery.after_all fold_left
       Driver.handler Agent.run].
  rewrite handler_shows_error by reflexivity.
  exists (Driver.messageBuffer (user w)).
  now rewrite <- app_assoc.
Qed.

End ReportedTwice.

Lemma failed_prompt_is_reported_twice_sample :
  DroidBackend.messageHandlers Sample.droid_driven
  = [Driver.handler Driver.FlDroid]
  /\ Some 1%Z <> Some 0%Z
  /\ exists before,
       Driver.messageBuffer
         (Exn.exec
            (Driver.turn_end Driver.FlDroid
               (Exn.outcome
                  (DroidBackend.step Sample.KEY Sample.parse Sample.stringify
                     (DroidBackend.Close 0 (Some 1%Z)))
                  (DroidBackend.run Sample.KEY Sample.parse Sample.stringify
                     [DroidBackend.CallSendPrompt "list files";
                      DroidBackend.Stderr 0 "no key"]
                     Sample.droid_driven)))
            (Agent.user
               (DroidBackend.world
                  (Exn.exec
                     (DroidBackend.step Sample.KEY Sample.parse Sample.stringify
                        (DroidBackend.Close 0 (Some 1%Z)))
                     (DroidBackend.run Sample.KEY Sample.parse Sample.stringify
                        [DroidBackend.CallSendPrompt "list files";
                         DroidBackend.Stderr 0 "no key"]
                        Sample.droid_driven)))))
       = before
         ++ [Driver.AddMessage "Error: Droid stream exited with code 1: no key"
               Driver.KStatus;
             Driver.AddMessage "Error: Droid stream exited with code 1: no key"
               Driver.KStatus].
Proof.
  split; [reflexivity|].
  assert (H : Some 1%Z <> Some 0%Z) by discriminate.
  split; [exact H|].
  exact (failed_prompt_is_reported_twice Sample.KEY Sample.parse Sample.stringify
           "list files" [DroidBackend.ReadErr "no key"] (code := Some 1%Z)
           Sample.droid_driven eq_refl H).
Defined.

(** ** The reply of opencode, from the response to the session *)

Section Reply.

Import Agent Exn OpencodeTypes Emission.

Variable JSON_stringify : Js.JsValue -> string.
Variable randomUUID : nat -> string.

Local Notation "'Backend'" := (OpencodeBackend.OpencodeBackend Driver.Driver).
Local Notation "'step'" :=
  (OpencodeBackend.step (U:=Driver.Driver) JSON_stringify randomUUID).

Section Relays.

Variable P : AgentMessage -> bool.

Lemma relays_ret {A} (a : A) : relays P (ret a).
Proof. intros b H. exists []. cbn. rewrite app_nil_r. auto. Qed.

Lemma relays_bind {A B} (m : M Backend A) (k : A -> M Backend B) :
  relays P m -> (forall a, relays P (k a)) -> relays P (bind m k).
Proof.
  intros Hm Hk b H. unfold bind. destruct (Hm b H) as (ms & E & Us & Hh & Aw & F).
  destruct (m b) as [[a|e] b1]; cbn [snd] in *; [|now exists ms].
  destruct (Hk a b1 Hh) as (ms' & E' & Us' & Hh' & Aw' & F').
  exists (ms ++ ms'). rewrite E', E, app_assoc, forallb_app, F, F', Us', Us, Aw', Aw.
  unfold Inbox.feed. rewrite fold_left_app. auto.
Qed.

Lemma relays_emit (msg : AgentMessage) :
  P msg = true -> relays P (OpencodeBackend.emit msg).
Proof.
  intros Hp b H. exists [msg]. rewrite oc_emit_closed, H.
  destruct b. cbn. rewrite Hp. cbn in H. auto.
Qed.

Lemma relays_draw : relays P (OpencodeBackend.draw_uuid randomUUID).
Proof.
  intros b H. exists []. rewrite app_nil_r. destruct b. cbn in *. auto.
Qed.

Lemma relays_modify (f : Backend -> Backend) :
  (forall b, OpencodeBackend.world (f b) = OpencodeBackend.world b
             /\ OpencodeBackend.messageHandlers (f b)
                = OpencodeBackend.messageHandlers b
             /\ OpencodeBackend.awaiting (f b) = OpencodeBackend.awaiting b) ->
  relays P (modify f).
Proof.
  intros Hf b H. exists []. destruct (Hf b) as (W & Hh & Aw). cbn.
  rewrite W, Hh, Aw, app_nil_r. auto.
Qed.

Hypothesis plain_pass : forall msg, is_plain_report msg = true -> P msg = true.

Lemma relays_part (part : OpencodePart) :
  relays P (OpencodeBackend.processPart JSON_stringify randomUUID part).
Proof.
  unfold OpencodeBackend.processPart. destruct (ptype part).
  - destruct (Js.truthy (text part)); auto using relays_emit, relays_ret.
  - apply relays_bind.
    + destruct (Js.truthy (toolCallId part)); auto using relays_ret, relays_draw.
    + intros callId. now apply relays_emit, plain_pass.
  - repeat (apply relays_bind; [|intros _]); try (now apply relays_emit, plain_pass).
    + destruct (OpencodeBackend.write_or_edit _);
        auto using relays_emit, relays_ret.
    + destruct (String.eqb _ "bash"); auto using relays_emit, relays_ret.
  - apply relays_ret.
  - apply relays_ret.
Qed.

Lemma relays_parts (parts : list OpencodePart) :
  relays P (OpencodeBackend.processMessageResponse JSON_stringify randomUUID parts).
Proof.
  unfold OpencodeBackend.processMessageResponse.
  induction parts as [|part rest IH]; cbn [for_of]; [apply relays_ret|].
  apply relays_bind; [apply relays_part | intros _; exact IH].
Qed.

End Relays.

(** The driver's callback on a report without text delta: nothing is
    sent to the session, and the accumulated text stays as it is. *)
Lemma plain_report_step (msg : AgentMessage) (d : Driver.Driver) :
  is_plain_report msg = true ->
  let d' := exec (Driver.onMessage Driver.FlOpencode msg) d in
  Driver.session d' = Driver.session d
  /\ Driver.accumulatedResponse d' = Driver.accumulatedResponse d
  /\ Driver.thinking d' = Driver.thinking d
  /\ Driver.uuids d' = Driver.uuids d.
Proof.
  intros H. cbv zeta.
  destruct msg as [delta full|st detail|tn a cid|tn r cid|desc pth diff|data
                  |id reason payload|nt dm|name payload];
    try discriminate H;
    unfold exec, Driver.onMessage, bind, modify, get, ret.
  - unfold is_plain_report, carries_delta in H. cbn in H.
    apply negb_true_iff in H. rewrite H. cbn [orb].
    assert (E : Js.or_else delta "" = "").
    { destruct delta as [s|]; [|reflexivity]. cbn in *.
      now destruct (String.eqb s ""). }
    rewrite E. destruct (Js.truthy full); [|now destruct d].
    destruct d as [se th ip ac cp mq uu pe ss ps mb bk lg].
    destruct ip; cbn; rewrite append_empty_r; auto.
  - now destruct d.
  - now destruct d.
  - now destruct d.
  - now destruct d.
  - now destruct d.
  - now destruct d.
Qed.

Lemma plain_reports_feed (ms : list AgentMessage) (d : Driver.Driver) :
  forallb is_plain_report ms = true ->
  let d' := Inbox.feed Driver.FlOpencode ms d in
  Driver.session d' = Driver.session d
  /\ Driver.accumulatedResponse d' = Driver.accumulatedResponse d
  /\ Driver.thinking d' = Driver.thinking d
  /\ Driver.uuids d' = Driver.uuids d.
Proof.
  revert d; induction ms as [|m ms IH]; intros d H; cbv zeta; [cbn; auto|].
  cbn [forallb] in H. apply andb_prop in H as [Hm Hms].
  unfold Inbox.feed. cbn [fold_left].
  destruct (plain_report_step m d Hm) as (S1 & A1 & T1 & U1).
  destruct (IH (exec (Driver.onMessage Driver.FlOpencode m) d) Hms)
    as (S2 & A2 & T2 & U2).
  unfold Inbox.feed in *. repeat split; congruence.
Qed.

(** X27.  With the driver's callback as the handler of the opencode
    backend and no text accumulated, a successful response to a prompt
    is never forwarded to the session: whatever parts it holds, the
    backend emits them without text delta, then [idle], and all that
    the driver sends to the session is the keep-alive. *)
Theorem opencode_reply_is_not_forwarded (rid : nat) (status : Z) (text : string)
  (parts : list OpencodePart) (b : Backend) :
  OpencodeBackend.messageHandlers b = [Driver.handler Driver.FlOpencode] ->
  In rid (OpencodeBackend.awaiting b) ->
  Driver.accumulatedResponse (user (OpencodeBackend.world b)) = EmptyString ->
  let b' := exec (step (OpencodeBackend.PromptResponse rid
                          (OpencodeBackend.Response true status text parts))) b in
  (exists ms,
     emitted (OpencodeBackend.world b')
     = emitted (OpencodeBackend.world b) ++ ms ++ [Status StIdle None]
     /\ forallb is_plain_report ms = true)
  /\ Driver.session (user (OpencodeBackend.world b'))
     = Driver.session (user (OpencodeBackend.world b)) ++ [Driver.KeepAlive false].
Proof.
  intros Hh Hin Hacc. cbv zeta.
  assert (Hex : existsb (Nat.eqb rid) (OpencodeBackend.awaiting b) = true).
  { apply existsb_exists. exists rid. split; [exact Hin | apply Nat.eqb_refl]. }
  set (b0 := OpencodeBackend.set_awaiting
               (filter (fun x => negb (Nat.eqb rid x)) (OpencodeBackend.awaiting b))
               b).
  set (b1 := exec (OpencodeBackend.processMessageResponse JSON_stringify
                     randomUUID parts) b0).
  assert (Eb : exec (step (OpencodeBackend.PromptResponse rid
                             (OpencodeBackend.Response true status text parts))) b
               = exec (OpencodeBackend.emit (Status StIdle None))
                   (OpencodeBackend.set_isRunning false b1)).
  { unfold exec. cbn [OpencodeBackend.step]. unfold bind at 1. unfold get.
    rewrite Hex. unfold bind at 1. unfold modify at 1. fold b0.
    unfold OpencodeBackend.sendPrompt_resume, try_catch.
    cbn [OpencodeBackend.client_sendPrompt_resume OpencodeBackend.processResult].
    unfold bind at 1.
    pose proof (oc_parts_return JSON_stringify randomUUID parts b0) as Hr.
    subst b1. unfold exec.
    destruct (OpencodeBackend.processMessageResponse JSON_stringify randomUUID
                parts b0) as [[[]|e] bx]; cbn in Hr; [|discriminate].
    cbn [snd]. unfold bind, modify. rewrite oc_emit_closed. reflexivity. }
  rewrite Eb. clear Eb.
  assert (Hh0 : OpencodeBackend.messageHandlers b0
                = [Driver.handler Driver.FlOpencode]) by (now destruct b).
  assert (Hw0 : OpencodeBackend.world b0 = OpencodeBackend.world b)
    by (now destruct b).
  destruct (relays_parts is_plain_report (fun m H => H) parts b0 Hh0)
    as (ms & E & Us & Hh1 & _ & F).
  fold (exec (OpencodeBackend.processMessageResponse JSON_stringify randomUUID
                parts) b0) in E, Us, Hh1.
  fold b1 in E, Us, Hh1. clearbody b1.
  rewrite Hw0 in E, Us.
  destruct (plain_reports_feed ms (user (OpencodeBackend.world b)) F)
    as (S1 & A1 & _ & _).
  cbv zeta in S1, A1. rewrite <- Us in S1, A1. rewrite Hacc in A1.
  unfold exec. rewrite oc_emit_closed.
  destruct b1 as [bu cm rq aw hs hsid osid pm ir es uu w].
  cbn in Hh1, S1, A1, E |- *. subst hs. split.
  - exists ms. split; [|exact F]. rewrite E. now rewrite <- app_assoc.
  - cbn [Delivery.after_all fold_left Driver.handler Agent.run].
    rewrite <- S1. clear Us S1 E.
    unfold Driver.onMessage, Driver.keepAlive, bind, modify, get, ret.
    destruct (user w) as [se th ip ac cp mq uu' pe ss ps mb bk lg].
    cbn in A1 |- *. subst ac. cbn.
    rewrite andb_false_r. reflexivity.
Qed.

End Reply.

Lemma opencode_reply_is_not_forwarded_sample :
  let b :=
    OpencodeBackend.mkBackend "http://127.0.0.1:4097"
      (Some OpencodeTypes.DEFAULT_OPENCODE_MODEL) [] [0]
      [Driver.handler Driver.FlOpencode] (Some "happy-1") (Some "ses_1")
      Agent.PmDefault true true 0 (Sample.world0 Sample.driver0) in
  In 0 (OpencodeBackend.awaiting b)
  /\ Driver.session
       (Agent.user
          (OpencodeBackend.world
             (Exn.exec
                (OpencodeBackend.step Sample.stringify Sample.uuid
                   (OpencodeBackend.PromptResponse 0
                      (OpencodeBackend.Response true 200 ""
                         [OpencodeTypes.mkPart OpencodeTypes.PtText
                            (Some "The answer is 42.") None None None
                            Js.JsUndefined])))
                b)))
     = [Driver.KeepAlive false].
Proof.
  cbv zeta. split; [now left|].
  exact (proj2 (opencode_reply_is_not_forwarded Sample.stringify Sample.uuid
                  0 200 ""
                  [OpencodeTypes.mkPart OpencodeTypes.PtText
                     (Some "The answer is 42.") None None None Js.JsUndefined]
                  (OpencodeBackend.mkBackend "http://127.0.0.1:4097"
                     (Some OpencodeTypes.DEFAULT_OPENCODE_MODEL) [] [0]
                     [Driver.handler Driver.FlOpencode] (Some "happy-1")
                     (Some "ses_1") Agent.PmDefault true true 0
                     (Sample.world0 Sample.driver0))
                  eq_refl (or_introl eq_refl) eq_refl)).
Defined.

(** ** The driver's state is the callback folded over the trace *)

Section Carries.

Import Agent Exn DroidTypes Reader DroidOps Emission.

Variable FACTORY_API_KEY_ENV : string.
Variable JSON_parse : string -> option DroidStreamEvent.
Variable JSON_stringify : Js.JsValue -> string.

Local Notation "'Backend'" := (DroidBackend.DroidBackend Driver.Driver).
Local Notation "'handle'" :=
  (DroidBackend.handleStreamEvent (U:=Driver.Driver) JSON_stringify).
Local Notation "'step'" :=
  (DroidBackend.step (U:=Driver.Driver) FACTORY_API_KEY_ENV JSON_parse
     JSON_stringify).
Local Notation "'ops'" :=
  (run_ops (U:=Driver.Driver) FACTORY_API_KEY_ENV JSON_parse JSON_stringify).
Local Notation "'apply_op'" :=
  (DroidOps.apply (U:=Driver.Driver) FACTORY_API_KEY_ENV JSON_parse
     JSON_stringify).

Lemma carries_ret {A} (a : A) : carries (ret a).
Proof. intros b H. exists []. cbn. rewrite !app_nil_r. auto. Qed.

Lemma carries_throw {A} (e : Js.JsExn) : carries (A:=A) (throw e).
Proof. intros b H. exists []. cbn. rewrite !app_nil_r. auto. Qed.

Lemma carries_get : carries get.
Proof. intros b H. exists []. cbn. rewrite !app_nil_r. auto. Qed.

Lemma carries_bind {A B} (m : M Backend A) (k : A -> M Backend B) :
  carries m -> (forall a, carries (k a)) -> carries (bind m k).
Proof.
  intros Hm Hk b H. unfold bind. destruct (Hm b H) as (ms & E & Us & Cs & Hh).
  destruct (m b) as [[a|e] b1]; cbn [snd] in *; [|now exists ms].
  destruct (Hk a b1 Hh) as (ms' & E' & Us' & Cs' & Hh').
  exists (ms ++ ms'). rewrite E', E, app_assoc, Us', Us, Cs', Cs, map_app, app_assoc.
  unfold Inbox.feed. rewrite fold_left_app. auto.
Qed.

Lemma carries_try_catch {A} (m : M Backend A) (h : Js.JsExn -> M Backend A) :
  carries m -> (forall e, carries (h e)) -> carries (try_catch m h).
Proof.
  intros Hm Hh b H. unfold try_catch. destruct (Hm b H) as (ms & E & Us & Cs & Hk).
  destruct (m b) as [[a|e] b1]; cbn [snd] in *; [now exists ms|].
  destruct (Hh e b1 Hk) as (ms' & E' & Us' & Cs' & Hk').
  exists (ms ++ ms'). rewrite E', E, app_assoc, Us', Us, Cs', Cs, map_app, app_assoc.
  unfold Inbox.feed. rewrite fold_left_app. auto.
Qed.

Lemma carries_modify (f : Backend -> Backend) :
  (forall b, DroidBackend.world (f b) = DroidBackend.world b
             /\ DroidBackend.messageHandlers (f b)
                = DroidBackend.messageHandlers b) ->
  carries (modify f).
Proof.
  intros Hf b H. exists []. destruct (Hf b) as (W & Hh). cbn.
  rewrite W, Hh, !app_nil_r. auto.
Qed.

Lemma carries_with_client (f : DroidClient.DroidClient -> DroidClient.DroidClient) :
  carries (DroidBackend.with_client f).
Proof. apply carries_modify. now intros []. Qed.

Lemma carries_log (l : LogLine) : carries (DroidBackend.log l).
Proof. intros b H. exists []. destruct b. cbn in *. rewrite !app_nil_r. auto. Qed.

(** [emit] hands the message to the callback, once. *)
Lemma carries_emit (msg : AgentMessage) : carries (DroidBackend.emit msg).
Proof.
  intros b H. exists [msg]. rewrite emit_closed, H.
  destruct b. cbn in *. auto.
Qed.

Lemma carries_handle (ev : DroidStreamEvent) : carries (handle ev).
Proof.
  destruct ev as [sid tools mdl cwd|role text|id tn ps|id tid v|ft nt dm|];
    cbn [DroidBackend.handleStreamEvent].
  - repeat (apply carries_bind; [|intros _]);
      auto using carries_emit, carries_log.
    apply carries_modify. now intros [].
  - destruct role; auto using carries_emit, carries_ret.
  - apply carries_emit.
  - repeat (apply carries_bind; [|intros _]); try apply carries_emit.
    + destruct (DroidBackend.is_file_tool tid);
        auto using carries_emit, carries_ret.
    + destruct (String.eqb tid "Execute"); auto using carries_emit, carries_ret.
  - repeat (apply carries_bind; [|intros _]);
      auto using carries_emit, carries_log.
    destruct (Js.nonempty ft); auto using carries_emit, carries_ret.
  - apply carries_ret.
Qed.

Lemma carries_parse_and_deliver (text ft : string) :
  carries (DroidBackend.parse_and_deliver JSON_parse handle text ft).
Proof.
  unfold DroidBackend.parse_and_deliver.
  destruct (JSON_parse text) as [ev|]; [|apply carries_throw].
  apply carries_bind; [apply carries_handle | intros _; apply carries_ret].
Qed.

Lemma carries_each_line (lines : list string) (ft : string) :
  carries (DroidBackend.each_line JSON_parse handle lines ft).
Proof.
  revert ft; induction lines as [|line rest IH]; intros ft;
    cbn [DroidBackend.each_line]; [apply carries_ret|].
  destruct (Js.nonempty (Js.trim line)); [|apply IH].
  apply carries_bind; [|intros ft'; apply IH].
  apply carries_try_catch; [apply carries_parse_and_deliver|].
  intros e. apply carries_bind; [apply carries_log | intros _; apply carries_ret].
Qed.

Lemma carries_settle (pid : nat) (p : DroidClient.Proc) (o : Res string) :
  carries (DroidBackend.settle pid p o).
Proof.
  apply carries_bind; [apply carries_with_client | intros _; apply carries_ret].
Qed.

Lemma carries_resume (s : option (Res string)) :
  carries (DroidBackend.resume_if_settled s).
Proof.
  destruct s as [o|]; [|apply carries_ret].
  cbn [DroidBackend.resume_if_settled]. unfold DroidBackend.sendPrompt_resume.
  apply carries_try_catch.
  - destruct o as [v|e]; [|apply carries_throw].
    apply carries_bind; [|intros _; apply carries_emit].
    apply carries_modify. now intros [].
  - intros e. repeat (apply carries_bind; [|intros _]);
      auto using carries_emit, carries_throw.
    apply carries_modify. now intros [].
Qed.

Lemma carries_client_cancel : carries (DroidBackend.client_cancel (U:=Driver.Driver)).
Proof.
  unfold DroidBackend.client_cancel.
  apply carries_bind; [apply carries_get | intros b].
  destruct (DroidClient.currentProcess (DroidBackend.client b)) as [pid|];
    [|apply carries_ret].
  repeat (apply carries_bind; [|intros _]);
    auto using carries_log, carries_with_client, carries_ret.
Qed.

Lemma carries_execStream (prompt : string) (o : DroidExecOptions) :
  carries (DroidBackend.execStream FACTORY_API_KEY_ENV prompt o).
Proof.
  unfold DroidBackend.execStream.
  apply carries_bind; [apply carries_get | intros b].
  repeat (apply carries_bind; [|intros _]);
    auto using carries_log, carries_with_client, carries_ret.
Qed.

Lemma carries_step (ev : DroidBackend.Event) : carries (step ev).
Proof.
  destruct ev as [prompt| |pid data|pid data|pid code|pid message];
    cbn [DroidBackend.step].
  - apply carries_bind; [|intros _; apply carries_ret].
    unfold DroidBackend.sendPrompt.
    apply carries_bind; [apply carries_emit | intros _].
    apply carries_bind; [apply carries_modify; now intros [] | intros _].
    apply carries_bind; [apply carries_get | intros b].
    apply carries_execStream.
  - unfold DroidBackend.cancel.
    apply carries_bind; [apply carries_client_cancel | intros [|]];
      [|apply carries_ret].
    apply carries_bind; [apply carries_modify; now intros [] | intros _].
    apply carries_emit.
  - unfold DroidBackend.execStream_data.
    apply carries_bind; [apply carries_get | intros b].
    destruct (DroidBackend.get_proc pid b) as [p|]; [|apply carries_ret].
    destruct (Js.pop _) as [popped lines].
    apply carries_bind; [apply carries_each_line | intros ft].
    apply carries_with_client.
  - unfold DroidBackend.execStream_stderr.
    apply carries_bind; [apply carries_get | intros b].
    destruct (DroidBackend.get_proc pid b) as [p|]; [|apply carries_ret].
    apply carries_bind; [apply carries_with_client | intros _; apply carries_log].
  - apply carries_bind; [|intros s; apply carries_resume].
    unfold DroidBackend.execStream_close.
    apply carries_bind; [apply carries_get | intros b].
    destruct (DroidBackend.get_proc pid b) as [p|]; [|apply carries_ret].
    apply carries_bind; [apply carries_with_client | intros _].
    apply carries_bind.
    + destruct (Js.nonempty (Js.trim (DroidClient.buffer p)));
        [|apply carries_ret].
      apply carries_try_catch; [apply carries_parse_and_deliver|].
      intros e. apply carries_ret.
    + intros ft. destruct code as [[|z|z]|]; apply carries_settle.
  - apply carries_bind; [|intros s; apply carries_resume].
    unfold DroidBackend.execStream_error.
    apply carries_bind; [apply carries_get | intros b].
    destruct (DroidBackend.get_proc pid b) as [p|]; [|apply carries_ret].
    apply carries_bind; [apply carries_with_client | intros _].
    apply carries_settle.
Qed.

Lemma carries_apply (op : Op Driver.Driver) :
  rewires op = false -> carries (apply_op op).
Proof.
  destruct op as [ev|id prompt|mode|level|model|id approved|h|h|];
    cbn [rewires DroidOps.apply]; intros R; try discriminate.
  - apply carries_step.
  - apply carries_bind; [|intros _; apply carries_ret].
    unfold startSession.
    apply carries_bind; [apply carries_modify; now intros [] | intros _].
    apply carries_bind; [apply carries_emit | intros _].
    destruct (Js.truthy prompt).
    + apply carries_bind; [apply carries_modify; now intros [] | intros _].
      apply carries_bind; [apply carries_get | intros b].
      apply carries_bind; [apply carries_execStream | intros pid].
      apply carries_ret.
    + apply carries_bind; [apply carries_emit | intros _; apply carries_ret].
  - unfold DroidBackend.setPermissionMode.
    repeat (apply carries_bind; [|intros _]); try apply carries_log;
      apply carries_modify; now intros [].
  - apply carries_modify. now intros [].
  - apply carries_with_client.
  - apply carries_log.
Qed.

(** X28.  With the driver's callback as the one handler of the droid
    backend, the state of the driver after any sequence of calls and
    child events that leaves the handlers alone is the callback folded
    over the messages the backend emitted, in order: every emitted
    message reaches the callback exactly once, in the order of
    emission, and nothing else changes the driver's state. *)
Theorem driver_state_is_callback_over_trace (l : list (Op Driver.Driver))
  (b : Backend) :
  DroidBackend.messageHandlers b = [Driver.handler Driver.FlDroid] ->
  forallb (fun op => negb (rewires op)) l = true ->
  exists ms,
    emitted (DroidBackend.world (ops l b)) = emitted (DroidBackend.world b) ++ ms
    /\ user (DroidBackend.world (ops l b))
       = Inbox.feed Driver.FlDroid ms (user (DroidBackend.world b))
    /\ calls (DroidBackend.world (ops l b))
       = calls (DroidBackend.world b) ++ map (fun msg => (0, msg)) ms.
Proof.
  intros Hh Hl.
  assert (G : exists ms,
            emitted (DroidBackend.world (ops l b))
            = emitted (DroidBackend.world b) ++ ms
            /\ user (DroidBackend.world (ops l b))
               = Inbox.feed Driver.FlDroid ms (user (DroidBackend.world b))
            /\ calls (DroidBackend.world (ops l b))
               = calls (DroidBackend.world b) ++ map (fun msg => (0, msg)) ms
            /\ DroidBackend.messageHandlers (ops l b)
               = [Driver.handler Driver.FlDroid]).
  { revert b Hh; induction l as [|op l IH]; intros b Hh.
    - exists []. cbn. rewrite !app_nil_r. auto.
    - cbn [forallb] in Hl. apply andb_prop in Hl as [Hop Hrest].
      apply negb_true_iff in Hop.
      unfold run_ops. cbn [fold_left].
      destruct (carries_apply op Hop b Hh) as (ms & E & Us & Cs & Hk).
      destruct (IH Hrest _ Hk) as (ms' & E' & Us' & Cs' & Hk').
      exists (ms ++ ms'). unfold run_ops, exec in *.
      rewrite E', E, app_assoc, Us', Us, Cs', Cs, map_app, app_assoc.
      unfold Inbox.feed. rewrite fold_left_app. auto. }
  destruct G as (ms & E & Us & Cs & _). exists ms. auto.
Qed.

End Carries.

Lemma driver_state_is_callback_over_trace_sample :
  let l :=
    [DroidOps.OpEvent Driver.Driver (DroidBackend.CallSendPrompt "list files");
     DroidOps.OpEvent Driver.Driver
       (DroidBackend.Stdout 0 ("hello" ++ String Js.LF ""));
     DroidOps.OpEvent Driver.Driver (DroidBackend.Close 0 (Some 0%Z))] in
  forallb (fun op => negb (Emission.rewires op)) l = true
  /\ exists ms,
       Agent.emitted
         (DroidBackend.world
            (DroidOps.run_ops Sample.KEY Sample.parse Sample.stringify l
               Sample.droid_driven))
       = Agent.emitted (DroidBackend.world Sample.droid_driven) ++ ms
       /\ Agent.user
            (DroidBackend.world
               (DroidOps.run_ops Sample.KEY Sample.parse Sample.stringify l
                  Sample.droid_driven))
          = Inbox.feed Driver.FlDroid ms
              (Agent.user (DroidBackend.world Sample.droid_driven))
       /\ Agent.calls
            (DroidBackend.world
               (DroidOps.run_ops Sample.KEY Sample.parse Sample.stringify l
                  Sample.droid_driven))
          = Agent.calls (DroidBackend.world Sample.droid_driven)
            ++ map (fun msg => (0, msg)) ms.
Proof.
  cbv zeta. split; [reflexivity|].
  exact (driver_state_is_callback_over_trace Sample.KEY Sample.parse
           Sample.stringify
           [DroidOps.OpEvent Driver.Driver
              (DroidBackend.CallSendPrompt "list files");
            DroidOps.OpEvent Driver.Driver
              (DroidBackend.Stdout 0 ("hello" ++ String Js.LF ""));
            DroidOps.OpEvent Driver.Driver (DroidBackend.Close 0 (Some 0%Z))]
           Sample.droid_driven eq_refl eq_refl).
Defined.

(** ** A droid turn, from the child's output to the session *)

Section HappyPath.

Import Agent Exn DroidTypes Reader DroidOps Emission.

Variable FACTORY_API_KEY_ENV : string.
Variable JSON_parse : string -> option DroidStreamEvent.
Variable JSON_stringify : Js.JsValue -> string.

Local Notation "'Backend'" := (DroidBackend.DroidBackend Driver.Driver).
Local Notation "'handle'" :=
  (DroidBackend.handleStreamEvent (U:=Driver.Driver) JSON_stringify).
Local Notation "'step'" :=
  (DroidBackend.step (U:=Driver.Driver) FACTORY_API_KEY_ENV JSON_parse
     JSON_stringify).
Local Notation "'run'" :=
  (DroidBackend.run (U:=Driver.Driver) FACTORY_API_KEY_ENV JSON_parse
     JSON_stringify).
Local Notation "'callback'" := (Driver.onMessage Driver.FlDroid).
Local Notation "'the_handler'" := (Driver.handler Driver.FlDroid).












End HappyPath.

(** ** An abort request, with the backend that it cancels *)

Section AbortDroid.

Import Agent Exn Driver.

Variable FACTORY_API_KEY_ENV : string.
Variable JSON_parse : string -> option DroidTypes.DroidStreamEvent.
Variable JSON_stringify : Js.JsValue -> string.

Local Notation "'Backend'" := (DroidBackend.DroidBackend Driver).

(** X3.  [handleAbort] of the droid driver, the driver's callback being
    the handler of the backend.  It returns, empties the queue whatever
    it held, sends one turn-aborted event and calls [cancel].  With no
    child alive that is all: nothing is emitted and the turn's variables
    are as they were.  With a child alive the child is sent the signal
    and [stopped] is emitted and handled before [handleAbort] returns:
    [thinking] is cleared, a keep-alive is sent, and a response in
    progress whose text is not blank is sent as a message, followed by
    task-complete, and then forgotten. *)
Theorem handleAbort_clears_the_queue (b : Backend) :
  DroidBackend.messageHandlers b = [handler FlDroid] ->
  let d := user (DroidBackend.world b) in
  let b1 := exec RunDroid.handleAbort b in
  let d1 := user (DroidBackend.world b1) in
  outcome RunDroid.handleAbort b = Val tt
  /\ messageQueue d1 = []
  /\ backend d1 = backend d ++ [Cancel]
  /\ match DroidClient.currentProcess (DroidBackend.client b) with
     | None =>
         emitted (DroidBackend.world b1) = emitted (DroidBackend.world b)
         /\ DroidBackend.client b1 = DroidBackend.client b
         /\ session d1 = session d ++ [SendCodexMessage (TurnAborted (uuids d))]
         /\ (thinking d1, isResponseInProgress d1, accumulatedResponse d1)
            = (thinking d, isResponseInProgress d, accumulatedResponse d)
     | Some live =>
         emitted (DroidBackend.world b1)
         = emitted (DroidBackend.world b) ++ [Status StStopped None]
         /\ DroidClient.signals (DroidBackend.client b1)
            = DroidClient.signals (DroidBackend.client b) ++ [live]
         /\ DroidClient.currentProcess (DroidBackend.client b1) = None
         /\ thinking d1 = false
         /\ if isResponseInProgress d
               && Js.nonempty (Js.trim (accumulatedResponse d))
            then session d1
                 = session d
                   ++ [SendCodexMessage (TurnAborted (uuids d));
                       KeepAlive false;
                       SendCodexMessage
                         (Message (accumulatedResponse d) (S (uuids d)));
                       SendCodexMessage (TaskComplete (S (S (uuids d))))]
                 /\ accumulatedResponse d1 = ""
                 /\ isResponseInProgress d1 = false
            else session d1
                 = session d
                   ++ [SendCodexMessage (TurnAborted (uuids d)); KeepAlive false]
                 /\ accumulatedResponse d1 = accumulatedResponse d
                 /\ isResponseInProgress d1 = isResponseInProgress d
     end.
Proof.
  intros Hh. cbv zeta.
  destruct b as [[k dm cw cp ps sp sg] hs cs ds au pm ir [d db em ca]].
  cbn in Hh. subst hs.
  destruct d as [se th rip acc cpm q uu pe ss ps' mb bk lg].
  destruct cp as [live|].
  - cbv -[Js.trim Js.nonempty app andb].
    destruct (rip && Js.nonempty (Js.trim acc)) eqn:E;
      rewrite <- ?app_assoc; repeat split.
  - cbv -[Js.trim Js.nonempty app andb].
    rewrite <- ?app_assoc. repeat split.
Qed.

End AbortDroid.

Lemma handleAbort_clears_the_queue_sample :
  let b := DroidBackend.run Sample.KEY Sample.parse Sample.stringify
             [DroidBackend.CallSendPrompt "list files";
              DroidBackend.Stdout 0 ("hello" ++ String Js.LF "")]
             Sample.droid_driven in
  DroidBackend.messageHandlers b = [Driver.handler Driver.FlDroid]
  /\ Driver.messageQueue
       (Agent.user (DroidBackend.world (Exn.exec RunDroid.handleAbort b)))
     = [].
Proof.
  cbv zeta. split; [reflexivity|].
  exact (proj1 (proj2 (handleAbort_clears_the_queue
                         (DroidBackend.run Sample.KEY Sample.parse Sample.stringify
                            [DroidBackend.CallSendPrompt "list files";
                             DroidBackend.Stdout 0 ("hello" ++ String Js.LF "")]
                            Sample.droid_driven)
                         eq_refl))).
Defined.

Section AbortOpencode.

Import Agent Exn Driver.

Local Notation "'Backend'" := (OpencodeBackend.OpencodeBackend Driver).

(** What the driver's callback sends when it handles [stopped]. *)
Local Notation "'stopped_calls' d" :=
  (if isResponseInProgress d && Js.nonempty (Js.trim (accumulatedResponse d))
   then [KeepAlive false;
         SendCodexMessage (Message (accumulatedResponse d) (S (uuids d)));
         SendCodexMessage (TaskComplete (S (S (uuids d))))]
   else [KeepAlive false])
  (at level 10, d at level 9).

(** X30.  [handleAbort] of the opencode driver, the driver's callback
    being the handler of the backend.  It empties the queue, sends one
    turn-aborted event and calls [cancel].  Without a session [cancel]
    runs to its end at once: [stopped] is emitted and handled before
    [handleAbort] returns.  With a session the abort request is posted
    and nothing else happens until it is answered: the turn's variables
    are as they were.  When the answer comes, [stopped] is emitted and
    handled, whatever the answer says; if the request is rejected
    nothing is emitted and the error is logged. *)
Theorem opencode_handleAbort_waits_for_the_abort (b : Backend) :
  OpencodeBackend.messageHandlers b = [handler FlOpencode] ->
  let d := user (OpencodeBackend.world b) in
  let rid := length (OpencodeBackend.requests b) in
  let b1 := exec RunOpencode.handleAbort b in
  let d1 := user (OpencodeBackend.world b1) in
  outcome RunOpencode.handleAbort b = Val tt
  /\ messageQueue d1 = []
  /\ backend d1 = backend d ++ [Cancel]
  /\ if Js.truthy (OpencodeBackend.opencodeSessionId b)
     then
       emitted (OpencodeBackend.world b1) = emitted (OpencodeBackend.world b)
       /\ OpencodeBackend.requests b1
          = OpencodeBackend.requests b
            ++ [OpencodeBackend.mkRequest "POST"
                  (OpencodeBackend.baseUrl b ++ "/session/"
                   ++ Js.or_else (OpencodeBackend.opencodeSessionId b) ""
                   ++ "/abort")
                  OpencodeBackend.NoBody]
       /\ OpencodeBackend.awaiting b1 = OpencodeBackend.awaiting b ++ [rid]
       /\ OpencodeBackend.isRunning b1 = OpencodeBackend.isRunning b
       /\ session d1 = session d ++ [SendCodexMessage (TurnAborted (uuids d))]
       /\ (thinking d1, isResponseInProgress d1, accumulatedResponse d1)
          = (thinking d, isResponseInProgress d, accumulatedResponse d)
       /\ (forall ok,
             let b2 := exec (RunOpencode.handleAbort_resume rid (Val ok)) b1 in
             let d2 := user (OpencodeBackend.world b2) in
             emitted (OpencodeBackend.world b2)
             = emitted (OpencodeBackend.world b) ++ [Status StStopped None]
             /\ OpencodeBackend.isRunning b2 = false
             /\ thinking d2 = false
             /\ session d2
                = session d ++ SendCodexMessage (TurnAborted (uuids d))
                               :: stopped_calls d)
       /\ (forall e,
             let b2 := exec (RunOpencode.handleAbort_resume rid (Throw e)) b1 in
             let d2 := user (OpencodeBackend.world b2) in
             emitted (OpencodeBackend.world b2) = emitted (OpencodeBackend.world b)
             /\ OpencodeBackend.isRunning b2 = OpencodeBackend.isRunning b
             /\ session d2 = session d1
             /\ thinking d2 = thinking d
             /\ logs d2
                = logs d1 ++ [LogExn "[OpenCode] Error during abort:" e])
     else
       emitted (OpencodeBackend.world b1)
       = emitted (OpencodeBackend.world b) ++ [Status StStopped None]
       /\ OpencodeBackend.requests b1 = OpencodeBackend.requests b
       /\ OpencodeBackend.isRunning b1 = false
       /\ thinking d1 = false
       /\ session d1
          = session d ++ SendCodexMessage (TurnAborted (uuids d)) :: stopped_calls d.
Proof.
  intros Hh. cbv zeta.
  destruct b as [bu cm rq aw hs hsid osid pm ir es uu [d db em ca]].
  cbn in Hh. subst hs.
  destruct d as [se th rip acc cpm q uu' pe ss ps' mb bk lg].
  destruct (Js.truthy osid) eqn:Hs.
  - assert (E1 : RunOpencode.handleAbort
                   (OpencodeBackend.mkBackend bu cm rq aw [handler FlOpencode]
                      hsid osid pm ir es uu
                      (mkWorld (mkDriver se th rip acc cpm q uu' pe ss ps' mb bk lg)
                         db em ca))
                 = (Val tt,
                    OpencodeBackend.mkBackend bu cm
                      (rq ++ [OpencodeBackend.mkRequest "POST"
                                (bu ++ "/session/" ++ Js.or_else osid "" ++ "/abort")
                                OpencodeBackend.NoBody])
                      (aw ++ [length rq]) [handler FlOpencode]
                      hsid osid pm ir es uu
                      (mkWorld
                         (mkDriver se th rip acc cpm [] (S uu') pe
                            (ss ++ [SendCodexMessage (TurnAborted uu')]) ps' mb
                            (bk ++ [Cancel])
                            (lg ++ [LogText "[OpenCode] Abort requested"]))
                         db em ca))).
    { cbv -[Js.truthy]. rewrite Hs. reflexivity. }
    unfold outcome, exec. rewrite E1. cbn [fst snd].
    cbn [OpencodeBackend.world OpencodeBackend.requests OpencodeBackend.awaiting
         OpencodeBackend.isRunning OpencodeBackend.baseUrl
         OpencodeBackend.opencodeSessionId user emitted
         messageQueue backend session thinking isResponseInProgress
         accumulatedResponse uuids logs].
    rewrite Hs.
    repeat match goal with |- _ /\ _ => split end; try reflexivity.
    + intros ok.
      match goal with |- context [RunOpencode.handleAbort_resume ?r ?a ?x] =>
        remember (RunOpencode.handleAbort_resume r a x) as res eqn:Er
      end.
      unfold RunOpencode.handleAbort_resume in Er. unfold bind at 1 in Er.
      unfold get in Er. cbn [OpencodeBackend.awaiting] in Er.
      rewrite existsb_last in Er.
      unfold try_catch, OpencodeBackend.abort_answered in Er.
      unfold bind at 1 in Er. unfold bind at 1 in Er. unfold get in Er.
      cbn [OpencodeBackend.awaiting] in Er. rewrite existsb_last in Er.
      cbv -[Js.trim Js.nonempty app andb filter Nat.eqb negb length] in Er.
      subst res.
      destruct (rip && Js.nonempty (Js.trim acc));
        cbn; rewrite <- ?app_assoc; repeat split.
    + intros e.
      match goal with |- context [RunOpencode.handleAbort_resume ?r ?a ?x] =>
        remember (RunOpencode.handleAbort_resume r a x) as res eqn:Er
      end.
      unfold RunOpencode.handleAbort_resume in Er. unfold bind at 1 in Er.
      unfold get in Er. cbn [OpencodeBackend.awaiting] in Er.
      rewrite existsb_last in Er.
      unfold try_catch, OpencodeBackend.abort_answered in Er.
      unfold bind at 1 in Er. unfold bind at 1 in Er. unfold get in Er.
      cbn [OpencodeBackend.awaiting] in Er. rewrite existsb_last in Er.
      cbv -[Js.trim Js.nonempty app andb filter Nat.eqb negb length] in Er.
      subst res. cbn. repeat split.
  - cbv -[Js.trim Js.nonempty app andb Js.truthy]. rewrite Hs.
    cbv -[Js.trim Js.nonempty app andb].
    destruct (rip && Js.nonempty (Js.trim acc));
      rewrite <- ?app_assoc; repeat split.
Qed.

End AbortOpencode.

Lemma opencode_handleAbort_waits_for_the_abort_sample :
  OpencodeBackend.messageHandlers Sample.opencode_driven
  = [Driver.handler Driver.FlOpencode]
  /\ Driver.messageQueue
       (Agent.user
          (OpencodeBackend.world
             (Exn.exec RunOpencode.handleAbort Sample.opencode_driven)))
     = [].
Proof.
  split; [reflexivity|].
  exact (proj1 (proj2 (opencode_handleAbort_waits_for_the_abort
                         Sample.opencode_driven eq_refl))).
Defined.
(** ** Turns that end otherwise than C5 says *)

